(** * railway-doctor: a shallow embedding of the scan engine

    The scanner reads a project directory and classifies what it finds with
    substring and regular-expression heuristics.  This development embeds

    - the JavaScript string operations the checks use ([includes],
      [toLowerCase], [split], [parseInt] on digit runs, template strings),
    - a backtracking regular-expression matcher with the priority order of
      the ECMAScript matcher (greedy star, ordered alternation, captures),
      so that every regular expression of the source is transcribed as a
      term of [regex],
    - the file system as a read-only oracle ([World]),
    - the framework detector, every check module and the orchestrator,

    and then proves the properties of the specification about them.

    Conventions of the model.  A JavaScript string is a [string]: one
    [ascii] per UTF-16 code unit, so file contents are restricted to code
    units below 256.  A number read by [parseInt] is the double nearest to
    the value of its digits, and is printed as [String] prints a double.
    [JSON.parse] and [path.join] belong to the runtime and are parameters
    of the development. *)

From Stdlib Require Import Bool Arith Lia List String Ascii NArith ZArith.
From Stdlib Require Import DecimalString Permutation.
Import ListNotations.

#[local] Open Scope string_scope.
#[local] Open Scope list_scope.
#[local] Open Scope nat_scope.

(* ===================================================================== *)
(** ** JavaScript strings *)
(* ===================================================================== *)

Module Js.

(** The double quote and the line feed, which a string literal of this
    file does not spell directly. *)
Definition dq : string := String "034"%char EmptyString.
Definition nl : string := String "010"%char EmptyString.

(** [s.startsWith(p)] *)
Fixpoint startsWith (p s : string) : bool :=
  match p with
  | EmptyString => true
  | String a p' =>
    match s with
    | EmptyString => false
    | String b s' => Ascii.eqb a b && startsWith p' s'
    end
  end.

(** [s.includes(needle)] *)
Fixpoint includes (s needle : string) : bool :=
  startsWith needle s ||
  match s with
  | EmptyString => false
  | String _ s' => includes s' needle
  end.

(** [s.substring(i)] for [i <= s.length] *)
Fixpoint drop (n : nat) (s : string) : string :=
  match n with
  | O => s
  | S n' => match s with EmptyString => EmptyString | String _ s' => drop n' s' end
  end.

(** [s.substring(0, n)] *)
Fixpoint take (n : nat) (s : string) : string :=
  match n with
  | O => EmptyString
  | S n' => match s with EmptyString => EmptyString | String a s' => String a (take n' s') end
  end.

Definition isUpperAscii (a : ascii) : bool :=
  let n := nat_of_ascii a in (65 <=? n) && (n <=? 90).
Definition isLowerAscii (a : ascii) : bool :=
  let n := nat_of_ascii a in (97 <=? n) && (n <=? 122).

(** Code units 192..222 except 215 are the upper-case letters of the
    Latin-1 block; their lower-case forms are 32 above. *)
Definition isUpperLatin1 (a : ascii) : bool :=
  let n := nat_of_ascii a in (192 <=? n) && (n <=? 222) && negb (n =? 215).

Definition lowerChar (a : ascii) : ascii :=
  if isUpperAscii a || isUpperLatin1 a then ascii_of_nat (nat_of_ascii a + 32) else a.

Definition upperAsciiChar (a : ascii) : ascii :=
  if isLowerAscii a then ascii_of_nat (nat_of_ascii a - 32) else a.

(** [s.toLowerCase()] *)
Fixpoint toLowerCase (s : string) : string :=
  match s with
  | EmptyString => EmptyString
  | String a s' => String (lowerChar a) (toLowerCase s')
  end.

(** [s.split("\n")]: the lines of [s]; never empty. *)
Fixpoint splitLinesAux (cur : string) (s : string) : list string :=
  match s with
  | EmptyString => [cur]
  | String a s' =>
    if Ascii.eqb a "010"%char then cur :: splitLinesAux EmptyString s'
    else splitLinesAux (cur ++ String a EmptyString) s'
  end.
Definition splitLines (s : string) : list string := splitLinesAux EmptyString s.

(** [xs.join(sep)] *)
Fixpoint join (sep : string) (xs : list string) : string :=
  match xs with
  | [] => EmptyString
  | [x] => x
  | x :: rest => x ++ sep ++ join sep rest
  end.

Definition isDigit (a : ascii) : bool :=
  let n := nat_of_ascii a in (48 <=? n) && (n <=? 57).

(** [\w] *)
Definition isWord (a : ascii) : bool :=
  isDigit a || isUpperAscii a || isLowerAscii a || Ascii.eqb a "_"%char.

(** [\s] on code units below 256: tab, line feed, vertical tab, form
    feed, carriage return, space and the no-break space. *)
Definition isSpace (a : ascii) : bool :=
  let n := nat_of_ascii a in
  ((9 <=? n) && (n <=? 13)) || (n =? 32) || (n =? 160).

(** The value of a run of decimal digits. *)
Fixpoint parseDigits (acc : N) (s : string) : N :=
  match s with
  | EmptyString => acc
  | String a s' =>
    if isDigit a then parseDigits (acc * 10 + N.of_nat (nat_of_ascii a - 48))%N s'
    else acc
  end.

(** The decimal numeral of a natural number. *)
Definition decimal (n : N) : string :=
  match n with
  | N0 => "0"
  | _ => NilEmpty.string_of_uint (N.to_uint n)
  end.

(** A Number that the scanner reads out of a file: a double whose value is
    a natural number, or Infinity. *)
Inductive num : Type :=
| Finite : N -> num
| Infinity : num.

(** The double of the natural number [n]: [n] kept to 53 significant
    bits, rounded to the nearest such number and, half way between two of
    them, to the one whose last kept bit is 0; Infinity when the rounded
    number takes more than 1024 bits. *)
Definition toDouble (n : N) : num :=
  let e := (N.size n - 53)%N in
  let q := N.shiftr n e in
  let r := N.land n (N.ones e) in
  let half := N.shiftl 1 (e - 1) in
  let up := (0 <? e)%N && ((half <? r)%N || ((r =? half)%N && N.odd q)) in
  let d := N.shiftl (if up then q + 1 else q)%N e in
  if (1024 <? N.size d)%N then Infinity else Finite d.

(** [parseInt(ds)] for a run of decimal digits: the double of their
    value, however many digits there are. *)
Definition parseInt (s : string) : num := toDouble (parseDigits 0%N s).

(** [x >= k] and [!x] on such a Number. *)
Definition geN (x : num) (k : N) : bool :=
  match x with
  | Finite n => N.leb k n
  | Infinity => true
  end.
Definition isZero (x : num) : bool :=
  match x with
  | Finite n => N.eqb n 0
  | Infinity => false
  end.

(** [String(x)] prints the number with the fewest significant digits
    whose double is [x], the one nearest to [x] when several have that
    few.  [roundTrips x y]: the double of [y] is [x]. *)
Definition roundTrips (x y : N) : bool :=
  match toDouble y with
  | Finite m => N.eqb m x
  | Infinity => false
  end.

(** The multiples of [unit] on either side of [x], the nearer one first. *)
Definition nearest (x unit : N) : list N :=
  let lo := (x / unit * unit)%N in
  let hi := (lo + unit)%N in
  if ((x - lo <? hi - x) || ((x - lo =? hi - x) && N.even (x / unit)))%N
  then [lo; hi] else [hi; lo].

(** One significant digit more at every turn, from one digit on. *)
Fixpoint shortestFrom (fuel : nat) (x unit : N) : N :=
  match fuel with
  | O => x
  | S fuel' =>
    match find (roundTrips x) (nearest x unit) with
    | Some y => y
    | None => shortestFrom fuel' x (unit / 10)%N
    end
  end.

Definition shortest (x : N) : N :=
  let d := String.length (decimal x) in
  shortestFrom d x (10 ^ N.of_nat (d - 1))%N.

(** A numeral without its trailing zeros. *)
Fixpoint trimZeros (s : string) : string :=
  match s with
  | EmptyString => EmptyString
  | String a s' =>
    match trimZeros s' with
    | EmptyString => if Ascii.eqb a "0"%char then EmptyString else String a EmptyString
    | t => String a t
    end
  end.

(** The exponent form [d.ddde+x] of a number of 22 digits or more. *)
Definition exponential (y : N) : string :=
  let ds := decimal y in
  let e := decimal (N.of_nat (String.length ds - 1)) in
  match trimZeros ds with
  | EmptyString => ds
  | String a EmptyString => String a ("e+" ++ e)
  | String a rest => String a ("." ++ rest ++ "e+" ++ e)
  end.

(** [String(x)], also what a template literal prints for [x].  Below 2^53
    every natural number is a double and prints as its decimal numeral. *)
Definition numToString (x : num) : string :=
  match x with
  | Infinity => "Infinity"
  | Finite n =>
    if (n <? 2 ^ 53)%N then decimal n
    else
      let y := shortest n in
      if (y <? 10 ^ 21)%N then decimal y else exponential y
  end.

(** [String(n)] for a length, an index or a line number: these are below
    2^32. *)
Definition natToString (n : nat) : string := decimal (N.of_nat n).

(** [String(z)] for the integer [z] of a manifest. *)
Definition intToString (z : Z) : string :=
  match z with
  | Zneg p => String "-"%char (numToString (toDouble (Npos p)))
  | _ => numToString (toDouble (Z.to_N z))
  end.

(** A string is truthy when it is not empty. *)
Definition nonEmpty (s : string) : bool :=
  match s with EmptyString => false | _ => true end.

End Js.

(* ===================================================================== *)
(** ** Regular expressions *)
(* ===================================================================== *)

Module Regex.

Inductive regex : Type :=
| Eps : regex
| Chr : ascii -> regex
| Cls : (ascii -> bool) -> regex
| Seq : regex -> regex -> regex
| Alt : regex -> regex -> regex
| Star : regex -> regex
| Grp : nat -> regex -> regex
| Bol : regex.

(** Derived forms: [r+], [r?], a literal string. *)
Definition Plus (r : regex) : regex := Seq r (Star r).
Definition Opt (r : regex) : regex := Alt r Eps.
Fixpoint Lit (s : string) : regex :=
  match s with
  | EmptyString => Eps
  | String a s' => Seq (Chr a) (Lit s')
  end.
Fixpoint Seqs (rs : list regex) : regex :=
  match rs with
  | [] => Eps
  | [r] => r
  | r :: rest => Seq r (Seqs rest)
  end.

(** Character classes of the source. *)
Definition digit : regex := Cls Js.isDigit.
Definition word : regex := Cls Js.isWord.
Definition space : regex := Cls Js.isSpace.
Definition oneOf (cs : string) : regex :=
  Cls (fun a => Js.includes cs (String a EmptyString)).
Definition noneOf (cs : string) : regex :=
  Cls (fun a => negb (Js.includes cs (String a EmptyString))).

(** Captures, most recent first. *)
Definition caps : Type := list (nat * string).

Fixpoint group (n : nat) (c : caps) : option string :=
  match c with
  | [] => None
  | (m, s) :: c' => if Nat.eqb m n then Some s else group n c'
  end.

(** With the [i] flag two code units match when their canonical (upper
    case) forms agree; the literals of the source are ASCII. *)
Definition chrMatch (icase : bool) (a b : ascii) : bool :=
  if icase then Ascii.eqb (Js.upperAsciiChar a) (Js.upperAsciiChar b)
  else Ascii.eqb a b.

(** The matcher, in continuation-passing style: [run ic r i s c k] matches
    [r] at index [i], where [s] is the input from [i] on, and hands the
    index, the rest and the captures to [k]; when [k] fails the matcher
    backtracks in the order of the ECMAScript matcher.  An iteration of a
    star that consumes nothing is rejected, as there. *)
Fixpoint run {R : Type} (ic : bool) (r : regex) (i : nat) (s : string) (c : caps)
         (k : nat -> string -> caps -> option R) {struct r} : option R :=
  match r with
  | Eps => k i s c
  | Chr a =>
    match s with
    | String b s' => if chrMatch ic a b then k (S i) s' c else None
    | EmptyString => None
    end
  | Cls p =>
    match s with
    | String b s' => if p b then k (S i) s' c else None
    | EmptyString => None
    end
  | Seq r1 r2 => run ic r1 i s c (fun i' s' c' => run ic r2 i' s' c' k)
  | Alt r1 r2 =>
    match run ic r1 i s c k with
    | Some x => Some x
    | None => run ic r2 i s c k
    end
  | Star r1 =>
    (fix loop (fuel : nat) (i : nat) (s : string) (c : caps) {struct fuel} : option R :=
       match fuel with
       | O => k i s c
       | S fuel' =>
         match run ic r1 i s c
                   (fun i' s' c' => if i <? i' then loop fuel' i' s' c' else None) with
         | Some x => Some x
         | None => k i s c
         end
       end) (String.length s) i s c
  | Grp n r1 =>
    run ic r1 i s c (fun i' s' c' => k i' s' ((n, Js.take (i' - i) s) :: c'))
  | Bol => if i =? 0 then k i s c else None
  end.

(** A match: where it starts, where it ends, what it captured. *)
Record Match : Type := mkMatch {
  m_index : nat;
  m_end : nat;
  m_caps : caps
}.

(** The match of [r] that starts exactly at index [i] of the input whose
    rest at [i] is [s]. *)
Definition matchHere (ic : bool) (r : regex) (i : nat) (s : string) : option Match :=
  run ic r i s [] (fun e _ c => Some (mkMatch i e c)).

(** The leftmost match at or after index [i]. *)
Fixpoint searchFrom (ic : bool) (r : regex) (i : nat) (s : string) : option Match :=
  match matchHere ic r i s with
  | Some m => Some m
  | None =>
    match s with
    | EmptyString => None
    | String _ s' => searchFrom ic r (S i) s'
    end
  end.

(** [re.exec(code)] with [re.lastIndex = lastIndex]. *)
Definition exec (ic : bool) (r : regex) (code : string) (lastIndex : nat) : option Match :=
  if lastIndex <=? String.length code
  then searchFrom ic r lastIndex (Js.drop lastIndex code)
  else None.

(** The match of [r] at index [p] of [code], if [r] matches there. *)
Definition matchAt (ic : bool) (r : regex) (code : string) (p : nat) : option Match :=
  if p <=? String.length code then matchHere ic r p (Js.drop p code) else None.

(** [re.test(code)] and [code.match(re)] without the [g] flag. *)
Definition test (ic : bool) (r : regex) (code : string) : bool :=
  match exec ic r code 0 with Some _ => true | None => false end.

(** [match[0]] *)
Definition matched (code : string) (m : Match) : string :=
  Js.take (m_end m - m_index m) (Js.drop (m_index m) code).

(** [code.match(re)] with the [g] flag: every match, left to right, each
    search resuming where the previous match ended (one further when the
    match was empty). *)
Fixpoint matchAllFrom (fuel : nat) (ic : bool) (r : regex) (code : string) (lastIndex : nat)
  : list Match :=
  match fuel with
  | O => []
  | S fuel' =>
    match exec ic r code lastIndex with
    | None => []
    | Some m =>
      m :: matchAllFrom fuel' ic r code
             (if m_end m =? m_index m then S (m_end m) else m_end m)
    end
  end.
Definition matchAll (ic : bool) (r : regex) (code : string) : list Match :=
  matchAllFrom (S (String.length code)) ic r code 0.

(** The code units a match of [r] can consume. *)
Fixpoint alphabet (ic : bool) (r : regex) (a : ascii) : bool :=
  match r with
  | Eps => false
  | Chr b => chrMatch ic b a
  | Cls p => p a
  | Seq r1 r2 => alphabet ic r1 a || alphabet ic r2 a
  | Alt r1 r2 => alphabet ic r1 a || alphabet ic r2 a
  | Star r1 => alphabet ic r1 a
  | Grp _ r1 => alphabet ic r1 a
  | Bol => false
  end.

Fixpoint allChars (p : ascii -> bool) (s : string) : bool :=
  match s with
  | EmptyString => true
  | String a s' => p a && allChars p s'
  end.

(** The least number of code units a match of [r] consumes. *)
Fixpoint minLen (r : regex) : nat :=
  match r with
  | Eps => 0
  | Chr _ => 1
  | Cls _ => 1
  | Seq r1 r2 => minLen r1 + minLen r2
  | Alt r1 r2 => Nat.min (minLen r1) (minLen r2)
  | Star _ => 0
  | Grp _ r1 => minLen r1
  | Bol => 0
  end.

End Regex.

(** [code.substring(0, index).split("\n").length]: the 1-based line of
    [index]. *)
Definition lineOfIndex (code : string) (index : nat) : nat :=
  List.length (Js.splitLines (Js.take index code)).

(* ===================================================================== *)
(** ** Data model (types.ts) *)
(* ===================================================================== *)

Inductive Severity : Type := SevError | SevWarning | SevInfo.

Inductive Category : Type :=
| CatPort | CatHost | CatStartCommand | CatEnvVars | CatStaticFiles | CatDatabase.

Definition severity_eqb (a b : Severity) : bool :=
  match a, b with
  | SevError, SevError | SevWarning, SevWarning | SevInfo, SevInfo => true
  | _, _ => false
  end.

(** An optional field of the source ([before?: string]) is an [option];
    [None] is [undefined]. *)
Record FixSuggestion : Type := mkFix {
  fix_description : string;
  fix_before : option string;
  fix_after : option string;
  fix_steps : option (list string)
}.

Record Issue : Type := mkIssue {
  issue_id : string;
  issue_severity : Severity;
  issue_category : Category;
  issue_message : string;
  issue_file : option string;
  issue_line : option nat;
  issue_fix : FixSuggestion
}.

Record PassedCheck : Type := mkPassed {
  passed_id : string;
  passed_category : string;
  passed_message : string
}.

(** What a check module returns: [{ issues, passed }]. *)
Definition CheckResult : Type := (list Issue * list PassedCheck)%type.

(** A parsed JSON value.  A number is carried as an integer: the scanner
    only observes whether a number is zero, and prints one only inside a
    start script that is an array.  The entries of an object are in
    insertion order, one per key. *)
#[warnings="-register-all"]
Inductive Json : Type :=
| JNull : Json
| JBool : bool -> Json
| JNum : Z -> Json
| JStr : string -> Json
| JArr : list Json -> Json
| JObj : list (string * Json) -> Json.

(** A JavaScript value read out of a manifest: [None] is [undefined]. *)
Definition JsVal : Type := option Json.

Inductive FrameworkName : Type :=
| express | nextjs | nestjs | django | flask | fastapi | unknown.

Definition frameworkName_eqb (a b : FrameworkName) : bool :=
  match a, b with
  | express, express | nextjs, nextjs | nestjs, nestjs | django, django
  | flask, flask | fastapi, fastapi | unknown, unknown => true
  | _, _ => false
  end.

(** [version] is whatever the manifest holds for the dependency. *)
Record Framework : Type := mkFramework {
  name : FrameworkName;
  version : JsVal;
  mainFile : option string
}.

Inductive Likelihood : Type := WillFail | MightFail | ShouldSucceed.

Record Summary : Type := mkSummary {
  totalIssues : nat;
  errors : nat;
  sum_warnings : nat;
  sum_passed : nat;
  deploymentLikelihood : Likelihood
}.

Record ScanResult : Type := mkScanResult {
  projectPath : string;
  framework : Framework;
  issues : list Issue;
  warnings : list Issue;
  passed : list PassedCheck;
  summary : Summary
}.

(* ===================================================================== *)
(** ** Exceptions *)
(* ===================================================================== *)

(** A computation that returns or throws. *)
Inductive Result (A : Type) : Type :=
| Ok : A -> Result A
| Throw : Result A.
Arguments Ok {A} _.
Arguments Throw {A}.

Definition bind {A B : Type} (m : Result A) (f : A -> Result B) : Result B :=
  match m with
  | Ok a => f a
  | Throw => Throw
  end.

Notation "x <- m ;; k" := (bind m (fun x => k))
  (at level 61, m at next level, right associativity).

(** [try { m } catch { h }] *)
Definition tryCatch {A : Type} (m : Result A) (h : A) : A :=
  match m with
  | Ok a => a
  | Throw => h
  end.

Definition ofOption {A : Type} (o : option A) : Result A :=
  match o with
  | Some a => Ok a
  | None => Throw
  end.

(* ===================================================================== *)
(** ** JavaScript values *)
(* ===================================================================== *)

Definition truthy (j : Json) : bool :=
  match j with
  | JNull => false
  | JBool b => b
  | JNum n => negb (Z.eqb n 0)
  | JStr s => Js.nonEmpty s
  | JArr _ => true
  | JObj _ => true
  end.

Definition truthyV (v : JsVal) : bool :=
  match v with
  | None => false
  | Some j => truthy j
  end.

Fixpoint lookup (k : string) (l : list (string * Json)) : JsVal :=
  match l with
  | [] => None
  | (k', v) :: l' => if String.eqb k' k then Some v else lookup k l'
  end.

(** [v.k] for the property names the scanner reads (none of them is a
    property of a prototype): a [TypeError] on [null], the entry of an
    object, [undefined] on anything else. *)
Definition getProp (v : Json) (k : string) : Result JsVal :=
  match v with
  | JNull => Throw
  | JObj l => Ok (lookup k l)
  | _ => Ok None
  end.

(** [v?.k] on a value that may be [undefined] or [null]. *)
Definition getPropOpt (v : JsVal) (k : string) : JsVal :=
  match v with
  | Some (JObj l) => lookup k l
  | _ => None
  end.

Fixpoint indexed {A : Type} (i : nat) (xs : list A) : list (string * A) :=
  match xs with
  | [] => []
  | x :: xs' => (Js.natToString i, x) :: indexed (S i) xs'
  end.

Fixpoint chars (s : string) : list Json :=
  match s with
  | EmptyString => []
  | String a s' => JStr (String a EmptyString) :: chars s'
  end.

(** The own enumerable properties that [{...v}] copies. *)
Definition ownEntries (v : JsVal) : list (string * Json) :=
  match v with
  | Some (JObj l) => l
  | Some (JArr xs) => indexed 0 xs
  | Some (JStr s) => indexed 0 (chars s)
  | _ => []
  end.

Fixpoint setProp (k : string) (v : Json) (l : list (string * Json)) : list (string * Json) :=
  match l with
  | [] => [(k, v)]
  | (k', v') :: l' => if String.eqb k' k then (k', v) :: l' else (k', v') :: setProp k v l'
  end.

(** [{...a, ...b}] *)
Definition spread2 (a b : JsVal) : list (string * Json) :=
  fold_left (fun acc kv => setProp (fst kv) (snd kv) acc) (ownEntries b)
            (fold_left (fun acc kv => setProp (fst kv) (snd kv) acc) (ownEntries a) []).

(** [String(v)], as a template literal applies it. *)
Fixpoint toStr (j : Json) : string :=
  match j with
  | JNull => "null"
  | JBool true => "true"
  | JBool false => "false"
  | JNum n => Js.intToString n
  | JStr s => s
  | JArr xs =>
    Js.join "," (map (fun x => match x with JNull => EmptyString | _ => toStr x end) xs)
  | JObj _ => "[object Object]"
  end.

Definition json_eqb_str (j : Json) (s : string) : bool :=
  match j with
  | JStr t => String.eqb t s
  | _ => false
  end.

(** The method [v.includes] of a truthy manifest value: substring search
    on a string, membership on an array, [undefined] on anything else. *)
Definition includesFn (v : Json) : option (string -> bool) :=
  match v with
  | JStr s => Some (fun needle => Js.includes s needle)
  | JArr xs => Some (fun needle => existsb (fun x => json_eqb_str x needle) xs)
  | _ => None
  end.

(** [v.includes(needle)]: a [TypeError] when [v] has no such method. *)
Definition valIncludes (v : Json) (needle : string) : Result bool :=
  match includesFn v with
  | Some inc => Ok (inc needle)
  | None => Throw
  end.

(* ===================================================================== *)
(** ** The file system *)
(* ===================================================================== *)

(** A call of [glob(patterns, { cwd, ignore, maxDepth })]. *)
Record GlobQuery : Type := mkGlob {
  g_patterns : list string;
  g_cwd : string;
  g_ignore : list string;
  g_maxDepth : nat
}.

(** The file system is a read-only oracle.  [readFileSync] and [glob]
    answer [None] when the call of the source throws. *)
Record World : Type := mkWorld {
  existsSync : string -> bool;
  readFileSync : string -> option string;
  glob : GlobQuery -> option (list string)
}.

(** Two answers of [glob] that list the same files, in whatever order. *)
Definition sameListing (a b : option (list string)) : Prop :=
  match a, b with
  | Some l1, Some l2 => Permutation l1 l2
  | None, None => True
  | _, _ => False
  end.

(* ===================================================================== *)
(** ** The scanner *)
(* ===================================================================== *)

Section Scanner.

#[local] Open Scope string_scope.

(** [JSON.parse]: [None] when it throws a [SyntaxError]. *)
Variable JSON_parse : string -> option Json.

(** [path.join] *)
Variable join : string -> string -> string.

Variable w : World.

Definition readFile (path : string) : Result string := ofOption (readFileSync w path).
Definition parseJson (text : string) : Result Json := ofOption (JSON_parse text).

(** [JSON.parse(readFileSync(path, "utf-8"))] *)
Definition readJson (path : string) : Result Json :=
  text <- readFile path ;; parseJson text.

Definition q (s : string) : string := Js.dq ++ s ++ Js.dq.

(** [["django", "flask", "fastapi"].includes(framework.name)] *)
Definition isPython (fw : Framework) : bool :=
  match name fw with
  | django | flask | fastapi => true
  | _ => false
  end.

(** [["express", "nextjs", "nestjs"].includes(framework.name)] *)
Definition isNode (fw : Framework) : bool :=
  match name fw with
  | express | nextjs | nestjs => true
  | _ => false
  end.

Definition isNextjs (fw : Framework) : bool := frameworkName_eqb (name fw) nextjs.

(* --------------------------------------------------------------------- *)
(** *** scanner/fileDetector.ts *)
(* --------------------------------------------------------------------- *)

(** The first candidate that exists. *)
Fixpoint firstExisting (projectPath : string) (candidates : list string) : option string :=
  match candidates with
  | [] => None
  | candidate :: rest =>
    if existsSync w (join projectPath candidate) then Some candidate
    else firstExisting projectPath rest
  end.

(** The [main] field of the manifest, when it names an existing file.
    [join] throws a [TypeError] on a [main] that is not a string. *)
Definition mainField (projectPath : string) : Result (option string) :=
  packageJson <- readJson (join projectPath "package.json") ;;
  main <- getProp packageJson "main" ;;
  match main with
  | Some m =>
    if truthy m then
      match m with
      | JStr s => if existsSync w (join projectPath s) then Ok (Some s) else Ok None
      | _ => Throw
      end
    else Ok None
  | None => Ok None
  end.

Definition entryGlob (projectPath : string) : GlobQuery :=
  mkGlob ["**/{server,index,app,main}.{js,ts}"] projectPath
         ["node_modules/**"; "dist/**"; "build/**"] 3.

Definition findEntryPoint (projectPath : string) (candidates : list string) : option string :=
  match firstExisting projectPath candidates with
  | Some candidate => Some candidate
  | None =>
    let fromMain :=
      if existsSync w (join projectPath "package.json")
      then tryCatch (mainField projectPath) None
      else None in
    match fromMain with
    | Some main => Some main
    | None =>
      match glob w (entryGlob projectPath) with
      | Some (first :: _) => Some first
      | _ => None
      end
    end
  end.

(** The Node half of [detectFramework]: [Ok None] when no Node framework
    is recognised, [Throw] when reading or parsing the manifest throws. *)
Definition detectNode (projectPath : string) : Result (option Framework) :=
  let packageJsonPath := join projectPath "package.json" in
  if existsSync w packageJsonPath then
    packageJson <- readJson packageJsonPath ;;
    deps <- getProp packageJson "dependencies" ;;
    devDeps <- getProp packageJson "devDependencies" ;;
    let dependencies := spread2 deps devDeps in
    if truthyV (lookup "next" dependencies)
       || existsSync w (join projectPath "next.config.js")
       || existsSync w (join projectPath "next.config.mjs")
    then
      let mainFile := findEntryPoint projectPath
            ["pages/_app.tsx"; "pages/_app.js"; "app/layout.tsx"; "src/app/layout.tsx"] in
      Ok (Some (mkFramework nextjs (lookup "next" dependencies)
                  (match mainFile with
                   | Some f => if Js.nonEmpty f then Some f else Some "next.config.js"
                   | None => Some "next.config.js"
                   end)))
    else if truthyV (lookup "@nestjs/core" dependencies) then
      let mainFile := findEntryPoint projectPath ["src/main.ts"; "main.ts"] in
      Ok (Some (mkFramework nestjs (lookup "@nestjs/core" dependencies) mainFile))
    else if truthyV (lookup "express" dependencies) then
      let mainFile := findEntryPoint projectPath
            ["server.js"; "index.js"; "app.js"; "src/server.js"; "src/index.js";
             "src/app.js"; "server.ts"; "src/server.ts"] in
      Ok (Some (mkFramework express (lookup "express" dependencies) mainFile))
    else Ok None
  else Ok None.

(** The Python half. *)
Definition detectPython (projectPath : string) : Result Framework :=
  let requirementsTxtPath := join projectPath "requirements.txt" in
  if existsSync w requirementsTxtPath then
    text <- readFile requirementsTxtPath ;;
    let requirements := Js.toLowerCase text in
    if Js.includes requirements "django" then
      Ok (mkFramework django None
            (if existsSync w (join projectPath "manage.py") then Some "manage.py" else None))
    else if Js.includes requirements "flask" then
      Ok (mkFramework flask None (findEntryPoint projectPath ["app.py"; "main.py"; "wsgi.py"]))
    else if Js.includes requirements "fastapi" then
      Ok (mkFramework fastapi None (findEntryPoint projectPath ["main.py"; "app.py"]))
    else Ok (mkFramework unknown None None)
  else Ok (mkFramework unknown None None).

Definition detectFramework (projectPath : string) : Result Framework :=
  node <- detectNode projectPath ;;
  match node with
  | Some fw => Ok fw
  | None => detectPython projectPath
  end.

(* --------------------------------------------------------------------- *)
(** *** The source files a check scans *)
(* --------------------------------------------------------------------- *)

Definition sourcePatterns (fw : Framework) : list string :=
  if isPython fw then ["**/*.py"] else ["**/*.{js,ts,jsx,tsx}"].

(** The loop [for (const file of files.slice(0, limit))] with its
    [try { readFileSync } catch { continue }]: the files read, in order,
    each with its content. *)
Fixpoint readAll (projectPath : string) (files : list string) : list (string * string) :=
  match files with
  | [] => []
  | file :: rest =>
    match readFileSync w (join projectPath file) with
    | Some code => (file, code) :: readAll projectPath rest
    | None => readAll projectPath rest
    end
  end.

Definition sourceIgnore : list string :=
  ["node_modules/**"; "dist/**"; "build/**"; ".next/**"; "venv/**"; "__pycache__/**"].

Definition testIgnore : list string := ["*.test.*"; "*.spec.*"].

(** [glob(patterns, { cwd: projectPath, ignore, maxDepth: 5 })] followed by
    the loop over [files.slice(0, limit)]: the files a check scans, each
    with its content; [None] when [glob] throws. *)
Definition scannedFiles (projectPath : string) (fw : Framework) (ignore : list string)
           (limit : nat) : option (list (string * string)) :=
  option_map (fun files => readAll projectPath (firstn limit files))
             (glob w (mkGlob (sourcePatterns fw) projectPath ignore 5)).

(* --------------------------------------------------------------------- *)
(** *** checks/portCheck.ts *)
(* --------------------------------------------------------------------- *)

(** [/\.listen\s*\(\s*(\d+)/g] *)
Definition listenCallRegex : Regex.regex :=
  Regex.Seqs [Regex.Lit ".listen"; Regex.Star Regex.space; Regex.Chr "(";
              Regex.Star Regex.space; Regex.Grp 1 (Regex.Plus Regex.digit)].

(** What follows the leading dot in [listenCallRegex]. *)
Definition listenTail : Regex.regex :=
  Regex.Seq (Regex.Lit "listen")
    (Regex.Seqs [Regex.Star Regex.space; Regex.Chr "("; Regex.Star Regex.space;
                 Regex.Grp 1 (Regex.Plus Regex.digit)]).

(** [/(?:const|let|var) \s+ ( \w* [pP]ort \w* ) \s* = \s* ( \d+ )/g],
    written here with blanks between its parts. *)
Definition portVarRegex : Regex.regex :=
  Regex.Seqs [Regex.Alt (Regex.Lit "const") (Regex.Alt (Regex.Lit "let") (Regex.Lit "var"));
              Regex.Plus Regex.space;
              Regex.Grp 1 (Regex.Seqs [Regex.Star Regex.word; Regex.oneOf "pP";
                                       Regex.Lit "ort"; Regex.Star Regex.word]);
              Regex.Star Regex.space; Regex.Chr "="; Regex.Star Regex.space;
              Regex.Grp 2 (Regex.Plus Regex.digit)].

(** [/(?:app\.run|uvicorn\.run)\s*\([^)]*port\s*=\s*(\d+)/g] *)
Definition pythonPortRegex : Regex.regex :=
  Regex.Seqs [Regex.Alt (Regex.Lit "app.run") (Regex.Lit "uvicorn.run");
              Regex.Star Regex.space; Regex.Chr "("; Regex.Star (Regex.noneOf ")");
              Regex.Lit "port"; Regex.Star Regex.space; Regex.Chr "=";
              Regex.Star Regex.space; Regex.Grp 1 (Regex.Plus Regex.digit)].

Definition hasPortEnvVar (code : string) : bool :=
  (Js.includes code "process.env.PORT" || Js.includes code "process.env['PORT']"
   || Js.includes code ("process.env[" ++ q "PORT" ++ "]"))
  || (Js.includes code "os.environ.get('PORT')"
      || Js.includes code ("os.environ.get(" ++ q "PORT" ++ ")")
      || Js.includes code "os.getenv('PORT')"
      || Js.includes code ("os.getenv(" ++ q "PORT" ++ ")")).

(** [parseInt(match[g])], when [match[g]] is truthy. *)
Definition literalValue (g : nat) (m : Regex.Match) : option Js.num :=
  match Regex.group g (Regex.m_caps m) with
  | Some ds => if Js.nonEmpty ds then Some (Js.parseInt ds) else None
  | None => None
  end.

(** The expression [re] matches at index [p] of [code] and the digits of
    its group [g] read as [v], at least 1000: a hard-coded port. *)
Definition hardcodedAt (re : Regex.regex) (g : nat) (code : string) (p : nat) (v : Js.num)
  : Prop :=
  exists m, Regex.matchAt false re code p = Some m
            /\ literalValue g m = Some v /\ Js.geN v 1000 = true.

(** The expression [re] matches at index [p] of [code] and its group [g]
    holds the digits [ds]. *)
Definition digitsAt (re : Regex.regex) (g : nat) (code : string) (p : nat) (ds : string)
  : Prop :=
  exists m, Regex.matchAt false re code p = Some m
            /\ Regex.group g (Regex.m_caps m) = Some ds /\ Js.nonEmpty ds = true.

(** The group [g] of the match [m] reads as a number of at least 1000. *)
Definition holdsPort (g : nat) (m : Regex.Match) : bool :=
  match literalValue g m with
  | Some v => Js.geN v 1000
  | None => false
  end.

(** Among the successive matches of [re] in [code], each search resuming
    where the previous match ended, the first whose group [g] reads as a
    number of at least 1000 starts at index [p] and reads as [v]. *)
Definition firstHardcoded (re : Regex.regex) (g : nat) (code : string) (p : nat)
           (v : Js.num) : Prop :=
  exists pre m post,
    Regex.matchAll false re code = (pre ++ m :: post)%list
    /\ (forall m', In m' pre -> holdsPort g m' = false)
    /\ Regex.m_index m = p /\ literalValue g m = Some v /\ Js.geN v 1000 = true.

(** None of the successive matches of [re] in [code] holds such a
    number. *)
Definition noneHardcoded (re : Regex.regex) (g : nat) (code : string) : Prop :=
  forall m, In m (Regex.matchAll false re code) -> holdsPort g m = false.

(** One of the three loops
    [while ((match = re.exec(code)) !== null) { if (!match[g]) continue;
       const portNumber = parseInt(match[g]);
       if (portNumber >= 1000 && cond) { ...; break; } }]:
    the value and the line of the first match that passes the test, if
    the loop breaks.  Every match of the three expressions is at least one
    code unit long, so [lastIndex] grows and the length of the code bounds
    the number of turns. *)
Fixpoint literalLoop (fuel : nat) (re : Regex.regex) (g : nat) (cond : bool)
         (code : string) (lastIndex : nat) : option (Js.num * nat) :=
  match fuel with
  | O => None
  | S fuel' =>
    match Regex.exec false re code lastIndex with
    | None => None
    | Some m =>
      match literalValue g m with
      | Some portNumber =>
        if Js.geN portNumber 1000 && cond
        then Some (portNumber, lineOfIndex code (Regex.m_index m))
        else literalLoop fuel' re g cond code (Regex.m_end m)
      | None => literalLoop fuel' re g cond code (Regex.m_end m)
      end
    end
  end.

Definition literalScan (re : Regex.regex) (g : nat) (cond : bool) (code : string)
  : option (Js.num * nat) :=
  literalLoop (S (String.length code)) re g cond code 0.

(** A later loop that breaks overwrites what an earlier one recorded. *)
Definition orElse {A : Type} (later earlier : option A) : option A :=
  match later with
  | Some x => Some x
  | None => earlier
  end.

(** [hasHardcodedPort] with [hardcodedPortValue] and [listenCallLine]
    after the three loops. *)
Definition hardcodedPort (code : string) : option (Js.num * nat) :=
  let afterListen := literalScan listenCallRegex 1 true code in
  let afterPortVar :=
    orElse (literalScan portVarRegex 2 (negb (hasPortEnvVar code)) code) afterListen in
  orElse (literalScan pythonPortRegex 1 (negb (hasPortEnvVar code)) code) afterPortVar.

(** [hardcodedPortValue || alt] inside a template literal. *)
Definition portOr (v : Js.num) (alt : string) : string :=
  if Js.isZero v then alt else Js.numToString v.

Definition portHardcodedIssue (file : string) (v : Js.num) (line : nat) : Issue :=
  mkIssue "port-hardcoded" SevError CatPort
    ("Hardcoded port " ++ portOr v "detected" ++ ". Railway requires process.env.PORT")
    (Some file) (Some line)
    (mkFix "Use process.env.PORT with a fallback for local development"
       (Some ("const port = " ++ portOr v "3000" ++ ";"))
       (Some ("const port = process.env.PORT || " ++ portOr v "3000" ++ ";"))
       (Some ["Update your server to use: const port = process.env.PORT || " ++ portOr v "3000";
              "Ensure your .listen() call uses this port variable"])).

Definition scanFileForPortIssues (code file : string) (fw : Framework) : list Issue :=
  match hardcodedPort code with
  | Some (v, line) =>
    if negb (hasPortEnvVar code) then [portHardcodedIssue file v line] else []
  | None => []
  end.

(** [packageJson.scripts?.start], or the empty string when that is
    falsy. *)
Definition startScriptOf (packageJson : Json) : Result Json :=
  scripts <- getProp packageJson "scripts" ;;
  let start := getPropOpt scripts "start" in
  Ok (match start with
      | Some v => if truthy v then v else JStr EmptyString
      | None => JStr EmptyString
      end).

Definition nextjsPortFlagIssue : Issue :=
  mkIssue "nextjs-port-flag" SevError CatPort
    "Next.js start script doesn't use Railway's PORT environment variable"
    (Some "package.json") None
    (mkFix "Add PORT flag to Next.js start command"
       (Some (q "start" ++ ": " ++ q "next start"))
       (Some (q "start" ++ ": " ++ q "next start --port ${PORT-3000}"))
       (Some ["Update package.json scripts.start to: " ++ q "next start --port ${PORT-3000}"])).

(** The Next.js block of [checkPortUsage], inside its own [try]. *)
Definition nextjsPortIssues (projectPath : string) : Result (list Issue) :=
  packageJson <- readJson (join projectPath "package.json") ;;
  startScript <- startScriptOf packageJson ;;
  hasNextStart <- valIncludes startScript "next start" ;;
  hasDollar <- valIncludes startScript "$PORT" ;;
  hasBrace <- valIncludes startScript "${PORT" ;;
  Ok (if hasNextStart && negb hasDollar && negb hasBrace then [nextjsPortFlagIssue] else []).

Definition portCheckPass : PassedCheck :=
  mkPassed "port-check" "port" "PORT configuration looks good".

Definition checkPortUsage (projectPath : string) (fw : Framework) : CheckResult :=
  match scannedFiles projectPath fw (sourceIgnore ++ testIgnore)%list 50 with
  | None => ([], [])
  | Some files =>
    let fileIssues :=
      flat_map (fun fc => scanFileForPortIssues (snd fc) (fst fc) fw) files in
    let nextIssues :=
      if isNextjs fw then tryCatch (nextjsPortIssues projectPath) [] else [] in
    let found := (fileIssues ++ nextIssues)%list in
    (found, match found with [] => [portCheckPass] | _ => [] end)
  end.

(* --------------------------------------------------------------------- *)
(** *** checks/hostCheck.ts *)
(* --------------------------------------------------------------------- *)

(** [/\.listen\s*\(/] *)
Definition listenTestRegex : Regex.regex :=
  Regex.Seqs [Regex.Lit ".listen"; Regex.Star Regex.space; Regex.Chr "("].

(** [/(?:app\.run|uvicorn\.run|waitress\.serve)\s*\(/] *)
Definition pythonServerRegex : Regex.regex :=
  Regex.Seqs [Regex.Alt (Regex.Lit "app.run")
                (Regex.Alt (Regex.Lit "uvicorn.run") (Regex.Lit "waitress.serve"));
              Regex.Star Regex.space; Regex.Chr "("].

(** [/\.(?:listen|run)\s*\([^)]+\)/g] *)
Definition listenSnippetRegex : Regex.regex :=
  Regex.Seqs [Regex.Chr "."; Regex.Alt (Regex.Lit "listen") (Regex.Lit "run");
              Regex.Star Regex.space; Regex.Chr "("; Regex.Plus (Regex.noneOf ")");
              Regex.Chr ")"].

Definition hasCorrectBinding (code : string) : bool :=
  Js.includes code (q "0.0.0.0") || Js.includes code "'0.0.0.0'"
  || Js.includes code "`0.0.0.0`".

Definition hasListenCall (code : string) : bool := Regex.test false listenTestRegex code.

Definition hasPythonServerCall (code : string) : bool :=
  Regex.test false pythonServerRegex code.

Definition hasLocalhostBinding (code : string) : bool :=
  Js.includes code (q "localhost") || Js.includes code "'localhost'"
  || Js.includes code (q "127.0.0.1") || Js.includes code "'127.0.0.1'".

(** [fixes[framework.name] || { ... before: listenSnippet || '.listen(port)' ... }] *)
Definition generateHostBindingFix (fw : Framework) (listenSnippet : option string)
  : FixSuggestion :=
  match name fw with
  | express =>
    mkFix "Bind to 0.0.0.0 to accept external connections"
      (Some "app.listen(port)")
      (Some ("app.listen(port, " ++ q "0.0.0.0" ++ ")"))
      (Some ["Update your .listen() call to: app.listen(port, " ++ q "0.0.0.0" ++ ")";
             "This allows Railway to route traffic to your application"])
  | nestjs =>
    mkFix "Bind to 0.0.0.0 in your NestJS bootstrap function"
      (Some "await app.listen(port)")
      (Some ("await app.listen(port, " ++ q "0.0.0.0" ++ ")"))
      (Some ["In src/main.ts, update: await app.listen(port, " ++ q "0.0.0.0" ++ ")";
             "This allows Railway to route traffic to your application"])
  | nextjs =>
    mkFix "Add --hostname flag to Next.js start command"
      (Some (q "start" ++ ": " ++ q "next start"))
      (Some (q "start" ++ ": " ++ q "next start --hostname 0.0.0.0"))
      (Some ["Update package.json start script to include: --hostname 0.0.0.0"])
  | django =>
    mkFix "Configure Django to bind to 0.0.0.0"
      None
      (Some "gunicorn myproject.wsgi:application --bind 0.0.0.0:$PORT")
      (Some ["Ensure your start command binds to 0.0.0.0:$PORT";
             "Example: gunicorn myproject.wsgi:application --bind 0.0.0.0:$PORT"])
  | flask =>
    mkFix "Bind to 0.0.0.0 in Flask app"
      (Some "app.run()")
      (Some ("app.run(host=" ++ q "0.0.0.0" ++ ", port=int(os.environ.get("
             ++ q "PORT" ++ ", 5000)))"))
      (Some ["Update app.run() to bind to 0.0.0.0";
             "Use gunicorn in production instead of Flask development server"])
  | fastapi =>
    mkFix "Bind to 0.0.0.0 in uvicorn"
      (Some "uvicorn.run(app)")
      (Some ("uvicorn.run(app, host=" ++ q "0.0.0.0" ++ ", port=int(os.environ.get("
             ++ q "PORT" ++ ", 8000)))"))
      (Some ["Update uvicorn.run() to bind to 0.0.0.0";
             "Use Procfile with proper uvicorn command in production"])
  | unknown =>
    mkFix "Bind to 0.0.0.0 to accept external connections"
      (Some (match listenSnippet with
             | Some snippet => if Js.nonEmpty snippet then snippet else ".listen(port)"
             | None => ".listen(port)"
             end))
      (Some (".listen(port, " ++ q "0.0.0.0" ++ ")"))
      (Some ["Update your server to listen on 0.0.0.0 instead of localhost";
             "This allows Railway to route traffic to your application"])
  end.

Definition scanFileForHostIssues (code file : string) (fw : Framework) : list Issue :=
  if (hasListenCall code || hasPythonServerCall code) && negb (hasCorrectBinding code) then
    let found := Regex.exec false listenSnippetRegex code 0 in
    let listenLine := option_map (fun m => lineOfIndex code (Regex.m_index m)) found in
    let listenSnippet := option_map (Regex.matched code) found in
    [mkIssue "host-binding"
       (if hasLocalhostBinding code then SevError else SevWarning)
       CatHost
       (if hasLocalhostBinding code
        then "App binds to localhost/127.0.0.1, which won't work on Railway"
        else "App may not be binding to 0.0.0.0, which is required for Railway")
       (Some file) listenLine
       (generateHostBindingFix fw listenSnippet)]
  else [].

Definition nextjsHostFlagIssue : Issue :=
  mkIssue "nextjs-host-flag" SevError CatHost
    "Next.js start script doesn't bind to 0.0.0.0"
    (Some "package.json") None
    (mkFix "Add --hostname flag to Next.js start command"
       (Some (q "start" ++ ": " ++ q "next start"))
       (Some (q "start" ++ ": " ++ q "next start --hostname 0.0.0.0 --port ${PORT-3000}"))
       (Some ["Update package.json scripts.start to include: --hostname 0.0.0.0"])).

(** The Next.js block of [checkHostBinding], inside its own [try]. *)
Definition nextjsHostIssues (projectPath : string) : Result (list Issue) :=
  packageJson <- readJson (join projectPath "package.json") ;;
  startScript <- startScriptOf packageJson ;;
  hasNextStart <- valIncludes startScript "next start" ;;
  hasHostname <- valIncludes startScript "--hostname 0.0.0.0" ;;
  hasH <- valIncludes startScript "-H 0.0.0.0" ;;
  Ok (if hasNextStart && negb hasHostname && negb hasH then [nextjsHostFlagIssue] else []).

Definition hostCheckPass : PassedCheck :=
  mkPassed "host-check" "host" "Host binding configuration looks good".

Definition checkHostBinding (projectPath : string) (fw : Framework) : CheckResult :=
  match scannedFiles projectPath fw (sourceIgnore ++ testIgnore)%list 50 with
  | None => ([], [])
  | Some files =>
    let fileIssues :=
      flat_map (fun fc => scanFileForHostIssues (snd fc) (fst fc) fw) files in
    let nextIssues :=
      if isNextjs fw then tryCatch (nextjsHostIssues projectPath) [] else [] in
    let found := (fileIssues ++ nextIssues)%list in
    (found, match found with [] => [hostCheckPass] | _ => [] end)
  end.

(* --------------------------------------------------------------------- *)
(** *** checks/startCommandCheck.ts *)
(* --------------------------------------------------------------------- *)

Definition generateStartScriptFix (fw : Framework) : FixSuggestion :=
  match name fw with
  | express =>
    mkFix "Add start script for Express" None
      (Some (q "scripts" ++ ": {" ++ Js.nl ++ "  " ++ q "start" ++ ": " ++ q "node server.js"
             ++ Js.nl ++ "}"))
      (Some ["Add to package.json: " ++ q "start" ++ ": " ++ q "node server.js";
             "Replace server.js with your actual entry point file"])
  | nextjs =>
    mkFix "Add start and build scripts for Next.js" None
      (Some (q "scripts" ++ ": {" ++ Js.nl ++ "  " ++ q "start" ++ ": "
             ++ q "next start --hostname 0.0.0.0 --port ${PORT-3000}" ++ "," ++ Js.nl
             ++ "  " ++ q "build" ++ ": " ++ q "next build" ++ Js.nl ++ "}"))
      (Some ["Add start script: " ++ q "next start --hostname 0.0.0.0 --port ${PORT-3000}";
             "Add build script: " ++ q "next build"])
  | nestjs =>
    mkFix "Add start and build scripts for NestJS" None
      (Some (q "scripts" ++ ": {" ++ Js.nl ++ "  " ++ q "start" ++ ": " ++ q "node dist/main.js"
             ++ "," ++ Js.nl ++ "  " ++ q "build" ++ ": " ++ q "nest build" ++ Js.nl ++ "}"))
      (Some ["Add start script: " ++ q "node dist/main.js";
             "Add build script: " ++ q "nest build"])
  | _ =>
    mkFix "Add start script to package.json" None
      (Some (q "scripts" ++ ": {" ++ Js.nl ++ "  " ++ q "start" ++ ": " ++ q "node index.js"
             ++ Js.nl ++ "}"))
      (Some ["Add a start script to package.json"])
  end.

Definition generateProductionStartScript (fw : Framework) : string :=
  match name fw with
  | express => q "start" ++ ": " ++ q "node server.js"
  | nextjs => q "start" ++ ": " ++ q "next start --hostname 0.0.0.0 --port ${PORT-3000}"
  | nestjs => q "start" ++ ": " ++ q "node dist/main.js"
  | _ => q "start" ++ ": " ++ q "node index.js"
  end.

Definition generatePythonProcfileFix (fw : Framework) : FixSuggestion :=
  match name fw with
  | django =>
    mkFix "Create Procfile for Django" None
      (Some "web: gunicorn myproject.wsgi:application --bind 0.0.0.0:$PORT")
      (Some ["Create a file named 'Procfile' (no extension)";
             "Add: web: gunicorn myproject.wsgi:application --bind 0.0.0.0:$PORT";
             "Replace 'myproject' with your Django project name"])
  | flask =>
    mkFix "Create Procfile for Flask" None
      (Some "web: gunicorn app:app --bind 0.0.0.0:$PORT")
      (Some ["Create a file named 'Procfile' (no extension)";
             "Add: web: gunicorn app:app --bind 0.0.0.0:$PORT"])
  | fastapi =>
    mkFix "Create Procfile for FastAPI" None
      (Some "web: uvicorn main:app --host 0.0.0.0 --port $PORT")
      (Some ["Create a file named 'Procfile' (no extension)";
             "Add: web: uvicorn main:app --host 0.0.0.0 --port $PORT"])
  | _ =>
    mkFix "Create Procfile" None None
      (Some ["Create a Procfile with your start command"])
  end.

Definition noPackageJsonIssue (packageJsonPath : string) : Issue :=
  mkIssue "no-package-json" SevError CatStartCommand "No package.json found"
    (Some packageJsonPath) None
    (mkFix "Create a package.json file" None None
       (Some ["Run: npm init -y"; "Add a start script to package.json"])).

Definition noStartScriptIssue (packageJsonPath : string) (fw : Framework) : Issue :=
  mkIssue "no-start-script" SevError CatStartCommand
    ("No " ++ q "start" ++ " script found in package.json")
    (Some packageJsonPath) None (generateStartScriptFix fw).

Definition devToolsIssue (packageJsonPath : string) (fw : Framework)
           (usedDevTool : string) (startScript : Json) : Issue :=
  mkIssue "dev-tools-in-production" SevError CatStartCommand
    ("Start script uses development tool: " ++ usedDevTool)
    (Some packageJsonPath) None
    (mkFix "Use production-ready start command"
       (Some (q "start" ++ ": " ++ q (toStr startScript)))
       (Some (generateProductionStartScript fw))
       (Some ["Remove development tools from start script";
              "Use node (not nodemon/ts-node-dev) for production";
              "If using TypeScript, build first then run with node"])).

Definition nextjsWrongStartIssue (packageJsonPath : string) (startScript : Json) : Issue :=
  mkIssue "nextjs-wrong-start" SevError CatStartCommand
    "Next.js project should use 'next start' in production"
    (Some packageJsonPath) None
    (mkFix "Use next start for production"
       (Some (q "start" ++ ": " ++ q (toStr startScript)))
       (Some (q "start" ++ ": " ++ q "next start --hostname 0.0.0.0 --port ${PORT-3000}"))
       (Some ["Update start script to: "
                ++ q "next start --hostname 0.0.0.0 --port ${PORT-3000}";
              "Ensure you have a build script: " ++ q "build" ++ ": " ++ q "next build"])).

Definition nestjsNoBuildIssue (packageJsonPath : string) : Issue :=
  mkIssue "nestjs-no-build" SevWarning CatStartCommand
    "NestJS project should have a build script"
    (Some packageJsonPath) None
    (mkFix "Add build script for NestJS" None
       (Some (q "build" ++ ": " ++ q "nest build"))
       (Some ["Add to package.json scripts: " ++ q "build" ++ ": " ++ q "nest build"])).

Definition noBuildScriptIssue (packageJsonPath : string) : Issue :=
  mkIssue "no-build-script" SevError CatStartCommand
    "Next.js project missing build script"
    (Some packageJsonPath) None
    (mkFix "Add build script for Next.js" None
       (Some (q "build" ++ ": " ++ q "next build"))
       (Some ["Add to package.json scripts: " ++ q "build" ++ ": " ++ q "next build"])).

Definition invalidPackageJsonIssue (packageJsonPath : string) : Issue :=
  mkIssue "invalid-package-json" SevError CatStartCommand
    "package.json is invalid or cannot be parsed"
    (Some packageJsonPath) None
    (mkFix "Fix package.json syntax" None None
       (Some ["Validate JSON syntax in package.json";
              "Ensure all quotes and brackets are properly closed"])).

Definition devTools : list string := ["nodemon"; "ts-node-dev"; "tsx --watch"; "vite"].

(** The body of the [try] of the Node branch.  The issues pushed before a
    throw stay in the list, so the body answers with what it pushed and
    whether it ran to its end ([true]) or threw ([false]).  [scripts] is
    truthy, hence not [null], and reading a property of it cannot throw;
    [startScript.includes] throws on its first call when the start script
    is neither a string nor an array, and so does [scripts.build.includes]. *)
Definition nodeStartBody (packageJsonPath : string) (fw : Framework) : list Issue * bool :=
  match readJson packageJsonPath with
  | Throw => ([], false)
  | Ok packageJson =>
    match getProp packageJson "scripts" with
    | Throw => ([], false)
    | Ok scriptsV =>
      (* const scripts = packageJson.scripts || {} *)
      let scripts := if truthyV scriptsV then scriptsV else Some (JObj []) in
      let startScript := getPropOpt scripts "start" in
      let build := getPropOpt scripts "build" in
      let buildIssues :=
        if isNextjs fw && negb (truthyV build) then [noBuildScriptIssue packageJsonPath]
        else [] in
      match startScript with
      | Some start =>
        if truthy start then
          match includesFn start with
          | None => ([], false)
          | Some includes =>
            let devIssues :=
              match find includes devTools with
              | Some usedDevTool => [devToolsIssue packageJsonPath fw usedDevTool start]
              | None => []
              end in
            let nextIssues :=
              if isNextjs fw && negb (includes "next start")
              then [nextjsWrongStartIssue packageJsonPath start] else [] in
            if frameworkName_eqb (name fw) nestjs && includes "nest start"
               && negb (includes "nest start --watch") then
              match build with
              | Some b =>
                if truthy b then
                  match includesFn b with
                  | None => ((devIssues ++ nextIssues)%list, false)
                  | Some buildIncludes =>
                    ((devIssues ++ nextIssues
                        ++ (if negb (buildIncludes "nest build")
                            then [nestjsNoBuildIssue packageJsonPath] else [])
                        ++ buildIssues)%list, true)
                  end
                else
                  ((devIssues ++ nextIssues ++ [nestjsNoBuildIssue packageJsonPath]
                      ++ buildIssues)%list, true)
              | None =>
                ((devIssues ++ nextIssues ++ [nestjsNoBuildIssue packageJsonPath]
                    ++ buildIssues)%list, true)
              end
            else ((devIssues ++ nextIssues ++ buildIssues)%list, true)
          end
        else (([noStartScriptIssue packageJsonPath fw] ++ buildIssues)%list, true)
      | None => (([noStartScriptIssue packageJsonPath fw] ++ buildIssues)%list, true)
      end
    end
  end.

Definition pythonNoProcfileIssue (procfilePath : string) (fw : Framework) : Issue :=
  mkIssue "python-no-procfile" SevWarning CatStartCommand
    "Python project should have a Procfile for Railway"
    (Some procfilePath) None (generatePythonProcfileFix fw).

Definition djangoNoGunicornProcfileIssue (procfilePath : string) : Issue :=
  mkIssue "django-no-gunicorn" SevError CatStartCommand
    "Django should use gunicorn in production"
    (Some procfilePath) None
    (mkFix "Use gunicorn for Django production server" None
       (Some "web: gunicorn myproject.wsgi:application --bind 0.0.0.0:$PORT")
       (Some ["Add gunicorn to requirements.txt";
              "Create/update Procfile with gunicorn command"])).

Definition djangoNoGunicornRequirementIssue (requirementsPath : string) : Issue :=
  mkIssue "django-no-gunicorn-requirement" SevError CatStartCommand
    "gunicorn not found in requirements.txt"
    (Some requirementsPath) None
    (mkFix "Add gunicorn to requirements.txt" None
       (Some "gunicorn")
       (Some ["Add 'gunicorn' to requirements.txt"])).

Definition isDjango (fw : Framework) : bool := frameworkName_eqb (name fw) django.

(** The Python branch; its two [readFileSync] are outside any [try]. *)
Definition pythonStartIssues (projectPath : string) (fw : Framework) : Result (list Issue) :=
  let procfilePath := join projectPath "Procfile" in
  let requirementsPath := join projectPath "requirements.txt" in
  procIssues <-
    (if negb (existsSync w procfilePath) then Ok [pythonNoProcfileIssue procfilePath fw]
     else
       procfile <- readFile procfilePath ;;
       Ok (if isDjango fw && negb (Js.includes procfile "gunicorn")
           then [djangoNoGunicornProcfileIssue procfilePath] else [])) ;;
  reqIssues <-
    (if existsSync w requirementsPath then
       requirements <- readFile requirementsPath ;;
       Ok (if isDjango fw && negb (Js.includes requirements "gunicorn")
           then [djangoNoGunicornRequirementIssue requirementsPath] else [])
     else Ok []) ;;
  Ok (procIssues ++ reqIssues)%list.

Definition checkStartCommand (projectPath : string) (fw : Framework) : Result (list Issue) :=
  if isNode fw then
    let packageJsonPath := join projectPath "package.json" in
    if negb (existsSync w packageJsonPath) then Ok [noPackageJsonIssue packageJsonPath]
    else
      let '(pushed, completed) := nodeStartBody packageJsonPath fw in
      Ok (if completed then pushed
          else (pushed ++ [invalidPackageJsonIssue packageJsonPath])%list)
  else if isPython fw then pythonStartIssues projectPath fw
  else Ok [].

(* --------------------------------------------------------------------- *)
(** *** checks/envVarsCheck.ts *)
(* --------------------------------------------------------------------- *)

(** [/process\.env\.(\w+)/g] *)
Definition jsEnvRegex : Regex.regex :=
  Regex.Seqs [Regex.Lit "process.env."; Regex.Grp 1 (Regex.Plus Regex.word)].

Definition quoteChar : Regex.regex := Regex.oneOf ("'" ++ Js.dq).

(** [os\.(?:environ\.get|getenv)\(] a quote, [(\w+)], a quote, [\)], with
    the [g] flag. *)
Definition pyEnvRegex : Regex.regex :=
  Regex.Seqs [Regex.Lit "os."; Regex.Alt (Regex.Lit "environ.get") (Regex.Lit "getenv");
              Regex.Chr "("; quoteChar; Regex.Grp 1 (Regex.Plus Regex.word); quoteChar;
              Regex.Chr ")"].

(** [os\.environ\[] a quote, [(\w+)], a quote, [\]], with the [g] flag. *)
Definition pyEnvBracketRegex : Regex.regex :=
  Regex.Seqs [Regex.Lit "os.environ["; quoteChar; Regex.Grp 1 (Regex.Plus Regex.word);
              quoteChar; Regex.Chr "]"].

(** [set.add(x)] on a [Set], which keeps insertion order. *)
Definition setAdd (x : string) (set : list string) : list string :=
  if existsb (String.eqb x) set then set else (set ++ [x])%list.

(** [while ((match = re.exec(content)) !== null) { match[1] && envVars.add(match[1]); }] *)
Definition addMatches (re : Regex.regex) (content : string) (envVars : list string)
  : list string :=
  fold_left
    (fun acc m =>
       match Regex.group 1 (Regex.m_caps m) with
       | Some v => if Js.nonEmpty v then setAdd v acc else acc
       | None => acc
       end)
    (Regex.matchAll false re content) envVars.

Definition addFileEnvVars (envVars : list string) (content : string) : list string :=
  addMatches pyEnvBracketRegex content
    (addMatches pyEnvRegex content (addMatches jsEnvRegex content envVars)).

Definition findEnvVarReferences (projectPath : string) (fw : Framework) : list string :=
  match scannedFiles projectPath fw sourceIgnore 50 with
  | None => []
  | Some files => fold_left (fun acc fc => addFileEnvVars acc (snd fc)) files []
  end.

Definition envFileNotIgnoredIssue (gitignorePath : string) : Issue :=
  mkIssue "env-file-not-ignored" SevWarning CatEnvVars
    ".env file exists but is not in .gitignore (security risk)"
    (Some gitignorePath) None
    (mkFix "Add .env to .gitignore to prevent committing secrets" None
       (Some ".env")
       (Some ["Add '.env' to your .gitignore file";
              "Never commit .env files to version control";
              "Use Railway environment variables instead"])).

Definition envFileIgnoredPass : PassedCheck :=
  mkPassed "env-file-ignored" "env-vars" ".env file is properly ignored in .gitignore".

Definition noEnvFilePass : PassedCheck :=
  mkPassed "no-env-file" "env-vars"
    "No .env file found (good - use Railway environment variables)".

Definition commonEnvVars : list string := ["PORT"; "NODE_ENV"; "DATABASE_URL"].

Definition envVarsNeededIssue (size : nat) (otherVars : list string) : Issue :=
  mkIssue "env-vars-needed" SevInfo CatEnvVars
    ("Found " ++ Js.natToString size ++ " environment variable"
       ++ (if Nat.ltb 1 size then "s" else EmptyString) ++ " in your code")
    None None
    (mkFix "Set these environment variables in Railway" None None
       (Some ["Environment variables detected: " ++ Js.join ", " (firstn 10 otherVars)
                ++ (if Nat.ltb 10 (List.length otherVars) then "..." else EmptyString);
              "Go to your Railway project settings";
              "Add each variable in the Variables section";
              "Railway will inject these at runtime"])).

(** The secrets-hygiene part of [checkEnvVars]; reading [.gitignore] is
    outside any [try]. *)
Definition envHygiene (projectPath : string) : Result CheckResult :=
  let dotEnvPath := join projectPath ".env" in
  let gitignorePath := join projectPath ".gitignore" in
  let hasDotEnv := existsSync w dotEnvPath in
  let hasGitignore := existsSync w gitignorePath in
  ignored <-
    (if hasDotEnv && hasGitignore then
       gitignoreContent <- readFile gitignorePath ;;
       let isDotEnvIgnored := Js.includes gitignoreContent ".env" in
       Ok (if negb isDotEnvIgnored then ([envFileNotIgnoredIssue gitignorePath], [])
           else ([], [envFileIgnoredPass]))
     else Ok ([], [])) ;;
  Ok (fst ignored,
      (snd ignored ++ (if negb hasDotEnv && negb hasGitignore then [noEnvFilePass] else []))%list).

(** The usage-inventory part. *)
Definition envInventory (envVars : list string) : list Issue :=
  if Nat.ltb 0 (List.length envVars) then
    let otherVars :=
      filter (fun v => negb (existsb (String.eqb v) commonEnvVars)
                       && negb (Js.includes v "npm_")) envVars in
    if Nat.ltb 0 (List.length otherVars)
    then [envVarsNeededIssue (List.length envVars) otherVars] else []
  else [].

Definition checkEnvVars (projectPath : string) (fw : Framework) : Result CheckResult :=
  let envVars := findEnvVarReferences projectPath fw in
  hygiene <- envHygiene projectPath ;;
  Ok ((fst hygiene ++ envInventory envVars)%list, snd hygiene).

(* --------------------------------------------------------------------- *)
(** *** checks/databaseCheck.ts *)
(* --------------------------------------------------------------------- *)

Definition noDatabasePass : PassedCheck :=
  mkPassed "no-database" "database" "No database libraries detected".

Definition databaseConfigOkPass : PassedCheck :=
  mkPassed "database-config-ok" "database" "Database configuration looks good".

(** [Object.entries(dbLibs)] *)
Definition dbLibs : list (string * string) :=
  [("pg", "PostgreSQL"); ("postgres", "PostgreSQL"); ("mysql", "MySQL");
   ("mysql2", "MySQL"); ("mongodb", "MongoDB"); ("mongoose", "MongoDB");
   ("@prisma/client", "Prisma"); ("prisma", "Prisma"); ("typeorm", "TypeORM");
   ("sequelize", "Sequelize"); ("knex", "Knex")].

(** [[...new Set(libraries)]] *)
Definition dedup (xs : list string) : list string :=
  fold_left (fun acc x => setAdd x acc) xs [].

Definition nodeLibraries (projectPath : string) : Result (list string) :=
  packageJson <- readJson (join projectPath "package.json") ;;
  deps <- getProp packageJson "dependencies" ;;
  devDeps <- getProp packageJson "devDependencies" ;;
  let merged := spread2 deps devDeps in
  Ok (map snd (filter (fun entry => truthyV (lookup (fst entry) merged)) dbLibs)).

Definition pythonLibraries (requirements : string) : list string :=
  ((if Js.includes requirements "psycopg" || Js.includes requirements "pg8000"
    then ["PostgreSQL"] else [])
   ++ (if Js.includes requirements "pymongo" then ["MongoDB"] else [])
   ++ (if Js.includes requirements "mysqlclient" || Js.includes requirements "pymysql"
       then ["MySQL"] else [])
   ++ (if Js.includes requirements "sqlalchemy" then ["SQLAlchemy"] else []))%list.

Definition detectDatabaseLibraries (projectPath : string) (fw : Framework)
  : Result (list string) :=
  let fromNode :=
    if isNode fw then
      if existsSync w (join projectPath "package.json")
      then tryCatch (nodeLibraries projectPath) []
      else []
    else [] in
  fromPython <-
    (if isPython fw then
       let requirementsPath := join projectPath "requirements.txt" in
       if existsSync w requirementsPath then
         text <- readFile requirementsPath ;;
         Ok (pythonLibraries (Js.toLowerCase text))
       else Ok []
     else Ok []) ;;
  Ok (dedup (fromNode ++ fromPython)%list).

(** The four expressions of [localhostPatterns]: an optional quote,
    [localhost], an optional quote, with the [i] flag; the same around
    [127\.0\.0\.1], without it; [host\s*[:=]\s*], a quote, [localhost], a
    quote, with the [i] flag; the same around [127\.0\.0\.1]. *)
Definition localhostPatterns : list (bool * Regex.regex) :=
  [(true, Regex.Seqs [Regex.Opt quoteChar; Regex.Lit "localhost"; Regex.Opt quoteChar]);
   (false, Regex.Seqs [Regex.Opt quoteChar; Regex.Lit "127.0.0.1"; Regex.Opt quoteChar]);
   (true, Regex.Seqs [Regex.Lit "host"; Regex.Star Regex.space; Regex.oneOf ":=";
                      Regex.Star Regex.space; quoteChar; Regex.Lit "localhost"; quoteChar]);
   (true, Regex.Seqs [Regex.Lit "host"; Regex.Star Regex.space; Regex.oneOf ":=";
                      Regex.Star Regex.space; quoteChar; Regex.Lit "127.0.0.1"; quoteChar])].

Definition hasConnectionKeyword (line : string) : bool :=
  Js.includes line "connect" || Js.includes line "host"
  || Js.includes line "DATABASES" || Js.includes line "createConnection".

(** Some pattern matches the line and the line holds a keyword. *)
Definition lineHitsLocalhost (line : string) : bool :=
  existsb (fun p => Regex.test (fst p) (snd p) line && hasConnectionKeyword line)
          localhostPatterns.

(** What the scan of connection strings remembers from file to file. *)
Record DbScan : Type := mkDbScan {
  hasLocalhost : bool;
  hasSocketConnection : bool;
  hasDatabaseUrl : bool;
  localhostAt : option (string * nat)
}.

(** [for (let i = 0; i < lines.length; i++)]: an empty line is skipped; a
    hit records the file and the 1-based line; the loop stops as soon as
    [hasLocalhost] holds, also when an earlier file set it. *)
Fixpoint scanLinesForLocalhost (file : string) (lines : list string) (i : nat)
         (found : bool) (at_ : option (string * nat)) : bool * option (string * nat) :=
  match lines with
  | [] => (found, at_)
  | line :: rest =>
    if negb (Js.nonEmpty line) then scanLinesForLocalhost file rest (S i) found at_
    else if lineHitsLocalhost line then (true, Some (file, S i))
    else if found then (found, at_)
    else scanLinesForLocalhost file rest (S i) found at_
  end.

Definition refsDatabaseUrl (content : string) : bool :=
  Js.includes content "DATABASE_URL" || Js.includes content "database_url".

Definition refsSocket (content : string) : bool :=
  Js.includes content "/var/run/postgresql" || Js.includes content "/tmp/mysql.sock".

(** Some line of the file holds a localhost literal next to a connection
    keyword. *)
Definition fileHitsLocalhost (fc : string * string) : bool :=
  existsb lineHitsLocalhost (Js.splitLines (snd fc)).

Definition scanFileForDatabase (st : DbScan) (fc : string * string) : DbScan :=
  let file := fst fc in
  let content := snd fc in
  let url := hasDatabaseUrl st || refsDatabaseUrl content in
  let '(found, at_) :=
    scanLinesForLocalhost file (Js.splitLines content) 0 (hasLocalhost st) (localhostAt st) in
  let socket := hasSocketConnection st || refsSocket content in
  mkDbScan found socket url at_.

Definition databaseLocalhostIssue (projectPath : string) (at_ : option (string * nat))
           (dbLibraries : list string) : Issue :=
  mkIssue "database-localhost" SevError CatDatabase
    "Database connection uses localhost, which won't work on Railway"
    (match at_ with
     | Some (file, _) => if Js.nonEmpty file then Some (join projectPath file) else None
     | None => None
     end)
    (option_map snd at_)
    (mkFix "Use DATABASE_URL environment variable for database connection"
       (Some "host: 'localhost'")
       (Some "connectionString: process.env.DATABASE_URL")
       (Some ["Replace hardcoded localhost with DATABASE_URL env var";
              "Railway provides DATABASE_URL automatically when you add a database";
              "Example for " ++ Js.join "/" dbLibraries ++ ":";
              "  const client = new Client({ connectionString: process.env.DATABASE_URL })"])).

Definition databaseSocketIssue : Issue :=
  mkIssue "database-socket" SevError CatDatabase
    "Database connection uses Unix socket, which won't work on Railway"
    None None
    (mkFix "Use TCP connection with DATABASE_URL instead of Unix socket" None None
       (Some ["Remove socket file paths from database configuration";
              "Use DATABASE_URL environment variable";
              "Railway databases use TCP connections, not Unix sockets"])).

Definition databaseUrlRecommendedIssue (dbLibraries : list string) : Issue :=
  mkIssue "database-url-recommended" SevInfo CatDatabase
    ("Detected " ++ Js.join ", " dbLibraries ++ " - ensure you're using DATABASE_URL on Railway")
    None None
    (mkFix "Use DATABASE_URL environment variable" None None
       (Some ["Add a database service in your Railway project";
              "Railway will automatically inject DATABASE_URL";
              "Use this variable in your database connection code"])).

Definition databaseScan (files : list (string * string)) : DbScan :=
  fold_left scanFileForDatabase files (mkDbScan false false false None).

Definition findDatabaseConnectionIssues (projectPath : string) (fw : Framework)
           (dbLibraries : list string) : list Issue :=
  match scannedFiles projectPath fw sourceIgnore 30 with
  | None => []
  | Some files =>
    let st := databaseScan files in
    ((if hasLocalhost st && negb (hasDatabaseUrl st)
      then [databaseLocalhostIssue projectPath (localhostAt st) dbLibraries] else [])
     ++ (if hasSocketConnection st then [databaseSocketIssue] else [])
     ++ (if Nat.ltb 0 (List.length dbLibraries) && negb (hasDatabaseUrl st)
            && negb (hasLocalhost st)
         then [databaseUrlRecommendedIssue dbLibraries] else []))%list
  end.

Definition checkDatabaseConfig (projectPath : string) (fw : Framework) : Result CheckResult :=
  dbLibraries <- detectDatabaseLibraries projectPath fw ;;
  match dbLibraries with
  | [] => Ok ([], [noDatabasePass])
  | _ =>
    let connectionIssues := findDatabaseConnectionIssues projectPath fw dbLibraries in
    Ok (connectionIssues,
        match connectionIssues with [] => [databaseConfigOkPass] | _ => [] end)
  end.

(* --------------------------------------------------------------------- *)
(** *** scanner/pythonAnalyzer.ts *)
(* --------------------------------------------------------------------- *)

Record DjangoSettings : Type := mkDjangoSettings {
  allowedHosts : list string;
  debug : option bool;
  hasWhitenoise : bool;
  settingsHasDatabaseUrl : bool;
  hasStaticRoot : bool;
  csrfTrustedOrigins : list string
}.

Record PythonFileAnalysis : Type := mkAnalysis {
  hasFlaskApp : bool;
  hasFastAPIApp : bool;
  djangoSettings : option DjangoSettings;
  imports : list string
}.

(** [/^(?:from|import)\s+([a-zA-Z0-9_.]+)/] *)
Definition importRegex : Regex.regex :=
  Regex.Seqs [Regex.Bol; Regex.Alt (Regex.Lit "from") (Regex.Lit "import");
              Regex.Plus Regex.space;
              Regex.Grp 1 (Regex.Plus
                 (Regex.Cls (fun a => Js.isWord a || Ascii.eqb a "."%char)))].

(** [/app\s*=\s*Flask\s*\(/] and [/app\s*=\s*FastAPI\s*\(/] *)
Definition appInitRegex (ctor : string) : Regex.regex :=
  Regex.Seqs [Regex.Lit "app"; Regex.Star Regex.space; Regex.Chr "=";
              Regex.Star Regex.space; Regex.Lit ctor; Regex.Star Regex.space;
              Regex.Chr "("].

(** [/NAME \s* = \s* \[ ( [^\]]* ) \]/s], written here with blanks
    between its parts, for [ALLOWED_HOSTS] and [CSRF_TRUSTED_ORIGINS]. *)
Definition listSettingRegex (settingName : string) : Regex.regex :=
  Regex.Seqs [Regex.Lit settingName; Regex.Star Regex.space; Regex.Chr "=";
              Regex.Star Regex.space; Regex.Chr "[";
              Regex.Grp 1 (Regex.Star (Regex.noneOf "]")); Regex.Chr "]"].

(** A quote, one or more code units that are not quotes (group 1), a
    quote; with the [g] flag. *)
Definition quotedRegex : Regex.regex :=
  Regex.Seqs [quoteChar; Regex.Grp 1 (Regex.Plus (Regex.noneOf ("'" ++ Js.dq))); quoteChar].

(** [/DEBUG\s*=\s*(True|False)/] *)
Definition debugRegex : Regex.regex :=
  Regex.Seqs [Regex.Lit "DEBUG"; Regex.Star Regex.space; Regex.Chr "=";
              Regex.Star Regex.space;
              Regex.Grp 1 (Regex.Alt (Regex.Lit "True") (Regex.Lit "False"))].

(** [/STATIC_ROOT\s*=/] *)
Definition staticRootRegex : Regex.regex :=
  Regex.Seqs [Regex.Lit "STATIC_ROOT"; Regex.Star Regex.space; Regex.Chr "="].

(** [h.replace] of every single or double quote by nothing: the string
    without its quotes. *)
Fixpoint stripQuotes (h : string) : string :=
  match h with
  | EmptyString => EmptyString
  | String a h' =>
    if Ascii.eqb a "'"%char || Ascii.eqb a "034"%char then stripQuotes h'
    else String a (stripQuotes h')
  end.

(** The quoted entries of the list literal assigned to [settingName];
    empty when the setting or its entries are absent. *)
Definition listSetting (settingName content : string) : list string :=
  match Regex.exec false (listSettingRegex settingName) content 0 with
  | Some m =>
    match Regex.group 1 (Regex.m_caps m) with
    | Some inner =>
      map (fun h => stripQuotes (Regex.matched inner h))
          (Regex.matchAll false quotedRegex inner)
    | None => []
    end
  | None => []
  end.

Definition parseDjangoSettings (content : string) : DjangoSettings :=
  mkDjangoSettings
    (listSetting "ALLOWED_HOSTS" content)
    (match Regex.exec false debugRegex content 0 with
     | Some m => option_map (fun v => String.eqb v "True") (Regex.group 1 (Regex.m_caps m))
     | None => None
     end)
    (Js.includes content "whitenoise")
    (Js.includes content "DATABASE_URL" || Js.includes content "dj_database_url"
     || Js.includes content "dj-database-url")
    (Regex.test false staticRootRegex content)
    (listSetting "CSRF_TRUSTED_ORIGINS" content).

Definition lineImport (line : string) : list string :=
  match Regex.exec false importRegex line 0 with
  | Some m =>
    match Regex.group 1 (Regex.m_caps m) with
    | Some target => [target]
    | None => []
    end
  | None => []
  end.

(** Reading the file is outside any [try]. *)
Definition analyzePythonFile (filePath : string) : Result PythonFileAnalysis :=
  if negb (existsSync w filePath) then Ok (mkAnalysis false false None [])
  else
    content <- readFile filePath ;;
    Ok (mkAnalysis
          (Regex.test false (appInitRegex "Flask") content)
          (Regex.test false (appInitRegex "FastAPI") content)
          (if Js.includes filePath "settings.py"
           then Some (parseDjangoSettings content) else None)
          (flat_map lineImport (Js.splitLines content))).

Definition pythonIgnore : list string := ["venv/**"; "env/**"; ".venv/**"; "node_modules/**"].

Definition findDjangoSettings (projectPath : string) : option string :=
  match glob w (mkGlob ["**/settings.py"] projectPath pythonIgnore 3) with
  | Some (first :: _) => Some (join projectPath first)
  | _ => None
  end.

Fixpoint firstExistingPath (projectPath : string) (candidates : list string) : option string :=
  match candidates with
  | [] => None
  | candidate :: rest =>
    if existsSync w (join projectPath candidate) then Some (join projectPath candidate)
    else firstExistingPath projectPath rest
  end.

Definition findPythonMainFile (projectPath : string) (candidates : list string)
  : option string :=
  match firstExistingPath projectPath candidates with
  | Some filePath => Some filePath
  | None =>
    match glob w (mkGlob ["**/{app,main,wsgi,application}.py"] projectPath pythonIgnore 3) with
    | Some (first :: _) => Some (join projectPath first)
    | _ => None
    end
  end.

(** [if (!path)] on a path that may be [null]: also the empty string is
    falsy. *)
Definition truthyPath (path : option string) : option string :=
  match path with
  | Some p0 => if Js.nonEmpty p0 then Some p0 else None
  | None => None
  end.

(* --------------------------------------------------------------------- *)
(** *** frameworks/django.ts *)
(* --------------------------------------------------------------------- *)

Definition djangoNoSettingsIssue : Issue :=
  mkIssue "django-no-settings" SevError CatStartCommand
    "Django settings.py file not found"
    None None
    (mkFix "Ensure your Django project has a settings.py file" None None
       (Some ["Verify your Django project structure is correct";
              "settings.py should be in your Django app directory"])).

Definition djangoAllowedHosts (settingsPath : string) (hosts : list string) : CheckResult :=
  if Nat.eqb (List.length hosts) 0
     || (Nat.eqb (List.length hosts) 1
         && match hosts with h :: _ => String.eqb h EmptyString | [] => false end)
  then
    ([mkIssue "django-empty-allowed-hosts" SevError CatHost
        "ALLOWED_HOSTS is empty - Django will reject all requests on Railway"
        (Some settingsPath) None
        (mkFix "Add Railway domains to ALLOWED_HOSTS"
           (Some "ALLOWED_HOSTS = []")
           (Some "ALLOWED_HOSTS = ['*']  # Or specify Railway domain")
           (Some ["Update ALLOWED_HOSTS in settings.py";
                  "Use ['*'] for wildcard or add your Railway domain";
                  "Example: ALLOWED_HOSTS = ['.railway.app', 'yourdomain.com']"]))], [])
  else if negb (existsb (String.eqb "*") hosts)
          && negb (existsb (fun h => Js.includes h "railway.app") hosts)
  then
    ([mkIssue "django-no-railway-hosts" SevWarning CatHost
        "ALLOWED_HOSTS doesn't include Railway domains"
        (Some settingsPath) None
        (mkFix "Add Railway domains to ALLOWED_HOSTS" None None
           (Some ["Add '.railway.app' to ALLOWED_HOSTS";
                  "Or use ['*'] to allow all hosts";
                  "Current hosts: " ++ Js.join ", " hosts]))], [])
  else ([], [mkPassed "django-allowed-hosts" "host" "ALLOWED_HOSTS configured correctly"]).

Definition djangoDebug (settingsPath : string) (dbg : option bool) : CheckResult :=
  match dbg with
  | Some true =>
    ([mkIssue "django-debug-true" SevWarning CatStartCommand
        "DEBUG is set to True - should be False in production"
        (Some settingsPath) None
        (mkFix "Set DEBUG based on environment variable"
           (Some "DEBUG = True")
           (Some "DEBUG = os.environ.get('DEBUG', 'False') == 'True'")
           (Some ["Use environment variable to control DEBUG";
                  "Set DEBUG=False in Railway environment variables"]))], [])
  | Some false =>
    ([], [mkPassed "django-debug-false" "start-command" "DEBUG is correctly set to False"])
  | None => ([], [])
  end.

Definition djangoWhitenoise (settingsPath : string) (present : bool) : CheckResult :=
  if negb present then
    ([mkIssue "django-no-whitenoise" SevError CatStaticFiles
        "Whitenoise not detected - static files won't be served on Railway"
        (Some settingsPath) None
        (mkFix "Install and configure whitenoise for static files" None None
           (Some ["Add 'whitenoise' to requirements.txt";
                  "Add 'whitenoise.middleware.WhiteNoiseMiddleware' to MIDDLEWARE in settings.py";
                  "Add after SecurityMiddleware, before other middleware";
                  "Set STATIC_ROOT = BASE_DIR / 'staticfiles'"]))], [])
  else ([], [mkPassed "django-whitenoise" "static-files"
               "Whitenoise configured for static files"]).

Definition djangoStaticRoot (settingsPath : string) (present : bool) : CheckResult :=
  if negb present then
    ([mkIssue "django-no-static-root" SevWarning CatStaticFiles
        "STATIC_ROOT not set"
        (Some settingsPath) None
        (mkFix "Set STATIC_ROOT for collectstatic" None
           (Some "STATIC_ROOT = BASE_DIR / 'staticfiles'")
           (Some ["Add STATIC_ROOT to settings.py";
                  "Run 'python manage.py collectstatic' before deployment"]))], [])
  else ([], []).

Definition djangoDatabaseUrl (settingsPath : string) (present : bool) : CheckResult :=
  if negb present then
    ([mkIssue "django-no-database-url" SevWarning CatDatabase
        "DATABASE_URL not detected - database configuration may be hardcoded"
        (Some settingsPath) None
        (mkFix "Use dj-database-url for Railway database" None None
           (Some ["Add 'dj-database-url' to requirements.txt";
                  "Import: import dj_database_url";
                  "Use: DATABASES['default'] = dj_database_url.config(conn_max_age=600)";
                  "Railway automatically provides DATABASE_URL"]))], [])
  else ([], [mkPassed "django-database-url" "database" "DATABASE_URL configuration detected"]).

Definition djangoCsrf (settingsPath : string) (origins : list string) : CheckResult :=
  if Nat.eqb (List.length origins) 0 then
    ([mkIssue "django-no-csrf-origins" SevInfo CatHost
        "CSRF_TRUSTED_ORIGINS not set - may need for Django 4.0+"
        (Some settingsPath) None
        (mkFix "Add Railway domain to CSRF_TRUSTED_ORIGINS" None
           (Some "CSRF_TRUSTED_ORIGINS = ['https://*.railway.app']")
           (Some ["Required for Django 4.0+ on Railway";
                  "Add your Railway domain to CSRF_TRUSTED_ORIGINS"]))], [])
  else ([], []).

Definition djangoNoGunicornIssue (requirementsPath : string) : Issue :=
  mkIssue "django-no-gunicorn" SevError CatStartCommand
    "gunicorn not found in requirements.txt"
    (Some requirementsPath) None
    (mkFix "Add gunicorn for production server" None
       (Some "gunicorn")
       (Some ["Add 'gunicorn' to requirements.txt";
              "Gunicorn is required for Django production on Railway"])).

(** [issues.push(...)] and [passed.push(...)] of one step after another. *)
Definition both (a b : CheckResult) : CheckResult :=
  ((fst a ++ fst b)%list, (snd a ++ snd b)%list).

Definition checkDjango (projectPath : string) (fw : Framework) : Result CheckResult :=
  match truthyPath (findDjangoSettings projectPath) with
  | None => Ok ([djangoNoSettingsIssue], [])
  | Some settingsPath =>
    analysis <- analyzePythonFile settingsPath ;;
    match djangoSettings analysis with
    | None => Ok ([], [])
    | Some settings =>
      let requirementsPath := join projectPath "requirements.txt" in
      gunicorn <-
        (if existsSync w requirementsPath then
           text <- readFile requirementsPath ;;
           Ok (if negb (Js.includes (Js.toLowerCase text) "gunicorn")
               then ([djangoNoGunicornIssue requirementsPath], []) else ([], []))
         else Ok ([], [])) ;;
      Ok (both (djangoAllowedHosts settingsPath (allowedHosts settings))
         (both (djangoDebug settingsPath (debug settings))
         (both (djangoWhitenoise settingsPath (hasWhitenoise settings))
         (both (djangoStaticRoot settingsPath (hasStaticRoot settings))
         (both (djangoDatabaseUrl settingsPath (settingsHasDatabaseUrl settings))
         (both (djangoCsrf settingsPath (csrfTrustedOrigins settings)) gunicorn))))))
    end
  end.

(* --------------------------------------------------------------------- *)
(** *** frameworks/flask.ts *)
(* --------------------------------------------------------------------- *)

Definition flaskNoAppFileIssue : Issue :=
  mkIssue "flask-no-app-file" SevWarning CatStartCommand
    "Could not find Flask app file (app.py, main.py, etc.)"
    None None
    (mkFix "Ensure your Flask app file exists" None None
       (Some ["Common Flask entry points: app.py, main.py, wsgi.py";
              "Make sure your Flask app is properly defined"])).

Definition flaskNoAppInitIssue (mainFile : string) : Issue :=
  mkIssue "flask-no-app-init" SevWarning CatStartCommand
    "Flask app initialization not detected"
    (Some mainFile) None
    (mkFix "Ensure Flask app is properly initialized" None
       (Some "app = Flask(__name__)")
       (Some ["Your Flask app should be initialized with Flask(__name__)"])).

Definition flaskDebugModeIssue (mainFile : string) : Issue :=
  mkIssue "flask-debug-mode" SevError CatStartCommand
    "Flask debug mode detected - should not be used in production"
    (Some mainFile) None
    (mkFix "Remove debug mode and use gunicorn for production"
       (Some "app.run(debug=True)")
       (Some "app.run()  # Or remove entirely and use gunicorn")
       (Some ["Remove debug=True from app.run()";
              "Use gunicorn instead of Flask development server";
              "Example Procfile: web: gunicorn app:app --bind 0.0.0.0:$PORT"])).

Definition flaskDevServerIssue (mainFile : string) : Issue :=
  mkIssue "flask-dev-server" SevWarning CatStartCommand
    "Flask development server (app.run()) detected"
    (Some mainFile) None
    (mkFix "Use gunicorn for production instead of app.run()" None None
       (Some ["Add gunicorn to requirements.txt";
              "Create Procfile: web: gunicorn app:app --bind 0.0.0.0:$PORT";
              "Remove or wrap app.run() in if __name__ == '__main__'"])).

(** [/app\.run\([^)]*debug\s*=\s*True/] *)
Definition flaskDebugRegex : Regex.regex :=
  Regex.Seqs [Regex.Lit "app.run("; Regex.Star (Regex.noneOf ")"); Regex.Lit "debug";
              Regex.Star Regex.space; Regex.Chr "="; Regex.Star Regex.space;
              Regex.Lit "True"].

(** The three findings on a [Procfile] that Flask and FastAPI share up to
    their texts, and the pass when server, address and port are all
    there. *)
Definition procfileIssue (id : string) (cat : Category) (message procfilePath : string)
           (description : string) (after : option string) (steps : list string) : Issue :=
  mkIssue id SevError cat message (Some procfilePath) None
    (mkFix description None after (Some steps)).

Definition hasPortRef (procfile : string) : bool :=
  Js.includes procfile "$PORT" || Js.includes procfile "${PORT}".

Definition flaskProcfile (procfilePath procfile : string) : CheckResult :=
  (((if negb (Js.includes procfile "gunicorn") then
       [procfileIssue "flask-procfile-no-gunicorn" CatStartCommand
          "Procfile doesn't use gunicorn" procfilePath
          "Use gunicorn in Procfile"
          (Some "web: gunicorn app:app --bind 0.0.0.0:$PORT")
          ["Update Procfile to use gunicorn";
           "Format: web: gunicorn module:app --bind 0.0.0.0:$PORT";
           "Replace 'module' with your Python file name (without .py)"]]
     else [])
    ++ (if negb (Js.includes procfile "0.0.0.0") then
          [procfileIssue "flask-procfile-no-host" CatHost
             "Procfile doesn't bind to 0.0.0.0" procfilePath
             "Add --bind 0.0.0.0:$PORT to gunicorn command" None
             ["Update Procfile to bind to 0.0.0.0";
              "Example: web: gunicorn app:app --bind 0.0.0.0:$PORT"]]
        else [])
    ++ (if negb (hasPortRef procfile) then
          [procfileIssue "flask-procfile-no-port" CatPort
             "Procfile doesn't use $PORT environment variable" procfilePath
             "Use $PORT in gunicorn bind address" None
             ["Update Procfile to use $PORT";
              "Example: web: gunicorn app:app --bind 0.0.0.0:$PORT"]]
        else []))%list,
   if Js.includes procfile "gunicorn" && Js.includes procfile "0.0.0.0" && hasPortRef procfile
   then [mkPassed "flask-procfile-correct" "start-command"
           "Procfile configured correctly for Railway"]
   else []).

Definition checkFlask (projectPath : string) (fw : Framework) : Result CheckResult :=
  match truthyPath (findPythonMainFile projectPath
                      ["app.py"; "main.py"; "wsgi.py"; "application.py"]) with
  | None => Ok ([flaskNoAppFileIssue], [])
  | Some mainFile =>
    analysis <- analyzePythonFile mainFile ;;
    content <- readFile mainFile ;;
    let initIssues :=
      if negb (hasFlaskApp analysis) then [flaskNoAppInitIssue mainFile] else [] in
    let runIssues :=
      if Js.includes content "app.run(" then
        ((if Regex.test false flaskDebugRegex content then [flaskDebugModeIssue mainFile]
          else []) ++ [flaskDevServerIssue mainFile])%list
      else [] in
    let requirementsPath := join projectPath "requirements.txt" in
    gunicorn <-
      (if existsSync w requirementsPath then
         text <- readFile requirementsPath ;;
         Ok (if negb (Js.includes (Js.toLowerCase text) "gunicorn") then
               ([mkIssue "flask-no-gunicorn" SevError CatStartCommand
                   "gunicorn not found in requirements.txt"
                   (Some requirementsPath) None
                   (mkFix "Add gunicorn for production server" None
                      (Some "gunicorn")
                      (Some ["Add 'gunicorn' to requirements.txt";
                             "Gunicorn is the recommended production server for Flask"]))],
                [])
             else ([], [mkPassed "flask-has-gunicorn" "start-command"
                          "Gunicorn found in requirements.txt"]))
       else Ok ([], [])) ;;
    let procfilePath := join projectPath "Procfile" in
    proc <-
      (if existsSync w procfilePath then
         procfile <- readFile procfilePath ;;
         Ok (flaskProcfile procfilePath procfile)
       else Ok ([], [])) ;;
    Ok (both ((initIssues ++ runIssues)%list, []) (both gunicorn proc))
  end.

(* --------------------------------------------------------------------- *)
(** *** frameworks/fastapi.ts *)
(* --------------------------------------------------------------------- *)

Definition fastapiNoAppFileIssue : Issue :=
  mkIssue "fastapi-no-app-file" SevWarning CatStartCommand
    "Could not find FastAPI app file (main.py, app.py, etc.)"
    None None
    (mkFix "Ensure your FastAPI app file exists" None None
       (Some ["Common FastAPI entry points: main.py, app.py";
              "Make sure your FastAPI app is properly defined"])).

Definition fastapiNoAppInitIssue (mainFile : string) : Issue :=
  mkIssue "fastapi-no-app-init" SevWarning CatStartCommand
    "FastAPI app initialization not detected"
    (Some mainFile) None
    (mkFix "Ensure FastAPI app is properly initialized" None
       (Some "app = FastAPI()")
       (Some ["Your FastAPI app should be initialized with FastAPI()"])).

Definition fastapiDevServerIssue (mainFile : string) : Issue :=
  mkIssue "fastapi-dev-server" SevWarning CatStartCommand
    "uvicorn.run() detected - use command line uvicorn for production"
    (Some mainFile) None
    (mkFix "Use command line uvicorn instead of uvicorn.run()" None None
       (Some ["Remove uvicorn.run() from your code";
              "Use Procfile with: web: uvicorn main:app --host 0.0.0.0 --port $PORT";
              "Or wrap in: if __name__ == '__main__': uvicorn.run()"])).

Definition fastapiNoWorkersIssue (procfilePath : string) : Issue :=
  mkIssue "fastapi-no-workers" SevInfo CatStartCommand
    "Consider adding workers for better performance"
    (Some procfilePath) None
    (mkFix "Add workers to uvicorn for production" None None
       (Some ["Add --workers flag to uvicorn command";
              "Example: web: uvicorn main:app --host 0.0.0.0 --port $PORT --workers 4";
              "Workers enable concurrent request handling"])).

Definition fastapiProcfile (procfilePath procfile : string) : CheckResult :=
  (((if negb (Js.includes procfile "uvicorn") then
       [procfileIssue "fastapi-procfile-no-uvicorn" CatStartCommand
          "Procfile doesn't use uvicorn" procfilePath
          "Use uvicorn in Procfile"
          (Some "web: uvicorn main:app --host 0.0.0.0 --port $PORT")
          ["Update Procfile to use uvicorn";
           "Format: web: uvicorn module:app --host 0.0.0.0 --port $PORT";
           "Replace 'module' with your Python file name (without .py)"]]
     else [])
    ++ (if negb (Js.includes procfile "0.0.0.0") then
          [procfileIssue "fastapi-procfile-no-host" CatHost
             "Procfile doesn't bind to 0.0.0.0" procfilePath
             "Add --host 0.0.0.0 to uvicorn command" None
             ["Update Procfile to bind to 0.0.0.0";
              "Example: web: uvicorn main:app --host 0.0.0.0 --port $PORT"]]
        else [])
    ++ (if negb (hasPortRef procfile) then
          [procfileIssue "fastapi-procfile-no-port" CatPort
             "Procfile doesn't use $PORT environment variable" procfilePath
             "Use $PORT in uvicorn command" None
             ["Update Procfile to use $PORT";
              "Example: web: uvicorn main:app --host 0.0.0.0 --port $PORT"]]
        else [])
    ++ (if Js.includes procfile "uvicorn" && negb (Js.includes procfile "--workers")
        then [fastapiNoWorkersIssue procfilePath] else []))%list,
   if Js.includes procfile "uvicorn" && Js.includes procfile "0.0.0.0" && hasPortRef procfile
   then [mkPassed "fastapi-procfile-correct" "start-command"
           "Procfile configured correctly for Railway"]
   else []).

Definition checkFastAPI (projectPath : string) (fw : Framework) : Result CheckResult :=
  match truthyPath (findPythonMainFile projectPath ["main.py"; "app.py"; "application.py"]) with
  | None => Ok ([fastapiNoAppFileIssue], [])
  | Some mainFile =>
    analysis <- analyzePythonFile mainFile ;;
    content <- readFile mainFile ;;
    let initIssues :=
      if negb (hasFastAPIApp analysis) then [fastapiNoAppInitIssue mainFile] else [] in
    let runIssues :=
      if Js.includes content "uvicorn.run(" then [fastapiDevServerIssue mainFile] else [] in
    let requirementsPath := join projectPath "requirements.txt" in
    uvicorn <-
      (if existsSync w requirementsPath then
         text <- readFile requirementsPath ;;
         Ok (if negb (Js.includes (Js.toLowerCase text) "uvicorn") then
               ([mkIssue "fastapi-no-uvicorn" SevError CatStartCommand
                   "uvicorn not found in requirements.txt"
                   (Some requirementsPath) None
                   (mkFix "Add uvicorn for ASGI server" None
                      (Some "uvicorn[standard]")
                      (Some ["Add 'uvicorn[standard]' to requirements.txt";
                             "Uvicorn is the recommended ASGI server for FastAPI"]))],
                [])
             else ([], [mkPassed "fastapi-has-uvicorn" "start-command"
                          "Uvicorn found in requirements.txt"]))
       else Ok ([], [])) ;;
    let procfilePath := join projectPath "Procfile" in
    proc <-
      (if existsSync w procfilePath then
         procfile <- readFile procfilePath ;;
         Ok (fastapiProcfile procfilePath procfile)
       else Ok ([], [])) ;;
    Ok (both ((initIssues ++ runIssues)%list, []) (both uvicorn proc))
  end.

(* --------------------------------------------------------------------- *)
(** *** scanner/index.ts *)
(* --------------------------------------------------------------------- *)

Definition isError (i : Issue) : bool := severity_eqb (issue_severity i) SevError.
Definition isWarning (i : Issue) : bool := severity_eqb (issue_severity i) SevWarning.
Definition isInfo (i : Issue) : bool := severity_eqb (issue_severity i) SevInfo.

Definition generateSummary (issues : list Issue) (passed : list PassedCheck) : Summary :=
  let errors := List.length (filter isError issues) in
  let warnings := List.length (filter isWarning issues) in
  let deploymentLikelihood :=
    if Nat.ltb 0 errors then WillFail
    else if Nat.ltb 0 warnings then MightFail
    else ShouldSucceed in
  mkSummary (List.length issues) errors warnings (List.length passed) deploymentLikelihood.

Definition startCommandPass : PassedCheck :=
  mkPassed "start-command-check" "start-command" "Start command looks good".

(** What the start-command step adds to [issues] and [passed]. *)
Definition startCommandStep (startCommandIssues : list Issue) : CheckResult :=
  if Nat.ltb 0 (List.length startCommandIssues) then (startCommandIssues, [])
  else ([], [startCommandPass]).

(** The framework-specific step. *)
Definition frameworkStep (projectPath : string) (fw : Framework) : Result CheckResult :=
  match name fw with
  | django => checkDjango projectPath fw
  | flask => checkFlask projectPath fw
  | fastapi => checkFastAPI projectPath fw
  | _ => Ok ([], [])
  end.

(** The checks in the order the orchestrator runs them; a check that
    throws ends the scan. *)
Definition runChecks (projectPath : string) (fw : Framework) : Result CheckResult :=
  let portResult := checkPortUsage projectPath fw in
  let hostResult := checkHostBinding projectPath fw in
  startCommandIssues <- checkStartCommand projectPath fw ;;
  envVarsResult <- checkEnvVars projectPath fw ;;
  databaseResult <- checkDatabaseConfig projectPath fw ;;
  frameworkResult <- frameworkStep projectPath fw ;;
  Ok (both portResult
     (both hostResult
     (both (startCommandStep startCommandIssues)
     (both envVarsResult
     (both databaseResult frameworkResult))))).

Definition scanProject (projectPath : string) : Result ScanResult :=
  fw <- detectFramework projectPath ;;
  collected <- runChecks projectPath fw ;;
  let issues := fst collected in
  let passed := snd collected in
  Ok (mkScanResult projectPath fw issues (filter isWarning issues) passed
        (generateSummary issues passed)).

(** The exit code of the command line: 1 on an error-severity issue and
    on a scan that throws. *)
(** An issue with the given identifier is in the list. *)
Definition hasIssue (id : string) (l : list Issue) : bool :=
  existsb (fun i => String.eqb (issue_id i) id) l.

(** The issue has the given identifier and names the given file. *)
Definition reportsOn (id file : string) (i : Issue) : bool :=
  String.eqb (issue_id i) id
  && match issue_file i with
     | Some f => String.eqb f file
     | None => false
     end.

(** What [formatJSON] prints, [JSON.stringify] being the runtime's. *)
Definition formatJSON (JSON_stringify : ScanResult -> string) (results : ScanResult)
  : string :=
  JSON_stringify results.

Definition exitCode (r : Result ScanResult) : nat :=
  match r with
  | Ok results => if Nat.ltb 0 (errors (summary results)) then 1 else 0
  | Throw => 1
  end.

End Scanner.

(* ===================================================================== *)
(** ** The single-file scanner *)
(* ===================================================================== *)

(** The earlier versions of the orchestrator and of the port and host
    checks, which look at the entry-point file only. *)
Module Legacy.

Section Scanner.

#[local] Open Scope string_scope.

Variable JSON_parse : string -> option Json.
Variable join : string -> string -> string.
Variable w : World.

(** [filePath.replace(/[^/]+$/, "package.json")]: the last segment of
    the path, when it is not empty, gives way to the name of the manifest;
    a path that is empty or ends in a slash is left as it is. *)
Fixpoint packageJsonBeside (filePath : string) : string :=
  match filePath with
  | EmptyString => EmptyString
  | String a rest =>
    if Js.includes rest "/" then String a (packageJsonBeside rest)
    else if Ascii.eqb a "/"%char then
      String a (match rest with EmptyString => EmptyString | _ => "package.json" end)
    else "package.json"
  end.

(** [code.includes("process.env.PORT") || code.includes("PORT")] *)
Definition hasPortEnvVar (code : string) : bool :=
  Js.includes code "process.env.PORT" || Js.includes code "PORT".

(** [hasHardcodedPort] with its value and line after the two loops; the
    second loop tests [!code.includes("process.env.PORT")]. *)
Definition hardcodedPort (code : string) : option (Js.num * nat) :=
  orElse (literalScan portVarRegex 2 (negb (Js.includes code "process.env.PORT")) code)
         (literalScan listenCallRegex 1 true code).

(** The issue of the [catch] branch. *)
Definition portFallbackIssue (filePath : string) : Issue :=
  mkIssue "port-hardcoded" SevError CatPort
    "Hardcoded port detected. Railway requires process.env.PORT"
    (Some filePath) None
    (mkFix "Use process.env.PORT with a fallback" None
       (Some "const port = process.env.PORT || 3000;")
       (Some ["Replace hardcoded port with process.env.PORT || 3000";
              "Use this port variable in your .listen() call"])).

(** [/\.listen\s*\(\s*\d+/] *)
Definition listenDigitsRegex : Regex.regex :=
  Regex.Seqs [Regex.Lit ".listen"; Regex.Star Regex.space; Regex.Chr "(";
              Regex.Star Regex.space; Regex.Plus Regex.digit].

(** The Next.js block of [checkPortUsage]: the manifest is looked for
    next to the file. *)
Definition nextjsPortIssues (filePath : string) : Result (list Issue) :=
  let packageJsonPath := packageJsonBeside filePath in
  packageJson <- readJson JSON_parse w packageJsonPath ;;
  startScript <- startScriptOf packageJson ;;
  hasNextStart <- valIncludes startScript "next start" ;;
  hasDollar <- valIncludes startScript "$PORT" ;;
  hasBrace <- valIncludes startScript "${PORT" ;;
  Ok (if hasNextStart && negb hasDollar && negb hasBrace
      then [mkIssue "nextjs-port-flag" SevError CatPort
              "Next.js start script doesn't use Railway's PORT environment variable"
              (Some packageJsonPath) None
              (issue_fix nextjsPortFlagIssue)]
      else []).

Definition checkPortUsage (filePath : string) (fw : Framework) : list Issue :=
  match readFileSync w filePath with
  | Some code =>
    ((match hardcodedPort code with
      | Some (v, line) =>
        if negb (hasPortEnvVar code) then [portHardcodedIssue filePath v line] else []
      | None => []
      end)
     ++ (if isNextjs fw then tryCatch (nextjsPortIssues filePath) [] else []))%list
  | None =>
    (* catch: the file is read once more *)
    match readFileSync w filePath with
    | Some code =>
      if negb (Js.includes code "process.env.PORT")
         && Regex.test false listenDigitsRegex code
      then [portFallbackIssue filePath] else []
    | None => []
    end
  end.

(** [/\.listen\s*\([^)]+\)/g] *)
Definition listenSnippetRegex : Regex.regex :=
  Regex.Seqs [Regex.Lit ".listen"; Regex.Star Regex.space; Regex.Chr "(";
              Regex.Plus (Regex.noneOf ")"); Regex.Chr ")"].

(** [fixes[framework.name] || { ... }]: the table has no entry for Flask
    and FastAPI, which get the fallback. *)
Definition generateHostBindingFix (fw : Framework) (listenSnippet : option string)
  : FixSuggestion :=
  match name fw with
  | express =>
    mkFix "Bind to 0.0.0.0 to accept external connections"
      (Some "app.listen(port)")
      (Some ("app.listen(port, " ++ q "0.0.0.0" ++ ")"))
      (Some ["Update your .listen() call to: app.listen(port, " ++ q "0.0.0.0" ++ ")";
             "This allows Railway to route traffic to your application"])
  | nestjs =>
    mkFix "Bind to 0.0.0.0 in your NestJS bootstrap function"
      (Some "await app.listen(port)")
      (Some ("await app.listen(port, " ++ q "0.0.0.0" ++ ")"))
      (Some ["In src/main.ts, update: await app.listen(port, " ++ q "0.0.0.0" ++ ")";
             "This allows Railway to route traffic to your application"])
  | nextjs =>
    mkFix "Add --hostname flag to Next.js start command"
      (Some (q "start" ++ ": " ++ q "next start"))
      (Some (q "start" ++ ": " ++ q "next start --hostname 0.0.0.0"))
      (Some ["Update package.json start script to include: --hostname 0.0.0.0"])
  | django =>
    mkFix "Configure Django to bind to 0.0.0.0"
      None
      (Some "gunicorn myproject.wsgi:application --bind 0.0.0.0:$PORT")
      (Some ["Ensure your start command binds to 0.0.0.0:$PORT";
             "Example: gunicorn myproject.wsgi:application --bind 0.0.0.0:$PORT"])
  | flask | fastapi | unknown =>
    mkFix "Bind to 0.0.0.0 to accept external connections"
      (Some (match listenSnippet with
             | Some snippet => if Js.nonEmpty snippet then snippet else ".listen(port)"
             | None => ".listen(port)"
             end))
      (Some (".listen(port, " ++ q "0.0.0.0" ++ ")"))
      (Some ["Update your server to listen on 0.0.0.0 instead of localhost";
             "This allows Railway to route traffic to your application"])
  end.

(** The Next.js block of [checkHostBinding]. *)
Definition nextjsHostIssues (filePath : string) : Result (list Issue) :=
  let packageJsonPath := packageJsonBeside filePath in
  packageJson <- readJson JSON_parse w packageJsonPath ;;
  startScript <- startScriptOf packageJson ;;
  hasNextStart <- valIncludes startScript "next start" ;;
  hasHostname <- valIncludes startScript "--hostname 0.0.0.0" ;;
  hasH <- valIncludes startScript "-H 0.0.0.0" ;;
  Ok (if hasNextStart && negb hasHostname && negb hasH
      then [mkIssue "nextjs-host-flag" SevError CatHost
              "Next.js start script doesn't bind to 0.0.0.0"
              (Some packageJsonPath) None
              (issue_fix nextjsHostFlagIssue)]
      else []).

Definition checkHostBinding (filePath : string) (fw : Framework) : list Issue :=
  match readFileSync w filePath with
  | Some code =>
    ((if hasListenCall code && negb (hasCorrectBinding code) then
        let found := Regex.exec false listenSnippetRegex code 0 in
        [mkIssue "host-binding"
           (if hasLocalhostBinding code then SevError else SevWarning)
           CatHost
           (if hasLocalhostBinding code
            then "App binds to localhost/127.0.0.1, which won't work on Railway"
            else "App may not be binding to 0.0.0.0, which is required for Railway")
           (Some filePath)
           (option_map (fun m => lineOfIndex code (Regex.m_index m)) found)
           (generateHostBindingFix fw (option_map (Regex.matched code) found))]
      else [])
     ++ (if isNextjs fw then tryCatch (nextjsHostIssues filePath) [] else []))%list
  | None => []
  end.

Definition unknownFrameworkIssue : Issue :=
  mkIssue "unknown-framework" SevWarning CatStartCommand
    "Could not detect framework or entry point"
    None None
    (mkFix "Ensure your project has a package.json or requirements.txt" None None
       (Some ["For Node.js: Run 'npm init' to create package.json";
              "For Python: Create requirements.txt with your dependencies"])).

(** What a check that returns its issues adds to [issues] and [passed]. *)
Definition issuesOrPass (found : list Issue) (pass : PassedCheck) : CheckResult :=
  if Nat.ltb 0 (List.length found) then (found, []) else ([], [pass]).

Definition runChecks (projectPath : string) (fw : Framework) : Result CheckResult :=
  match truthyPath (mainFile fw), name fw with
  | None, unknown => Ok ([unknownFrameworkIssue], [])
  | main, _ =>
    let entry :=
      match main with
      | Some mainFile =>
        both (issuesOrPass (checkPortUsage (join projectPath mainFile) fw) portCheckPass)
             (issuesOrPass (checkHostBinding (join projectPath mainFile) fw) hostCheckPass)
      | None => ([], [])
      end in
    startCommandIssues <- checkStartCommand JSON_parse join w projectPath fw ;;
    envVarsResult <- checkEnvVars join w projectPath fw ;;
    databaseResult <- checkDatabaseConfig JSON_parse join w projectPath fw ;;
    frameworkResult <- frameworkStep join w projectPath fw ;;
    Ok (both entry
       (both (startCommandStep startCommandIssues)
       (both envVarsResult
       (both databaseResult frameworkResult))))
  end.

Definition scanProject (projectPath : string) : Result ScanResult :=
  fw <- detectFramework JSON_parse join w projectPath ;;
  collected <- runChecks projectPath fw ;;
  let issues := fst collected in
  let passed := snd collected in
  Ok (mkScanResult projectPath fw issues (filter isWarning issues) passed
        (generateSummary issues passed)).

End Scanner.

End Legacy.

(* ===================================================================== *)
(** ** The terminal report (output/formatter.ts) *)
(* ===================================================================== *)

Inductive Style : Type :=
| Cyan | CyanBold | Blue | Bold | Red | RedBold | Yellow | YellowBold
| Green | GreenBold | Gray.

Section Formatter.

(** What depends on the terminal: how [chalk] paints a text, how
    [console.log] prints a number, and the rule of fifty box-drawing
    characters, whose code unit is outside the strings of the model. *)
Variable chalk : Style -> string -> string.
Variable showNumber : nat -> string.
Variable rule : string.

(** [console.log(a, b)] of two texts. *)
Definition log2 (a b : string) : string := (a ++ " " ++ b)%string.

Definition frameworkNameText (n : FrameworkName) : string :=
  match n with
  | express => "express" | nextjs => "nextjs" | nestjs => "nestjs"
  | django => "django" | flask => "flask" | fastapi => "fastapi"
  | unknown => "unknown"
  end.

(** [n > 1 ? "s" : ""] *)
Definition plural (n : nat) : string := if Nat.ltb 1 n then "s" else EmptyString.

Definition truthyText (o : option string) : option string :=
  match o with
  | Some t => if Js.nonEmpty t then Some t else None
  | None => None
  end.

Fixpoint numberedSteps (index : nat) (steps : list string) : list string :=
  match steps with
  | [] => []
  | step :: rest =>
    chalk Gray ("   " ++ Js.natToString (index + 1) ++ ". " ++ step)%string
    :: numberedSteps (S index) rest
  end.

(** The lines [displayIssue] prints, one per call of [console.log]. *)
Definition displayIssue (issue : Issue) (isErrorType : bool) : list string :=
  let icon := if isErrorType then "[X]" else "[!]" in
  let color := if isErrorType then Red else Yellow in
  let colorBold := if isErrorType then RedBold else YellowBold in
  [chalk colorBold (icon ++ " " ++ issue_message issue)%string]
  ++ (match truthyText (issue_file issue) with
       | Some file =>
         let location :=
           match issue_line issue with
           | Some line => if Nat.eqb line 0 then file
                          else (file ++ ":" ++ Js.natToString line)%string
           | None => file
           end in
         [log2 (chalk color "   File:") (chalk Gray location)]
       | None => []
       end)
   ++ [EmptyString; log2 (chalk Cyan "   Fix:") (fix_description (issue_fix issue))]
   ++ (match truthyText (fix_before (issue_fix issue)),
             truthyText (fix_after (issue_fix issue)) with
       | Some before, Some after =>
         [EmptyString; chalk Red ("   - " ++ before)%string;
          chalk Green ("   + " ++ after)%string]
       | None, Some after => [EmptyString; chalk Green ("   + " ++ after)%string]
       | _, None => []
       end)
   ++ (match fix_steps (issue_fix issue) with
       | Some (step :: rest) => EmptyString :: numberedSteps 0 (step :: rest)
       | _ => []
       end)
   ++ [EmptyString].

Definition displaySummary (results : ScanResult) : list string :=
  let s := summary results in
  [chalk Cyan rule; chalk CyanBold "Summary"; chalk Cyan rule;
   log2 (chalk Blue "  Total checks:") (showNumber (totalIssues s + sum_passed s));
   log2 (chalk Green "  Passed:") (showNumber (sum_passed s));
   log2 (chalk Yellow "  Warnings:") (showNumber (sum_warnings s));
   log2 (chalk Red "  Errors:") (showNumber (errors s));
   EmptyString]
  ++ (match deploymentLikelihood s with
      | WillFail =>
        [chalk RedBold "Deployment Likelihood: WILL FAIL";
         chalk Red ("   Fix the " ++ Js.natToString (errors s) ++ " error"
                      ++ plural (errors s) ++ " above before deploying.")%string]
      | MightFail =>
        [chalk YellowBold "Deployment Likelihood: MIGHT FAIL";
         chalk Yellow ("   Address the " ++ Js.natToString (sum_warnings s) ++ " warning"
                         ++ plural (sum_warnings s) ++ " to improve deployment success.")%string]
      | ShouldSucceed =>
        [chalk GreenBold "Deployment Likelihood: SHOULD SUCCEED";
         chalk Green "   Your project looks ready for Railway deployment!"]
      end)
  ++ [EmptyString].

(** The lines [formatResults] prints. *)
Definition formatResults (results : ScanResult) (verbose : bool) : list string :=
  let errs := filter isError (issues results) in
  let warns := filter isWarning (issues results) in
  [(Js.nl ++ chalk CyanBold "Railway Deployment Doctor")%string;
   (chalk Cyan rule ++ Js.nl)%string]
   ++ [log2 (chalk Blue "Framework detected:")
            (chalk Bold (frameworkNameText (name (framework results))))]
   ++ (match truthyText (mainFile (framework results)) with
       | Some entry => [log2 (chalk Blue "Entry point:") entry]
       | None => []
       end)
   ++ [EmptyString]
   ++ (if Nat.ltb 0 (List.length errs) then
         [chalk RedBold ("[ERROR] Found " ++ Js.natToString (List.length errs) ++ " error"
                           ++ plural (List.length errs))%string; EmptyString]
         ++ flat_map (fun issue => displayIssue issue true) errs
       else [])
   ++ (if Nat.ltb 0 (List.length warns) then
         [chalk YellowBold ("[WARNING] Found " ++ Js.natToString (List.length warns)
                              ++ " warning" ++ plural (List.length warns))%string; EmptyString]
         ++ flat_map (fun issue => displayIssue issue false) warns
       else [])
   ++ (if verbose && Nat.ltb 0 (List.length (passed results)) then
         [chalk GreenBold ("[PASS] Passed " ++ Js.natToString (List.length (passed results))
                             ++ " check" ++ plural (List.length (passed results)))%string;
          EmptyString]
         ++ map (fun check => log2 (chalk Green "  [PASS]") (passed_message check))
                (passed results)
         ++ [EmptyString]
       else [])
   ++ displaySummary results.

End Formatter.

(* ===================================================================== *)
(** ** The findings of the check modules *)
(* ===================================================================== *)

(** The identifier, the severity and the category of every object literal
    that a check module pushes to [issues], module by module.  The host
    check computes the severity of [host-binding]; the start-command check
    and the Django check both use the identifier [django-no-gunicorn]. *)
Definition Finding : Type := (string * Severity * Category)%type.

Definition portFindings : list Finding :=
  [("port-hardcoded", SevError, CatPort); ("nextjs-port-flag", SevError, CatPort)].

Definition hostFindings : list Finding :=
  [("host-binding", SevError, CatHost); ("host-binding", SevWarning, CatHost);
   ("nextjs-host-flag", SevError, CatHost)].

Definition startCommandFindings : list Finding :=
  [("no-package-json", SevError, CatStartCommand);
   ("no-start-script", SevError, CatStartCommand);
   ("dev-tools-in-production", SevError, CatStartCommand);
   ("nextjs-wrong-start", SevError, CatStartCommand);
   ("nestjs-no-build", SevWarning, CatStartCommand);
   ("no-build-script", SevError, CatStartCommand);
   ("invalid-package-json", SevError, CatStartCommand);
   ("python-no-procfile", SevWarning, CatStartCommand);
   ("django-no-gunicorn", SevError, CatStartCommand);
   ("django-no-gunicorn-requirement", SevError, CatStartCommand)].

Definition envVarsFindings : list Finding :=
  [("env-file-not-ignored", SevWarning, CatEnvVars); ("env-vars-needed", SevInfo, CatEnvVars)].

Definition databaseFindings : list Finding :=
  [("database-localhost", SevError, CatDatabase);
   ("database-socket", SevError, CatDatabase);
   ("database-url-recommended", SevInfo, CatDatabase)].

Definition djangoFindings : list Finding :=
  [("django-no-settings", SevError, CatStartCommand);
   ("django-empty-allowed-hosts", SevError, CatHost);
   ("django-no-railway-hosts", SevWarning, CatHost);
   ("django-debug-true", SevWarning, CatStartCommand);
   ("django-no-whitenoise", SevError, CatStaticFiles);
   ("django-no-static-root", SevWarning, CatStaticFiles);
   ("django-no-database-url", SevWarning, CatDatabase);
   ("django-no-csrf-origins", SevInfo, CatHost);
   ("django-no-gunicorn", SevError, CatStartCommand)].

Definition flaskFindings : list Finding :=
  [("flask-no-app-file", SevWarning, CatStartCommand);
   ("flask-no-app-init", SevWarning, CatStartCommand);
   ("flask-debug-mode", SevError, CatStartCommand);
   ("flask-dev-server", SevWarning, CatStartCommand);
   ("flask-no-gunicorn", SevError, CatStartCommand);
   ("flask-procfile-no-gunicorn", SevError, CatStartCommand);
   ("flask-procfile-no-host", SevError, CatHost);
   ("flask-procfile-no-port", SevError, CatPort)].

Definition fastapiFindings : list Finding :=
  [("fastapi-no-app-file", SevWarning, CatStartCommand);
   ("fastapi-no-app-init", SevWarning, CatStartCommand);
   ("fastapi-dev-server", SevWarning, CatStartCommand);
   ("fastapi-no-uvicorn", SevError, CatStartCommand);
   ("fastapi-procfile-no-uvicorn", SevError, CatStartCommand);
   ("fastapi-procfile-no-host", SevError, CatHost);
   ("fastapi-procfile-no-port", SevError, CatPort);
   ("fastapi-no-workers", SevInfo, CatStartCommand)].

Definition allFindings : list Finding :=
  portFindings ++ hostFindings ++ startCommandFindings ++ envVarsFindings
  ++ databaseFindings ++ djangoFindings ++ flaskFindings ++ fastapiFindings.

(** The issue is one of the findings of the list. *)
Definition listed (findings : list Finding) (i : Issue) : Prop :=
  In (issue_id i, issue_severity i, issue_category i) findings.

(** The finding that an issue reports. *)
Definition finding (i : Issue) : Finding :=
  (issue_id i, issue_severity i, issue_category i).

(* ===================================================================== *)
(** ** Sample projects *)
(* ===================================================================== *)

(** Concrete runtimes and file systems, on which the scanner is run in
    the examples below. *)
Module Sample.

#[local] Open Scope string_scope.

(** [path.join] on a normalised root and a relative path. *)
Definition join (a b : string) : string := a ++ "/" ++ b.

Fixpoint skipSpaces (s : string) : string :=
  match s with
  | String a s' =>
    if Ascii.eqb a " "%char || Ascii.eqb a "010"%char || Ascii.eqb a "013"%char
       || Ascii.eqb a "009"%char
    then skipSpaces s' else s
  | EmptyString => s
  end.

(** The characters of a JSON string up to its closing quote; of the
    escapes only the two-character ones are read. *)
Fixpoint parseChars (s : string) : option (string * string) :=
  match s with
  | EmptyString => None
  | String a s' =>
    if Ascii.eqb a "034"%char then Some (EmptyString, s')
    else if Ascii.eqb a "\"%char then
      match s' with
      | String b s'' =>
        let unescaped :=
          if Ascii.eqb b "034"%char then Some "034"%char
          else if Ascii.eqb b "\"%char then Some "\"%char
          else if Ascii.eqb b "/"%char then Some "/"%char
          else if Ascii.eqb b "n"%char then Some "010"%char
          else if Ascii.eqb b "t"%char then Some "009"%char
          else if Ascii.eqb b "r"%char then Some "013"%char
          else None in
        match unescaped, parseChars s'' with
        | Some c, Some (rest, tail) => Some (String c rest, tail)
        | _, _ => None
        end
      | EmptyString => None
      end
    else if Nat.ltb (nat_of_ascii a) 32 then None
    else
      match parseChars s' with
      | Some (rest, tail) => Some (String a rest, tail)
      | None => None
      end
  end.

Fixpoint spanDigits (s : string) : string * string :=
  match s with
  | String a s' =>
    if Js.isDigit a then let '(ds, tail) := spanDigits s' in (String a ds, tail)
    else (EmptyString, s)
  | EmptyString => (EmptyString, s)
  end.

(** An integer without fraction or exponent. *)
Definition parseNumber (s : string) : option (Json * string) :=
  let '(negative, body) :=
    match s with
    | String a s' => if Ascii.eqb a "-"%char then (true, s') else (false, s)
    | EmptyString => (false, s)
    end in
  let '(ds, tail) := spanDigits body in
  match ds with
  | EmptyString => None
  | String d more =>
    if Ascii.eqb d "0"%char && Js.nonEmpty more then None
    else
      match tail with
      | String a _ =>
        if Ascii.eqb a "."%char || Ascii.eqb a "e"%char || Ascii.eqb a "E"%char then None
        else Some (JNum (if negative then Z.opp (Z.of_N (Js.parseDigits 0%N ds))
                         else Z.of_N (Js.parseDigits 0%N ds)), tail)
      | EmptyString =>
        Some (JNum (if negative then Z.opp (Z.of_N (Js.parseDigits 0%N ds))
                    else Z.of_N (Js.parseDigits 0%N ds)), tail)
      end
  end.

(** A value, then the members of an object or the elements of an array
    by the two local loops. *)
Fixpoint parseValue (fuel : nat) (s : string) : option (Json * string) :=
  match fuel with
  | O => None
  | S fuel' =>
    let members :=
      fix members (n : nat) (acc : list (string * Json)) (s : string)
        : option (Json * string) :=
        match n with
        | O => None
        | S n' =>
          match skipSpaces s with
          | String a s1 =>
            if Ascii.eqb a "034"%char then
              match parseChars s1 with
              | Some (key, s2) =>
                match skipSpaces s2 with
                | String b s3 =>
                  if Ascii.eqb b ":"%char then
                    match parseValue fuel' s3 with
                    | Some (v, s4) =>
                      match skipSpaces s4 with
                      | String c s5 =>
                        if Ascii.eqb c ","%char then members n' (setProp key v acc) s5
                        else if Ascii.eqb c "}"%char then Some (JObj (setProp key v acc), s5)
                        else None
                      | EmptyString => None
                      end
                    | None => None
                    end
                  else None
                | EmptyString => None
                end
              | None => None
              end
            else None
          | EmptyString => None
          end
        end in
    let elements :=
      fix elements (n : nat) (acc : list Json) (s : string) : option (Json * string) :=
        match n with
        | O => None
        | S n' =>
          match parseValue fuel' s with
          | Some (v, s1) =>
            match skipSpaces s1 with
            | String c s2 =>
              if Ascii.eqb c ","%char then elements n' (acc ++ [v])%list s2
              else if Ascii.eqb c "]"%char then Some (JArr (acc ++ [v])%list, s2)
              else None
            | EmptyString => None
            end
          | None => None
          end
        end in
    match skipSpaces s with
    | EmptyString => None
    | String a s' =>
      if Ascii.eqb a "{"%char then
        match skipSpaces s' with
        | String b s'' =>
          if Ascii.eqb b "}"%char then Some (JObj [], s'')
          else members (String.length s) [] s'
        | EmptyString => None
        end
      else if Ascii.eqb a "["%char then
        match skipSpaces s' with
        | String b s'' =>
          if Ascii.eqb b "]"%char then Some (JArr [], s'')
          else elements (String.length s) [] s'
        | EmptyString => None
        end
      else if Ascii.eqb a "034"%char then
        match parseChars s' with
        | Some (str, tail) => Some (JStr str, tail)
        | None => None
        end
      else if Js.startsWith "true" (String a s') then Some (JBool true, Js.drop 4 (String a s'))
      else if Js.startsWith "false" (String a s') then Some (JBool false, Js.drop 5 (String a s'))
      else if Js.startsWith "null" (String a s') then Some (JNull, Js.drop 4 (String a s'))
      else parseNumber (String a s')
    end
  end.

(** [JSON.parse] on the JSON texts of the samples: integers for numbers,
    two-character escapes in strings. *)
Definition JSON_parse (text : string) : option Json :=
  match parseValue (S (String.length text)) text with
  | Some (v, tail) =>
    match skipSpaces tail with
    | EmptyString => Some v
    | _ => None
    end
  | None => None
  end.

(** A file system made of the files of one project directory and of the
    answers of [glob] there. *)
Definition world (root : string) (files : list (string * string))
           (globAnswer : list string -> option (list string)) : World :=
  mkWorld
    (fun path => existsb (fun f => String.eqb (join root (fst f)) path) files)
    (fun path =>
       option_map snd (find (fun f => String.eqb (join root (fst f)) path) files))
    (fun query => if String.eqb (g_cwd query) root then globAnswer (g_patterns query)
                  else Some []).

(** [glob] finds [sources] for the patterns of a language and nothing
    else. *)
Definition globSources (pattern : string) (sources : list string)
  : list string -> option (list string) :=
  fun patterns =>
    match patterns with
    | [p] => if String.eqb p pattern then Some sources else Some []
    | _ => Some []
    end.

Definition jsPattern : string := "**/*.{js,ts,jsx,tsx}".

Definition lines (ls : list string) : string := Js.join Js.nl ls.

(** test-projects/express-broken *)
Definition brokenServer : string :=
  lines ["const express = require('express');";
         "const app = express();";
         EmptyString;
         "// Hardcoded port - will fail on Railway!";
         "const port = 3000;";
         EmptyString;
         "app.get('/', (req, res) => {";
         "  res.send('Hello World!');";
         "});";
         EmptyString;
         "// Binding to localhost - won't work on Railway!";
         "app.listen(port, 'localhost', () => {";
         "  console.log(`Server running on http://localhost:${port}`);";
         "});";
         EmptyString].

(** test-projects/express-working *)
Definition workingServer : string :=
  lines ["const express = require('express');";
         "const app = express();";
         EmptyString;
         "// Use PORT from environment with fallback";
         "const port = process.env.PORT || 3000;";
         EmptyString;
         "app.get('/', (req, res) => {";
         "  res.send('Hello World!');";
         "});";
         EmptyString;
         "// Bind to 0.0.0.0 for Railway";
         "app.listen(port, '0.0.0.0', () => {";
         "  console.log(`Server running on port ${port}`);";
         "});";
         EmptyString].

Definition expressManifest (scripts : string) : string :=
  "{" ++ q "name" ++ ": " ++ q "app" ++ ", " ++ q "scripts" ++ ": {" ++ scripts ++ "}, "
      ++ q "dependencies" ++ ": {" ++ q "express" ++ ": " ++ q "^4.18.0" ++ "}}".

Definition expressBroken : World :=
  world "/app" [("package.json", expressManifest EmptyString); ("server.js", brokenServer)]
        (globSources jsPattern ["server.js"]).

Definition expressWorking : World :=
  world "/app" [("package.json", expressManifest (q "start" ++ ": " ++ q "node server.js"));
                ("server.js", workingServer)]
        (globSources jsPattern ["server.js"]).

(** A directory whose only file is a server listening on port 3000. *)
Definition listenOnly : World :=
  world "/app" [("server.js", "app.listen(3000)")] (globSources jsPattern ["server.js"]).

(** A directory with nothing in it. *)
Definition emptyProject : World := world "/app" [] (fun _ => Some []).

(** A manifest that is not JSON. *)
Definition malformedManifest : World :=
  world "/app" [("package.json", "{"); ("requirements.txt", "flask")] (fun _ => Some []).

(** A Next.js project without source files whose start script lacks the
    host name flag. *)
Definition nextjsNoHostFlag : World :=
  world "/app"
        [("package.json",
          "{" ++ q "scripts" ++ ": {" ++ q "start" ++ ": " ++ q "next start -p $PORT" ++ ", "
              ++ q "build" ++ ": " ++ q "next build" ++ "}, "
              ++ q "dependencies" ++ ": {" ++ q "next" ++ ": " ++ q "14.0.0" ++ "}}")]
        (fun _ => Some []).

(** A Django project without a settings file. *)
Definition djangoNoSettings : World :=
  world "/app" [("requirements.txt", "Django==4.2" ++ Js.nl ++ "gunicorn")] (fun _ => Some []).

(** The files of [expressBroken] listed the other way round. *)
Definition expressBrokenReordered : World :=
  world "/app" [("server.js", brokenServer); ("package.json", expressManifest EmptyString)]
        (globSources jsPattern ["server.js"]).

(** An Express project with two servers, and the same project with its
    sources listed the other way round. *)
Definition twoServersFiles : list (string * string) :=
  [("package.json", expressManifest (q "start" ++ ": " ++ q "node a.js"));
   ("a.js", "app.listen(3000, '0.0.0.0');");
   ("b.js", "app.listen(4000, '0.0.0.0');")].

Definition twoServers : World :=
  world "/app" twoServersFiles (globSources jsPattern ["a.js"; "b.js"]).

Definition twoServersReordered : World :=
  world "/app" twoServersFiles (globSources jsPattern ["b.js"; "a.js"]).
(** A port variable and a [.listen(] call, each with its own literal. *)
Definition twoLiterals : string := lines ["const port = 4000;"; "app.listen(3000);"].

Definition unknownFramework : Framework := mkFramework unknown None None.
Definition expressFramework : Framework := mkFramework express (Some (JStr "^4.18.0")) None.
Definition nextjsFramework : Framework :=
  mkFramework nextjs (Some (JStr "14.0.0")) (Some "next.config.js").
Definition djangoFramework : Framework := mkFramework django None None.

Definition pgManifest : string :=
  "{" ++ q "scripts" ++ ": {" ++ q "start" ++ ": " ++ q "node db.js" ++ "}, "
      ++ q "dependencies" ++ ": {" ++ q "express" ++ ": " ++ q "^4.18.0" ++ ", "
      ++ q "pg" ++ ": " ++ q "^8.11.0" ++ "}}".

(** A project that connects to a database on localhost. *)
Definition databaseLocalhost : World :=
  world "/app"
        [("package.json", pgManifest);
         ("db.js", lines ["const { Client } = require('pg');";
                          "const db = connect({ host: 'localhost' });"])]
        (globSources jsPattern ["db.js"]).

(** The same project rewritten to use the database URL. *)
Definition databaseUrl : World :=
  world "/app"
        [("package.json", pgManifest);
         ("db.js", lines ["const { Client } = require('pg');";
                          "const db = connect(process.env.DATABASE_URL);"])]
        (globSources jsPattern ["db.js"]).

(** The localhost project with the database URL next to the literal. *)
Definition databaseLocalhostUrl : World :=
  world "/app"
        [("package.json", pgManifest);
         ("db.js", lines ["const url = process.env.DATABASE_URL;";
                          "const db = connect({ host: 'localhost' });"])]
        (globSources jsPattern ["db.js"]).

(** A project that reaches its database through a Unix socket. *)
Definition databaseSocket : World :=
  world "/app"
        [("package.json", pgManifest);
         ("db.js", lines ["const { Client } = require('pg');";
                          "const db = new Client({ path: '/var/run/postgresql' });"])]
        (globSources jsPattern ["db.js"]).

(** A project that names no server, no socket and no URL. *)
Definition databaseBare : World :=
  world "/app"
        [("package.json", pgManifest);
         ("db.js", lines ["const { Client } = require('pg');";
                          "const db = new Client();"])]
        (globSources jsPattern ["db.js"]).

(** The manifest of the database projects in a directory that [glob]
    cannot list. *)
Definition databaseUnlisted : World :=
  world "/app" [("package.json", pgManifest)] (fun _ => None).
(** An env file next to an ignore file that does not mention it. *)
Definition envNotIgnored : World :=
  world "/app" [(".env", "SECRET=1"); (".gitignore", "node_modules")] (fun _ => Some []).

(** An env file next to an ignore file that mentions it. *)
Definition envIgnored : World :=
  world "/app" [(".env", "SECRET=1"); (".gitignore", lines ["node_modules"; ".env"])]
        (fun _ => Some []).

(** An ignore file and no env file. *)
Definition gitignoreOnly : World :=
  world "/app" [(".gitignore", "node_modules")] (fun _ => Some []).

(** An env file and an ignore file that exist and cannot be read. *)
Definition unreadableGitignore : World :=
  mkWorld (fun path => String.eqb path "/app/.env" || String.eqb path "/app/.gitignore")
          (fun _ => None)
          (fun _ => Some []).

(** An Express project started through a file watcher. *)
Definition expressNodemon : World :=
  world "/app" [("package.json", expressManifest (q "start" ++ ": " ++ q "nodemon server.js"));
                ("server.js", workingServer)]
        (globSources jsPattern ["server.js"]).

(** A Next.js project whose start script runs a custom server. *)
Definition nextjsWrongStart : World :=
  world "/app"
        [("package.json",
          "{" ++ q "scripts" ++ ": {" ++ q "start" ++ ": " ++ q "node server.js" ++ ", "
              ++ q "build" ++ ": " ++ q "next build" ++ "}, "
              ++ q "dependencies" ++ ": {" ++ q "next" ++ ": " ++ q "14.0.0" ++ "}}")]
        (fun _ => Some []).

(** Express in both dependency tables, two PostgreSQL drivers. *)
Definition expressDevOverride : World :=
  world "/app"
        [("package.json",
          "{" ++ q "scripts" ++ ": {" ++ q "start" ++ ": " ++ q "node server.js" ++ "}, "
              ++ q "dependencies" ++ ": {" ++ q "express" ++ ": " ++ q "^4.18.0" ++ ", "
              ++ q "pg" ++ ": " ++ q "^8.11.0" ++ ", "
              ++ q "postgres" ++ ": " ++ q "^3.4.0" ++ "}, "
              ++ q "devDependencies" ++ ": {" ++ q "express" ++ ": " ++ q "^5.0.0" ++ "}}")]
        (fun _ => Some []).

(** A server that reads three environment variables, one of them twice. *)
Definition envReferences : World :=
  world "/app"
        [("package.json", expressManifest (q "start" ++ ": " ++ q "node server.js"));
         ("server.js", lines ["const port = process.env.PORT;";
                              "const key = process.env.API_KEY || process.env.API_KEY;";
                              "app.listen(port, '0.0.0.0');"])]
        (globSources jsPattern ["server.js"]).

(** The same server with another name for its key. *)
Definition envReferencesRenamed : World :=
  world "/app"
        [("package.json", expressManifest (q "start" ++ ": " ++ q "node server.js"));
         ("server.js", lines ["const port = process.env.PORT;";
                              "const key = process.env.SECRET || process.env.SECRET;";
                              "app.listen(port, '0.0.0.0');"])]
        (globSources jsPattern ["server.js"]).
(** A Django project with a settings file and no production server among
    its requirements. *)
Definition djangoNoGunicorn : World :=
  world "/app"
        [("requirements.txt", "Django==4.2");
         ("site/settings.py", lines ["DEBUG = True"; "ALLOWED_HOSTS = ['*']"])]
        (fun patterns =>
           match patterns with
           | [p] => if String.eqb p "**/settings.py" then Some ["site/settings.py"]
                    else Some []
           | _ => Some []
           end).

(** A project with a database driver whose only mention of localhost is
    a log message. *)
Definition localhostLog : World :=
  world "/app"
        [("package.json", pgManifest);
         ("db.js", lines ["const { Client } = require('pg');";
                          "console.log('listening on localhost');"])]
        (globSources jsPattern ["db.js"]).

(** A Flask project whose application is in [main.py]. *)
Definition flaskMain : World :=
  world "/app"
        [("requirements.txt", lines ["Flask==3.0"; "gunicorn"]);
         ("main.py", lines ["from flask import Flask"; "app = Flask(__name__)"])]
        (fun _ => Some []).

(** A terminal without colours. *)
Definition plain (style : Style) (text : string) : string := text.

End Sample.

(* ===================================================================== *)
(** ** Properties *)
(* ===================================================================== *)

Section Properties.

#[local] Open Scope string_scope.

Variable JSON_parse : string -> option Json.
Variable join : string -> string -> string.

(* --------------------------------------------------------------------- *)
(** *** The summary *)
(* --------------------------------------------------------------------- *)

Lemma severity_cases (i : Issue) :
  (isError i = true /\ isWarning i = false /\ isInfo i = false)
  \/ (isError i = false /\ isWarning i = true /\ isInfo i = false)
  \/ (isError i = false /\ isWarning i = false /\ isInfo i = true).
Proof.
  unfold isError, isWarning, isInfo.
  destruct (issue_severity i); cbn; auto.
Qed.

(** Every issue has exactly one severity, so the three counts add up. *)
Lemma severity_partition (l : list Issue) :
  List.length (filter isError l) + List.length (filter isWarning l)
  + List.length (filter isInfo l) = List.length l.
Proof.
  induction l as [|i l IH]; [reflexivity|].
  cbn [filter].
  destruct (severity_cases i) as [(E & W & I) | [(E & W & I) | (E & W & I)]];
    rewrite E, W, I; cbn [List.length]; lia.
Qed.

Lemma generateSummary_likelihood (l : list Issue) (p : list PassedCheck) :
  let errs := List.length (filter isError l) in
  let warns := List.length (filter isWarning l) in
  (deploymentLikelihood (generateSummary l p) = WillFail <-> 0 < errs)
  /\ (deploymentLikelihood (generateSummary l p) = MightFail <-> errs = 0 /\ 0 < warns)
  /\ (deploymentLikelihood (generateSummary l p) = ShouldSucceed <-> errs = 0 /\ warns = 0).
Proof.
  cbn zeta. unfold generateSummary. cbn [deploymentLikelihood].
  destruct (Nat.ltb_spec 0 (List.length (filter isError l))) as [He|He];
    [| destruct (Nat.ltb_spec 0 (List.length (filter isWarning l))) as [Hw|Hw]].
  - repeat split; intros; try discriminate; try lia; auto.
  - repeat split; intros; try discriminate; try lia; auto.
  - repeat split; intros; try discriminate; try lia; auto.
Qed.

(** What [scanProject] returns is built from one list of issues and one
    list of passes. *)
Lemma scanProject_shape (w : World) (path : string) (r : ScanResult) :
  scanProject JSON_parse join w path = Ok r ->
  exists fw collected,
    detectFramework JSON_parse join w path = Ok fw
    /\ runChecks JSON_parse join w path fw = Ok collected
    /\ r = mkScanResult path fw (fst collected) (filter isWarning (fst collected))
             (snd collected) (generateSummary (fst collected) (snd collected)).
Proof.
  unfold scanProject. intros H.
  destruct (detectFramework JSON_parse join w path) as [fw|]; [|discriminate].
  cbn [bind] in H.
  destruct (runChecks JSON_parse join w path fw) as [collected|] eqn:Hc; [|discriminate].
  cbn [bind] in H. injection H as <-.
  exists fw, collected. repeat split. exact Hc.
Qed.

(** C1.  In every result of [scanProject] the verdict is will-fail exactly
    when some issue is an error, might-fail exactly when no issue is an
    error and some issue is a warning, and should-succeed exactly when no
    issue is an error or a warning; the counts of the summary are the
    counts of the issues. *)
Theorem scan_deployment_likelihood (w : World) (path : string) (r : ScanResult) :
  scanProject JSON_parse join w path = Ok r ->
  let errs := List.length (filter isError (issues r)) in
  let warns := List.length (filter isWarning (issues r)) in
  errors (summary r) = errs
  /\ sum_warnings (summary r) = warns
  /\ (deploymentLikelihood (summary r) = WillFail <-> 0 < errs)
  /\ (deploymentLikelihood (summary r) = MightFail <-> errs = 0 /\ 0 < warns)
  /\ (deploymentLikelihood (summary r) = ShouldSucceed <-> errs = 0 /\ warns = 0).
Proof.
  intros H. destruct (scanProject_shape _ _ _ H) as (fw & collected & _ & _ & ->).
  cbn [issues summary]. split; [reflexivity|]. split; [reflexivity|].
  apply generateSummary_likelihood.
Qed.

(** C2.  In every result of [scanProject] the total is the length of the
    issue list, errors, warnings and informational issues add up to the
    total, and the [warnings] field is the issue list filtered, in order,
    by warning severity. *)
Theorem scan_summary_counts (w : World) (path : string) (r : ScanResult) :
  scanProject JSON_parse join w path = Ok r ->
  totalIssues (summary r) = List.length (issues r)
  /\ errors (summary r) + sum_warnings (summary r) + List.length (filter isInfo (issues r))
     = totalIssues (summary r)
  /\ warnings r = filter isWarning (issues r)
  /\ List.length (warnings r) = sum_warnings (summary r)
  /\ sum_passed (summary r) = List.length (passed r).
Proof.
  intros H. destruct (scanProject_shape _ _ _ H) as (fw & collected & _ & _ & ->).
  cbn [issues summary warnings passed generateSummary totalIssues errors sum_warnings sum_passed].
  repeat split; try reflexivity.
  apply severity_partition.
Qed.

(* --------------------------------------------------------------------- *)
(** *** The framework detector *)
(* --------------------------------------------------------------------- *)

(** C3 (the code departs from it).  When the manifest exists and its text
    is not JSON, [JSON.parse] throws outside any [try]: the exception
    leaves [detectFramework], no Python detection takes place, the scan
    has no result and the command exits with code 1. *)
Theorem malformed_manifest_throws (w : World) (path text : string) :
  existsSync w (join path "package.json") = true ->
  readFileSync w (join path "package.json") = Some text ->
  JSON_parse text = None ->
  detectFramework JSON_parse join w path = Throw
  /\ scanProject JSON_parse join w path = Throw
  /\ exitCode (scanProject JSON_parse join w path) = 1.
Proof.
  intros Hex Hrd Hparse.
  assert (Hd : detectFramework JSON_parse join w path = Throw).
  { unfold detectFramework, detectNode. rewrite Hex.
    unfold readJson, readFile, parseJson. rewrite Hrd. cbn [ofOption bind].
    rewrite Hparse. reflexivity. }
  unfold scanProject. rewrite Hd. cbn. auto.
Qed.

(* --------------------------------------------------------------------- *)
(** *** The start command of an unrecognised project *)
(* --------------------------------------------------------------------- *)

(** C10.  For a project whose framework is the unknown variant the start
    command check returns no issue; every result of the scan holds the
    pass of the start command; and the scan has a result as soon as the
    read of the ignore file in the environment check does not throw. *)
Theorem unknown_start_command_pass (w : World) (path : string) (fw : Framework) :
  detectFramework JSON_parse join w path = Ok fw ->
  name fw = unknown ->
  checkStartCommand JSON_parse join w path fw = Ok []
  /\ (forall r, scanProject JSON_parse join w path = Ok r ->
                framework r = fw /\ In startCommandPass (passed r))
  /\ (forall hygiene, envHygiene join w path = Ok hygiene ->
                      exists r, scanProject JSON_parse join w path = Ok r).
Proof.
  intros Hd Hn.
  assert (Hs : checkStartCommand JSON_parse join w path fw = Ok []).
  { unfold checkStartCommand, isNode, isPython. rewrite Hn. reflexivity. }
  split; [exact Hs|]. split.
  - intros r Hr. unfold scanProject in Hr. rewrite Hd in Hr. cbn [bind] in Hr.
    unfold runChecks in Hr. rewrite Hs in Hr. cbn [bind] in Hr.
    destruct (checkEnvVars join w path fw) as [ev|]; [|discriminate].
    cbn [bind] in Hr.
    destruct (checkDatabaseConfig JSON_parse join w path fw) as [db|]; [|discriminate].
    cbn [bind] in Hr.
    destruct (frameworkStep join w path fw) as [fr|]; [|discriminate].
    cbn [bind] in Hr. injection Hr as <-. cbn [framework passed]. split; [reflexivity|].
    unfold both, startCommandStep. cbn [fst snd List.length Nat.ltb Nat.leb].
    apply in_or_app; right. apply in_or_app; right. left; reflexivity.
  - intros hygiene Hh. unfold scanProject. rewrite Hd. cbn [bind].
    unfold runChecks. rewrite Hs. cbn [bind].
    unfold checkEnvVars. rewrite Hh. cbn [bind].
    unfold checkDatabaseConfig, detectDatabaseLibraries, isNode, isPython, frameworkStep.
    rewrite Hn. cbn [bind dedup fold_left app]. eauto.
Qed.

(* --------------------------------------------------------------------- *)
(** *** The secrets hygiene of the environment check *)
(* --------------------------------------------------------------------- *)

Lemma envInventory_info (envVars : list string) :
  Forall (fun i => issue_id i = "env-vars-needed" /\ issue_severity i = SevInfo)
         (envInventory envVars).
Proof.
  unfold envInventory.
  destruct (Nat.ltb 0 (List.length envVars)); [|constructor].
  match goal with |- context [if ?b then _ else _] => destruct b end;
    repeat constructor.
Qed.

(** C8.  With both the env file and the ignore file present, an ignore
    file without ".env" gives the warning env-file-not-ignored and one with
    it gives the pass env-file-ignored; with neither present the pass
    no-env-file is given; with the ignore file alone the hygiene part gives
    no issue and no pass.  The only other issues of the check are the
    informational ones of the usage inventory. *)
Theorem env_hygiene_cases (w : World) (path : string) (fw : Framework) :
  let dotEnv := existsSync w (join path ".env") in
  let gitignore := existsSync w (join path ".gitignore") in
  let inventory := envInventory (findEnvVarReferences join w path fw) in
  (forall content,
      dotEnv = true -> gitignore = true ->
      readFileSync w (join path ".gitignore") = Some content ->
      (Js.includes content ".env" = false ->
       checkEnvVars join w path fw
       = Ok (envFileNotIgnoredIssue (join path ".gitignore") :: inventory, []))
      /\ (Js.includes content ".env" = true ->
          checkEnvVars join w path fw = Ok (inventory, [envFileIgnoredPass])))
  /\ (dotEnv = false -> gitignore = false ->
      checkEnvVars join w path fw = Ok (inventory, [noEnvFilePass]))
  /\ (dotEnv = false -> gitignore = true ->
      checkEnvVars join w path fw = Ok (inventory, []))
  /\ (forall p, issue_id (envFileNotIgnoredIssue p) = "env-file-not-ignored"
                /\ issue_severity (envFileNotIgnoredIssue p) = SevWarning)
  /\ Forall (fun i => issue_id i = "env-vars-needed" /\ issue_severity i = SevInfo)
            inventory.
Proof.
  cbn zeta. split; [| split; [| split; [| split]]].
  - intros content He Hg Hr.
    split; intros Hi; unfold checkEnvVars, envHygiene, readFile;
      rewrite He, Hg, Hr; cbn; rewrite Hi; reflexivity.
  - intros He Hg. unfold checkEnvVars, envHygiene. rewrite He, Hg. reflexivity.
  - intros He Hg. unfold checkEnvVars, envHygiene. rewrite He, Hg. reflexivity.
  - intros p. split; reflexivity.
  - apply envInventory_info.
Qed.

(* --------------------------------------------------------------------- *)
(** *** The Django check without a settings file *)
(* --------------------------------------------------------------------- *)

(** C7, as the code has it.  When no settings file is found the Django
    check returns normally with the single issue django-no-settings, whose
    severity is error, with generic remediation steps and without any
    pass: no further Django check runs. *)
Theorem django_no_settings (w : World) (path : string) (fw : Framework) :
  truthyPath (findDjangoSettings join w path) = None ->
  checkDjango join w path fw = Ok ([djangoNoSettingsIssue], [])
  /\ issue_id djangoNoSettingsIssue = "django-no-settings"
  /\ issue_severity djangoNoSettingsIssue = SevError
  /\ issue_file djangoNoSettingsIssue = None
  /\ fix_steps (issue_fix djangoNoSettingsIssue)
     = Some ["Verify your Django project structure is correct";
             "settings.py should be in your Django app directory"].
Proof.
  intros H. unfold checkDjango. rewrite H. repeat split.
Qed.

(* --------------------------------------------------------------------- *)
(** *** From the scan of a file to the check *)
(* --------------------------------------------------------------------- *)

Lemma filter_none {A : Type} (f : A -> bool) (l : list A) :
  (forall x, In x l -> f x = false) -> filter f l = [].
Proof.
  induction l as [|x l IH]; intros H; cbn [filter]; [reflexivity|].
  rewrite (H x (or_introl eq_refl)). apply IH. intros y Hy. apply H. right; exact Hy.
Qed.

Lemma filter_all {A : Type} (f : A -> bool) (l : list A) :
  (forall x, In x l -> f x = true) -> filter f l = l.
Proof.
  induction l as [|x l IH]; intros H; cbn [filter]; [reflexivity|].
  rewrite (H x (or_introl eq_refl)). f_equal. apply IH. intros y Hy. apply H. right; exact Hy.
Qed.

(** Among the issues of all scanned files, those that a per-file scan
    reports on one file are the issues of the scan of that file. *)
Lemma issues_of_file (scan : string -> string -> list Issue) (id : string)
      (files : list (string * string)) (file code : string) :
  (forall c f i, In i (scan c f) -> issue_file i = Some f) ->
  NoDup (map fst files) ->
  In (file, code) files ->
  filter (reportsOn id file) (flat_map (fun fc => scan (snd fc) (fst fc)) files)
  = filter (reportsOn id file) (scan code file).
Proof.
  intros Hfile. induction files as [|[f c] files IH]; intros Hnd Hin; [destruct Hin|].
  cbn [flat_map fst snd map] in *. rewrite filter_app.
  apply NoDup_cons_iff in Hnd as [Hnotin Hnd].
  destruct Hin as [Heq|Hin].
  - injection Heq as -> ->.
    rewrite (filter_none (reportsOn id file) (flat_map _ files)); [apply app_nil_r|].
    intros i Hi. apply in_flat_map in Hi as ([f' c'] & Hfc & Hi). cbn [fst snd] in Hi.
    unfold reportsOn. rewrite (Hfile _ _ _ Hi).
    destruct (String.eqb_spec f' file) as [->|]; [|apply andb_false_r].
    exfalso. apply Hnotin. apply (in_map fst) in Hfc. exact Hfc.
  - rewrite (IH Hnd Hin).
    rewrite (filter_none (reportsOn id file) (scan c f)); [reflexivity|].
    intros i Hi. unfold reportsOn. rewrite (Hfile _ _ _ Hi).
    destruct (String.eqb_spec f file) as [->|]; [|apply andb_false_r].
    exfalso. apply Hnotin. apply (in_map fst) in Hin. exact Hin.
Qed.

Lemma port_issue_file (fw : Framework) (c f : string) (i : Issue) :
  In i (scanFileForPortIssues c f fw) -> issue_file i = Some f.
Proof.
  unfold scanFileForPortIssues.
  destruct (hardcodedPort c) as [[v line]|]; [|intros []].
  destruct (negb (hasPortEnvVar c)); [|intros []].
  intros [<-|[]]. reflexivity.
Qed.

Lemma host_issue_file (fw : Framework) (c f : string) (i : Issue) :
  In i (scanFileForHostIssues c f fw) -> issue_file i = Some f.
Proof.
  unfold scanFileForHostIssues.
  destruct ((hasListenCall c || hasPythonServerCall c) && negb (hasCorrectBinding c));
    [|intros []].
  intros [<-|[]]. reflexivity.
Qed.

Lemma nextjsPort_other (w : World) (path file : string) (fw : Framework) :
  filter (reportsOn "port-hardcoded" file)
         (if isNextjs fw then tryCatch (nextjsPortIssues JSON_parse join w path) [] else [])
  = [].
Proof.
  apply filter_none. intros i Hi. destruct (isNextjs fw); [|destruct Hi].
  unfold nextjsPortIssues in Hi.
  destruct (readJson JSON_parse w (join path "package.json")) as [pj|]; [|destruct Hi].
  cbn [bind] in Hi. destruct (startScriptOf pj) as [st|]; [|destruct Hi].
  cbn [bind] in Hi. unfold valIncludes in Hi. destruct (includesFn st) as [inc|]; [|destruct Hi].
  cbn [bind tryCatch] in Hi.
  destruct (inc "next start" && negb (inc "$PORT") && negb (inc "${PORT")); [|destruct Hi].
  destruct Hi as [<-|[]]. reflexivity.
Qed.

Lemma nextjsHost_other (w : World) (path file : string) (fw : Framework) :
  filter (reportsOn "host-binding" file)
         (if isNextjs fw then tryCatch (nextjsHostIssues JSON_parse join w path) [] else [])
  = [].
Proof.
  apply filter_none. intros i Hi. destruct (isNextjs fw); [|destruct Hi].
  unfold nextjsHostIssues in Hi.
  destruct (readJson JSON_parse w (join path "package.json")) as [pj|]; [|destruct Hi].
  cbn [bind] in Hi. destruct (startScriptOf pj) as [st|]; [|destruct Hi].
  cbn [bind] in Hi. unfold valIncludes in Hi. destruct (includesFn st) as [inc|]; [|destruct Hi].
  cbn [bind tryCatch] in Hi.
  destruct (inc "next start" && negb (inc "--hostname 0.0.0.0") && negb (inc "-H 0.0.0.0"));
    [|destruct Hi].
  destruct Hi as [<-|[]]. reflexivity.
Qed.

(** The port-hardcoded issues that the port check reports on a scanned
    file are those of the scan of that file. *)
Lemma checkPortUsage_for_file (w : World) (path : string) (fw : Framework)
      (files : list (string * string)) (file code : string) :
  scannedFiles join w path fw (sourceIgnore ++ testIgnore)%list 50 = Some files ->
  NoDup (map fst files) ->
  In (file, code) files ->
  filter (reportsOn "port-hardcoded" file) (fst (checkPortUsage JSON_parse join w path fw))
  = filter (reportsOn "port-hardcoded" file) (scanFileForPortIssues code file fw).
Proof.
  intros Hf Hnd Hin. unfold checkPortUsage. rewrite Hf. cbn [fst].
  rewrite filter_app, nextjsPort_other, app_nil_r.
  apply (issues_of_file (fun c f => scanFileForPortIssues c f fw)); auto.
  intros c f i. apply port_issue_file.
Qed.

Lemma checkHostBinding_for_file (w : World) (path : string) (fw : Framework)
      (files : list (string * string)) (file code : string) :
  scannedFiles join w path fw (sourceIgnore ++ testIgnore)%list 50 = Some files ->
  NoDup (map fst files) ->
  In (file, code) files ->
  filter (reportsOn "host-binding" file) (fst (checkHostBinding JSON_parse join w path fw))
  = filter (reportsOn "host-binding" file) (scanFileForHostIssues code file fw).
Proof.
  intros Hf Hnd Hin. unfold checkHostBinding. rewrite Hf. cbn [fst].
  rewrite filter_app, nextjsHost_other, app_nil_r.
  apply (issues_of_file (fun c f => scanFileForHostIssues c f fw)); auto.
  intros c f i. apply host_issue_file.
Qed.

(* --------------------------------------------------------------------- *)
(** *** The host binding check *)
(* --------------------------------------------------------------------- *)

(** C5, as the code has it.  A file with a [.listen(] call and without a
    quoted 0.0.0.0 yields one host-binding issue, an error when the file
    holds localhost or 127.0.0.1 in single or double quotes and a warning
    otherwise; a file with a quoted 0.0.0.0 yields none; and the check
    gives its single pass when the files could be listed, no scanned file
    yields an issue and, for Next.js, the start script raises none: the
    pass is there exactly when the check has no issue at all.  The
    host-binding issues that the check reports on a scanned file are those
    of the scan of that file. *)
Theorem host_binding_cases (w : World) (path : string) (fw : Framework)
        (code file : string) :
  (hasListenCall code = true -> hasCorrectBinding code = false ->
   exists line suggestion,
     scanFileForHostIssues code file fw
     = [mkIssue "host-binding"
          (if hasLocalhostBinding code then SevError else SevWarning) CatHost
          (if hasLocalhostBinding code
           then "App binds to localhost/127.0.0.1, which won't work on Railway"
           else "App may not be binding to 0.0.0.0, which is required for Railway")
          (Some file) line suggestion])
  /\ (hasCorrectBinding code = true -> scanFileForHostIssues code file fw = [])
  /\ (forall files,
         scannedFiles join w path fw (sourceIgnore ++ testIgnore)%list 50 = Some files ->
         (forall fc, In fc files -> scanFileForHostIssues (snd fc) (fst fc) fw = []) ->
         (isNextjs fw = true -> tryCatch (nextjsHostIssues JSON_parse join w path) [] = []) ->
         checkHostBinding JSON_parse join w path fw = ([], [hostCheckPass]))
  /\ (forall files,
         scannedFiles join w path fw (sourceIgnore ++ testIgnore)%list 50 = Some files ->
         snd (checkHostBinding JSON_parse join w path fw)
         = match fst (checkHostBinding JSON_parse join w path fw) with
           | [] => [hostCheckPass]
           | _ => []
           end)
  /\ (forall files,
         scannedFiles join w path fw (sourceIgnore ++ testIgnore)%list 50 = Some files ->
         NoDup (map fst files) -> In (file, code) files ->
         filter (reportsOn "host-binding" file)
                (fst (checkHostBinding JSON_parse join w path fw))
         = scanFileForHostIssues code file fw).
Proof.
  split; [| split; [| split; [| split]]].
  - intros Hl Hc. unfold scanFileForHostIssues. rewrite Hl, Hc. cbn [orb negb andb].
    eauto.
  - intros Hc. unfold scanFileForHostIssues. rewrite Hc.
    rewrite andb_false_r. reflexivity.
  - intros files Hf Hnone Hnext. unfold checkHostBinding. rewrite Hf.
    assert (Hflat : flat_map (fun fc => scanFileForHostIssues (snd fc) (fst fc) fw) files = []).
    { clear Hf. induction files as [|fc files IH]; [reflexivity|].
      cbn [flat_map]. rewrite (Hnone fc (or_introl eq_refl)).
      apply IH. intros fc' Hin. apply Hnone. right; exact Hin. }
    rewrite Hflat. cbn [app].
    destruct (isNextjs fw); [rewrite (Hnext eq_refl)|]; reflexivity.
  - intros files Hf. unfold checkHostBinding. rewrite Hf. reflexivity.
  - intros files Hf Hnd Hin.
    rewrite (checkHostBinding_for_file w path fw files file code Hf Hnd Hin).
    apply filter_all. intros i Hi. unfold reportsOn.
    rewrite (host_issue_file _ _ _ _ Hi), String.eqb_refl, andb_true_r.
    unfold scanFileForHostIssues in Hi.
    destruct ((hasListenCall code || hasPythonServerCall code)
              && negb (hasCorrectBinding code)); [|destruct Hi].
    destruct Hi as [<-|[]]. reflexivity.
Qed.

(* --------------------------------------------------------------------- *)
(** *** The database check *)
(* --------------------------------------------------------------------- *)

Lemma scanLines_found (file : string) (lines : list string) :
  forall i found at_,
    fst (scanLinesForLocalhost file lines i found at_)
    = found || existsb lineHitsLocalhost lines.
Proof.
  induction lines as [|line rest IH]; intros i found at_; cbn [scanLinesForLocalhost existsb].
  - now rewrite orb_false_r.
  - destruct line as [|a line'].
    + cbn [Js.nonEmpty negb]. rewrite IH.
      replace (lineHitsLocalhost EmptyString) with false by (vm_compute; reflexivity).
      reflexivity.
    + cbn [Js.nonEmpty negb].
      destruct (lineHitsLocalhost (String a line')).
      * cbn [fst orb]. now rewrite orb_true_r.
      * destruct found; [reflexivity|]. rewrite IH. reflexivity.
Qed.

Lemma databaseScan_flags (files : list (string * string)) :
  forall st,
    let st' := fold_left scanFileForDatabase files st in
    hasLocalhost st' = hasLocalhost st || existsb fileHitsLocalhost files
    /\ hasDatabaseUrl st' = hasDatabaseUrl st || existsb (fun fc => refsDatabaseUrl (snd fc)) files
    /\ hasSocketConnection st'
       = hasSocketConnection st || existsb (fun fc => refsSocket (snd fc)) files.
Proof.
  induction files as [|fc files IH]; intros st; cbn zeta; cbn [fold_left existsb].
  - now rewrite !orb_false_r.
  - destruct (IH (scanFileForDatabase st fc)) as (Hl & Hu & Hs).
    rewrite Hl, Hu, Hs. unfold scanFileForDatabase.
    pose proof (scanLines_found (fst fc) (Js.splitLines (snd fc)) 0
                  (hasLocalhost st) (localhostAt st)) as Hfound.
    destruct (scanLinesForLocalhost (fst fc) (Js.splitLines (snd fc)) 0
                (hasLocalhost st) (localhostAt st)) as [found at_].
    cbn [fst] in Hfound. cbn [hasLocalhost hasDatabaseUrl hasSocketConnection].
    rewrite Hfound. unfold fileHitsLocalhost. now rewrite !orb_assoc.
Qed.

(* --------------------------------------------------------------------- *)
(** *** The matcher *)
(* --------------------------------------------------------------------- *)

#[local] Open Scope nat_scope.

Lemma drop_length (n : nat) (s : string) : String.length (Js.drop n s) = String.length s - n.
Proof.
  revert s; induction n as [|n IH]; intros s; cbn [Js.drop].
  - lia.
  - destruct s; cbn [String.length]; [reflexivity|]. rewrite IH. lia.
Qed.

Lemma drop_drop (n m : nat) (s : string) : Js.drop m (Js.drop n s) = Js.drop (n + m) s.
Proof.
  revert s; induction n as [|n IH]; intros s; cbn [Js.drop Nat.add]; [reflexivity|].
  destruct s; [destruct m; reflexivity|]. apply IH.
Qed.

Lemma take_add (n m : nat) (s : string) :
  Js.take (n + m) s = (Js.take n s ++ Js.take m (Js.drop n s))%string.
Proof.
  revert s; induction n as [|n IH]; intros s; cbn [Js.take Js.drop Nat.add]; [reflexivity|].
  destruct s; cbn [String.append]; [destruct m; reflexivity|]. now rewrite IH.
Qed.

Lemma allChars_app (p : ascii -> bool) (s t : string) :
  Regex.allChars p (s ++ t) = Regex.allChars p s && Regex.allChars p t.
Proof.
  induction s as [|a s IH]; cbn [String.append Regex.allChars]; [reflexivity|].
  now rewrite IH, andb_assoc.
Qed.

Lemma allChars_weaken (p q : ascii -> bool) (s : string) :
  (forall a, p a = true -> q a = true) ->
  Regex.allChars p s = true -> Regex.allChars q s = true.
Proof.
  intros H. induction s as [|a s IH]; cbn [Regex.allChars]; [reflexivity|].
  intros Hs. apply andb_true_iff in Hs as [Ha Hs]. now rewrite (H _ Ha), IH.
Qed.

(** The code unit at index [d] of a prefix all of whose units satisfy [p]
    satisfies [p]. *)
Lemma allChars_at (p : ascii -> bool) (n d : nat) (s : string) (a : ascii) (rest : string) :
  Regex.allChars p (Js.take n s) = true -> d < n -> Js.drop d s = String a rest -> p a = true.
Proof.
  revert n s; induction d as [|d IH]; intros n s Hall Hd Hdrop.
  - cbn [Js.drop] in Hdrop. subst s. destruct n; [lia|].
    cbn [Js.take Regex.allChars] in Hall. now apply andb_true_iff in Hall.
  - destruct n; [lia|]. destruct s as [|b s]; [discriminate|].
    cbn [Js.take Regex.allChars Js.drop] in *. apply andb_true_iff in Hall as [_ Hall].
    apply (IH n s); auto. lia.
Qed.

(** A successful run hands to its continuation the input less a prefix
    made of code units of the alphabet of the expression. *)
Lemma run_consumes {R : Type} (ic : bool) (r : Regex.regex) :
  forall (i : nat) (s : string) (c : Regex.caps)
         (k : nat -> string -> Regex.caps -> option R) (x : R),
    Regex.run ic r i s c k = Some x ->
    exists n c', n <= String.length s
                 /\ k (i + n) (Js.drop n s) c' = Some x
                 /\ Regex.allChars (Regex.alphabet ic r) (Js.take n s) = true.
Proof.
  induction r as [| a | p | r1 IH1 r2 IH2 | r1 IH1 r2 IH2 | r1 IH1 | g r1 IH1 |];
    intros i s c k x H; cbn [Regex.run] in H.
  - exists 0, c. rewrite Nat.add_0_r. cbn. repeat split; auto. lia.
  - destruct s as [|b s']; [discriminate|].
    destruct (Regex.chrMatch ic a b) eqn:E; [|discriminate].
    exists 1, c. rewrite Nat.add_1_r.
    cbn [Js.drop Js.take Regex.allChars Regex.alphabet String.length].
    rewrite E. repeat split; auto. lia.
  - destruct s as [|b s']; [discriminate|].
    destruct (p b) eqn:E; [|discriminate].
    exists 1, c. rewrite Nat.add_1_r.
    cbn [Js.drop Js.take Regex.allChars Regex.alphabet String.length].
    rewrite E. repeat split; auto. lia.
  - apply IH1 in H as (n1 & c1 & Hn1 & H & Ha1).
    apply IH2 in H as (n2 & c2 & Hn2 & H & Ha2).
    rewrite drop_length in Hn2. rewrite drop_drop in H.
    exists (n1 + n2), c2. rewrite Nat.add_assoc. split; [lia|]. split; [exact H|].
    rewrite take_add, allChars_app. cbn [Regex.alphabet].
    apply andb_true_iff; split.
    + eapply allChars_weaken; [|exact Ha1]. intros a Ha; now rewrite Ha.
    + eapply allChars_weaken; [|exact Ha2]. intros a Ha; rewrite Ha; apply orb_true_r.
  - destruct (Regex.run ic r1 i s c k) as [y|] eqn:E.
    + injection H as <-. apply IH1 in E as (n & c' & Hn & Hk & Ha).
      exists n, c'. repeat split; auto. cbn [Regex.alphabet].
      eapply allChars_weaken; [|exact Ha]. intros a Ha'; now rewrite Ha'.
    + apply IH2 in H as (n & c' & Hn & Hk & Ha).
      exists n, c'. repeat split; auto. cbn [Regex.alphabet].
      eapply allChars_weaken; [|exact Ha]. intros a Ha'; rewrite Ha'; apply orb_true_r.
  - remember (String.length s) as fuel eqn:Hfuel in H. clear Hfuel.
    revert i s c H. induction fuel as [|fuel IHf]; intros i s c H.
    + exists 0, c. rewrite Nat.add_0_r. cbn. repeat split; auto. lia.
    + match type of H with
      | match ?t with _ => _ end = _ => destruct t as [y|] eqn:E
      end.
      * injection H as <-. apply IH1 in E as (n1 & c1 & Hn1 & E & Ha1).
        destruct (i <? i + n1); [|discriminate].
        apply IHf in E as (n2 & c2 & Hn2 & E & Ha2).
        rewrite drop_length in Hn2. rewrite drop_drop in E.
        exists (n1 + n2), c2. rewrite Nat.add_assoc. split; [lia|]. split; [exact E|].
        rewrite take_add, allChars_app.
        apply andb_true_iff; split; [exact Ha1 | exact Ha2].
      * exists 0, c. rewrite Nat.add_0_r. cbn. repeat split; auto. lia.
  - apply IH1 in H as (n & c' & Hn & Hk & Ha).
    exists n. eexists. split; [exact Hn|]. split; [exact Hk | exact Ha].
  - destruct (i =? 0); [|discriminate].
    exists 0, c. rewrite Nat.add_0_r. cbn. repeat split; auto. lia.
Qed.

Lemma matchHere_shape (ic : bool) (r : Regex.regex) (i : nat) (s : string) (m : Regex.Match) :
  Regex.matchHere ic r i s = Some m ->
  exists n, n <= String.length s
            /\ Regex.m_index m = i /\ Regex.m_end m = i + n
            /\ Regex.allChars (Regex.alphabet ic r) (Js.take n s) = true.
Proof.
  unfold Regex.matchHere. intros H.
  apply run_consumes in H as (n & c' & Hn & H & Ha).
  injection H as <-. exists n. cbn. auto.
Qed.

Lemma searchFrom_spec (ic : bool) (r : Regex.regex) (s : string) :
  forall i m,
    Regex.searchFrom ic r i s = Some m ->
    exists j, j <= String.length s
              /\ Regex.matchHere ic r (i + j) (Js.drop j s) = Some m
              /\ forall j', j' < j -> Regex.matchHere ic r (i + j') (Js.drop j' s) = None.
Proof.
  induction s as [|a s IH]; intros i m H; cbn [Regex.searchFrom] in H.
  - destruct (Regex.matchHere ic r i EmptyString) as [m'|] eqn:E; [|discriminate].
    injection H as <-. exists 0. rewrite Nat.add_0_r. cbn [Js.drop String.length].
    repeat split; auto. intros j' Hj'; lia.
  - destruct (Regex.matchHere ic r i (String a s)) as [m'|] eqn:E.
    + injection H as <-. exists 0. rewrite Nat.add_0_r. cbn [Js.drop].
      repeat split; auto; [lia|]. intros j' Hj'; lia.
    + apply IH in H as (j & Hj & Hm & Hnone). exists (S j).
      cbn [Js.drop String.length]. rewrite Nat.add_succ_r. repeat split; auto; [lia|].
      intros [|j'] Hj'.
      * rewrite Nat.add_0_r. exact E.
      * cbn [Js.drop]. rewrite Nat.add_succ_r. apply Hnone. lia.
Qed.

Lemma searchFrom_none (ic : bool) (r : Regex.regex) (s : string) :
  forall i,
    Regex.searchFrom ic r i s = None ->
    forall j, j <= String.length s -> Regex.matchHere ic r (i + j) (Js.drop j s) = None.
Proof.
  induction s as [|a s IH]; intros i H j Hj; cbn [Regex.searchFrom] in H.
  - destruct (Regex.matchHere ic r i EmptyString) as [m'|] eqn:E; [discriminate|].
    cbn [String.length] in Hj. assert (j = 0) by lia. subst j.
    rewrite Nat.add_0_r. exact E.
  - destruct (Regex.matchHere ic r i (String a s)) as [m'|] eqn:E; [discriminate|].
    destruct j as [|j].
    + rewrite Nat.add_0_r. exact E.
    + cbn [Js.drop]. rewrite Nat.add_succ_r. apply (IH (S i) H). cbn [String.length] in Hj. lia.
Qed.

(** [exec] answers with the leftmost index at or after [lastIndex] where
    the expression matches, and with the match there. *)
Lemma exec_some (ic : bool) (r : Regex.regex) (code : string) (L : nat) (m : Regex.Match) :
  Regex.exec ic r code L = Some m ->
  L <= Regex.m_index m
  /\ Regex.matchAt ic r code (Regex.m_index m) = Some m
  /\ forall p, L <= p -> p < Regex.m_index m -> Regex.matchAt ic r code p = None.
Proof.
  unfold Regex.exec. destruct (Nat.leb_spec L (String.length code)) as [HL|HL]; [|discriminate].
  intros H. apply searchFrom_spec in H as (j & Hj & Hm & Hnone).
  rewrite drop_length in Hj. rewrite drop_drop in Hm.
  destruct (matchHere_shape _ _ _ _ _ Hm) as (n & _ & Hidx & _).
  rewrite Hidx. split; [lia|]. split.
  - unfold Regex.matchAt. destruct (Nat.leb_spec (L + j) (String.length code)); [exact Hm|lia].
  - intros p HLp Hp. unfold Regex.matchAt.
    destruct (Nat.leb_spec p (String.length code)); [|reflexivity].
    specialize (Hnone (p - L) ltac:(lia)). rewrite drop_drop in Hnone.
    replace (L + (p - L)) with p in Hnone by lia. exact Hnone.
Qed.

Lemma exec_none (ic : bool) (r : Regex.regex) (code : string) (L : nat) :
  Regex.exec ic r code L = None ->
  forall p, L <= p -> Regex.matchAt ic r code p = None.
Proof.
  unfold Regex.exec, Regex.matchAt. intros H p HLp.
  destruct (Nat.leb_spec p (String.length code)) as [Hp|Hp]; [|reflexivity].
  destruct (Nat.leb_spec L (String.length code)) as [HL|HL]; [|lia].
  pose proof (searchFrom_none _ _ _ _ H (p - L)) as Hn.
  rewrite drop_length, drop_drop in Hn. replace (L + (p - L)) with p in Hn by lia.
  apply Hn. lia.
Qed.

Lemma matchAt_shape (ic : bool) (r : Regex.regex) (code : string) (p : nat) (m : Regex.Match) :
  Regex.matchAt ic r code p = Some m ->
  exists n, p + n <= String.length code
            /\ Regex.m_index m = p /\ Regex.m_end m = p + n
            /\ Regex.allChars (Regex.alphabet ic r) (Js.take n (Js.drop p code)) = true.
Proof.
  unfold Regex.matchAt. destruct (Nat.leb_spec p (String.length code)) as [Hp|Hp]; [|discriminate].
  intros H. apply matchHere_shape in H as (n & Hn & Hi & He & Ha).
  rewrite drop_length in Hn. exists n. repeat split; auto. lia.
Qed.

(** A match of an expression that starts with the literal [a]. *)
Lemma anchored_match (a : ascii) (tail : Regex.regex) (code : string) (p : nat)
      (m : Regex.Match) :
  Regex.matchAt false (Regex.Seq (Regex.Chr a) tail) code p = Some m ->
  exists rest n,
    Js.drop p code = String a rest
    /\ Regex.m_index m = p /\ Regex.m_end m = S p + n
    /\ S p + n <= String.length code
    /\ Regex.allChars (Regex.alphabet false tail) (Js.take n rest) = true.
Proof.
  unfold Regex.matchAt.
  destruct (Nat.leb_spec p (String.length code)) as [Hp|Hp]; [|discriminate].
  unfold Regex.matchHere. cbn [Regex.run].
  pose proof (drop_length p code) as Hlen.
  destruct (Js.drop p code) as [|b rest]; [discriminate|].
  unfold Regex.chrMatch. destruct (Ascii.eqb_spec a b) as [<-|]; [|discriminate].
  intros H. apply run_consumes in H as (n & c' & Hn & H & Ha).
  injection H as <-. exists rest, n. cbn [Regex.m_index Regex.m_end String.length] in *.
  repeat split; auto. lia.
Qed.

(** When the rest of the expression cannot consume the literal it starts
    with, two matches do not overlap. *)
Lemma anchored_no_overlap (a : ascii) (tail : Regex.regex) (code : string)
      (p1 p2 : nat) (m1 m2 : Regex.Match) :
  Regex.alphabet false tail a = false ->
  Regex.matchAt false (Regex.Seq (Regex.Chr a) tail) code p1 = Some m1 ->
  Regex.matchAt false (Regex.Seq (Regex.Chr a) tail) code p2 = Some m2 ->
  p1 < p2 -> Regex.m_end m1 <= p2.
Proof.
  intros Htail H1 H2 Hlt.
  apply anchored_match in H1 as (rest1 & n1 & Hd1 & _ & He1 & _ & Ha1).
  apply anchored_match in H2 as (rest2 & n2 & Hd2 & _ & _ & _ & _).
  rewrite He1. destruct (Nat.le_gt_cases (S p1 + n1) p2) as [|Hgt]; [assumption|].
  exfalso.
  assert (Hd : Js.drop (p2 - S p1) rest1 = String a rest2).
  { change rest1 with (Js.drop 1 (String a rest1)). rewrite <- Hd1, !drop_drop.
    replace (p1 + (1 + (p2 - S p1))) with p2 by lia. exact Hd2. }
  pose proof (allChars_at _ n1 (p2 - S p1) rest1 a rest2 Ha1 ltac:(lia) Hd) as Hin.
  congruence.
Qed.

Section LiteralLoop.

Variables (re : Regex.regex) (g : nat) (code : string).

Lemma literalLoop_sound (cond : bool) :
  forall fuel L v line,
    literalLoop fuel re g cond code L = Some (v, line) ->
    cond = true
    /\ exists p, L <= p /\ hardcodedAt re g code p v /\ line = lineOfIndex code p.
Proof.
  induction fuel as [|fuel IH]; intros L v line H; cbn [literalLoop] in H; [discriminate|].
  destruct (Regex.exec false re code L) as [m|] eqn:E; [|discriminate].
  destruct (exec_some _ _ _ _ _ E) as (HL & Hm & _).
  assert (Hnext : literalLoop fuel re g cond code (Regex.m_end m) = Some (v, line) ->
                  Regex.m_index m <= Regex.m_end m ->
                  cond = true
                  /\ exists p, L <= p /\ hardcodedAt re g code p v /\ line = lineOfIndex code p).
  { intros H' Hle. apply IH in H' as (Hc & p & Hp & Hh & Hl). split; [exact Hc|].
    exists p. repeat split; auto. lia. }
  assert (Hle : Regex.m_index m <= Regex.m_end m).
  { apply matchAt_shape in Hm as (n & _ & Hi & He & _). lia. }
  destruct (literalValue g m) as [portNumber|] eqn:Ev; [|auto].
  destruct (Js.geN portNumber 1000) eqn:Hge; cbn [andb] in H; [|auto].
  destruct cond; [|auto]. injection H as <- <-. split; [reflexivity|].
  exists (Regex.m_index m). repeat split; auto. exists m. auto.
Qed.

Hypothesis progress :
  forall p m, Regex.matchAt false re code p = Some m -> p < Regex.m_end m.

Hypothesis no_overlap :
  forall p1 m1 p2 m2,
    Regex.matchAt false re code p1 = Some m1 ->
    Regex.matchAt false re code p2 = Some m2 ->
    p1 < p2 -> Regex.m_end m1 <= p2.

(** With the unconditional test the loop breaks at the leftmost
    hard-coded port at or after [lastIndex]. *)
Lemma literalLoop_leftmost :
  forall fuel L p v,
    L <= p -> hardcodedAt re g code p v -> String.length code - L < fuel ->
    exists p' v',
      L <= p' /\ p' <= p /\ hardcodedAt re g code p' v'
      /\ (forall q u, L <= q -> q < p' -> ~ hardcodedAt re g code q u)
      /\ literalLoop fuel re g true code L = Some (v', lineOfIndex code p').
Proof.
  induction fuel as [|fuel IH]; intros L p v HLp Hh Hfuel; [lia|].
  cbn [literalLoop].
  destruct Hh as (mp & Hmp & Hvp & Hgep).
  destruct (Regex.exec false re code L) as [m|] eqn:E.
  2:{ rewrite (exec_none _ _ _ _ E p HLp) in Hmp. discriminate. }
  destruct (exec_some _ _ _ _ _ E) as (HL & Hm & Hnone).
  assert (Hidx : Regex.m_index m <= p).
  { destruct (Nat.le_gt_cases (Regex.m_index m) p) as [|Hgt]; [assumption|].
    rewrite (Hnone p HLp Hgt) in Hmp. discriminate. }
  assert (Hbefore : forall q u, L <= q -> q < Regex.m_index m -> ~ hardcodedAt re g code q u).
  { intros q u Hq1 Hq2 (mq & Hmq & _). rewrite (Hnone q Hq1 Hq2) in Hmq. discriminate. }
  assert (Hhere : forall v0, literalValue g m = Some v0 -> Js.geN v0 1000 = true ->
                  exists p' v', L <= p' /\ p' <= p /\ hardcodedAt re g code p' v'
                    /\ (forall q u, L <= q -> q < p' -> ~ hardcodedAt re g code q u)
                    /\ Some (v0, lineOfIndex code (Regex.m_index m))
                       = Some (v', lineOfIndex code p')).
  { intros v0 Hv0 Hge0. exists (Regex.m_index m), v0. repeat split; auto.
    exists m. auto. }
  assert (Hskip : (forall u, ~ hardcodedAt re g code (Regex.m_index m) u) ->
                  exists p' v', L <= p' /\ p' <= p /\ hardcodedAt re g code p' v'
                    /\ (forall q u, L <= q -> q < p' -> ~ hardcodedAt re g code q u)
                    /\ literalLoop fuel re g true code (Regex.m_end m)
                       = Some (v', lineOfIndex code p')).
  { intros Hnot.
    assert (Hne : Regex.m_index m <> p).
    { intros Heq. apply (Hnot v). exists mp. rewrite Heq. auto. }
    pose proof (progress _ _ Hm) as Hprog.
    destruct (matchAt_shape _ _ _ _ _ Hm) as (n & Hbound & _ & Hn & _).
    pose proof (no_overlap _ _ _ _ Hm Hmp ltac:(lia)) as Hend.
    destruct (IH (Regex.m_end m) p v Hend (ex_intro _ mp (conj Hmp (conj Hvp Hgep))) ltac:(lia))
      as (p' & v' & H1 & H2 & H3 & H4 & H5).
    exists p', v'. repeat split; auto; [lia|].
    intros q u Hq1 Hq2. destruct (Nat.lt_ge_cases q (Regex.m_index m)) as [Hlt|Hge].
    - apply Hbefore; assumption.
    - destruct (Nat.eq_dec q (Regex.m_index m)) as [->|Hneq]; [apply Hnot|].
      destruct (Nat.lt_ge_cases q (Regex.m_end m)) as [Hin|Hout]; [|apply H4; assumption].
      intros (mq & Hmq & _).
      pose proof (no_overlap _ _ _ _ Hm Hmq ltac:(lia)). lia. }
  destruct (literalValue g m) as [portNumber|] eqn:Ev.
  - destruct (Js.geN portNumber 1000) eqn:Hge; cbn [andb].
    + apply Hhere; auto.
    + apply Hskip. intros u (m' & Hm' & Hv' & Hge'). rewrite Hm in Hm'.
      injection Hm' as <-. rewrite Ev in Hv'. injection Hv' as <-. congruence.
  - apply Hskip. intros u (m' & Hm' & Hv' & _). rewrite Hm in Hm'.
    injection Hm' as <-. congruence.
Qed.

End LiteralLoop.

(** The matcher runs [(a b) c] as [a (b c)], so the expression of the
    listen call is its leading dot followed by [listenTail]. *)
Lemma listen_anchored (code : string) (p : nat) :
  Regex.matchAt false listenCallRegex code p
  = Regex.matchAt false (Regex.Seq (Regex.Chr ".") listenTail) code p.
Proof. reflexivity. Qed.

Lemma listenTail_no_dot : Regex.alphabet false listenTail "."%char = false.
Proof. vm_compute. reflexivity. Qed.

Lemma listen_progress (code : string) (p : nat) (m : Regex.Match) :
  Regex.matchAt false listenCallRegex code p = Some m -> p < Regex.m_end m.
Proof.
  rewrite listen_anchored. intros H.
  apply anchored_match in H as (rest & n & _ & _ & He & _). lia.
Qed.

Lemma listen_no_overlap (code : string) (p1 : nat) (m1 : Regex.Match) (p2 : nat)
      (m2 : Regex.Match) :
  Regex.matchAt false listenCallRegex code p1 = Some m1 ->
  Regex.matchAt false listenCallRegex code p2 = Some m2 ->
  p1 < p2 -> Regex.m_end m1 <= p2.
Proof.
  rewrite !listen_anchored. apply anchored_no_overlap, listenTail_no_dot.
Qed.

Lemma portOr_hardcoded (v : Js.num) (alt : string) :
  Js.geN v 1000 = true -> portOr v alt = Js.numToString v.
Proof.
  intros H. unfold portOr. destruct v as [n|]; [|reflexivity].
  cbn [Js.geN Js.isZero] in *. apply N.leb_le in H.
  destruct (N.eqb_spec n 0); [lia|reflexivity].
Qed.

Lemma port_message (file : string) (v : Js.num) (line : nat) :
  Js.geN v 1000 = true ->
  issue_message (portHardcodedIssue file v line)
  = ("Hardcoded port " ++ Js.numToString v ++ ". Railway requires process.env.PORT")%string.
Proof.
  intros H. cbn [issue_message portHardcodedIssue]. now rewrite portOr_hardcoded.
Qed.

(** A hard-coded port is [parseInt] of the digits of its literal. *)
Lemma hardcodedAt_digits (re : Regex.regex) (g : nat) (code : string) (p : nat) (v : Js.num) :
  hardcodedAt re g code p v <->
  exists ds, digitsAt re g code p ds /\ v = Js.parseInt ds /\ Js.geN v 1000 = true.
Proof.
  unfold hardcodedAt, digitsAt, literalValue. split.
  - intros (m & Hm & Hv & Hge).
    destruct (Regex.group g (Regex.m_caps m)) as [ds|] eqn:Eg; [|discriminate].
    destruct (Js.nonEmpty ds) eqn:En; [|discriminate].
    injection Hv as <-. exists ds. split; [exists m; auto|auto].
  - intros (ds & (m & Hm & Hg & Hn) & -> & Hge).
    exists m. rewrite Hg, Hn. auto.
Qed.

(* --------------------------------------------------------------------- *)
(** *** Numbers below 2^53 *)
(* --------------------------------------------------------------------- *)

Lemma size_safe (n : N) : (n < 2 ^ 53)%N -> (N.size n <= 53)%N.
Proof.
  intros H. destruct (N.eq_dec n 0) as [->|Hn]; [cbn; lia|].
  rewrite N.size_log2 by exact Hn.
  assert (N.log2 n < 53)%N by (apply N.log2_lt_pow2; lia). lia.
Qed.

(** Such a number is its own double. *)
Lemma toDouble_safe (n : N) : (n < 2 ^ 53)%N -> Js.toDouble n = Js.Finite n.
Proof.
  intros H. pose proof (size_safe n H) as Hs. unfold Js.toDouble.
  replace (N.size n - 53)%N with 0%N by lia.
  rewrite N.shiftr_0_r, N.shiftl_0_r. cbn [N.ltb N.compare andb].
  destruct (N.ltb_spec 1024 (N.size n)); [lia|reflexivity].
Qed.

Lemma numToString_safe (n : N) : (n < 2 ^ 53)%N -> Js.numToString (Js.Finite n) = Js.decimal n.
Proof.
  intros H. unfold Js.numToString. destruct (N.ltb_spec n (2 ^ 53)); [reflexivity|lia].
Qed.

(** Digits whose value is below 2^53 are read and printed as that
    value. *)
Lemma parseInt_safe (ds : string) :
  (Js.parseDigits 0 ds < 2 ^ 53)%N ->
  Js.numToString (Js.parseInt ds) = Js.decimal (Js.parseDigits 0 ds).
Proof.
  intros H. unfold Js.parseInt. rewrite (toDouble_safe _ H). apply numToString_safe, H.
Qed.

Section Threshold.

#[local] Open Scope N_scope.

Lemma size_pow2_le (n : N) : n <> 0 -> 2 ^ (N.size n - 1) <= n.
Proof.
  intros Hn. rewrite N.size_log2 by exact Hn.
  replace (N.succ (N.log2 n) - 1) with (N.log2 n) by lia.
  apply N.log2_spec. lia.
Qed.

(** Rounding to a double keeps a number on its side of every number up to
    2^52. *)
Lemma toDouble_ge (n k : N) :
  k <= 2 ^ 52 -> Js.geN (Js.toDouble n) k = (k <=? n).
Proof.
  intros Hk. destruct (N.lt_ge_cases n (2 ^ 53)) as [Hn|Hn].
  - rewrite (toDouble_safe n Hn). reflexivity.
  - assert (Hkn : (k <=? n) = true) by (apply N.leb_le; lia). rewrite Hkn.
    unfold Js.toDouble.
    set (e := N.size n - 53).
    set (q := N.shiftr n e).
    match goal with |- context [N.shiftl ?x e] => set (q' := x) end.
    destruct (1024 <? N.size (N.shiftl q' e)); [reflexivity|].
    cbn [Js.geN]. apply N.leb_le.
    assert (Hsize : 53 < N.size n).
    { destruct (N.le_gt_cases (N.size n) 53) as [Hle|]; [|assumption].
      pose proof (N.size_gt n) as Hgt.
      assert (2 ^ N.size n <= 2 ^ 53) by (apply N.pow_le_mono_r; lia). lia. }
    assert (Hq : 2 ^ 52 <= q).
    { unfold q. rewrite N.shiftr_div_pow2.
      assert (Hp : 2 ^ (N.size n - 1) <= n) by (apply size_pow2_le; lia).
      replace (N.size n - 1) with (52 + e) in Hp by (unfold e; lia).
      rewrite N.pow_add_r in Hp.
      apply N.div_le_lower_bound; [apply N.pow_nonzero; lia|].
      rewrite N.mul_comm. exact Hp. }
    assert (Hq' : q <= q').
    { unfold q'. destruct (_ && _); lia. }
    rewrite N.shiftl_mul_pow2.
    assert (1 <= 2 ^ e) by (apply N.neq_0_le_1, N.pow_nonzero; lia).
    nia.
Qed.

(** The literal is at least 1000 exactly when the number read from it
    is. *)
Lemma parseInt_ge_1000 (ds : string) :
  Js.geN (Js.parseInt ds) 1000 = (1000 <=? Js.parseDigits 0 ds).
Proof. apply toDouble_ge. vm_compute. discriminate. Qed.

End Threshold.

(** A hard-coded port is a literal whose value is at least 1000. *)
Lemma hardcodedAt_value (re : Regex.regex) (g : nat) (code : string) (p : nat) (v : Js.num) :
  hardcodedAt re g code p v <->
  exists ds, digitsAt re g code p ds /\ v = Js.parseInt ds
             /\ (1000 <= Js.parseDigits 0 ds)%N.
Proof.
  rewrite hardcodedAt_digits. split; intros (ds & Hd & -> & H); exists ds;
    (split; [exact Hd|]); (split; [reflexivity|]).
  - rewrite parseInt_ge_1000 in H. now apply N.leb_le.
  - rewrite parseInt_ge_1000. now apply N.leb_le.
Qed.

Lemma digitsAt_unique (re : Regex.regex) (g : nat) (code : string) (p : nat)
      (ds ds' : string) :
  digitsAt re g code p ds -> digitsAt re g code p ds' -> ds = ds'.
Proof. intros (m & Hm & Hg & _) (m' & Hm' & Hg' & _). congruence. Qed.

(* --------------------------------------------------------------------- *)
(** *** Determinism *)
(* --------------------------------------------------------------------- *)

Section Determinism.

Variables w1 w2 : World.
Hypothesis Hex : forall p, existsSync w1 p = existsSync w2 p.
Hypothesis Hrd : forall p, readFileSync w1 p = readFileSync w2 p.
Hypothesis Hgl : forall q, glob w1 q = glob w2 q.

Lemma readFile_ext p : readFile w1 p = readFile w2 p.
Proof. unfold readFile. now rewrite Hrd. Qed.

Lemma readJson_ext p : readJson JSON_parse w1 p = readJson JSON_parse w2 p.
Proof. unfold readJson. now rewrite readFile_ext. Qed.

Lemma firstExisting_ext path cs : firstExisting join w1 path cs = firstExisting join w2 path cs.
Proof. induction cs as [|c cs IH]; cbn; [reflexivity|]. now rewrite Hex, IH. Qed.

Lemma mainField_ext path : mainField JSON_parse join w1 path = mainField JSON_parse join w2 path.
Proof.
  unfold mainField. rewrite readJson_ext.
  destruct (readJson JSON_parse w2 (join path "package.json")) as [pj|]; [|reflexivity].
  cbn [bind]. destruct (getProp pj "main") as [[m|]|]; try reflexivity.
  cbn [bind]. destruct (truthy m); [|reflexivity]. destruct m; try reflexivity.
  now rewrite Hex.
Qed.

Lemma findEntryPoint_ext path cs :
  findEntryPoint JSON_parse join w1 path cs = findEntryPoint JSON_parse join w2 path cs.
Proof.
  unfold findEntryPoint. now rewrite firstExisting_ext, Hex, mainField_ext, Hgl.
Qed.

Lemma detectNode_ext path : detectNode JSON_parse join w1 path = detectNode JSON_parse join w2 path.
Proof.
  unfold detectNode. rewrite !Hex, readJson_ext.
  destruct (existsSync w2 (join path "package.json")); [|reflexivity].
  destruct (readJson JSON_parse w2 (join path "package.json")) as [pj|]; [|reflexivity].
  cbn [bind]. destruct (getProp pj "dependencies") as [d|]; [|reflexivity].
  cbn [bind]. destruct (getProp pj "devDependencies") as [dd|]; [|reflexivity].
  cbn [bind]. now rewrite !findEntryPoint_ext.
Qed.

Lemma detectPython_ext path :
  detectPython JSON_parse join w1 path = detectPython JSON_parse join w2 path.
Proof.
  unfold detectPython. now rewrite !Hex, readFile_ext, !findEntryPoint_ext.
Qed.

Lemma detectFramework_ext path :
  detectFramework JSON_parse join w1 path = detectFramework JSON_parse join w2 path.
Proof.
  unfold detectFramework. rewrite detectNode_ext.
  destruct (detectNode JSON_parse join w2 path) as [[fw|]|]; try reflexivity.
  apply detectPython_ext.
Qed.

Lemma readAll_ext path files : readAll join w1 path files = readAll join w2 path files.
Proof. induction files as [|f fs IH]; cbn; [reflexivity|]. now rewrite Hrd, IH. Qed.

Lemma scannedFiles_ext path fw ig lim :
  scannedFiles join w1 path fw ig lim = scannedFiles join w2 path fw ig lim.
Proof.
  unfold scannedFiles. rewrite Hgl. destruct (glob w2 _); [|reflexivity].
  cbn. now rewrite readAll_ext.
Qed.

Lemma checkPortUsage_ext path fw :
  checkPortUsage JSON_parse join w1 path fw = checkPortUsage JSON_parse join w2 path fw.
Proof.
  unfold checkPortUsage, nextjsPortIssues. now rewrite scannedFiles_ext, readJson_ext.
Qed.

Lemma checkHostBinding_ext path fw :
  checkHostBinding JSON_parse join w1 path fw = checkHostBinding JSON_parse join w2 path fw.
Proof.
  unfold checkHostBinding, nextjsHostIssues. now rewrite scannedFiles_ext, readJson_ext.
Qed.

Lemma checkStartCommand_ext path fw :
  checkStartCommand JSON_parse join w1 path fw = checkStartCommand JSON_parse join w2 path fw.
Proof.
  unfold checkStartCommand, nodeStartBody, pythonStartIssues.
  now rewrite !Hex, !readJson_ext, !readFile_ext.
Qed.

Lemma checkEnvVars_ext path fw : checkEnvVars join w1 path fw = checkEnvVars join w2 path fw.
Proof.
  unfold checkEnvVars, envHygiene, findEnvVarReferences.
  now rewrite !Hex, !readFile_ext, scannedFiles_ext.
Qed.

Lemma detectDatabaseLibraries_ext path fw :
  detectDatabaseLibraries JSON_parse join w1 path fw
  = detectDatabaseLibraries JSON_parse join w2 path fw.
Proof.
  unfold detectDatabaseLibraries, nodeLibraries.
  now rewrite !Hex, !readJson_ext, !readFile_ext.
Qed.

Lemma findDatabaseConnectionIssues_ext path fw libs :
  findDatabaseConnectionIssues join w1 path fw libs
  = findDatabaseConnectionIssues join w2 path fw libs.
Proof. unfold findDatabaseConnectionIssues. now rewrite scannedFiles_ext. Qed.

Lemma checkDatabaseConfig_ext path fw :
  checkDatabaseConfig JSON_parse join w1 path fw = checkDatabaseConfig JSON_parse join w2 path fw.
Proof.
  unfold checkDatabaseConfig. rewrite detectDatabaseLibraries_ext.
  destruct (detectDatabaseLibraries JSON_parse join w2 path fw) as [[|lib libs]|];
    try reflexivity.
  cbn [bind]. now rewrite findDatabaseConnectionIssues_ext.
Qed.

Lemma analyzePythonFile_ext f : analyzePythonFile w1 f = analyzePythonFile w2 f.
Proof. unfold analyzePythonFile. now rewrite Hex, readFile_ext. Qed.

Lemma findDjangoSettings_ext path :
  findDjangoSettings join w1 path = findDjangoSettings join w2 path.
Proof. unfold findDjangoSettings. now rewrite Hgl. Qed.

Lemma firstExistingPath_ext path cs :
  firstExistingPath join w1 path cs = firstExistingPath join w2 path cs.
Proof. induction cs as [|c cs IH]; cbn; [reflexivity|]. now rewrite Hex, IH. Qed.

Lemma findPythonMainFile_ext path cs :
  findPythonMainFile join w1 path cs = findPythonMainFile join w2 path cs.
Proof. unfold findPythonMainFile. now rewrite firstExistingPath_ext, Hgl. Qed.

Lemma checkDjango_ext path fw : checkDjango join w1 path fw = checkDjango join w2 path fw.
Proof.
  unfold checkDjango. rewrite findDjangoSettings_ext.
  destruct (truthyPath _) as [sp|]; [|reflexivity].
  now rewrite analyzePythonFile_ext, !Hex, !readFile_ext.
Qed.

Lemma checkFlask_ext path fw : checkFlask join w1 path fw = checkFlask join w2 path fw.
Proof.
  unfold checkFlask. rewrite findPythonMainFile_ext.
  destruct (truthyPath _) as [mf|]; [|reflexivity].
  now rewrite analyzePythonFile_ext, !Hex, !readFile_ext.
Qed.

Lemma checkFastAPI_ext path fw : checkFastAPI join w1 path fw = checkFastAPI join w2 path fw.
Proof.
  unfold checkFastAPI. rewrite findPythonMainFile_ext.
  destruct (truthyPath _) as [mf|]; [|reflexivity].
  now rewrite analyzePythonFile_ext, !Hex, !readFile_ext.
Qed.

Lemma runChecks_ext path fw :
  runChecks JSON_parse join w1 path fw = runChecks JSON_parse join w2 path fw.
Proof.
  unfold runChecks, frameworkStep.
  now rewrite checkPortUsage_ext, checkHostBinding_ext, checkStartCommand_ext,
    checkEnvVars_ext, checkDatabaseConfig_ext, checkDjango_ext, checkFlask_ext,
    checkFastAPI_ext.
Qed.

Lemma scanProject_ext path :
  scanProject JSON_parse join w1 path = scanProject JSON_parse join w2 path.
Proof.
  unfold scanProject. rewrite detectFramework_ext.
  destruct (detectFramework JSON_parse join w2 path) as [fw|]; [|reflexivity].
  cbn [bind]. now rewrite runChecks_ext.
Qed.

End Determinism.

End Properties.

(* ===================================================================== *)
(** ** The properties on the sample projects *)
(* ===================================================================== *)

Section Samples.

#[local] Open Scope string_scope.

(** On the broken Express project of the repository the verdict is
    will-fail, with three errors. *)
Lemma scan_deployment_likelihood_witness :
  exists r,
    scanProject Sample.JSON_parse Sample.join Sample.expressBroken "/app" = Ok r
    /\ errors (summary r) = 3
    /\ deploymentLikelihood (summary r) = WillFail.
Proof.
  destruct (scanProject Sample.JSON_parse Sample.join Sample.expressBroken "/app")
    as [r|] eqn:E; [|vm_compute in E; discriminate E].
  exists r. split; [reflexivity|].
  destruct (scan_deployment_likelihood Sample.JSON_parse Sample.join
              Sample.expressBroken "/app" r E) as (He & _ & Hfail & _).
  assert (Hr : List.length (filter isError (issues r)) = 3).
  { vm_compute in E. injection E as <-. reflexivity. }
  split; [now rewrite He|]. apply Hfail. rewrite Hr. lia.
Defined.

(** On the same project the counts add up. *)
Lemma scan_summary_counts_witness :
  exists r,
    scanProject Sample.JSON_parse Sample.join Sample.expressBroken "/app" = Ok r
    /\ totalIssues (summary r) = List.length (issues r)
    /\ warnings r = filter isWarning (issues r).
Proof.
  destruct (scanProject Sample.JSON_parse Sample.join Sample.expressBroken "/app")
    as [r|] eqn:E; [|vm_compute in E; discriminate E].
  exists r. split; [reflexivity|].
  destruct (scan_summary_counts Sample.JSON_parse Sample.join
              Sample.expressBroken "/app" r E) as (Ht & _ & Hw & _).
  split; assumption.
Defined.

(** A manifest that holds a lone brace next to a dependency list naming
    Flask: the detector throws instead of answering flask. *)
Lemma malformed_manifest_throws_witness :
  detectFramework Sample.JSON_parse Sample.join Sample.malformedManifest "/app" = Throw
  /\ scanProject Sample.JSON_parse Sample.join Sample.malformedManifest "/app" = Throw
  /\ exitCode (scanProject Sample.JSON_parse Sample.join Sample.malformedManifest "/app") = 1.
Proof.
  apply (malformed_manifest_throws Sample.JSON_parse Sample.join
           Sample.malformedManifest "/app" "{"); vm_compute; reflexivity.
Defined.

(** Without the manifest the same directory is a Flask project. *)
Example malformed_manifest_python_fallthrough :
  detectPython Sample.JSON_parse Sample.join Sample.malformedManifest "/app"
  = Ok (mkFramework flask None None).
Proof. vm_compute. reflexivity. Qed.

Lemma twoLiterals_listen :
  forall q u, hardcodedAt listenCallRegex 1 Sample.twoLiterals q u
              -> q = 22 /\ u = Js.Finite 3000.
Proof.
  intros q u (m & Hm & Hv & _).
  do 22 (destruct q as [|q]; [vm_compute in Hm; discriminate Hm|]).
  destruct q as [|q].
  - vm_compute in Hm. injection Hm as <-. vm_compute in Hv. injection Hv as <-. auto.
  - do 20 (destruct q as [|q]; [vm_compute in Hm; discriminate Hm|]).
    vm_compute in Hm. discriminate Hm.
Qed.

(** C4 as stated fails: in a file whose only [.listen(] literal is 3000,
    without a reference to the PORT variable, the error cites the 4000 of
    the port variable. *)
Lemma port_cites_other_literal :
  ~ (forall (code file : string) (fw : Framework) (p : nat) (v : Js.num),
        hardcodedAt listenCallRegex 1 code p v ->
        (forall q u, hardcodedAt listenCallRegex 1 code q u -> q = p /\ u = v) ->
        hasPortEnvVar code = false ->
        exists line, scanFileForPortIssues code file fw = [portHardcodedIssue file v line]).
Proof.
  intros H.
  destruct (H Sample.twoLiterals "server.js" Sample.unknownFramework 22 (Js.Finite 3000))
    as (line & Hl).
  - eexists. split; [vm_compute; reflexivity|]. split; vm_compute; reflexivity.
  - exact twoLiterals_listen.
  - vm_compute. reflexivity.
  - vm_compute in Hl. discriminate Hl.
Qed.

Example port_twoLiterals :
  scanFileForPortIssues Sample.twoLiterals "server.js" Sample.unknownFramework
  = [portHardcodedIssue "server.js" (Js.Finite 4000) 1].
Proof. vm_compute. reflexivity. Qed.

(** The two listen calls of the specification, and the pass of a project
    whose only file binds to 0.0.0.0. *)
Lemma host_binding_cases_witness :
  (exists line suggestion,
      scanFileForHostIssues "app.listen(port, 'localhost')" "server.js"
                            Sample.expressFramework
      = [mkIssue "host-binding" SevError CatHost
           "App binds to localhost/127.0.0.1, which won't work on Railway"
           (Some "server.js") line suggestion])
  /\ scanFileForHostIssues "app.listen(port, '0.0.0.0')" "server.js"
                           Sample.expressFramework = []
  /\ checkHostBinding Sample.JSON_parse Sample.join Sample.expressWorking "/app"
                      Sample.expressFramework = ([], [hostCheckPass])
  /\ filter (reportsOn "host-binding" "server.js")
            (fst (checkHostBinding Sample.JSON_parse Sample.join Sample.expressBroken "/app"
                    Sample.expressFramework))
     = scanFileForHostIssues Sample.brokenServer "server.js" Sample.expressFramework.
Proof.
  split; [|split; [|split]].
  - apply (proj1 (host_binding_cases Sample.JSON_parse Sample.join Sample.expressWorking
                    "/app" Sample.expressFramework "app.listen(port, 'localhost')"
                    "server.js")); vm_compute; reflexivity.
  - apply (proj1 (proj2 (host_binding_cases Sample.JSON_parse Sample.join
                           Sample.expressWorking "/app" Sample.expressFramework
                           "app.listen(port, '0.0.0.0')" "server.js"))).
    vm_compute; reflexivity.
  - apply (proj1 (proj2 (proj2 (host_binding_cases Sample.JSON_parse Sample.join
                                  Sample.expressWorking "/app" Sample.expressFramework
                                  EmptyString EmptyString)))
             [("server.js", Sample.workingServer)]).
    + vm_compute. reflexivity.
    + intros fc [<-|[]]. vm_compute. reflexivity.
    + intros Hn. vm_compute in Hn. discriminate Hn.
  - apply (proj2 (proj2 (proj2 (proj2 (host_binding_cases Sample.JSON_parse Sample.join
                                         Sample.expressBroken "/app" Sample.expressFramework
                                         Sample.brokenServer "server.js"))))
             [("server.js", Sample.brokenServer)]).
    + vm_compute. reflexivity.
    + repeat constructor. intros [].
    + left. reflexivity.
Defined.

(** C5 as stated fails: a Next.js project in which no file yields a host
    issue gets no pass when its start script lacks the host name flag. *)
Lemma host_pass_missing_for_nextjs :
  ~ (forall (w : World) (path : string) (fw : Framework) (files : list (string * string)),
        scannedFiles Sample.join w path fw (sourceIgnore ++ testIgnore) 50 = Some files ->
        (forall fc, In fc files -> scanFileForHostIssues (snd fc) (fst fc) fw = []) ->
        snd (checkHostBinding Sample.JSON_parse Sample.join w path fw) = [hostCheckPass]).
Proof.
  intros H.
  specialize (H Sample.nextjsNoHostFlag "/app" Sample.nextjsFramework []).
  assert (Hs : snd (checkHostBinding Sample.JSON_parse Sample.join Sample.nextjsNoHostFlag
                      "/app" Sample.nextjsFramework) = []) by (vm_compute; reflexivity).
  rewrite Hs in H. discriminate H.
  - vm_compute. reflexivity.
  - intros fc [].
Qed.

Example host_nextjs_flag :
  checkHostBinding Sample.JSON_parse Sample.join Sample.nextjsNoHostFlag "/app"
                   Sample.nextjsFramework
  = ([nextjsHostFlagIssue], []).
Proof. vm_compute. reflexivity. Qed.

(** A Django project without a settings file. *)
Lemma django_no_settings_witness :
  checkDjango Sample.join Sample.djangoNoSettings "/app" Sample.djangoFramework
  = Ok ([djangoNoSettingsIssue], [])
  /\ issue_severity djangoNoSettingsIssue = SevError.
Proof.
  destruct (django_no_settings Sample.join Sample.djangoNoSettings "/app"
              Sample.djangoFramework ltac:(vm_compute; reflexivity)) as (H & _ & Hs & _).
  split; assumption.
Defined.

(** C7 as stated fails: the issue for a missing settings file is an
    error, not a warning. *)
Lemma django_no_settings_not_warning :
  ~ (forall (w : World) (path : string) (fw : Framework),
        truthyPath (findDjangoSettings Sample.join w path) = None ->
        exists i, checkDjango Sample.join w path fw = Ok ([i], [])
                  /\ issue_severity i = SevWarning).
Proof.
  intros H.
  destruct (H Sample.djangoNoSettings "/app" Sample.djangoFramework
              ltac:(vm_compute; reflexivity)) as (i & Hi & Hs).
  vm_compute in Hi. injection Hi as <-. discriminate Hs.
Qed.

(** The four hygiene cases on four directories. *)
Lemma env_hygiene_cases_witness :
  checkEnvVars Sample.join Sample.envNotIgnored "/app" Sample.unknownFramework
  = Ok ([envFileNotIgnoredIssue "/app/.gitignore"], [])
  /\ checkEnvVars Sample.join Sample.envIgnored "/app" Sample.unknownFramework
     = Ok ([], [envFileIgnoredPass])
  /\ checkEnvVars Sample.join Sample.emptyProject "/app" Sample.unknownFramework
     = Ok ([], [noEnvFilePass])
  /\ checkEnvVars Sample.join Sample.gitignoreOnly "/app" Sample.unknownFramework
     = Ok ([], []).
Proof.
  split; [|split; [|split]].
  - apply (proj1 (proj1 (env_hygiene_cases Sample.join Sample.envNotIgnored "/app"
                           Sample.unknownFramework) "node_modules"
                    ltac:(vm_compute; reflexivity) ltac:(vm_compute; reflexivity)
                    ltac:(vm_compute; reflexivity))).
    vm_compute. reflexivity.
  - apply (proj2 (proj1 (env_hygiene_cases Sample.join Sample.envIgnored "/app"
                           Sample.unknownFramework)
                    (Sample.lines ["node_modules"; ".env"])
                    ltac:(vm_compute; reflexivity) ltac:(vm_compute; reflexivity)
                    ltac:(vm_compute; reflexivity))).
    vm_compute. reflexivity.
  - apply (proj1 (proj2 (env_hygiene_cases Sample.join Sample.emptyProject "/app"
                           Sample.unknownFramework))); vm_compute; reflexivity.
  - apply (proj1 (proj2 (proj2 (env_hygiene_cases Sample.join Sample.gitignoreOnly "/app"
                                  Sample.unknownFramework)))); vm_compute; reflexivity.
Defined.

Lemma reordered_exists (p : string) :
  existsSync Sample.expressBroken p = existsSync Sample.expressBrokenReordered p.
Proof.
  unfold Sample.expressBroken, Sample.expressBrokenReordered, Sample.world.
  cbn [existsSync existsb fst]. rewrite !orb_false_r. apply orb_comm.
Qed.

Lemma reordered_read (p : string) :
  readFileSync Sample.expressBroken p = readFileSync Sample.expressBrokenReordered p.
Proof.
  unfold Sample.expressBroken, Sample.expressBrokenReordered, Sample.world.
  cbn [readFileSync find fst].
  destruct (String.eqb_spec (Sample.join "/app" "package.json") p) as [E1|];
    destruct (String.eqb_spec (Sample.join "/app" "server.js") p) as [E2|];
    try reflexivity.
  rewrite <- E1 in E2. vm_compute in E2. discriminate E2.
Qed.

(** An empty directory gets the pass of the start command. *)
Lemma unknown_start_command_pass_witness :
  checkStartCommand Sample.JSON_parse Sample.join Sample.emptyProject "/app"
                    Sample.unknownFramework = Ok []
  /\ exists r, scanProject Sample.JSON_parse Sample.join Sample.emptyProject "/app" = Ok r
               /\ In startCommandPass (passed r).
Proof.
  destruct (unknown_start_command_pass Sample.JSON_parse Sample.join Sample.emptyProject
              "/app" Sample.unknownFramework
              ltac:(vm_compute; reflexivity) ltac:(reflexivity)) as (Hs & Hin & Hres).
  split; [exact Hs|].
  destruct (Hres ([], [noEnvFilePass]) ltac:(vm_compute; reflexivity)) as (r & Hr).
  exists r. split; [exact Hr|]. apply (Hin r Hr).
Defined.

End Samples.

(* ===================================================================== *)
(** ** Further properties *)
(* ===================================================================== *)

(** Properties of the detector, the checks, the orchestrators and the
    report that the code shows beyond the specification. *)
Section Further.

#[local] Open Scope string_scope.

Variable JSON_parse : string -> option Json.
Variable join : string -> string -> string.

(* --------------------------------------------------------------------- *)
(** *** Results and candidates *)
(* --------------------------------------------------------------------- *)

Lemma bind_ok {A B : Type} (m : Result A) (f : A -> Result B) (b : B) :
  bind m f = Ok b -> exists a, m = Ok a /\ f a = Ok b.
Proof. destruct m as [a|]; simpl; [intros H; exists a; auto | discriminate]. Qed.

Lemma firstExisting_spec (w : World) (path : string) (cs : list string) (c : string) :
  firstExisting join w path cs = Some c ->
  exists pre post,
    cs = (pre ++ c :: post)%list
    /\ existsSync w (join path c) = true
    /\ forall x, In x pre -> existsSync w (join path x) = false.
Proof.
  induction cs as [|a cs IH]; simpl; [discriminate|].
  destruct (existsSync w (join path a)) eqn:E.
  - intros H; inversion H; subst. exists [], cs. repeat split; auto. intros x [].
  - intros H. destruct (IH H) as [pre [post [Hc [He Hp]]]].
    exists (a :: pre), post. subst cs. repeat split; auto.
    intros x [Hx|Hx]; [subst; exact E | auto].
Qed.

(* --------------------------------------------------------------------- *)
(** *** Substrings *)
(* --------------------------------------------------------------------- *)

Lemma startsWith_iff (p s : string) :
  Js.startsWith p s = true <-> exists rest, s = (p ++ rest)%string.
Proof.
  revert s. induction p as [|a p IH]; intros s; simpl.
  - split; [intros _; exists s; reflexivity | reflexivity].
  - destruct s as [|b s].
    + split; [discriminate | intros [rest H]; discriminate H].
    + rewrite andb_true_iff, IH. split.
      * intros [Hab [rest ->]]. apply Ascii.eqb_eq in Hab. subst b. exists rest. reflexivity.
      * intros [rest H]. injection H as -> ->. split; [apply Ascii.eqb_refl|].
        exists rest. reflexivity.
Qed.

Lemma includes_iff (s needle : string) :
  Js.includes s needle = true <-> exists pre post, s = (pre ++ needle ++ post)%string.
Proof.
  induction s as [|a s IH]; simpl.
  - rewrite orb_false_r, startsWith_iff. split.
    + intros [rest H]. exists EmptyString, rest. exact H.
    + intros [pre [post H]]. destruct pre as [|c pre]; [|discriminate H].
      exists post. exact H.
  - rewrite orb_true_iff, startsWith_iff, IH. split.
    + intros [[rest H]|[pre [post H]]].
      * exists EmptyString, rest. exact H.
      * exists (String a pre), post. simpl. rewrite H. reflexivity.
    + intros [pre [post H]]. destruct pre as [|c pre].
      * left. exists post. exact H.
      * right. simpl in H. injection H as _ H. exists pre, post. exact H.
Qed.

Lemma append_assoc (a b c : string) : ((a ++ b) ++ c = a ++ (b ++ c))%string.
Proof. induction a as [|x a IH]; simpl; [reflexivity | rewrite IH; reflexivity]. Qed.

Lemma includes_trans (s m needle : string) :
  Js.includes s m = true -> Js.includes m needle = true -> Js.includes s needle = true.
Proof.
  rewrite !includes_iff. intros [p1 [q1 ->]] [p2 [q2 ->]].
  exists (p1 ++ p2)%string, (q2 ++ q1)%string.
  rewrite !append_assoc. reflexivity.
Qed.

Lemma toLowerCase_app (a b : string) :
  Js.toLowerCase (a ++ b) = (Js.toLowerCase a ++ Js.toLowerCase b)%string.
Proof. induction a as [|x a IH]; simpl; [reflexivity | rewrite IH; reflexivity]. Qed.

Lemma includes_toLowerCase (s needle : string) :
  Js.includes s needle = true ->
  Js.includes (Js.toLowerCase s) (Js.toLowerCase needle) = true.
Proof.
  rewrite !includes_iff. intros [pre [post ->]].
  exists (Js.toLowerCase pre), (Js.toLowerCase post). rewrite !toLowerCase_app. reflexivity.
Qed.

(* --------------------------------------------------------------------- *)
(** *** The exit code *)
(* --------------------------------------------------------------------- *)

Lemma errors_positive (l : list Issue) :
  0 < List.length (filter isError l) <-> exists i, In i l /\ issue_severity i = SevError.
Proof.
  split.
  - destruct (filter isError l) as [|i t] eqn:E; simpl; [lia|]. intros _.
    assert (H : In i (filter isError l)) by (rewrite E; left; reflexivity).
    apply filter_In in H. destruct H as [Hin He]. exists i. split; [exact Hin|].
    unfold isError in He. destruct (issue_severity i); simpl in He; congruence.
  - intros [i [Hin He]].
    assert (H : In i (filter isError l)).
    { apply filter_In. split; [exact Hin|]. unfold isError. rewrite He. reflexivity. }
    destruct (filter isError l); [contradiction|simpl; lia].
Qed.

(** X1.  The exit code of the command line is 1 exactly when the verdict of
    the scan is will-fail, that is exactly when some issue of the result is
    an error; it is 0 exactly when no issue is an error. *)
Theorem exit_code_verdict (w : World) (path : string) (r : ScanResult) :
  scanProject JSON_parse join w path = Ok r ->
  (exitCode (Ok r) = 1 <-> deploymentLikelihood (summary r) = WillFail)
  /\ (exitCode (Ok r) = 1 <-> exists i, In i (issues r) /\ issue_severity i = SevError)
  /\ (exitCode (Ok r) = 0 <-> forall i, In i (issues r) -> issue_severity i <> SevError).
Proof.
  intros H. apply scanProject_shape in H. destruct H as [fw [col [_ [_ Hr]]]].
  subst r. cbn [exitCode summary issues].
  pose proof (generateSummary_likelihood (fst col) (snd col)) as HL. cbv zeta in HL.
  destruct HL as [HW _].
  pose proof (errors_positive (fst col)) as HE.
  assert (Herr : errors (generateSummary (fst col) (snd col))
                 = List.length (filter isError (fst col))) by reflexivity.
  rewrite Herr.
  destruct (Nat.ltb_spec 0 (List.length (filter isError (fst col)))) as [Hp|Hn].
  - split; [|split].
    + split; intros _; [apply HW; exact Hp | reflexivity].
    + split; intros _; [apply HE; exact Hp | reflexivity].
    + split; [discriminate|]. intros Hall. apply HE in Hp. destruct Hp as [i [Hi He]].
      exfalso. exact (Hall i Hi He).
  - split; [|split].
    + split; [discriminate|]. intros Hw. apply HW in Hw. lia.
    + split; [discriminate|]. intros Hex. apply HE in Hex. lia.
    + split; [|reflexivity]. intros _ i Hi He.
      assert (0 < List.length (filter isError (fst col))) by (apply HE; exists i; auto). lia.
Qed.

(* --------------------------------------------------------------------- *)
(** *** The detector *)
(* --------------------------------------------------------------------- *)

(** X2.  [findEntryPoint] answers with the first candidate that exists,
    before it looks at the manifest or asks [glob].  A file it returns is an
    existing candidate, or the [main] field of a manifest that parses and
    names an existing file, or the first answer of [glob], which is not
    checked.  It finds nothing, and does not throw, when no candidate
    exists, there is no manifest and [glob] throws. *)
Theorem findEntryPoint_sources (w : World) (path : string) (cs : list string) :
  (forall pre c post,
      cs = (pre ++ c :: post)%list ->
      (forall x, In x pre -> existsSync w (join path x) = false) ->
      existsSync w (join path c) = true ->
      findEntryPoint JSON_parse join w path cs = Some c)
  /\ (forall f,
         findEntryPoint JSON_parse join w path cs = Some f ->
         (In f cs /\ existsSync w (join path f) = true)
         \/ (existsSync w (join path "package.json") = true
             /\ (exists manifest,
                    readJson JSON_parse w (join path "package.json") = Ok manifest
                    /\ getProp manifest "main" = Ok (Some (JStr f)))
             /\ existsSync w (join path f) = true)
         \/ (exists rest, glob w (entryGlob path) = Some (f :: rest)))
  /\ ((forall c, In c cs -> existsSync w (join path c) = false) ->
      existsSync w (join path "package.json") = false ->
      glob w (entryGlob path) = None ->
      findEntryPoint JSON_parse join w path cs = None).
Proof.
  split; [|split].
  - intros pre c post -> Hpre Hc. unfold findEntryPoint.
    assert (H : firstExisting join w path (pre ++ c :: post) = Some c).
    { induction pre as [|a pre IH]; simpl.
      - rewrite Hc. reflexivity.
      - rewrite (Hpre a (or_introl eq_refl)). apply IH. intros x Hx. apply Hpre. right. exact Hx. }
    rewrite H. reflexivity.
  - intros f. unfold findEntryPoint.
    destruct (firstExisting join w path cs) as [c|] eqn:E.
    + intros H; inversion H; subst. left.
      apply firstExisting_spec in E. destruct E as [pre [post [-> [He _]]]].
      split; [apply in_or_app; right; left; reflexivity | exact He].
    + destruct (existsSync w (join path "package.json")) eqn:Ep.
      * unfold mainField.
        destruct (readJson JSON_parse w (join path "package.json")) as [pj|] eqn:Er; simpl.
        -- destruct (getProp pj "main") as [mv|] eqn:Em; simpl.
           ++ destruct mv as [m|]; simpl.
              ** destruct (truthy m) eqn:Et; simpl.
                 --- destruct m as [| | |s| |]; simpl;
                       try (intros H; right; right;
                            destruct (glob w (entryGlob path)) as [[|g gs]|];
                            [discriminate| inversion H; subst; eexists; reflexivity|discriminate]).
                     destruct (existsSync w (join path s)) eqn:Es; simpl.
                     +++ intros H; inversion H; subst. right; left.
                         split; [reflexivity|]. split; [|exact Es].
                         exists pj. split; [reflexivity | exact Em].
                     +++ intros H; right; right.
                         destruct (glob w (entryGlob path)) as [[|g gs]|];
                           [discriminate| inversion H; subst; eexists; reflexivity|discriminate].
                 --- intros H; right; right.
                     destruct (glob w (entryGlob path)) as [[|g gs]|];
                       [discriminate| inversion H; subst; eexists; reflexivity|discriminate].
              ** intros H; right; right.
                 destruct (glob w (entryGlob path)) as [[|g gs]|];
                   [discriminate| inversion H; subst; eexists; reflexivity|discriminate].
           ++ intros H; right; right.
              destruct (glob w (entryGlob path)) as [[|g gs]|];
                [discriminate| inversion H; subst; eexists; reflexivity|discriminate].
        -- intros H; right; right.
           destruct (glob w (entryGlob path)) as [[|g gs]|];
             [discriminate| inversion H; subst; eexists; reflexivity|discriminate].
      * intros H; right; right.
        destruct (glob w (entryGlob path)) as [[|g gs]|];
          [discriminate| inversion H; subst; eexists; reflexivity|discriminate].
  - intros Hcs Hp Hg. unfold findEntryPoint.
    assert (H : firstExisting join w path cs = None).
    { clear Hp Hg. induction cs as [|a cs IH]; simpl; [reflexivity|].
      rewrite (Hcs a (or_introl eq_refl)). apply IH. intros c Hc. apply Hcs. right. exact Hc. }
    rewrite H, Hp, Hg. reflexivity.
Qed.

Ltac finish_case :=
  intros; try discriminate;
  try (match goal with H : _ \/ _ |- _ => destruct H; discriminate end);
  repeat split; eauto.

(** X3.  What a result of [detectFramework] guarantees.  A Node framework
    comes with an existing manifest that parses; Next.js always has a
    non-empty entry file; NestJS and Express carry a truthy version.  A
    Python framework has no version and comes with a readable requirements
    file whose lower-cased text holds the name of the framework; the entry
    file of Django is manage.py or none.  The unknown variant has neither
    version nor entry file. *)
Theorem detectFramework_invariants (w : World) (path : string) (fw : Framework) :
  detectFramework JSON_parse join w path = Ok fw ->
  (isNode fw = true ->
   existsSync w (join path "package.json") = true
   /\ exists manifest, readJson JSON_parse w (join path "package.json") = Ok manifest)
  /\ (name fw = nextjs -> exists f, mainFile fw = Some f /\ Js.nonEmpty f = true)
  /\ (name fw = nestjs \/ name fw = express -> truthyV (version fw) = true)
  /\ (isPython fw = true ->
      version fw = None
      /\ existsSync w (join path "requirements.txt") = true
      /\ exists text, readFileSync w (join path "requirements.txt") = Some text
                      /\ Js.includes (Js.toLowerCase text)
                           (match name fw with
                            | django => "django" | flask => "flask" | _ => "fastapi"
                            end) = true)
  /\ (name fw = django -> mainFile fw = Some "manage.py" \/ mainFile fw = None)
  /\ (name fw = unknown -> version fw = None /\ mainFile fw = None).
Proof.
  unfold detectFramework. intros H. apply bind_ok in H. destruct H as [node [Hn H]].
  destruct node as [nfw|].
  - inversion H; subst nfw; clear H.
    unfold detectNode in Hn.
    destruct (existsSync w (join path "package.json")) eqn:Ep; [|discriminate].
    apply bind_ok in Hn. destruct Hn as [pj [Hpj Hn]].
    apply bind_ok in Hn. destruct Hn as [deps [Hd Hn]].
    apply bind_ok in Hn. destruct Hn as [ddeps [Hdd Hn]].
    cbv zeta in Hn.
    destruct (truthyV (lookup "next" (spread2 deps ddeps))
              || existsSync w (join path "next.config.js")
              || existsSync w (join path "next.config.mjs")) eqn:Enext.
    + inversion Hn; subst fw; clear Hn. cbn.
      split; [|split; [|split; [|split; [|split]]]]; finish_case.
      destruct (findEntryPoint JSON_parse join w path _) as [f|];
        [destruct (Js.nonEmpty f) eqn:Ef|]; eexists; split; try reflexivity; auto.
    + destruct (truthyV (lookup "@nestjs/core" (spread2 deps ddeps))) eqn:Enest.
      * inversion Hn; subst fw; clear Hn. cbn.
        split; [|split; [|split; [|split; [|split]]]]; finish_case.
      * destruct (truthyV (lookup "express" (spread2 deps ddeps))) eqn:Eexp; [|discriminate].
        inversion Hn; subst fw; clear Hn. cbn.
        split; [|split; [|split; [|split; [|split]]]]; finish_case.
  - unfold detectPython in H.
    destruct (existsSync w (join path "requirements.txt")) eqn:Er.
    + apply bind_ok in H. destruct H as [text [Ht H]]. cbv zeta in H.
      unfold readFile in Ht.
      destruct (readFileSync w (join path "requirements.txt")) as [t|] eqn:Et;
        [|discriminate]. simpl in Ht. inversion Ht; subst t; clear Ht.
      destruct (Js.includes (Js.toLowerCase text) "django") eqn:Ed.
      * inversion H; subst fw; clear H. cbn.
        split; [|split; [|split; [|split; [|split]]]]; finish_case.
        destruct (existsSync w (join path "manage.py")); auto.
      * destruct (Js.includes (Js.toLowerCase text) "flask") eqn:Ef.
        -- inversion H; subst fw; clear H. cbn.
           split; [|split; [|split; [|split; [|split]]]]; finish_case.
        -- destruct (Js.includes (Js.toLowerCase text) "fastapi") eqn:Efa;
             inversion H; subst fw; clear H; cbn;
             (split; [|split; [|split; [|split; [|split]]]]); finish_case.
    + inversion H; subst fw; clear H. cbn.
      split; [|split; [|split; [|split; [|split]]]]; finish_case.
Qed.

(* --------------------------------------------------------------------- *)
(** *** The Procfile of Flask and FastAPI *)
(* --------------------------------------------------------------------- *)

(** X4.  The pass of the Procfile block and its findings exclude each
    other, although the source tests them apart.  For Flask the pass is
    given exactly when the block reports nothing; for FastAPI exactly when
    it reports no error, the hint about workers being allowed beside the
    pass.  Every Flask finding is an error on the Procfile, and the FastAPI
    block reports nothing only for a Procfile that sets [--workers]. *)
Theorem procfile_pass_iff_no_error (procfilePath procfile : string) :
  (snd (flaskProcfile procfilePath procfile) <> [] <->
   fst (flaskProcfile procfilePath procfile) = [])
  /\ (snd (fastapiProcfile procfilePath procfile) <> [] <->
      filter isError (fst (fastapiProcfile procfilePath procfile)) = [])
  /\ Forall (fun i => issue_severity i = SevError /\ issue_file i = Some procfilePath)
            (fst (flaskProcfile procfilePath procfile))
  /\ (fst (fastapiProcfile procfilePath procfile) = [] ->
      Js.includes procfile "--workers" = true).
Proof.
  unfold flaskProcfile, fastapiProcfile, procfileIssue, fastapiNoWorkersIssue.
  destruct (Js.includes procfile "gunicorn"), (Js.includes procfile "uvicorn"),
    (Js.includes procfile "0.0.0.0"), (hasPortRef procfile),
    (Js.includes procfile "--workers"); cbn;
    (split; [|split; [|split]]);
    try (split; intros H; try reflexivity; try discriminate; try congruence);
    try (intros H; try reflexivity; discriminate);
    repeat constructor.
Qed.

(* --------------------------------------------------------------------- *)
(** *** The files scanned, and the port issues *)
(* --------------------------------------------------------------------- *)

Lemma readAll_spec (w : World) (path : string) (files : list string) :
  List.length (readAll join w path files) <= List.length files
  /\ forall f c, In (f, c) (readAll join w path files) <->
                 In f files /\ readFileSync w (join path f) = Some c.
Proof.
  induction files as [|a files [IHl IHi]]; simpl.
  - split; [lia|]. intros f c. split; [intros [] | intros [[] _]].
  - destruct (readFileSync w (join path a)) as [code|] eqn:E; simpl.
    + split; [lia|]. intros f c. rewrite IHi. split.
      * intros [H|[H1 H2]]; [inversion H; subst; auto | auto].
      * intros [[H|H] Hr]; [subst; left; congruence | right; auto].
    + split; [lia|]. intros f c. rewrite IHi. split.
      * intros [H1 H2]; auto.
      * intros [[H|H] Hr]; [subst; congruence | auto].
Qed.

Lemma firstn_In {A : Type} (n : nat) (l : list A) (x : A) : In x (firstn n l) -> In x l.
Proof.
  revert l. induction n as [|n IH]; intros [|a l]; simpl; try contradiction.
  intros [H|H]; [left; exact H | right; apply IH; exact H].
Qed.

Lemma scannedFiles_spec (w : World) (path : string) (fw : Framework)
      (ignore : list string) (limit : nat) (scanned : list (string * string)) :
  scannedFiles join w path fw ignore limit = Some scanned ->
  exists listed,
    glob w (mkGlob (sourcePatterns fw) path ignore 5) = Some listed
    /\ scanned = readAll join w path (firstn limit listed).
Proof.
  unfold scannedFiles. intros H.
  destruct (glob w (mkGlob (sourcePatterns fw) path ignore 5)) as [listed|] eqn:Eg;
    [|discriminate].
  simpl in H. inversion H; subst scanned; clear H.
  exists listed. split; reflexivity.
Qed.

(** X5.  The files a check scans are at most [limit], and they are
    exactly the readable files among the first [limit] answers of [glob],
    each with the content read. *)
Theorem scan_file_cap (w : World) (path : string) (fw : Framework)
        (ignore : list string) (limit : nat) (scanned : list (string * string)) :
  scannedFiles join w path fw ignore limit = Some scanned ->
  exists listed,
    glob w (mkGlob (sourcePatterns fw) path ignore 5) = Some listed
    /\ List.length scanned <= limit
    /\ (forall f c, In (f, c) scanned <->
                    In f (firstn limit listed) /\ readFileSync w (join path f) = Some c).
Proof.
  intros H. apply scannedFiles_spec in H. destruct H as [listed [Hg ->]].
  exists listed. split; [exact Hg|].
  destruct (readAll_spec w path (firstn limit listed)) as [Hl Hi].
  split; [|exact Hi].
  pose proof (firstn_le_length limit listed). lia.
Qed.

Lemma nextjsPortIssues_id (w : World) (path : string) (i : Issue) :
  In i (tryCatch (nextjsPortIssues JSON_parse join w path) []) -> i = nextjsPortFlagIssue.
Proof.
  unfold nextjsPortIssues.
  destruct (readJson JSON_parse w (join path "package.json")) as [pj|]; [|contradiction].
  simpl.
  destruct (startScriptOf pj) as [ss|]; [|contradiction]. simpl.
  destruct (valIncludes ss "next start") as [b1|]; [|contradiction]. simpl.
  destruct (valIncludes ss "$PORT") as [b2|]; [|contradiction]. simpl.
  destruct (valIncludes ss "${PORT") as [b3|]; [|contradiction]. simpl.
  destruct (b1 && negb b2 && negb b3); [|contradiction].
  intros [H|[]]. symmetry. exact H.
Qed.

Lemma nextjsHostIssues_id (w : World) (path : string) (i : Issue) :
  In i (tryCatch (nextjsHostIssues JSON_parse join w path) []) -> i = nextjsHostFlagIssue.
Proof.
  unfold nextjsHostIssues.
  destruct (readJson JSON_parse w (join path "package.json")) as [pj|]; [|contradiction].
  simpl.
  destruct (startScriptOf pj) as [ss|]; [|contradiction]. simpl.
  destruct (valIncludes ss "next start") as [b1|]; [|contradiction]. simpl.
  destruct (valIncludes ss "--hostname 0.0.0.0") as [b2|]; [|contradiction]. simpl.
  destruct (valIncludes ss "-H 0.0.0.0") as [b3|]; [|contradiction]. simpl.
  destruct (b1 && negb b2 && negb b3); [|contradiction].
  intros [H|[]]. symmetry. exact H.
Qed.

Lemma checkPortUsage_In (w : World) (path : string) (fw : Framework) (i : Issue) :
  In i (fst (checkPortUsage JSON_parse join w path fw)) ->
  (exists scanned f c,
      scannedFiles join w path fw (sourceIgnore ++ testIgnore)%list 50 = Some scanned
      /\ In (f, c) scanned /\ In i (scanFileForPortIssues c f fw))
  \/ (isNextjs fw = true /\ i = nextjsPortFlagIssue
      /\ In i (tryCatch (nextjsPortIssues JSON_parse join w path) [])).
Proof.
  unfold checkPortUsage.
  destruct (scannedFiles join w path fw (sourceIgnore ++ testIgnore)%list 50) as [scanned|];
    [|intros []].
  cbn [fst]. intros Hin. apply in_app_or in Hin. destruct Hin as [Hin|Hin].
  - left. apply in_flat_map in Hin. destruct Hin as [[f c] [Hfc Hi]].
    exists scanned, f, c. auto.
  - right. destruct (isNextjs fw); [|contradiction].
    split; [reflexivity|]. split; [apply (nextjsPortIssues_id w path); exact Hin | exact Hin].
Qed.

Lemma scanFileForPortIssues_sound (code file : string) (fw : Framework) (i : Issue) :
  In i (scanFileForPortIssues code file fw) ->
  hasPortEnvVar code = false
  /\ exists p v,
      (hardcodedAt listenCallRegex 1 code p v
       \/ hardcodedAt portVarRegex 2 code p v
       \/ hardcodedAt pythonPortRegex 1 code p v)
      /\ i = portHardcodedIssue file v (lineOfIndex code p).
Proof.
  unfold scanFileForPortIssues.
  destruct (hardcodedPort code) as [[v line]|] eqn:E; [|intros []].
  destruct (hasPortEnvVar code) eqn:Hp; [intros []|]. simpl.
  intros [Hi|[]]. split; [reflexivity|].
  unfold hardcodedPort in E. rewrite Hp in E. simpl in E.
  unfold literalScan, orElse in E.
  destruct (literalLoop _ pythonPortRegex 1 true code 0) as [[v1 l1]|] eqn:E1.
  - inversion E; subst v1 l1.
    apply literalLoop_sound in E1. destruct E1 as [_ [p [_ [Hh Hl]]]].
    exists p, v. subst line. auto.
  - destruct (literalLoop _ portVarRegex 2 true code 0) as [[v2 l2]|] eqn:E2.
    + inversion E; subst v2 l2.
      apply literalLoop_sound in E2. destruct E2 as [_ [p [_ [Hh Hl]]]].
      exists p, v. subst line. auto.
    + apply literalLoop_sound in E. destruct E as [_ [p [_ [Hh Hl]]]].
      exists p, v. subst line. auto.
Qed.

(** X6.  Every port-hardcoded issue of the port check goes back to a
    literal.  It names a file among the first fifty listed, which is
    readable, holds none of the recognised references to the PORT variable
    and holds a [.listen(] call, a port variable or a Python run call
    with a literal of at least 1000; the issue cites the number that
    [parseInt] reads from the digits of that literal, as [String] prints
    it, and the line of the literal.  When the value of the digits is
    below 2^53 the number cited is the decimal numeral of that value. *)
Theorem port_issue_sound (w : World) (path : string) (fw : Framework) (i : Issue) :
  In i (fst (checkPortUsage JSON_parse join w path fw)) ->
  issue_id i = "port-hardcoded" ->
  exists listed file code p ds,
    glob w (mkGlob (sourcePatterns fw) path (sourceIgnore ++ testIgnore)%list 5) = Some listed
    /\ In file (firstn 50 listed)
    /\ readFileSync w (join path file) = Some code
    /\ hasPortEnvVar code = false
    /\ (digitsAt listenCallRegex 1 code p ds
        \/ digitsAt portVarRegex 2 code p ds
        \/ digitsAt pythonPortRegex 1 code p ds)
    /\ (1000 <= Js.parseDigits 0 ds)%N
    /\ i = portHardcodedIssue file (Js.parseInt ds) (lineOfIndex code p)
    /\ issue_message i
       = "Hardcoded port " ++ Js.numToString (Js.parseInt ds)
           ++ ". Railway requires process.env.PORT"
    /\ ((Js.parseDigits 0 ds < 2 ^ 53)%N ->
        issue_message i
        = "Hardcoded port " ++ Js.decimal (Js.parseDigits 0 ds)
            ++ ". Railway requires process.env.PORT").
Proof.
  intros Hin Hid. apply checkPortUsage_In in Hin.
  destruct Hin as [[scanned [f [c [Hs [Hfc Hi]]]]]|[_ [Hi _]]];
    [|subst i; discriminate Hid].
  apply scannedFiles_spec in Hs. destruct Hs as [listed [Hg ->]].
  apply readAll_spec in Hfc. destruct Hfc as [Hf Hr].
  apply scanFileForPortIssues_sound in Hi. destruct Hi as [Hp [p [v [Hh Hi]]]].
  assert (Hds : exists ds,
             (digitsAt listenCallRegex 1 c p ds
              \/ digitsAt portVarRegex 2 c p ds
              \/ digitsAt pythonPortRegex 1 c p ds)
             /\ v = Js.parseInt ds /\ Js.geN v 1000 = true).
  { destruct Hh as [Hh|[Hh|Hh]]; apply hardcodedAt_digits in Hh as (ds & Hd & Hv & Hge);
      exists ds; auto. }
  destruct Hds as (ds & Hd & -> & Hge).
  exists listed, f, c, p, ds.
  split; [exact Hg|]. split; [exact Hf|]. split; [exact Hr|]. split; [exact Hp|].
  split; [exact Hd|].
  split; [apply N.leb_le; rewrite <- parseInt_ge_1000; exact Hge|]. split; [exact Hi|].
  subst i. rewrite (port_message _ _ _ Hge). split; [reflexivity|].
  intros Hsafe. now rewrite (parseInt_safe ds Hsafe).
Qed.

(* --------------------------------------------------------------------- *)
(** *** When a scan throws *)
(* --------------------------------------------------------------------- *)

Lemma checkStartCommand_total (w : World) (path : string) (fw : Framework) :
  isPython fw = false ->
  exists l, checkStartCommand JSON_parse join w path fw = Ok l.
Proof.
  intros Hp. unfold checkStartCommand. rewrite Hp.
  destruct (isNode fw); [|eexists; reflexivity].
  destruct (negb (existsSync w (join path "package.json"))); [eexists; reflexivity|].
  destruct (nodeStartBody JSON_parse w (join path "package.json") fw) as [pushed completed].
  eexists; reflexivity.
Qed.

Lemma checkDatabaseConfig_total (w : World) (path : string) (fw : Framework) :
  isPython fw = false ->
  exists r, checkDatabaseConfig JSON_parse join w path fw = Ok r.
Proof.
  intros Hp. unfold checkDatabaseConfig, detectDatabaseLibraries. rewrite Hp. cbn [bind].
  destruct (dedup _); eexists; reflexivity.
Qed.

Lemma frameworkStep_total (w : World) (path : string) (fw : Framework) :
  isPython fw = false -> frameworkStep join w path fw = Ok ([], []).
Proof.
  unfold isPython, frameworkStep. destruct (name fw); try discriminate; reflexivity.
Qed.

Lemma envHygiene_throws (w : World) (path : string) :
  envHygiene join w path = Throw <->
  existsSync w (join path ".env") = true
  /\ existsSync w (join path ".gitignore") = true
  /\ readFileSync w (join path ".gitignore") = None.
Proof.
  unfold envHygiene, readFile.
  destruct (existsSync w (join path ".env")), (existsSync w (join path ".gitignore"));
    cbn; try (split; [discriminate | intros [? [? ?]]; discriminate]).
  destruct (readFileSync w (join path ".gitignore")) as [content|]; cbn.
  - destruct (Js.includes content ".env"); cbn;
      (split; [discriminate | intros [_ [_ ?]]; discriminate]).
  - split; auto.
Qed.

(** X7.  Once the framework is detected and is not a Python one, the scan
    throws in one case only: [.env] and [.gitignore] both exist and
    [.gitignore] cannot be read. *)
Theorem scan_throws_only_on_gitignore (w : World) (path : string) (fw : Framework) :
  detectFramework JSON_parse join w path = Ok fw ->
  isPython fw = false ->
  (scanProject JSON_parse join w path = Throw <->
   existsSync w (join path ".env") = true
   /\ existsSync w (join path ".gitignore") = true
   /\ readFileSync w (join path ".gitignore") = None).
Proof.
  intros Hd Hp. rewrite <- envHygiene_throws.
  unfold scanProject. rewrite Hd. cbn [bind]. unfold runChecks.
  destruct (checkStartCommand_total w path fw Hp) as [l ->].
  destruct (checkDatabaseConfig_total w path fw Hp) as [r ->].
  rewrite (frameworkStep_total w path fw Hp). cbn [bind].
  unfold checkEnvVars.
  destruct (envHygiene join w path) as [h|]; cbn; split; auto; discriminate.
Qed.

(* --------------------------------------------------------------------- *)
(** *** The findings of a scan *)
(* --------------------------------------------------------------------- *)

Ltac solve_listed := cbn; repeat (first [left; reflexivity | right]); fail.

Ltac forall_listed :=
  repeat first
    [ apply Forall_nil
    | apply Forall_app; split
    | apply Forall_cons; [unfold listed; solve_listed |]
    | match goal with |- Forall _ (if ?b then _ else _) => destruct b end ].

Lemma Forall_listed_weaken (small big : list Finding) (l : list Issue) :
  incl small big -> Forall (listed small) l -> Forall (listed big) l.
Proof.
  intros Hi H. eapply Forall_impl; [|exact H]. intros i Hl. apply Hi. exact Hl.
Qed.

Lemma checkPortUsage_listed (w : World) (path : string) (fw : Framework) :
  Forall (listed portFindings) (fst (checkPortUsage JSON_parse join w path fw)).
Proof.
  apply Forall_forall. intros i Hi. apply checkPortUsage_In in Hi.
  destruct Hi as [[scanned [f [c [_ [_ Hi]]]]]|[_ [-> _]]].
  - apply scanFileForPortIssues_sound in Hi. destruct Hi as [_ [p [v [_ ->]]]].
    unfold listed. solve_listed.
  - unfold listed. solve_listed.
Qed.

Lemma checkHostBinding_listed (w : World) (path : string) (fw : Framework) :
  Forall (listed hostFindings) (fst (checkHostBinding JSON_parse join w path fw)).
Proof.
  unfold checkHostBinding.
  destruct (scannedFiles join w path fw (sourceIgnore ++ testIgnore)%list 50) as [scanned|];
    [|apply Forall_nil].
  cbn [fst]. apply Forall_app. split.
  - apply Forall_forall. intros i Hi. apply in_flat_map in Hi.
    destruct Hi as [[f c] [_ Hi]]. unfold scanFileForHostIssues in Hi. simpl in Hi.
    destruct ((hasListenCall c || hasPythonServerCall c) && negb (hasCorrectBinding c));
      [|contradiction].
    destruct Hi as [<-|[]]. unfold listed. destruct (hasLocalhostBinding c); solve_listed.
  - destruct (isNextjs fw); [|apply Forall_nil].
    apply Forall_forall. intros i Hi. apply nextjsHostIssues_id in Hi. subst i.
    unfold listed. solve_listed.
Qed.

Lemma nodeStartBody_listed (w : World) (pjp : string) (fw : Framework) :
  Forall (listed startCommandFindings) (fst (nodeStartBody JSON_parse w pjp fw)).
Proof.
  unfold nodeStartBody.
  destruct (readJson JSON_parse w pjp) as [pj|]; [|apply Forall_nil].
  destruct (getProp pj "scripts") as [sv|]; [|apply Forall_nil].
  cbv zeta.
  destruct (getPropOpt (if truthyV sv then sv else Some (JObj [])) "start") as [start|].
  - destruct (truthy start).
    + destruct (includesFn start) as [inc|]; [|apply Forall_nil].
      destruct (find inc devTools) as [tool|];
        destruct (frameworkName_eqb (name fw) nestjs && inc "nest start"
                  && negb (inc "nest start --watch"));
        try destruct (getPropOpt (if truthyV sv then sv else Some (JObj [])) "build") as [b|];
        try destruct (truthy b); try destruct (includesFn b) as [binc|];
        cbn [fst]; forall_listed.
    + cbn [fst]. forall_listed.
  - cbn [fst]. forall_listed.
Qed.

Lemma checkStartCommand_listed (w : World) (path : string) (fw : Framework) (l : list Issue) :
  checkStartCommand JSON_parse join w path fw = Ok l ->
  Forall (listed startCommandFindings) l.
Proof.
  unfold checkStartCommand.
  destruct (isNode fw).
  - destruct (negb (existsSync w (join path "package.json"))).
    + intros H; inversion H; subst. forall_listed.
    + pose proof (nodeStartBody_listed w (join path "package.json") fw) as Hn.
      destruct (nodeStartBody JSON_parse w (join path "package.json") fw) as [pushed completed].
      cbn [fst] in Hn. intros H; inversion H; subst.
      destruct completed; [exact Hn|]. apply Forall_app. split; [exact Hn|]. forall_listed.
  - destruct (isPython fw); [|intros H; inversion H; subst; apply Forall_nil].
    unfold pythonStartIssues. intros H.
    apply bind_ok in H. destruct H as [a [Ha H]].
    apply bind_ok in H. destruct H as [b [Hb H]]. inversion H; subst l; clear H.
    apply Forall_app. split.
    + destruct (negb (existsSync w (join path "Procfile"))).
      * inversion Ha; subst. forall_listed.
      * apply bind_ok in Ha. destruct Ha as [pf [_ Ha]]. inversion Ha; subst. forall_listed.
    + destruct (existsSync w (join path "requirements.txt")).
      * apply bind_ok in Hb. destruct Hb as [rq [_ Hb]]. inversion Hb; subst. forall_listed.
      * inversion Hb; subst. forall_listed.
Qed.

Lemma envHygiene_listed (w : World) (path : string) (r : CheckResult) :
  envHygiene join w path = Ok r -> Forall (listed envVarsFindings) (fst r).
Proof.
  unfold envHygiene. intros H. apply bind_ok in H. destruct H as [ig [Hi H]].
  inversion H; subst r; clear H. cbn [fst].
  destruct (existsSync w (join path ".env") && existsSync w (join path ".gitignore")).
  - apply bind_ok in Hi. destruct Hi as [content [_ Hi]]. inversion Hi; subst.
    destruct (negb (Js.includes content ".env")); cbn [fst]; forall_listed.
  - inversion Hi; subst. apply Forall_nil.
Qed.

Lemma envInventory_listed (envVars : list string) :
  Forall (listed envVarsFindings) (envInventory envVars).
Proof. unfold envInventory. forall_listed. Qed.

Lemma checkEnvVars_listed (w : World) (path : string) (fw : Framework) (r : CheckResult) :
  checkEnvVars join w path fw = Ok r -> Forall (listed envVarsFindings) (fst r).
Proof.
  unfold checkEnvVars. intros H. apply bind_ok in H. destruct H as [h [Hh H]].
  inversion H; subst r; clear H. cbn [fst]. apply Forall_app. split.
  - eapply envHygiene_listed; exact Hh.
  - apply envInventory_listed.
Qed.

Lemma findDatabaseConnectionIssues_listed (w : World) (path : string) (fw : Framework)
      (libs : list string) :
  Forall (listed databaseFindings) (findDatabaseConnectionIssues join w path fw libs).
Proof.
  unfold findDatabaseConnectionIssues.
  destruct (scannedFiles join w path fw sourceIgnore 30); [|apply Forall_nil].
  cbv zeta. forall_listed.
Qed.

Lemma checkDatabaseConfig_listed (w : World) (path : string) (fw : Framework)
      (r : CheckResult) :
  checkDatabaseConfig JSON_parse join w path fw = Ok r ->
  Forall (listed databaseFindings) (fst r).
Proof.
  unfold checkDatabaseConfig. intros H. apply bind_ok in H. destruct H as [libs [_ H]].
  destruct libs; inversion H; subst r; cbn [fst]; [apply Forall_nil|].
  apply findDatabaseConnectionIssues_listed.
Qed.

Lemma both_fst (a b : CheckResult) : fst (both a b) = (fst a ++ fst b)%list.
Proof. reflexivity. Qed.

Lemma checkDjango_listed (w : World) (path : string) (fw : Framework) (r : CheckResult) :
  checkDjango join w path fw = Ok r -> Forall (listed djangoFindings) (fst r).
Proof.
  unfold checkDjango.
  destruct (truthyPath (findDjangoSettings join w path)) as [sp|].
  - intros H. apply bind_ok in H. destruct H as [an [_ H]].
    destruct (djangoSettings an) as [st|]; [|inversion H; subst; apply Forall_nil].
    apply bind_ok in H. destruct H as [g [Hg H]]. inversion H; subst r; clear H.
    rewrite !both_fst.
    assert (Hgl : Forall (listed djangoFindings) (fst g)).
    { destruct (existsSync w (join path "requirements.txt")).
      - apply bind_ok in Hg. destruct Hg as [t [_ Hg]]. inversion Hg; subst.
        destruct (negb (Js.includes (Js.toLowerCase t) "gunicorn")); cbn [fst]; forall_listed.
      - inversion Hg; subst. apply Forall_nil. }
    unfold djangoAllowedHosts, djangoDebug, djangoWhitenoise, djangoStaticRoot,
      djangoDatabaseUrl, djangoCsrf.
    repeat (apply Forall_app; split); try exact Hgl.
    + match goal with |- Forall _ (fst (if ?b then _ else _)) => destruct b end;
        [cbn [fst]; forall_listed|].
      match goal with |- Forall _ (fst (if ?b then _ else _)) => destruct b end;
        cbn [fst]; forall_listed.
    + destruct (debug st) as [[|]|]; cbn [fst]; forall_listed.
    + destruct (negb (hasWhitenoise st)); cbn [fst]; forall_listed.
    + destruct (negb (hasStaticRoot st)); cbn [fst]; forall_listed.
    + destruct (negb (settingsHasDatabaseUrl st)); cbn [fst]; forall_listed.
    + destruct (Nat.eqb (List.length (csrfTrustedOrigins st)) 0); cbn [fst]; forall_listed.
  - intros H; inversion H; subst. cbn [fst]. forall_listed.
Qed.

Lemma checkFlask_listed (w : World) (path : string) (fw : Framework) (r : CheckResult) :
  checkFlask join w path fw = Ok r -> Forall (listed flaskFindings) (fst r).
Proof.
  unfold checkFlask.
  destruct (truthyPath (findPythonMainFile join w path _)) as [mf|].
  - intros H. apply bind_ok in H. destruct H as [an [_ H]].
    apply bind_ok in H. destruct H as [content [_ H]]. cbv zeta in H.
    apply bind_ok in H. destruct H as [g [Hg H]].
    apply bind_ok in H. destruct H as [pr [Hpr H]]. inversion H; subst r; clear H.
    rewrite !both_fst. cbn [fst].
    repeat (apply Forall_app; split).
    + forall_listed.
    + forall_listed.
    + destruct (existsSync w (join path "requirements.txt")).
      * apply bind_ok in Hg. destruct Hg as [t [_ Hg]]. inversion Hg; subst.
        destruct (negb (Js.includes (Js.toLowerCase t) "gunicorn")); cbn [fst]; forall_listed.
      * inversion Hg; subst. apply Forall_nil.
    + destruct (existsSync w (join path "Procfile")).
      * apply bind_ok in Hpr. destruct Hpr as [t [_ Hpr]]. inversion Hpr; subst.
        unfold flaskProcfile, procfileIssue. cbn [fst]. forall_listed.
      * inversion Hpr; subst. apply Forall_nil.
  - intros H; inversion H; subst. cbn [fst]. forall_listed.
Qed.

Lemma checkFastAPI_listed (w : World) (path : string) (fw : Framework) (r : CheckResult) :
  checkFastAPI join w path fw = Ok r -> Forall (listed fastapiFindings) (fst r).
Proof.
  unfold checkFastAPI.
  destruct (truthyPath (findPythonMainFile join w path _)) as [mf|].
  - intros H. apply bind_ok in H. destruct H as [an [_ H]].
    apply bind_ok in H. destruct H as [content [_ H]]. cbv zeta in H.
    apply bind_ok in H. destruct H as [g [Hg H]].
    apply bind_ok in H. destruct H as [pr [Hpr H]]. inversion H; subst r; clear H.
    rewrite !both_fst. cbn [fst].
    repeat (apply Forall_app; split).
    + forall_listed.
    + forall_listed.
    + destruct (existsSync w (join path "requirements.txt")).
      * apply bind_ok in Hg. destruct Hg as [t [_ Hg]]. inversion Hg; subst.
        destruct (negb (Js.includes (Js.toLowerCase t) "uvicorn")); cbn [fst]; forall_listed.
      * inversion Hg; subst. apply Forall_nil.
    + destruct (existsSync w (join path "Procfile")).
      * apply bind_ok in Hpr. destruct Hpr as [t [_ Hpr]]. inversion Hpr; subst.
        unfold fastapiProcfile, procfileIssue. cbn [fst]. forall_listed.
      * inversion Hpr; subst. apply Forall_nil.
  - intros H; inversion H; subst. cbn [fst]. forall_listed.
Qed.

Lemma frameworkStep_listed (w : World) (path : string) (fw : Framework) (r : CheckResult) :
  frameworkStep join w path fw = Ok r ->
  Forall (listed (djangoFindings ++ flaskFindings ++ fastapiFindings)) (fst r).
Proof.
  unfold frameworkStep. destruct (name fw); intros H;
    try (inversion H; subst; apply Forall_nil).
  - eapply Forall_listed_weaken; [|eapply checkDjango_listed; exact H].
    intros x Hx. apply in_or_app. left. exact Hx.
  - eapply Forall_listed_weaken; [|eapply checkFlask_listed; exact H].
    intros x Hx. apply in_or_app. right. apply in_or_app. left. exact Hx.
  - eapply Forall_listed_weaken; [|eapply checkFastAPI_listed; exact H].
    intros x Hx. apply in_or_app. right. apply in_or_app. right. exact Hx.
Qed.

Lemma startCommandStep_fst (l : list Issue) : fst (startCommandStep l) = l.
Proof. unfold startCommandStep. destruct l; reflexivity. Qed.

(** What [runChecks] returns, module by module. *)
Lemma runChecks_parts (w : World) (path : string) (fw : Framework) (r : CheckResult) :
  runChecks JSON_parse join w path fw = Ok r ->
  exists startIssues envRes dbRes fwRes,
    checkStartCommand JSON_parse join w path fw = Ok startIssues
    /\ checkEnvVars join w path fw = Ok envRes
    /\ checkDatabaseConfig JSON_parse join w path fw = Ok dbRes
    /\ frameworkStep join w path fw = Ok fwRes
    /\ fst r = (fst (checkPortUsage JSON_parse join w path fw)
                ++ fst (checkHostBinding JSON_parse join w path fw)
                ++ startIssues ++ fst envRes ++ fst dbRes ++ fst fwRes)%list
    /\ snd r = (snd (checkPortUsage JSON_parse join w path fw)
                ++ snd (checkHostBinding JSON_parse join w path fw)
                ++ snd (startCommandStep startIssues)
                ++ snd envRes ++ snd dbRes ++ snd fwRes)%list.
Proof.
  unfold runChecks. intros H.
  apply bind_ok in H. destruct H as [s [Hs H]].
  apply bind_ok in H. destruct H as [e [He H]].
  apply bind_ok in H. destruct H as [d [Hd H]].
  apply bind_ok in H. destruct H as [f [Hf H]].
  inversion H; subst r; clear H.
  exists s, e, d, f. repeat (split; [assumption|]).
  rewrite !both_fst, startCommandStep_fst. split; reflexivity.
Qed.

Lemma scanProject_listed (w : World) (path : string) (r : ScanResult) :
  scanProject JSON_parse join w path = Ok r -> Forall (listed allFindings) (issues r).
Proof.
  intros H. apply scanProject_shape in H. destruct H as [fw [col [_ [Hr ->]]]].
  cbn [issues]. apply runChecks_parts in Hr.
  destruct Hr as [s [e [d [f [Hs [He [Hd [Hf [Hfst _]]]]]]]]].
  rewrite Hfst. unfold allFindings.
  repeat (apply Forall_app; split).
  - eapply Forall_listed_weaken; [|apply checkPortUsage_listed].
    intros x Hx. apply in_or_app. left. exact Hx.
  - eapply Forall_listed_weaken; [|apply checkHostBinding_listed].
    intros x Hx. apply in_or_app. right. apply in_or_app. left. exact Hx.
  - eapply Forall_listed_weaken; [|eapply checkStartCommand_listed; exact Hs].
    intros x Hx. do 2 (apply in_or_app; right). apply in_or_app. left. exact Hx.
  - eapply Forall_listed_weaken; [|eapply checkEnvVars_listed; exact He].
    intros x Hx. do 3 (apply in_or_app; right). apply in_or_app. left. exact Hx.
  - eapply Forall_listed_weaken; [|eapply checkDatabaseConfig_listed; exact Hd].
    intros x Hx. do 4 (apply in_or_app; right). apply in_or_app. left. exact Hx.
  - eapply Forall_listed_weaken; [|eapply frameworkStep_listed; exact Hf].
    intros x Hx. do 5 (apply in_or_app; right). exact Hx.
Qed.

(** X8.  Every issue of a scan is one of the findings of the check
    modules, with the identifier, severity and category of the object
    literal that builds it.  An informational issue has one of four
    identifiers.  Within a result the identifier fixes the category and,
    host-binding apart, the severity. *)
Theorem scan_issue_catalogue (w : World) (path : string) (r : ScanResult) :
  scanProject JSON_parse join w path = Ok r ->
  Forall (listed allFindings) (issues r)
  /\ (forall i, In i (issues r) -> issue_severity i = SevInfo ->
                In (issue_id i) ["env-vars-needed"; "database-url-recommended";
                                 "django-no-csrf-origins"; "fastapi-no-workers"])
  /\ (forall i j, In i (issues r) -> In j (issues r) -> issue_id i = issue_id j ->
                  issue_category i = issue_category j
                  /\ (issue_id i <> "host-binding" -> issue_severity i = issue_severity j)).
Proof.
  intros H. pose proof (scanProject_listed w path r H) as HF.
  split; [exact HF|]. rewrite Forall_forall in HF. split.
  - intros i Hi Hsev. apply HF in Hi. unfold listed in Hi. rewrite Hsev in Hi.
    cbn in Hi.
    repeat (destruct Hi as [Hi|Hi];
            [inversion Hi; cbn; repeat (first [left; reflexivity | right]); fail |]).
    contradiction.
  - intros i j Hi Hj Hid. apply HF in Hi. apply HF in Hj. unfold listed in Hi, Hj.
    rewrite <- Hid in Hj.
    destruct (issue_id i) as [|c0 id0] eqn:Ei.
    + exfalso. cbn in Hi. repeat (destruct Hi as [Hi|Hi]; [discriminate Hi|]). exact Hi.
    + cbn in Hi.
      repeat (destruct Hi as [Hi|Hi];
              [inversion Hi; subst; clear Hi; cbn in Hj;
               repeat (destruct Hj as [Hj|Hj];
                       [inversion Hj; subst; clear Hj;
                        first [ split; [reflexivity | intros; reflexivity]
                              | split; [reflexivity | intros Hne; exfalso; apply Hne; reflexivity] ] |]);
               contradiction |]).
      contradiction.
Qed.

(* --------------------------------------------------------------------- *)
(** *** The start script of a Node project *)
(* --------------------------------------------------------------------- *)

Lemma getPropOpt_scripts (sv : JsVal) (k : string) :
  getPropOpt (if truthyV sv then sv else Some (JObj [])) k = getPropOpt sv k.
Proof.
  destruct sv as [j|]; [|reflexivity].
  destruct j; cbn; try reflexivity.
  - destruct b; reflexivity.
  - destruct (negb (Z.eqb z 0)); reflexivity.
  - destruct (Js.nonEmpty s); reflexivity.
Qed.

Lemma detectFramework_node (w : World) (path : string) (fw : Framework) :
  detectFramework JSON_parse join w path = Ok fw ->
  isNode fw = true ->
  existsSync w (join path "package.json") = true.
Proof.
  unfold detectFramework. intros H Hn. apply bind_ok in H. destruct H as [node [Hd H]].
  destruct node as [nfw|].
  - unfold detectNode in Hd.
    destruct (existsSync w (join path "package.json")); [reflexivity|discriminate].
  - exfalso. unfold detectPython in H.
    destruct (existsSync w (join path "requirements.txt")).
    + apply bind_ok in H. destruct H as [text [_ H]]. cbv zeta in H.
      destruct (Js.includes (Js.toLowerCase text) "django");
        [|destruct (Js.includes (Js.toLowerCase text) "flask");
          [|destruct (Js.includes (Js.toLowerCase text) "fastapi")]];
        inversion H; subst fw; discriminate Hn.
    + inversion H; subst fw; discriminate Hn.
Qed.

Lemma will_fail_of_error (l : list Issue) (p : list PassedCheck) (i : Issue) :
  In i l -> issue_severity i = SevError ->
  deploymentLikelihood (generateSummary l p) = WillFail
  /\ Nat.ltb 0 (errors (generateSummary l p)) = true.
Proof.
  intros Hi He.
  assert (Hp : 0 < List.length (filter isError l)) by (apply errors_positive; eauto).
  split.
  - apply (generateSummary_likelihood l p). exact Hp.
  - apply Nat.ltb_lt. exact Hp.
Qed.

(** X9.  A Node project whose manifest has no truthy start script: the
    scan reports no-start-script on the manifest, the verdict is will-fail
    and the exit code is 1. *)
Theorem missing_start_script_fails (w : World) (path : string) (r : ScanResult)
        (manifest : Json) (scripts : JsVal) :
  scanProject JSON_parse join w path = Ok r ->
  isNode (framework r) = true ->
  readJson JSON_parse w (join path "package.json") = Ok manifest ->
  getProp manifest "scripts" = Ok scripts ->
  truthyV (getPropOpt scripts "start") = false ->
  In (noStartScriptIssue (join path "package.json") (framework r)) (issues r)
  /\ deploymentLikelihood (summary r) = WillFail
  /\ exitCode (Ok r) = 1.
Proof.
  intros H Hn Hm Hs Hst. apply scanProject_shape in H.
  destruct H as [fw [col [Hd [Hr ->]]]]. cbn [framework issues summary exitCode] in *.
  pose proof (detectFramework_node w path fw Hd Hn) as He.
  apply runChecks_parts in Hr.
  destruct Hr as [s [e [d [f [Hsc [_ [_ [_ [Hfst _]]]]]]]]].
  assert (Hin : In (noStartScriptIssue (join path "package.json") fw) s).
  { unfold checkStartCommand in Hsc. rewrite Hn, He in Hsc. cbn [negb] in Hsc.
    unfold nodeStartBody in Hsc. rewrite Hm, Hs in Hsc. cbv zeta in Hsc.
    rewrite !getPropOpt_scripts in Hsc.
    destruct (getPropOpt scripts "start") as [start|].
    - cbn in Hst. rewrite Hst in Hsc. inversion Hsc; subst s. left. reflexivity.
    - inversion Hsc; subst s. left. reflexivity. }
  assert (Hin' : In (noStartScriptIssue (join path "package.json") fw) (fst col)).
  { rewrite Hfst. apply in_or_app. right. apply in_or_app. right.
    apply in_or_app. left. exact Hin. }
  split; [exact Hin'|].
  destruct (will_fail_of_error (fst col) (snd col) _ Hin' eq_refl) as [HW HE].
  split; [exact HW|]. rewrite HE. reflexivity.
Qed.

Lemma existsb_find {A : Type} (f : A -> bool) (l : list A) :
  existsb f l = match find f l with Some _ => true | None => false end.
Proof.
  induction l as [|a l IH]; simpl; [reflexivity|]. destruct (f a); simpl; auto.
Qed.

Lemma hasIssue_app (id : string) (a b : list Issue) :
  hasIssue id (a ++ b) = hasIssue id a || hasIssue id b.
Proof. unfold hasIssue. apply existsb_app. Qed.

Lemma append_inj_l (p a b : string) : (p ++ a = p ++ b)%string -> a = b.
Proof.
  induction p as [|c p IH]; simpl; [auto|]. intros H. injection H as H. auto.
Qed.

Lemma devToolsIssue_inj (p : string) (fw : Framework) (t1 t2 : string) (s : Json) :
  devToolsIssue p fw t1 s = devToolsIssue p fw t2 s -> t1 = t2.
Proof.
  intros H. apply (f_equal issue_message) in H. cbn [issue_message devToolsIssue] in H.
  eapply append_inj_l. exact H.
Qed.

(** The issues of the start-command check on a Node project whose start
    script is a non-empty string. *)
Lemma checkStartCommand_string (w : World) (path : string) (fw : Framework)
      (manifest : Json) (scripts : JsVal) (s : string) :
  isNode fw = true ->
  existsSync w (join path "package.json") = true ->
  readJson JSON_parse w (join path "package.json") = Ok manifest ->
  getProp manifest "scripts" = Ok scripts ->
  getPropOpt scripts "start" = Some (JStr s) ->
  Js.nonEmpty s = true ->
  exists tail,
    checkStartCommand JSON_parse join w path fw
    = Ok ((match find (Js.includes s) devTools with
           | Some tool => [devToolsIssue (join path "package.json") fw tool (JStr s)]
           | None => []
           end)
          ++ (if isNextjs fw && negb (Js.includes s "next start")
              then [nextjsWrongStartIssue (join path "package.json") (JStr s)] else [])
          ++ tail)%list
    /\ Forall (fun i => In (issue_id i)
                          ["nestjs-no-build"; "no-build-script"; "invalid-package-json"])
              tail.
Proof.
  intros Hn He Hm Hs Hst Hne.
  unfold checkStartCommand. rewrite Hn, He. cbn [negb].
  unfold nodeStartBody. rewrite Hm, Hs. cbv zeta. rewrite !getPropOpt_scripts, Hst.
  cbn [truthy]. rewrite Hne. cbn [includesFn].
  set (dev := match find (fun needle => Js.includes s needle) devTools with
              | Some tool => _ | None => _ end).
  set (nxt := if isNextjs fw && negb (Js.includes s "next start") then _ else _).
  destruct (frameworkName_eqb (name fw) nestjs && Js.includes s "nest start"
            && negb (Js.includes s "nest start --watch")).
  - destruct (getPropOpt scripts "build") as [b|].
    + destruct (truthy b).
      * destruct (includesFn b) as [binc|].
        -- eexists. split; [reflexivity|].
           repeat first [ apply Forall_nil | apply Forall_app; split
                        | apply Forall_cons; [cbn; tauto|]
                        | match goal with |- Forall _ (if ?c then _ else _) => destruct c end ].
        -- eexists. split; [rewrite <- !app_assoc; reflexivity|].
           repeat first [ apply Forall_nil | apply Forall_cons; [cbn; tauto|] ].
      * eexists. split; [reflexivity|].
        repeat first [ apply Forall_nil | apply Forall_app; split
                     | apply Forall_cons; [cbn; tauto|]
                     | match goal with |- Forall _ (if ?c then _ else _) => destruct c end ].
    + eexists. split; [reflexivity|].
      repeat first [ apply Forall_nil | apply Forall_app; split
                   | apply Forall_cons; [cbn; tauto|]
                   | match goal with |- Forall _ (if ?c then _ else _) => destruct c end ].
  - eexists. split; [reflexivity|].
    repeat first [ apply Forall_nil | apply Forall_app; split
                 | apply Forall_cons; [cbn; tauto|]
                 | match goal with |- Forall _ (if ?c then _ else _) => destruct c end ].
Qed.

Lemma hasIssue_other (id : string) (ids : list string) (l : list Issue) :
  Forall (fun i => In (issue_id i) ids) l -> ~ In id ids -> hasIssue id l = false.
Proof.
  intros HF Hn. unfold hasIssue. apply not_true_is_false. intros H.
  apply existsb_exists in H. destruct H as [i [Hi He]].
  rewrite Forall_forall in HF. apply HF in Hi. apply String.eqb_eq in He.
  rewrite He in Hi. exact (Hn Hi).
Qed.

Lemma In_other (i : Issue) (ids : list string) (l : list Issue) :
  Forall (fun i => In (issue_id i) ids) l -> ~ In (issue_id i) ids -> ~ In i l.
Proof.
  intros HF Hn Hi. rewrite Forall_forall in HF. exact (Hn (HF i Hi)).
Qed.

Ltac not_in_ids := cbn; intros Hor; repeat (destruct Hor as [Hor|Hor]; [discriminate Hor|]);
                   exact Hor.

(** X10.  On a Node project whose start script is a non-empty string the
    start-command check does not throw.  It reports
    dev-tools-in-production exactly when the script contains one of
    nodemon, ts-node-dev, tsx --watch and vite, and cites the first of
    these, in this order, that the script contains.  It reports
    nextjs-wrong-start exactly for a Next.js project whose script lacks
    [next start], and never no-start-script. *)
Theorem dev_tool_detection (w : World) (path : string) (fw : Framework)
        (manifest : Json) (scripts : JsVal) (s : string) :
  isNode fw = true ->
  existsSync w (join path "package.json") = true ->
  readJson JSON_parse w (join path "package.json") = Ok manifest ->
  getProp manifest "scripts" = Ok scripts ->
  getPropOpt scripts "start" = Some (JStr s) ->
  Js.nonEmpty s = true ->
  exists found,
    checkStartCommand JSON_parse join w path fw = Ok found
    /\ (forall tool,
           In (devToolsIssue (join path "package.json") fw tool (JStr s)) found
           <-> find (Js.includes s) devTools = Some tool)
    /\ hasIssue "dev-tools-in-production" found = existsb (Js.includes s) devTools
    /\ hasIssue "nextjs-wrong-start" found = isNextjs fw && negb (Js.includes s "next start")
    /\ hasIssue "no-start-script" found = false.
Proof.
  intros Hn He Hm Hs Hst Hne.
  destruct (checkStartCommand_string w path fw manifest scripts s Hn He Hm Hs Hst Hne)
    as [tail [Hc Ht]].
  eexists. split; [exact Hc|].
  split; [|split; [|split]].
  - intros tool. split.
    + intros Hin. apply in_app_or in Hin. destruct Hin as [Hin|Hin].
      * destruct (find (Js.includes s) devTools) as [t|]; [|contradiction].
        destruct Hin as [Hin|[]]. apply devToolsIssue_inj in Hin. congruence.
      * exfalso. apply in_app_or in Hin. destruct Hin as [Hin|Hin].
        -- destruct (isNextjs fw && negb (Js.includes s "next start")); [|contradiction].
           destruct Hin as [Hin|[]]. apply (f_equal issue_id) in Hin. discriminate Hin.
        -- revert Hin. eapply In_other; [exact Ht|]. not_in_ids.
    + intros ->. apply in_or_app. left. left. reflexivity.
  - rewrite !hasIssue_app, (hasIssue_other _ _ _ Ht) by not_in_ids.
    rewrite existsb_find.
    destruct (find (Js.includes s) devTools);
      destruct (isNextjs fw && negb (Js.includes s "next start")); reflexivity.
  - rewrite !hasIssue_app, (hasIssue_other _ _ _ Ht) by not_in_ids.
    destruct (find (Js.includes s) devTools);
      destruct (isNextjs fw && negb (Js.includes s "next start")); reflexivity.
  - rewrite !hasIssue_app, (hasIssue_other _ _ _ Ht) by not_in_ids.
    destruct (find (Js.includes s) devTools);
      destruct (isNextjs fw && negb (Js.includes s "next start")); reflexivity.
Qed.

(* --------------------------------------------------------------------- *)
(** *** The Next.js findings *)
(* --------------------------------------------------------------------- *)

Lemma listed_ids (findings : list Finding) (l : list Issue) :
  Forall (listed findings) l ->
  Forall (fun i => In (issue_id i) (map (fun f => fst (fst f)) findings)) l.
Proof.
  intros H. eapply Forall_impl; [|exact H]. intros i Hi. unfold listed in Hi.
  apply (in_map (fun f => fst (fst f))) in Hi. exact Hi.
Qed.

Lemma hasIssue_In (id : string) (l : list Issue) :
  hasIssue id l = true <-> exists i, In i l /\ issue_id i = id.
Proof.
  unfold hasIssue. rewrite existsb_exists. split; intros [i [Hi He]]; exists i; split; auto.
  - apply String.eqb_eq. exact He.
  - apply String.eqb_eq. exact He.
Qed.

Lemma wrong_start_inv (w : World) (path : string) (fw : Framework) (l : list Issue)
      (i : Issue) :
  checkStartCommand JSON_parse join w path fw = Ok l ->
  In i l -> issue_id i = "nextjs-wrong-start" ->
  exists manifest scripts start inc,
    readJson JSON_parse w (join path "package.json") = Ok manifest
    /\ getProp manifest "scripts" = Ok scripts
    /\ getPropOpt scripts "start" = Some start
    /\ truthy start = true
    /\ includesFn start = Some inc
    /\ inc "next start" = false.
Proof.
  unfold checkStartCommand.
  destruct (isNode fw).
  - destruct (negb (existsSync w (join path "package.json"))).
    + intros H; inversion H; subst l. intros [<-|[]] Hid. discriminate Hid.
    + unfold nodeStartBody.
      destruct (readJson JSON_parse w (join path "package.json")) as [pj|] eqn:Epj.
      2:{ intros H; inversion H; subst l. intros [<-|[]] Hid. discriminate Hid. }
      destruct (getProp pj "scripts") as [sv|] eqn:Esv.
      2:{ intros H; inversion H; subst l. intros [<-|[]] Hid. discriminate Hid. }
      cbv zeta. rewrite !getPropOpt_scripts.
      destruct (getPropOpt sv "start") as [start|] eqn:Est.
      2:{ intros H; inversion H; subst l. intros Hin Hid. exfalso.
          destruct Hin as [<-|Hin]; [discriminate Hid|].
          destruct (isNextjs fw && negb (truthyV (getPropOpt sv "build"))); [|contradiction].
          destruct Hin as [<-|[]]. discriminate Hid. }
      destruct (truthy start) eqn:Etr.
      2:{ intros H; inversion H; subst l. intros Hin Hid. exfalso.
          destruct Hin as [<-|Hin]; [discriminate Hid|].
          destruct (isNextjs fw && negb (truthyV (getPropOpt sv "build"))); [|contradiction].
          destruct Hin as [<-|[]]. discriminate Hid. }
      destruct (includesFn start) as [inc|] eqn:Einc.
      2:{ intros H; inversion H; subst l. intros [<-|[]] Hid. discriminate Hid. }
      intros H Hin Hid.
      exists pj, sv, start, inc.
      split; [reflexivity|]. split; [exact Esv|]. split; [exact Est|].
      split; [exact Etr|]. split; [exact Einc|].
      destruct (inc "next start") eqn:En; [|reflexivity]. exfalso.
      rewrite andb_false_r in H.
      assert (Hl : Forall (fun i => issue_id i <> "nextjs-wrong-start") l).
      { destruct (find inc devTools) as [tool|];
          destruct (frameworkName_eqb (name fw) nestjs && inc "nest start"
                    && negb (inc "nest start --watch"));
          try destruct (getPropOpt sv "build") as [b|];
          try destruct (truthy b); try destruct (includesFn b) as [binc|];
          inversion H; subst l;
          repeat first
            [ apply Forall_nil | apply Forall_app; split
            | apply Forall_cons; [cbn; discriminate|]
            | match goal with |- Forall _ (if ?c then _ else _) => destruct c end ]. }
      rewrite Forall_forall in Hl. exact (Hl i Hin Hid).
  - destruct (isPython fw).
    + intros H Hin Hid. exfalso.
      unfold pythonStartIssues in H.
      apply bind_ok in H. destruct H as [a [Ha H]].
      apply bind_ok in H. destruct H as [b [Hb H]]. inversion H; subst l; clear H.
      apply in_app_or in Hin. destruct Hin as [Hin|Hin].
      * destruct (negb (existsSync w (join path "Procfile"))).
        -- inversion Ha; subst a. destruct Hin as [<-|[]]. discriminate Hid.
        -- apply bind_ok in Ha. destruct Ha as [pf [_ Ha]]. inversion Ha; subst a.
           destruct (isDjango fw && negb (Js.includes pf "gunicorn")); [|contradiction].
           destruct Hin as [<-|[]]. discriminate Hid.
      * destruct (existsSync w (join path "requirements.txt")).
        -- apply bind_ok in Hb. destruct Hb as [rq [_ Hb]]. inversion Hb; subst b.
           destruct (isDjango fw && negb (Js.includes rq "gunicorn")); [|contradiction].
           destruct Hin as [<-|[]]. discriminate Hid.
        -- inversion Hb; subst b. contradiction.
    + intros H; inversion H; subst l. intros [].
Qed.

Lemma flag_inv (w : World) (path : string) (a b : string) (issue i : Issue)
      (m : Result (list Issue)) :
  m = (packageJson <- readJson JSON_parse w (join path "package.json") ;;
       startScript <- startScriptOf packageJson ;;
       hasNextStart <- valIncludes startScript "next start" ;;
       hasA <- valIncludes startScript a ;;
       hasB <- valIncludes startScript b ;;
       Ok (if hasNextStart && negb hasA && negb hasB then [issue] else [])) ->
  In i (tryCatch m []) ->
  exists manifest startScript,
    readJson JSON_parse w (join path "package.json") = Ok manifest
    /\ startScriptOf manifest = Ok startScript
    /\ valIncludes startScript "next start" = Ok true
    /\ valIncludes startScript a = Ok false
    /\ valIncludes startScript b = Ok false.
Proof.
  intros ->.
  destruct (readJson JSON_parse w (join path "package.json")) as [pj|] eqn:E0;
    [|cbn; intros []].
  cbn [bind].
  destruct (startScriptOf pj) as [ss|] eqn:E1; [|cbn; intros []]. cbn [bind].
  destruct (valIncludes ss "next start") as [b1|] eqn:E2; [|cbn; intros []]. cbn [bind].
  destruct (valIncludes ss a) as [b2|] eqn:E3; [|cbn; intros []]. cbn [bind].
  destruct (valIncludes ss b) as [b3|] eqn:E4; [|cbn; intros []]. cbn [bind tryCatch].
  destruct b1, b2, b3; cbn [andb negb]; try (cbn; intros []; fail).
  intros _. exists pj, ss. auto.
Qed.

Lemma start_script_agree (manifest : Json) (scripts : JsVal) (start ss : Json)
      (inc : string -> bool) :
  getProp manifest "scripts" = Ok scripts ->
  getPropOpt scripts "start" = Some start ->
  truthy start = true ->
  includesFn start = Some inc ->
  startScriptOf manifest = Ok ss ->
  forall needle, valIncludes ss needle = Ok (inc needle).
Proof.
  intros Hs Hst Ht Hi Hss needle. unfold startScriptOf in Hss. rewrite Hs in Hss.
  cbn [bind] in Hss. rewrite Hst, Ht in Hss. inversion Hss; subst ss.
  unfold valIncludes. rewrite Hi. reflexivity.
Qed.

(** X11.  A scan that reports nextjs-wrong-start reports neither
    nextjs-port-flag nor nextjs-host-flag: the three findings read the same
    start script, and the last two need [next start] in it. *)
Theorem nextjs_findings_exclusive (w : World) (path : string) (r : ScanResult) :
  scanProject JSON_parse join w path = Ok r ->
  hasIssue "nextjs-wrong-start" (issues r) = true ->
  hasIssue "nextjs-port-flag" (issues r) = false
  /\ hasIssue "nextjs-host-flag" (issues r) = false.
Proof.
  intros H Hw. apply scanProject_shape in H. destruct H as [fw [col [_ [Hr ->]]]].
  cbn [issues] in *. apply runChecks_parts in Hr.
  destruct Hr as [s [e [d [f [Hs [He [Hd [Hf [Hfst _]]]]]]]]].
  rewrite Hfst in *. rewrite !hasIssue_app in *.
  pose proof (listed_ids _ _ (checkPortUsage_listed w path fw)) as Lp.
  pose proof (listed_ids _ _ (checkHostBinding_listed w path fw)) as Lh.
  pose proof (listed_ids _ _ (checkStartCommand_listed w path fw s Hs)) as Ls.
  pose proof (listed_ids _ _ (checkEnvVars_listed w path fw e He)) as Le.
  pose proof (listed_ids _ _ (checkDatabaseConfig_listed w path fw d Hd)) as Ld.
  pose proof (listed_ids _ _ (frameworkStep_listed w path fw f Hf)) as Lf.
  rewrite (hasIssue_other _ _ _ Lp), (hasIssue_other _ _ _ Lh), (hasIssue_other _ _ _ Le),
    (hasIssue_other _ _ _ Ld), (hasIssue_other _ _ _ Lf) in Hw by not_in_ids.
  cbn [orb] in Hw. rewrite orb_false_r in Hw.
  apply hasIssue_In in Hw. destruct Hw as [i [Hi Hid]].
  destruct (wrong_start_inv w path fw s i Hs Hi Hid)
    as [pj [sv [start [inc [Hpj [Hsv [Hst [Htr [Hinc Hno]]]]]]]]].
  rewrite (hasIssue_other "nextjs-port-flag" _ _ Lh),
    (hasIssue_other "nextjs-port-flag" _ _ Ls),
    (hasIssue_other "nextjs-port-flag" _ _ Le),
    (hasIssue_other "nextjs-port-flag" _ _ Ld),
    (hasIssue_other "nextjs-port-flag" _ _ Lf) by not_in_ids.
  rewrite (hasIssue_other "nextjs-host-flag" _ _ Lp),
    (hasIssue_other "nextjs-host-flag" _ _ Ls),
    (hasIssue_other "nextjs-host-flag" _ _ Le),
    (hasIssue_other "nextjs-host-flag" _ _ Ld),
    (hasIssue_other "nextjs-host-flag" _ _ Lf) by not_in_ids.
  cbn [orb]. rewrite !orb_false_r. split.
  - apply not_true_is_false. intros Hp. apply hasIssue_In in Hp.
    destruct Hp as [j [Hj Hjid]]. apply checkPortUsage_In in Hj.
    destruct Hj as [[scanned [f0 [c [_ [_ Hj]]]]]|[_ [_ Hj]]].
    + apply scanFileForPortIssues_sound in Hj. destruct Hj as [_ [p [v [_ ->]]]].
      discriminate Hjid.
    + eapply flag_inv in Hj; [|reflexivity].
      destruct Hj as [pj' [ss [Hpj' [Hss [Hnx _]]]]].
      rewrite Hpj in Hpj'. inversion Hpj'; subst pj'.
      rewrite (start_script_agree pj sv start ss inc Hsv Hst Htr Hinc Hss) in Hnx.
      congruence.
  - apply not_true_is_false. intros Hp. apply hasIssue_In in Hp.
    destruct Hp as [j [Hj Hjid]].
    unfold checkHostBinding in Hj.
    destruct (scannedFiles join w path fw (sourceIgnore ++ testIgnore)%list 50)
      as [scanned|]; [|contradiction].
    cbn [fst] in Hj. apply in_app_or in Hj. destruct Hj as [Hj|Hj].
    + apply in_flat_map in Hj. destruct Hj as [[f0 c] [_ Hj]].
      unfold scanFileForHostIssues in Hj. simpl in Hj.
      destruct ((hasListenCall c || hasPythonServerCall c) && negb (hasCorrectBinding c));
        [|contradiction].
      destruct Hj as [<-|[]]. discriminate Hjid.
    + destruct (isNextjs fw); [|contradiction].
      eapply flag_inv in Hj; [|reflexivity].
      destruct Hj as [pj' [ss [Hpj' [Hss [Hnx _]]]]].
      rewrite Hpj in Hpj'. inversion Hpj'; subst pj'.
      rewrite (start_script_agree pj sv start ss inc Hsv Hst Htr Hinc Hss) in Hnx.
      congruence.
Qed.

(* --------------------------------------------------------------------- *)
(** *** Database labels and environment names *)
(* --------------------------------------------------------------------- *)

Lemma setAdd_In (x y : string) (set : list string) :
  In y (setAdd x set) <-> y = x \/ In y set.
Proof.
  unfold setAdd. destruct (existsb (String.eqb x) set) eqn:E.
  - split; [auto|]. intros [->|H]; [|exact H].
    apply existsb_exists in E. destruct E as [z [Hz He]].
    apply String.eqb_eq in He. subst z. exact Hz.
  - rewrite in_app_iff. simpl. split.
    + intros [H|[H|[]]]; auto.
    + intros [H|H]; auto.
Qed.

Lemma setAdd_NoDup (x : string) (set : list string) : NoDup set -> NoDup (setAdd x set).
Proof.
  intros H. unfold setAdd. destruct (existsb (String.eqb x) set) eqn:E; [exact H|].
  assert (Hn : ~ In x set).
  { intros Hx. assert (existsb (String.eqb x) set = true).
    { apply existsb_exists. exists x. split; [exact Hx | apply String.eqb_refl]. }
    congruence. }
  clear E. induction set as [|a set IH]; simpl.
  - constructor; [intros [] | constructor].
  - inversion H; subst. constructor.
    + rewrite in_app_iff. simpl. intros [Ha|[Ha|[]]]; [contradiction|].
      apply Hn. left. symmetry. exact Ha.
    + apply IH; [assumption|]. intros Hx. apply Hn. right. exact Hx.
Qed.

Lemma dedup_spec (xs : list string) :
  NoDup (dedup xs) /\ forall y, In y (dedup xs) <-> In y xs.
Proof.
  unfold dedup.
  assert (H : forall acc, NoDup acc ->
                NoDup (fold_left (fun acc x => setAdd x acc) xs acc)
                /\ forall y, In y (fold_left (fun acc x => setAdd x acc) xs acc)
                             <-> In y acc \/ In y xs).
  { induction xs as [|x xs IH]; intros acc Hacc; simpl.
    - split; [exact Hacc|]. intros y. split; [intros Hy; left; exact Hy|].
      intros [Hy|[]]. exact Hy.
    - destruct (IH (setAdd x acc) (setAdd_NoDup x acc Hacc)) as [Hn Hi].
      split; [exact Hn|]. intros y. rewrite Hi, setAdd_In. split.
      + intros [[->|Hy]|Hy]; [right; left; reflexivity | left; exact Hy | right; right; exact Hy].
      + intros [Hy|[->|Hy]]; [left; right; exact Hy | left; left; reflexivity | right; exact Hy]. }
  destruct (H [] (NoDup_nil _)) as [Hn Hi]. split; [exact Hn|].
  intros y. rewrite Hi. simpl. split; [intros [[]|Hy]; exact Hy | intros Hy; right; exact Hy].
Qed.

(** X12.  The database libraries detected are pairwise distinct and are
    among eight labels; a Node project never yields SQLAlchemy and a Python
    project yields one of four labels.  For the unknown variant nothing is
    detected and the database check answers with the no-database pass,
    whatever the files hold. *)
Theorem database_libraries_distinct (w : World) (path : string) (fw : Framework)
        (libs : list string) :
  detectDatabaseLibraries JSON_parse join w path fw = Ok libs ->
  NoDup libs
  /\ (forall l, In l libs ->
                In l ["PostgreSQL"; "MySQL"; "MongoDB"; "Prisma"; "TypeORM"; "Sequelize";
                      "Knex"; "SQLAlchemy"])
  /\ (isNode fw = true -> ~ In "SQLAlchemy" libs)
  /\ (isPython fw = true ->
      forall l, In l libs -> In l ["PostgreSQL"; "MongoDB"; "MySQL"; "SQLAlchemy"])
  /\ (name fw = unknown ->
      libs = []
      /\ checkDatabaseConfig JSON_parse join w path fw = Ok ([], [noDatabasePass])).
Proof.
  unfold detectDatabaseLibraries. intros H. apply bind_ok in H.
  destruct H as [py [Hpy H]]. inversion H; subst libs; clear H.
  set (node := if isNode fw then _ else _).
  destruct (dedup_spec (node ++ py)%list) as [Hn Hi].
  assert (Hnode : forall l, In l node ->
                    In l ["PostgreSQL"; "MySQL"; "MongoDB"; "Prisma"; "TypeORM";
                          "Sequelize"; "Knex"] /\ isNode fw = true).
  { subst node. intros l. destruct (isNode fw); [|intros []].
    destruct (existsSync w (join path "package.json")); [|intros []].
    unfold nodeLibraries.
    destruct (readJson JSON_parse w (join path "package.json")) as [pj|]; [|intros []].
    cbn [bind].
    destruct (getProp pj "dependencies") as [deps|]; [|intros []]. cbn [bind].
    destruct (getProp pj "devDependencies") as [ddeps|]; [|intros []].
    cbn [bind tryCatch]. intros Hl. split; [|reflexivity].
    apply in_map_iff in Hl. destruct Hl as [[k v] [<- Hl]].
    apply filter_In in Hl. destruct Hl as [Hl _]. cbn [snd].
    cbn in Hl.
    repeat (destruct Hl as [Hl|Hl];
            [inversion Hl; subst; cbn; repeat (first [left; reflexivity | right]); fail|]).
    contradiction. }
  assert (Hpyl : forall l, In l py ->
                   In l ["PostgreSQL"; "MongoDB"; "MySQL"; "SQLAlchemy"]
                   /\ isPython fw = true).
  { intros l. destruct (isPython fw); [|inversion Hpy; subst py; intros []].
    destruct (existsSync w (join path "requirements.txt"));
      [|inversion Hpy; subst py; intros []].
    apply bind_ok in Hpy. destruct Hpy as [text [_ Hpy]]. inversion Hpy; subst py.
    unfold pythonLibraries. intros Hl. split; [|reflexivity].
    repeat (apply in_app_or in Hl; destruct Hl as [Hl|Hl]);
      match type of Hl with In _ (if ?c then _ else _) => destruct c end;
      try contradiction; destruct Hl as [<-|[]]; cbn; tauto. }
  assert (Hexcl : isNode fw = true -> isPython fw = true -> False).
  { unfold isNode, isPython. destruct (name fw); discriminate. }
  split; [exact Hn|]. split; [|split; [|split]].
  - intros l Hl. apply Hi in Hl. apply in_app_or in Hl. destruct Hl as [Hl|Hl].
    + apply Hnode in Hl. destruct Hl as [Hl _]. cbn in Hl |- *. tauto.
    + apply Hpyl in Hl. destruct Hl as [Hl _]. cbn in Hl |- *. tauto.
  - intros Hnd Hl. apply Hi in Hl. apply in_app_or in Hl. destruct Hl as [Hl|Hl].
    + apply Hnode in Hl. destruct Hl as [Hl _]. cbn in Hl.
      repeat (destruct Hl as [Hl|Hl]; [discriminate Hl|]). exact Hl.
    + apply Hpyl in Hl. destruct Hl as [_ Hl]. exact (Hexcl Hnd Hl).
  - intros Hp l Hl. apply Hi in Hl. apply in_app_or in Hl. destruct Hl as [Hl|Hl].
    + apply Hnode in Hl. destruct Hl as [_ Hl]. exfalso. exact (Hexcl Hl Hp).
    + apply Hpyl in Hl. tauto.
  - intros Hu.
    assert (Hlibs : dedup (node ++ py)%list = []).
    { destruct (dedup (node ++ py)%list) as [|l rest] eqn:E; [reflexivity|]. exfalso.
      assert (Hl : In l (node ++ py)%list) by (apply Hi; left; reflexivity).
      apply in_app_or in Hl. destruct Hl as [Hl|Hl].
      - apply Hnode in Hl. destruct Hl as [_ Hl]. unfold isNode in Hl. rewrite Hu in Hl.
        discriminate Hl.
      - apply Hpyl in Hl. destruct Hl as [_ Hl]. unfold isPython in Hl. rewrite Hu in Hl.
        discriminate Hl. }
    split; [exact Hlibs|].
    unfold checkDatabaseConfig, detectDatabaseLibraries. fold node. rewrite Hpy.
    cbn [bind]. rewrite Hlibs. reflexivity.
Qed.

Lemma addMatches_spec (re : Regex.regex) (content : string) (envVars : list string) :
  NoDup envVars -> Forall (fun v => Js.nonEmpty v = true) envVars ->
  NoDup (addMatches re content envVars)
  /\ Forall (fun v => Js.nonEmpty v = true) (addMatches re content envVars).
Proof.
  unfold addMatches. generalize (Regex.matchAll false re content). intros ms.
  revert envVars. induction ms as [|m ms IH]; intros acc Hn Hf; simpl; [auto|].
  apply IH.
  - destruct (Regex.group 1 (Regex.m_caps m)) as [v|]; [|exact Hn].
    destruct (Js.nonEmpty v); [apply setAdd_NoDup; exact Hn | exact Hn].
  - destruct (Regex.group 1 (Regex.m_caps m)) as [v|]; [|exact Hf].
    destruct (Js.nonEmpty v) eqn:Ev; [|exact Hf].
    apply Forall_forall. intros y Hy. apply setAdd_In in Hy.
    destruct Hy as [->|Hy]; [exact Ev|]. rewrite Forall_forall in Hf. auto.
Qed.

Lemma findEnvVarReferences_spec (w : World) (path : string) (fw : Framework) :
  NoDup (findEnvVarReferences join w path fw)
  /\ Forall (fun v => Js.nonEmpty v = true) (findEnvVarReferences join w path fw).
Proof.
  unfold findEnvVarReferences.
  destruct (scannedFiles join w path fw sourceIgnore 50) as [files|];
    [|split; constructor].
  assert (H : forall acc, NoDup acc -> Forall (fun v => Js.nonEmpty v = true) acc ->
                NoDup (fold_left (fun acc fc => addFileEnvVars acc (snd fc)) files acc)
                /\ Forall (fun v => Js.nonEmpty v = true)
                          (fold_left (fun acc fc => addFileEnvVars acc (snd fc)) files acc)).
  { induction files as [|fc files IH]; intros acc Hn Hf; simpl; [auto|].
    unfold addFileEnvVars.
    destruct (addMatches_spec jsEnvRegex (snd fc) acc Hn Hf) as [H1 H1'].
    destruct (addMatches_spec pyEnvRegex (snd fc) _ H1 H1') as [H2 H2'].
    destruct (addMatches_spec pyEnvBracketRegex (snd fc) _ H2 H2') as [H3 H3'].
    apply IH; assumption. }
  apply H; constructor.
Qed.

(** X13.  The names of environment variables found in the sources are
    pairwise distinct and not empty.  The inventory reports nothing exactly
    when every name is PORT, NODE_ENV or DATABASE_URL or contains [npm_];
    otherwise its one issue counts every name found and lists the other
    ones.  When the sources cannot be listed no name is found. *)
Theorem env_inventory_counts_distinct (w : World) (path : string) (fw : Framework) :
  let envVars := findEnvVarReferences join w path fw in
  let others := filter (fun v => negb (existsb (String.eqb v) commonEnvVars)
                                 && negb (Js.includes v "npm_")) envVars in
  NoDup envVars
  /\ Forall (fun v => Js.nonEmpty v = true) envVars
  /\ (envInventory envVars = [] <->
      forall v, In v envVars ->
                In v ["PORT"; "NODE_ENV"; "DATABASE_URL"] \/ Js.includes v "npm_" = true)
  /\ (others <> [] ->
      envInventory envVars = [envVarsNeededIssue (List.length envVars) others])
  /\ (scannedFiles join w path fw sourceIgnore 50 = None -> envVars = []).
Proof.
  intros envVars others.
  destruct (findEnvVarReferences_spec w path fw) as [Hn Hf]. fold envVars in Hn, Hf.
  split; [exact Hn|]. split; [exact Hf|].
  assert (Hoth : others = [] <->
                 forall v, In v envVars ->
                   In v ["PORT"; "NODE_ENV"; "DATABASE_URL"]
                   \/ Js.includes v "npm_" = true).
  { subst others. split.
    - intros Hnil v Hv.
      destruct (existsb (String.eqb v) commonEnvVars) eqn:Ec.
      + left. apply existsb_exists in Ec. destruct Ec as [c [Hc He]].
        apply String.eqb_eq in He. subst c. exact Hc.
      + destruct (Js.includes v "npm_") eqn:Enpm; [right; reflexivity|]. exfalso.
        assert (Hin : In v (filter (fun v => negb (existsb (String.eqb v) commonEnvVars)
                                             && negb (Js.includes v "npm_")) envVars)).
        { apply filter_In. split; [exact Hv|]. rewrite Ec, Enpm. reflexivity. }
        rewrite Hnil in Hin. exact Hin.
    - intros Hall. apply filter_none. intros v Hv. destruct (Hall v Hv) as [Hc|Hnpm].
      + assert (existsb (String.eqb v) commonEnvVars = true) as ->; [|reflexivity].
        apply existsb_exists. exists v. split; [exact Hc | apply String.eqb_refl].
      + rewrite Hnpm. apply andb_false_r. }
  split; [|split].
  - rewrite <- Hoth. unfold envInventory. fold others.
    destruct envVars as [|v vs] eqn:Ev.
    + cbn. split; reflexivity.
    + cbn [List.length Nat.ltb Nat.leb]. destruct (others) as [|o os]; cbn.
      * split; reflexivity.
      * split; discriminate.
  - intros Hne. unfold envInventory. fold others.
    destruct envVars as [|v vs] eqn:Ev.
    + exfalso. apply Hne. reflexivity.
    + cbn [List.length Nat.ltb Nat.leb]. destruct others as [|o os]; [contradiction|].
      reflexivity.
  - intros Hs. subst envVars. unfold findEnvVarReferences. rewrite Hs. reflexivity.
Qed.

(* --------------------------------------------------------------------- *)
(** *** The pass of the database check *)
(* --------------------------------------------------------------------- *)

(** X14.  When database libraries are detected the database check does not
    throw and gives its pass exactly when it reports nothing.  If the
    sources cannot be listed the pass is given.  If they can, the pass is
    given exactly when some scanned file refers to DATABASE_URL and none to
    a Unix socket. *)
Theorem database_pass_requires_url (w : World) (path : string) (fw : Framework)
        (libs : list string) :
  detectDatabaseLibraries JSON_parse join w path fw = Ok libs ->
  libs <> [] ->
  exists found passes,
    checkDatabaseConfig JSON_parse join w path fw = Ok (found, passes)
    /\ (passes = [databaseConfigOkPass] \/ passes = [])
    /\ (passes = [databaseConfigOkPass] <-> found = [])
    /\ (scannedFiles join w path fw sourceIgnore 30 = None ->
        passes = [databaseConfigOkPass])
    /\ (forall files,
           scannedFiles join w path fw sourceIgnore 30 = Some files ->
           (passes = [databaseConfigOkPass] <->
            existsb (fun fc => refsDatabaseUrl (snd fc)) files = true
            /\ existsb (fun fc => refsSocket (snd fc)) files = false)).
Proof.
  intros Hd Hne. unfold checkDatabaseConfig. rewrite Hd. cbn [bind].
  destruct libs as [|l0 libs']; [contradiction|].
  set (libs := l0 :: libs') in *.
  eexists. eexists. split; [reflexivity|].
  unfold findDatabaseConnectionIssues.
  destruct (scannedFiles join w path fw sourceIgnore 30) as [files|] eqn:Es.
  - cbv zeta.
    destruct (databaseScan_flags files (mkDbScan false false false None)) as [Hl [Hu Hs]].
    cbv zeta in Hl, Hu, Hs. cbn [hasLocalhost hasDatabaseUrl hasSocketConnection orb] in Hl, Hu, Hs.
    fold (databaseScan files) in Hl, Hu, Hs. rewrite Hl, Hu, Hs.
    cbn [List.length libs Nat.ltb Nat.leb andb].
    destruct (existsb fileHitsLocalhost files) eqn:E1,
      (existsb (fun fc => refsDatabaseUrl (snd fc)) files) eqn:E2,
      (existsb (fun fc => refsSocket (snd fc)) files) eqn:E3; cbn;
      (split; [auto|]); (split; [split; intros H; try reflexivity; discriminate H|]);
      (split; [discriminate|]);
      intros files' Hf; inversion Hf; subst files'; rewrite E2, E3;
      split; try (intros H; discriminate H); try (intros [H1 H2]; discriminate);
      auto.
  - cbn. split; [auto|]. split; [split; reflexivity|]. split; [reflexivity|].
    intros files Hf. discriminate Hf.
Qed.

(* --------------------------------------------------------------------- *)
(** *** Gunicorn among the requirements *)
(* --------------------------------------------------------------------- *)

Lemma two_errors (l : list Issue) (i j : Issue) :
  In i l -> In j l -> i <> j ->
  issue_severity i = SevError -> issue_severity j = SevError ->
  2 <= List.length (filter isError l).
Proof.
  intros Hi Hj Hne Hei Hej.
  assert (Hfi : In i (filter isError l)).
  { apply filter_In. split; [exact Hi|]. unfold isError. rewrite Hei. reflexivity. }
  assert (Hfj : In j (filter isError l)).
  { apply filter_In. split; [exact Hj|]. unfold isError. rewrite Hej. reflexivity. }
  destruct (filter isError l) as [|a [|b t]]; simpl in *.
  - contradiction.
  - destruct Hfi as [<-|[]]. destruct Hfj as [<-|[]]. exfalso. apply Hne. reflexivity.
  - lia.
Qed.

Lemma requirements_gunicorn (w : World) (path : string) (fw : Framework) (r : CheckResult) :
  checkDjango join w path fw = Ok r ->
  In (djangoNoGunicornIssue (join path "requirements.txt")) (fst r) ->
  exists text,
    existsSync w (join path "requirements.txt") = true
    /\ readFileSync w (join path "requirements.txt") = Some text
    /\ Js.includes (Js.toLowerCase text) "gunicorn" = false.
Proof.
  unfold checkDjango.
  destruct (truthyPath (findDjangoSettings join w path)) as [sp|].
  2:{ intros H; inversion H; subst r. cbn. intros [H1|[]]. discriminate H1. }
  intros H. apply bind_ok in H. destruct H as [an [_ H]].
  destruct (djangoSettings an) as [st|]; [|inversion H; subst; intros []].
  apply bind_ok in H. destruct H as [g [Hg H]]. inversion H; subst r; clear H.
  rewrite !both_fst.
  unfold djangoAllowedHosts, djangoDebug, djangoWhitenoise, djangoStaticRoot,
    djangoDatabaseUrl, djangoCsrf.
  intros Hin.
  repeat (apply in_app_or in Hin; destruct Hin as [Hin|Hin]).
  - exfalso. revert Hin.
    repeat match goal with |- context [if ?b then _ else _] => destruct b end;
      cbn; intros Hin; repeat (destruct Hin as [Hin|Hin]; [discriminate Hin|]); exact Hin.
  - exfalso. revert Hin. destruct (debug st) as [[|]|]; cbn; intros Hin;
      repeat (destruct Hin as [Hin|Hin]; [discriminate Hin|]); exact Hin.
  - exfalso. revert Hin. destruct (negb (hasWhitenoise st)); cbn; intros Hin;
      repeat (destruct Hin as [Hin|Hin]; [discriminate Hin|]); exact Hin.
  - exfalso. revert Hin. destruct (negb (hasStaticRoot st)); cbn; intros Hin;
      repeat (destruct Hin as [Hin|Hin]; [discriminate Hin|]); exact Hin.
  - exfalso. revert Hin. destruct (negb (settingsHasDatabaseUrl st)); cbn; intros Hin;
      repeat (destruct Hin as [Hin|Hin]; [discriminate Hin|]); exact Hin.
  - exfalso. revert Hin. destruct (Nat.eqb (List.length (csrfTrustedOrigins st)) 0); cbn;
      intros Hin; repeat (destruct Hin as [Hin|Hin]; [discriminate Hin|]); exact Hin.
  - destruct (existsSync w (join path "requirements.txt")); [|inversion Hg; subst g; contradiction].
    unfold readFile in Hg.
    destruct (readFileSync w (join path "requirements.txt")) as [text|]; [|discriminate Hg].
    cbn in Hg. exists text. split; [reflexivity|]. split; [reflexivity|].
    destruct (Js.includes (Js.toLowerCase text) "gunicorn"); [|reflexivity].
    inversion Hg; subst g. contradiction.
Qed.

(** X15.  A Django project whose requirements file does not mention
    gunicorn is reported twice: the django-no-gunicorn issue of the Django
    check comes with the django-no-gunicorn-requirement issue of the
    start-command check, so that the summary of the scan counts at least
    two errors. *)
Theorem django_gunicorn_reported_twice (w : World) (path : string) (fw : Framework)
        (djangoResult : CheckResult) (startIssues : list Issue) :
  name fw = django ->
  checkDjango join w path fw = Ok djangoResult ->
  checkStartCommand JSON_parse join w path fw = Ok startIssues ->
  In (djangoNoGunicornIssue (join path "requirements.txt")) (fst djangoResult) ->
  In (djangoNoGunicornRequirementIssue (join path "requirements.txt")) startIssues
  /\ forall r, scanProject JSON_parse join w path = Ok r -> framework r = fw ->
               2 <= errors (summary r).
Proof.
  intros Hname Hd Hs Hin.
  destruct (requirements_gunicorn w path fw djangoResult Hd Hin) as [text [He [Hr Hg]]].
  assert (Hplain : Js.includes text "gunicorn" = false).
  { destruct (Js.includes text "gunicorn") eqn:E; [|reflexivity].
    apply includes_toLowerCase in E. cbn [Js.toLowerCase] in E.
    change (Js.includes (Js.toLowerCase text) "gunicorn" = true) in E. congruence. }
  assert (Hreq : In (djangoNoGunicornRequirementIssue (join path "requirements.txt"))
                    startIssues).
  { unfold checkStartCommand, isNode, isPython in Hs. rewrite Hname in Hs.
    unfold pythonStartIssues in Hs.
    apply bind_ok in Hs. destruct Hs as [a [_ Hs]].
    rewrite He in Hs. unfold readFile in Hs. rewrite Hr in Hs. cbn [ofOption bind] in Hs.
    unfold isDjango in Hs. rewrite Hname, Hplain in Hs. cbn in Hs.
    inversion Hs; subst startIssues. apply in_or_app. right. left. reflexivity. }
  split; [exact Hreq|].
  intros r Hscan Hfw. apply scanProject_shape in Hscan.
  destruct Hscan as [fw' [col [_ [Hrun ->]]]]. cbn [framework] in Hfw. subst fw'.
  cbn [summary]. change (errors (generateSummary (fst col) (snd col)))
    with (List.length (filter isError (fst col))).
  apply runChecks_parts in Hrun.
  destruct Hrun as [s [e [d [f [Hs' [_ [_ [Hf [Hfst _]]]]]]]]].
  rewrite Hs in Hs'. inversion Hs'; subst s.
  unfold frameworkStep in Hf. rewrite Hname in Hf. rewrite Hd in Hf.
  inversion Hf; subst f.
  apply (two_errors _ (djangoNoGunicornRequirementIssue (join path "requirements.txt"))
                      (djangoNoGunicornIssue (join path "requirements.txt"))).
  - rewrite Hfst. do 2 (apply in_or_app; right). apply in_or_app. left. exact Hreq.
  - rewrite Hfst. do 5 (apply in_or_app; right). exact Hin.
  - intros Heq. apply (f_equal issue_id) in Heq. discriminate Heq.
  - reflexivity.
  - reflexivity.
Qed.

(* --------------------------------------------------------------------- *)
(** *** Lines that mention localhost *)
(* --------------------------------------------------------------------- *)

Lemma drop_app_length (pre rest : string) : Js.drop (String.length pre) (pre ++ rest) = rest.
Proof. induction pre as [|a pre IH]; simpl; [reflexivity | exact IH]. Qed.

Lemma length_app (a b : string) :
  String.length (a ++ b) = String.length a + String.length b.
Proof. induction a as [|x a IH]; simpl; [reflexivity | rewrite IH; reflexivity]. Qed.

(** A match somewhere makes the search succeed. *)
Lemma test_of_matchHere (ic : bool) (r : Regex.regex) (code pre rest : string) :
  code = (pre ++ rest)%string ->
  (exists m, Regex.matchHere ic r (String.length pre) rest = Some m) ->
  Regex.test ic r code = true.
Proof.
  intros -> [m Hm]. unfold Regex.test, Regex.exec. cbn [Nat.leb Js.drop].
  destruct (Regex.searchFrom ic r 0 (pre ++ rest)) as [m'|] eqn:E; [reflexivity|].
  exfalso.
  pose proof (searchFrom_none ic r (pre ++ rest) 0 E (String.length pre)) as Hn.
  rewrite length_app, drop_app_length in Hn. cbn [Nat.add] in Hn.
  rewrite Hn in Hm by lia. discriminate Hm.
Qed.

Lemma localhost_pattern (line : string) :
  Js.includes line "localhost" = true ->
  Regex.test true
    (Regex.Seqs [Regex.Opt quoteChar; Regex.Lit "localhost"; Regex.Opt quoteChar]) line
  = true.
Proof.
  intros H. apply includes_iff in H. destruct H as [pre [post ->]].
  destruct post as [|b post].
  - eapply (test_of_matchHere _ _ _ pre "localhost"); [reflexivity|].
    vm_compute. eexists; reflexivity.
  - eapply (test_of_matchHere _ _ _ pre ("localhost" ++ String b post)); [reflexivity|].
    unfold Regex.matchHere. cbn. rewrite !Ascii.eqb_refl.
    match goal with |- context [if ?c then _ else _] => destruct c end;
      eexists; reflexivity.
Qed.

Lemma existsb_In {A : Type} (f : A -> bool) (l : list A) (x : A) :
  In x l -> f x = true -> existsb f l = true.
Proof. intros Hx Hf. apply existsb_exists. exists x. auto. Qed.

(** X16.  A line that holds the word localhost in lower case counts as a
    database connection to localhost, the keyword [host] being part of the
    word.  If a scanned file has such a line, database-localhost is
    reported exactly when no scanned file refers to DATABASE_URL. *)
Theorem localhost_mention_is_flagged (w : World) (path : string) (fw : Framework)
        (libs : list string) (files : list (string * string))
        (file content line : string) :
  scannedFiles join w path fw sourceIgnore 30 = Some files ->
  In (file, content) files ->
  In line (Js.splitLines content) ->
  Js.includes line "localhost" = true ->
  lineHitsLocalhost line = true
  /\ (existsb (fun fc => refsDatabaseUrl (snd fc)) files = false ->
      hasIssue "database-localhost" (findDatabaseConnectionIssues join w path fw libs) = true)
  /\ (existsb (fun fc => refsDatabaseUrl (snd fc)) files = true ->
      hasIssue "database-localhost" (findDatabaseConnectionIssues join w path fw libs)
      = false).
Proof.
  intros Hs Hf Hl Hinc.
  assert (Hhit : lineHitsLocalhost line = true).
  { unfold lineHitsLocalhost, localhostPatterns. cbn [existsb fst snd].
    rewrite (localhost_pattern line Hinc).
    assert (Hk : hasConnectionKeyword line = true).
    { unfold hasConnectionKeyword.
      rewrite (includes_trans line "localhost" "host" Hinc eq_refl).
      rewrite orb_true_r. reflexivity. }
    rewrite Hk. reflexivity. }
  split; [exact Hhit|].
  assert (Hfile : existsb fileHitsLocalhost files = true).
  { apply (existsb_In _ _ (file, content) Hf). unfold fileHitsLocalhost. cbn [snd].
    apply (existsb_In _ _ line Hl Hhit). }
  unfold findDatabaseConnectionIssues. rewrite Hs. cbv zeta.
  destruct (databaseScan_flags files (mkDbScan false false false None)) as [H1 [H2 H3]].
  cbv zeta in H1, H2, H3. cbn [hasLocalhost hasDatabaseUrl hasSocketConnection orb] in H1, H2, H3.
  fold (databaseScan files) in H1, H2, H3. rewrite H1, H2, Hfile.
  split; intros Hu; rewrite Hu; cbn [andb negb]; rewrite !hasIssue_app.
  - reflexivity.
  - rewrite andb_false_r.
    destruct (hasSocketConnection (databaseScan files)); reflexivity.
Qed.

(* --------------------------------------------------------------------- *)
(** *** The terminal report *)
(* --------------------------------------------------------------------- *)

Lemma filter_filter_info (f : Issue -> bool) (l : list Issue) :
  (forall i, f i = true -> isInfo i = false) ->
  filter f (filter (fun i => negb (isInfo i)) l) = filter f l.
Proof.
  intros Hf. induction l as [|a l IH]; simpl; [reflexivity|].
  destruct (isInfo a) eqn:Ea; simpl.
  - destruct (f a) eqn:Efa; [|exact IH]. apply Hf in Efa. congruence.
  - rewrite IH. reflexivity.
Qed.

Lemma filter_length_info (l : list Issue) :
  List.length l
  = List.length (filter (fun i => negb (isInfo i)) l) + List.length (filter isInfo l).
Proof.
  induction l as [|a l IH]; cbn [filter List.length]; [reflexivity|].
  destruct (isInfo a); cbn [negb List.length]; lia.
Qed.

Lemma filter_error_info (l : list Issue) :
  filter isError (filter (fun i => negb (isInfo i)) l) = filter isError l.
Proof.
  apply filter_filter_info. intros i. unfold isError, isInfo.
  destruct (issue_severity i); cbn; congruence.
Qed.

Lemma filter_warning_info (l : list Issue) :
  filter isWarning (filter (fun i => negb (isInfo i)) l) = filter isWarning l.
Proof.
  apply filter_filter_info. intros i. unfold isWarning, isInfo.
  destruct (issue_severity i); cbn; congruence.
Qed.

(** X17.  The terminal report shows informational issues only as part of
    the count of total checks.  Two scan results with the same framework
    and passed checks, the same errors and warnings in the same order and
    the same number of informational issues print the same report,
    whatever those informational issues say; the line of the total counts
    every issue, informational ones included, and every passed check. *)
Theorem report_counts_info_findings (chalk : Style -> string -> string)
        (showNumber : nat -> string) (rule : string) (w1 w2 : World) (path1 path2 : string)
        (r1 r2 : ScanResult) (verbose : bool) :
  scanProject JSON_parse join w1 path1 = Ok r1 ->
  scanProject JSON_parse join w2 path2 = Ok r2 ->
  framework r1 = framework r2 ->
  passed r1 = passed r2 ->
  filter (fun i => negb (isInfo i)) (issues r1) = filter (fun i => negb (isInfo i)) (issues r2) ->
  List.length (filter isInfo (issues r1)) = List.length (filter isInfo (issues r2)) ->
  formatResults chalk showNumber rule r1 verbose = formatResults chalk showNumber rule r2 verbose
  /\ In (log2 (chalk Blue "  Total checks:")
              (showNumber (List.length (filter (fun i => negb (isInfo i)) (issues r1))
                           + List.length (filter isInfo (issues r1))
                           + List.length (passed r1))))
        (formatResults chalk showNumber rule r1 verbose).
Proof.
  intros H1 H2 Hfw Hp Hi Hn.
  apply scanProject_shape in H1 as (fw1 & c1 & _ & _ & ->).
  apply scanProject_shape in H2 as (fw2 & c2 & _ & _ & ->).
  cbn [framework passed issues] in *. subst fw2.
  assert (He : filter isError (fst c1) = filter isError (fst c2)).
  { now rewrite <- (filter_error_info (fst c1)), <- (filter_error_info (fst c2)), Hi. }
  assert (Hw : filter isWarning (fst c1) = filter isWarning (fst c2)).
  { now rewrite <- (filter_warning_info (fst c1)), <- (filter_warning_info (fst c2)), Hi. }
  assert (Hl : List.length (fst c1) = List.length (fst c2)).
  { now rewrite (filter_length_info (fst c1)), (filter_length_info (fst c2)), Hi, Hn. }
  split.
  - unfold formatResults, displaySummary, generateSummary.
    cbn [framework issues passed summary totalIssues errors sum_warnings sum_passed
         deploymentLikelihood].
    rewrite He, Hw, Hl, Hp. reflexivity.
  - unfold formatResults. do 7 (apply in_or_app; right).
    unfold displaySummary, generateSummary.
    cbn [summary totalIssues sum_passed]. rewrite <- filter_length_info.
    apply in_or_app. left. cbn [In]. auto.
Qed.

Lemma displayIssue_head (chalk : Style -> string -> string) (i : Issue) (isErrorType : bool) :
  In (chalk (if isErrorType then RedBold else YellowBold)
            ((if isErrorType then "[X]" else "[!]") ++ " " ++ issue_message i)%string)
     (displayIssue chalk i isErrorType).
Proof. unfold displayIssue. left. reflexivity. Qed.

(** X18.  When the exit code of a scan is 1 its terminal report holds the
    header of the errors with the count of the summary and the will-fail
    verdict; the message of every error is printed behind the [X] mark and
    the message of every warning behind the [!] mark. *)
Theorem report_announces_failure (chalk : Style -> string -> string)
        (showNumber : nat -> string) (rule : string) (w : World) (path : string)
        (r : ScanResult) (verbose : bool) :
  scanProject JSON_parse join w path = Ok r ->
  exitCode (Ok r) = 1 ->
  let report := formatResults chalk showNumber rule r verbose in
  In (chalk RedBold ("[ERROR] Found " ++ Js.natToString (errors (summary r)) ++ " error"
                       ++ (if Nat.ltb 1 (errors (summary r)) then "s" else EmptyString))%string)
     report
  /\ In (chalk RedBold "Deployment Likelihood: WILL FAIL") report
  /\ (forall i, In i (issues r) -> issue_severity i = SevError ->
                In (chalk RedBold ("[X] " ++ issue_message i)%string) report)
  /\ (forall i, In i (issues r) -> issue_severity i = SevWarning ->
                In (chalk YellowBold ("[!] " ++ issue_message i)%string) report).
Proof.
  intros H Hx report. apply scanProject_shape in H. destruct H as [fw [col [_ [_ ->]]]].
  cbn [exitCode summary] in Hx. subst report.
  unfold formatResults, displaySummary. cbn [framework issues passed summary].
  change (errors (generateSummary (fst col) (snd col)))
    with (List.length (filter isError (fst col))) in *.
  destruct (Nat.ltb 0 (List.length (filter isError (fst col)))) eqn:Epos; [|discriminate Hx].
  assert (HW : deploymentLikelihood (generateSummary (fst col) (snd col)) = WillFail).
  { apply (generateSummary_likelihood (fst col) (snd col)). apply Nat.ltb_lt. exact Epos. }
  split; [|split; [|split]].
  - do 4 (apply in_or_app; right). apply in_or_app. left. left. reflexivity.
  - do 7 (apply in_or_app; right). rewrite HW.
    apply in_or_app. right. apply in_or_app. left. left. reflexivity.
  - intros i Hi He. do 4 (apply in_or_app; right). apply in_or_app. left.
    right. right. apply in_flat_map. exists i. split.
    + apply filter_In. split; [exact Hi|]. unfold isError. rewrite He. reflexivity.
    + apply (displayIssue_head chalk i true).
  - intros i Hi He. do 5 (apply in_or_app; right). apply in_or_app. left.
    assert (Hin : In i (filter isWarning (fst col))).
    { apply filter_In. split; [exact Hi|]. unfold isWarning. rewrite He. reflexivity. }
    destruct (filter isWarning (fst col)) as [|a t] eqn:Ef; [contradiction|].
    cbn [List.length Nat.ltb Nat.leb]. right. right.
    apply in_flat_map. exists i. split; [exact Hin|].
    apply (displayIssue_head chalk i false).
Qed.

(* --------------------------------------------------------------------- *)
(** *** The single-file scanner *)
(* --------------------------------------------------------------------- *)

Lemma detectFramework_unknown (w : World) (path : string) (fw : Framework) :
  detectFramework JSON_parse join w path = Ok fw ->
  name fw = unknown -> fw = mkFramework unknown None None.
Proof.
  unfold detectFramework. intros H Hn. apply bind_ok in H. destruct H as [node [Hd H]].
  destruct node as [nfw|].
  - inversion H; subst nfw; clear H. exfalso. unfold detectNode in Hd.
    destruct (existsSync w (join path "package.json")); [|discriminate].
    apply bind_ok in Hd. destruct Hd as [pj [_ Hd]].
    apply bind_ok in Hd. destruct Hd as [deps [_ Hd]].
    apply bind_ok in Hd. destruct Hd as [ddeps [_ Hd]]. cbv zeta in Hd.
    repeat match type of Hd with
           | (if ?c then _ else _) = _ => destruct c
           end; inversion Hd; subst fw; discriminate Hn.
  - unfold detectPython in H.
    destruct (existsSync w (join path "requirements.txt")).
    + apply bind_ok in H. destruct H as [text [_ H]]. cbv zeta in H.
      repeat match type of H with
             | (if ?c then _ else _) = _ => destruct c
             end; inversion H; subst fw; try discriminate Hn; reflexivity.
    + inversion H; reflexivity.
Qed.

(** X19.  The single-file scanner stops at a project it does not
    recognise: the result holds the unknown-framework warning and nothing
    else, the verdict is might-fail and the exit code is 0.  The current
    scanner never reports that issue. *)
Theorem legacy_unknown_dead_end (w : World) (path : string) (fw : Framework) :
  detectFramework JSON_parse join w path = Ok fw ->
  name fw = unknown ->
  Legacy.scanProject JSON_parse join w path
  = Ok (mkScanResult path fw [Legacy.unknownFrameworkIssue] [Legacy.unknownFrameworkIssue] []
          (mkSummary 1 0 1 0 MightFail))
  /\ exitCode (Legacy.scanProject JSON_parse join w path) = 0
  /\ forall r, scanProject JSON_parse join w path = Ok r ->
               ~ In Legacy.unknownFrameworkIssue (issues r).
Proof.
  intros Hd Hn. pose proof (detectFramework_unknown w path fw Hd Hn) as Hfw.
  assert (Hl : Legacy.scanProject JSON_parse join w path
               = Ok (mkScanResult path fw [Legacy.unknownFrameworkIssue]
                       [Legacy.unknownFrameworkIssue] [] (mkSummary 1 0 1 0 MightFail))).
  { unfold Legacy.scanProject. rewrite Hd. cbn [bind]. subst fw. reflexivity. }
  split; [exact Hl|]. split; [rewrite Hl; reflexivity|].
  intros r Hr Hin.
  pose proof (scanProject_listed w path r Hr) as HF.
  rewrite Forall_forall in HF. apply HF in Hin. unfold listed in Hin. cbn in Hin.
  repeat (destruct Hin as [Hin|Hin]; [discriminate Hin|]). exact Hin.
Qed.

Lemma includes_false_of_part (s m needle : string) :
  Js.includes m needle = true -> Js.includes s needle = false -> Js.includes s m = false.
Proof.
  intros Hm Hs. destruct (Js.includes s m) eqn:E; [|reflexivity].
  rewrite (includes_trans s m needle E Hm) in Hs. discriminate Hs.
Qed.

Lemma hasPortEnvVar_legacy (code : string) :
  Legacy.hasPortEnvVar code = false -> hasPortEnvVar code = false.
Proof.
  unfold Legacy.hasPortEnvVar, hasPortEnvVar. intros H.
  apply orb_false_iff in H. destruct H as [_ H].
  rewrite !(includes_false_of_part code _ "PORT") by (exact H || reflexivity).
  reflexivity.
Qed.

(** X20.  What the single-file checks report on a readable file, the
    per-file scans of the current checks report as well: a port-hardcoded
    issue (the file then does not hold the text PORT at all), and a
    host-binding issue with the same severity and message. *)
Theorem legacy_findings_kept (w : World) (filePath code : string) (fw : Framework)
        (i : Issue) :
  readFileSync w filePath = Some code ->
  (In i (Legacy.checkPortUsage JSON_parse w filePath fw) ->
   issue_id i = "port-hardcoded" ->
   Js.includes code "PORT" = false
   /\ exists v line, scanFileForPortIssues code filePath fw
                     = [portHardcodedIssue filePath v line])
  /\ (In i (Legacy.checkHostBinding JSON_parse w filePath fw) ->
      issue_id i = "host-binding" ->
      exists line suggestion,
        scanFileForHostIssues code filePath fw
        = [mkIssue "host-binding" (issue_severity i) CatHost (issue_message i)
             (Some filePath) line suggestion]).
Proof.
  intros Hr. split.
  - unfold Legacy.checkPortUsage. rewrite Hr. intros Hin Hid.
    apply in_app_or in Hin. destruct Hin as [Hin|Hin].
    + destruct (Legacy.hardcodedPort code) as [[v line]|] eqn:Eh; [|contradiction].
      destruct (Legacy.hasPortEnvVar code) eqn:Ep; [contradiction|].
      pose proof (hasPortEnvVar_legacy code Ep) as Hp.
      unfold Legacy.hasPortEnvVar in Ep. apply orb_false_iff in Ep. destruct Ep as [Ep1 Ep2].
      split; [exact Ep2|].
      unfold scanFileForPortIssues, hardcodedPort. rewrite Hp. cbn [negb].
      unfold Legacy.hardcodedPort in Eh. rewrite Ep1 in Eh. cbn [negb] in Eh.
      destruct (literalScan pythonPortRegex 1 true code) as [[v1 l1]|].
      * cbn [orElse]. eexists. eexists. reflexivity.
      * cbn [orElse]. rewrite Eh. eexists. eexists. reflexivity.
    + exfalso. destruct (isNextjs fw); [|contradiction].
      unfold Legacy.nextjsPortIssues in Hin. cbv zeta in Hin.
      destruct (readJson JSON_parse w _) as [pj|]; [|contradiction]. cbn [bind] in Hin.
      destruct (startScriptOf pj) as [ss|]; [|contradiction]. cbn [bind] in Hin.
      destruct (valIncludes ss "next start") as [b1|]; [|contradiction]. cbn [bind] in Hin.
      destruct (valIncludes ss "$PORT") as [b2|]; [|contradiction]. cbn [bind] in Hin.
      destruct (valIncludes ss "${PORT") as [b3|]; [|contradiction].
      cbn [bind tryCatch] in Hin.
      destruct (b1 && negb b2 && negb b3); [|contradiction].
      destruct Hin as [<-|[]]. discriminate Hid.
  - unfold Legacy.checkHostBinding. rewrite Hr. intros Hin Hid.
    apply in_app_or in Hin. destruct Hin as [Hin|Hin].
    + destruct (hasListenCall code) eqn:El; [|contradiction].
      destruct (hasCorrectBinding code) eqn:Ec; [contradiction|].
      cbn [andb negb] in Hin. destruct Hin as [<-|[]].
      unfold scanFileForHostIssues. rewrite El, Ec. cbn [orb andb negb issue_severity issue_message].
      eexists. eexists. reflexivity.
    + exfalso. destruct (isNextjs fw); [|contradiction].
      unfold Legacy.nextjsHostIssues in Hin. cbv zeta in Hin.
      destruct (readJson JSON_parse w _) as [pj|]; [|contradiction]. cbn [bind] in Hin.
      destruct (startScriptOf pj) as [ss|]; [|contradiction]. cbn [bind] in Hin.
      destruct (valIncludes ss "next start") as [b1|]; [|contradiction]. cbn [bind] in Hin.
      destruct (valIncludes ss "--hostname 0.0.0.0") as [b2|]; [|contradiction].
      cbn [bind] in Hin.
      destruct (valIncludes ss "-H 0.0.0.0") as [b3|]; [|contradiction].
      cbn [bind tryCatch] in Hin.
      destruct (b1 && negb b2 && negb b3); [|contradiction].
      destruct Hin as [<-|[]]. discriminate Hid.
Qed.

Lemma includes_app_l (a b needle : string) :
  Js.includes a needle = true -> Js.includes (a ++ b) needle = true.
Proof.
  rewrite !includes_iff. intros [pre [post ->]]. exists pre, (post ++ b)%string.
  rewrite !append_assoc. reflexivity.
Qed.

Lemma includes_app_r (a b needle : string) :
  Js.includes b needle = true -> Js.includes (a ++ b) needle = true.
Proof.
  rewrite !includes_iff. intros [pre [post ->]]. exists (a ++ pre)%string, post.
  rewrite !append_assoc. reflexivity.
Qed.

(** X21.  The single-file checks look for the manifest beside the file
    they are given: the last segment of the path gives way to package.json
    and the directory stays; a bare file name becomes package.json; a path
    that ends in a slash is left as it is. *)
Theorem manifest_beside_entry_file (dir file : string) :
  Js.includes file "/" = false ->
  Js.nonEmpty file = true ->
  Legacy.packageJsonBeside (dir ++ "/" ++ file) = (dir ++ "/package.json")%string
  /\ Legacy.packageJsonBeside file = "package.json"
  /\ Legacy.packageJsonBeside (dir ++ "/") = (dir ++ "/")%string.
Proof.
  intros Hs Hne.
  assert (Hfile : Legacy.packageJsonBeside file = "package.json").
  { destruct file as [|a rest]; [discriminate Hne|].
    cbn [Legacy.packageJsonBeside].
    assert (Hrest : Js.includes rest "/" = false).
    { destruct (Js.includes rest "/") eqn:E; [|reflexivity].
      pose proof (includes_app_r (String a EmptyString) rest "/" E) as Hc.
      cbn [append] in Hc. congruence. }
    rewrite Hrest.
    destruct (Ascii.eqb a "/") eqn:Ea; [|reflexivity].
    apply Ascii.eqb_eq in Ea. subst a. discriminate Hs. }
  split; [|split; [exact Hfile|]].
  - induction dir as [|c dir IH].
    + cbn [append Legacy.packageJsonBeside]. rewrite Hs.
      destruct file as [|a rest]; [discriminate Hne|]. reflexivity.
    + cbn [append Legacy.packageJsonBeside].
      rewrite (includes_app_r dir (String "/" file) "/" eq_refl).
      cbn [append] in IH. rewrite IH. reflexivity.
  - induction dir as [|c dir IH].
    + reflexivity.
    + cbn [append Legacy.packageJsonBeside].
      rewrite (includes_app_r dir "/" "/" eq_refl). rewrite IH. reflexivity.
Qed.

(* --------------------------------------------------------------------- *)
(** *** The settings of Django *)
(* --------------------------------------------------------------------- *)

Lemma matchAll_In (ic : bool) (r : Regex.regex) (code : string) (m : Regex.Match) :
  In m (Regex.matchAll ic r code) -> Regex.matchAt ic r code (Regex.m_index m) = Some m.
Proof.
  unfold Regex.matchAll. generalize (S (String.length code)) as fuel. generalize 0 as L.
  intros L fuel. revert L. induction fuel as [|fuel IH]; intros L; simpl; [intros []|].
  destruct (Regex.exec ic r code L) as [m'|] eqn:E; [|intros []].
  intros [<-|Hin].
  - apply exec_some in E. destruct E as [_ [E _]]. exact E.
  - eapply IH. exact Hin.
Qed.

Lemma run_cls_inv {R : Type} (ic : bool) (f : ascii -> bool) (i : nat) (s : string)
      (c : Regex.caps) (k : nat -> string -> Regex.caps -> option R) (x : R) :
  Regex.run ic (Regex.Cls f) i s c k = Some x ->
  exists b s', s = String b s' /\ f b = true /\ k (S i) s' c = Some x.
Proof.
  simpl. destruct s as [|b s']; [discriminate|].
  destruct (f b) eqn:E; [|discriminate]. intros H. exists b, s'. auto.
Qed.

Lemma run_lit_inv {R : Type} (lit : string) :
  forall (i : nat) (s : string) (c : Regex.caps)
         (k : nat -> string -> Regex.caps -> option R) (x : R),
    Regex.run false (Regex.Lit lit) i s c k = Some x ->
    exists rest, s = (lit ++ rest)%string /\ k (i + String.length lit) rest c = Some x.
Proof.
  induction lit as [|a lit IH]; intros i s c k x; simpl.
  - intros H. exists s. rewrite Nat.add_0_r. auto.
  - destruct s as [|b s']; [discriminate|].
    destruct (Ascii.eqb a b) eqn:E; [|discriminate].
    apply Ascii.eqb_eq in E. subst b. intros H. apply IH in H.
    destruct H as [rest [-> H]]. exists rest. split; [reflexivity|].
    rewrite <- Nat.add_succ_comm. exact H.
Qed.

(** An expression that begins with a literal only matches where the
    literal stands. *)
Lemma exec_lit_includes (lit : string) (r : Regex.regex) (code : string) (L : nat)
      (m : Regex.Match) :
  Regex.exec false (Regex.Seq (Regex.Lit lit) r) code L = Some m ->
  Js.includes code lit = true.
Proof.
  intros H. apply exec_some in H. destruct H as [_ [H _]].
  unfold Regex.matchAt in H.
  destruct (Nat.leb (Regex.m_index m) (String.length code)) eqn:El; [|discriminate].
  unfold Regex.matchHere in H. cbn [Regex.run] in H.
  apply run_lit_inv in H. destruct H as [rest [Hd _]].
  apply includes_iff. exists (Js.take (Regex.m_index m) code), rest.
  rewrite <- Hd. clear. revert code. induction (Regex.m_index m) as [|n IH]; intros code.
  - reflexivity.
  - destruct code as [|a code]; simpl; [reflexivity|]. rewrite <- IH. reflexivity.
Qed.

Lemma stripQuotes_clean (h : string) :
  Js.includes (stripQuotes h) "'" = false /\ Js.includes (stripQuotes h) Js.dq = false.
Proof.
  induction h as [|a h IH]; [split; reflexivity|].
  cbn [stripQuotes].
  destruct (Ascii.eqb a "'") eqn:E1; cbn [orb]; [exact IH|].
  destruct (Ascii.eqb a "034") eqn:E2; [exact IH|].
  destruct IH as [IH1 IH2]. unfold Js.dq in *.
  cbn [Js.includes Js.startsWith].
  rewrite (Ascii.eqb_sym "'"%char a), E1, (Ascii.eqb_sym "034"%char a), E2.
  cbn [andb orb]. split; assumption.
Qed.

Lemma quoted_match (inner : string) (p : nat) (m : Regex.Match) :
  Regex.matchAt false quotedRegex inner p = Some m ->
  exists b c rest n,
    Js.drop p inner = String b (String c rest)
    /\ (Ascii.eqb c "'" || Ascii.eqb c "034") = false
    /\ Regex.m_index m = p
    /\ Regex.m_end m = S (S (S (p + n))).
Proof.
  unfold Regex.matchAt.
  destruct (Nat.leb p (String.length inner)); [|discriminate].
  unfold Regex.matchHere, quotedRegex, quoteChar, Regex.oneOf, Regex.noneOf, Regex.Plus.
  cbn [Regex.Seqs]. generalize (Js.drop p inner) as s.
  intros s H.
  change (Regex.run false (Regex.Cls (fun a => Js.includes ("'" ++ Js.dq) (String a EmptyString)))
            p s []
            (fun i' s' c' =>
               Regex.run false
                 (Regex.Seq
                    (Regex.Grp 1
                       (Regex.Seq
                          (Regex.Cls (fun a => negb (Js.includes ("'" ++ Js.dq)
                                                       (String a EmptyString))))
                          (Regex.Star
                             (Regex.Cls (fun a => negb (Js.includes ("'" ++ Js.dq)
                                                          (String a EmptyString)))))))
                    (Regex.Cls (fun a => Js.includes ("'" ++ Js.dq) (String a EmptyString))))
                 i' s' c' (fun e _ c => Some (Regex.mkMatch p e c)))
          = Some m) in H.
  apply run_cls_inv in H. destruct H as [b [s1 [-> [_ H]]]].
  change (Regex.run false
            (Regex.Cls (fun a => negb (Js.includes ("'" ++ Js.dq) (String a EmptyString))))
            (S p) s1 []
            (fun i1 s2 c1 =>
               Regex.run false
                 (Regex.Star
                    (Regex.Cls (fun a => negb (Js.includes ("'" ++ Js.dq)
                                                 (String a EmptyString)))))
                 i1 s2 c1
                 (fun i' s' c' =>
                    Regex.run false
                      (Regex.Cls (fun a => Js.includes ("'" ++ Js.dq) (String a EmptyString)))
                      i' s' ((1, Js.take (i' - S p) s1) :: c')
                      (fun e _ c => Some (Regex.mkMatch p e c))))
          = Some m) in H.
  apply run_cls_inv in H. destruct H as [c [s2 [-> [Hc H]]]].
  apply run_consumes in H. destruct H as [n [c' [_ [H _]]]].
  apply run_cls_inv in H. destruct H as [b2 [s3 [_ [_ H]]]].
  inversion H; subst m; clear H. exists b, c, s2, n. split; [reflexivity|]. split; [|split].
  - cbn in Hc. destruct (Ascii.eqb c "'") eqn:E1.
    + apply Ascii.eqb_eq in E1. subst c. discriminate Hc.
    + destruct (Ascii.eqb c "034") eqn:E2; [|reflexivity].
      apply Ascii.eqb_eq in E2. subst c. discriminate Hc.
  - reflexivity.
  - cbn [Regex.m_end]. lia.
Qed.

Lemma listSetting_entries (settingName content : string) :
  Forall (fun h => Js.nonEmpty h = true
                   /\ Js.includes h "'" = false /\ Js.includes h Js.dq = false)
         (listSetting settingName content).
Proof.
  unfold listSetting.
  destruct (Regex.exec false (listSettingRegex settingName) content 0) as [m0|];
    [|constructor].
  destruct (Regex.group 1 (Regex.m_caps m0)) as [inner|]; [|constructor].
  apply Forall_forall. intros h Hh. apply in_map_iff in Hh.
  destruct Hh as [m [<- Hm]]. apply matchAll_In in Hm. apply quoted_match in Hm.
  destruct Hm as [b [c [rest [n [Hd [Hc [_ He]]]]]]].
  split; [|apply stripQuotes_clean].
  unfold Regex.matched. rewrite Hd, He.
  replace (S (S (S (Regex.m_index m + n))) - Regex.m_index m) with (S (S (S n))) by lia.
  cbn [Js.take stripQuotes]. rewrite Hc.
  destruct (Ascii.eqb b "'" || Ascii.eqb b "034"); reflexivity.
Qed.

(** X22.  The entries read from a list setting are not empty and hold no
    quote, so the empty-hosts error is raised exactly when no entry of
    ALLOWED_HOSTS was read.  A settings text that does not mention a name
    gets the default for it: no allowed host (hence the error), no trusted
    origin, no value of DEBUG, no STATIC_ROOT. *)
Theorem django_allowed_hosts_entries (content settingsPath : string) :
  let hosts := allowedHosts (parseDjangoSettings content) in
  Forall (fun h => Js.nonEmpty h = true
                   /\ Js.includes h "'" = false /\ Js.includes h Js.dq = false) hosts
  /\ (hasIssue "django-empty-allowed-hosts" (fst (djangoAllowedHosts settingsPath hosts))
      = true <-> hosts = [])
  /\ (Js.includes content "ALLOWED_HOSTS" = false ->
      hosts = []
      /\ hasIssue "django-empty-allowed-hosts" (fst (djangoAllowedHosts settingsPath hosts))
         = true)
  /\ (Js.includes content "CSRF_TRUSTED_ORIGINS" = false ->
      csrfTrustedOrigins (parseDjangoSettings content) = [])
  /\ (Js.includes content "DEBUG" = false -> debug (parseDjangoSettings content) = None)
  /\ (Js.includes content "STATIC_ROOT" = false ->
      hasStaticRoot (parseDjangoSettings content) = false).
Proof.
  intros hosts.
  assert (HF : Forall (fun h => Js.nonEmpty h = true
                   /\ Js.includes h "'" = false /\ Js.includes h Js.dq = false) hosts)
    by apply listSetting_entries.
  assert (Hiff : hasIssue "django-empty-allowed-hosts"
                   (fst (djangoAllowedHosts settingsPath hosts)) = true <-> hosts = []).
  { unfold djangoAllowedHosts. destruct hosts as [|h t] eqn:Eh.
    - cbn. split; reflexivity.
    - inversion HF as [|? ? [Hne _] _]; subst.
      assert (Hh : String.eqb h EmptyString = false) by (destruct h; [discriminate|reflexivity]).
      cbn [List.length Nat.eqb orb]. rewrite Hh, andb_false_r.
      match goal with |- context [if ?c then _ else _] => destruct c end; cbn;
        split; discriminate. }
  assert (Hlist : forall nm, Js.includes content nm = false -> listSetting nm content = []).
  { intros nm Hn. unfold listSetting.
    destruct (Regex.exec false (listSettingRegex nm) content 0) as [m|] eqn:E; [|reflexivity].
    apply exec_lit_includes in E. congruence. }
  split; [exact HF|]. split; [exact Hiff|]. split; [|split; [|split]].
  - intros Hn. assert (Hh : hosts = []) by (apply Hlist; exact Hn).
    split; [exact Hh | apply Hiff; exact Hh].
  - intros Hn. apply Hlist. exact Hn.
  - intros Hn. cbn [debug parseDjangoSettings].
    destruct (Regex.exec false debugRegex content 0) as [m|] eqn:E; [|reflexivity].
    apply exec_lit_includes in E. congruence.
  - intros Hn. cbn [hasStaticRoot parseDjangoSettings]. unfold Regex.test.
    destruct (Regex.exec false staticRootRegex content 0) as [m|] eqn:E; [|reflexivity].
    apply exec_lit_includes in E. congruence.
Qed.

(* --------------------------------------------------------------------- *)
(** *** Line numbers, host issues, versions *)
(* --------------------------------------------------------------------- *)

Lemma splitLinesAux_pos (cur s : string) : 1 <= List.length (Js.splitLinesAux cur s).
Proof.
  revert cur. induction s as [|a s IH]; intros cur; simpl; [lia|].
  destruct (Ascii.eqb a "010"); simpl; [lia | apply IH].
Qed.

Lemma splitLinesAux_take (s : string) :
  forall n c1 c2,
    List.length (Js.splitLinesAux c1 (Js.take n s)) <= List.length (Js.splitLinesAux c2 s).
Proof.
  induction s as [|a s IH]; intros n c1 c2.
  - destruct n; simpl; lia.
  - destruct n as [|n].
    + cbn [Js.take]. change (Js.splitLinesAux c1 EmptyString) with [c1].
      cbn [List.length]. apply splitLinesAux_pos.
    + cbn [Js.take Js.splitLinesAux].
      destruct (Ascii.eqb a "010"); cbn [List.length].
      * apply le_n_S. apply IH.
      * apply IH.
Qed.

Lemma lineOfIndex_bounds (code : string) (p : nat) :
  1 <= lineOfIndex code p /\ lineOfIndex code p <= List.length (Js.splitLines code).
Proof.
  unfold lineOfIndex, Js.splitLines. split.
  - apply splitLinesAux_pos.
  - apply splitLinesAux_take.
Qed.

(** X23.  A line number reported by the per-file port and host scans is a
    line of the file: it lies between 1 and the number of lines. *)
Theorem reported_lines_exist (code file : string) (fw : Framework) (i : Issue) (line : nat) :
  In i (scanFileForPortIssues code file fw) \/ In i (scanFileForHostIssues code file fw) ->
  issue_line i = Some line ->
  1 <= line /\ line <= List.length (Js.splitLines code).
Proof.
  intros [Hin|Hin] Hl.
  - apply scanFileForPortIssues_sound in Hin. destruct Hin as [_ [p [v [_ ->]]]].
    cbn [issue_line portHardcodedIssue] in Hl. inversion Hl; subst line.
    apply lineOfIndex_bounds.
  - unfold scanFileForHostIssues in Hin.
    destruct ((hasListenCall code || hasPythonServerCall code)
              && negb (hasCorrectBinding code)); [|contradiction].
    destruct Hin as [<-|[]]. cbn [issue_line] in Hl.
    destruct (Regex.exec false listenSnippetRegex code 0) as [m|]; [|discriminate Hl].
    cbn [option_map] in Hl. inversion Hl; subst line. apply lineOfIndex_bounds.
Qed.

(** X24.  Every host-binding issue of the host check names a file among the
    first fifty listed, which is readable, calls [.listen(] or a Python
    server and holds no quoted 0.0.0.0.  The issue is an error exactly when
    the file holds a quoted localhost or 127.0.0.1, and a warning
    otherwise. *)
Theorem host_issue_sound (w : World) (path : string) (fw : Framework) (i : Issue) :
  In i (fst (checkHostBinding JSON_parse join w path fw)) ->
  issue_id i = "host-binding" ->
  exists listed file code,
    glob w (mkGlob (sourcePatterns fw) path (sourceIgnore ++ testIgnore)%list 5) = Some listed
    /\ In file (firstn 50 listed)
    /\ readFileSync w (join path file) = Some code
    /\ issue_file i = Some file
    /\ (hasListenCall code = true \/ hasPythonServerCall code = true)
    /\ hasCorrectBinding code = false
    /\ (issue_severity i = SevError <-> hasLocalhostBinding code = true)
    /\ (issue_severity i = SevWarning <-> hasLocalhostBinding code = false).
Proof.
  unfold checkHostBinding. intros Hin Hid.
  destruct (scannedFiles join w path fw (sourceIgnore ++ testIgnore)%list 50)
    as [scanned|] eqn:Es; [|contradiction].
  cbn [fst] in Hin. apply in_app_or in Hin. destruct Hin as [Hin|Hin].
  - apply in_flat_map in Hin. destruct Hin as [[f c] [Hfc Hi]]. cbn [fst snd] in Hi.
    apply scannedFiles_spec in Es. destruct Es as [listed [Hg ->]].
    apply readAll_spec in Hfc. destruct Hfc as [Hf Hr].
    unfold scanFileForHostIssues in Hi.
    destruct (hasListenCall c || hasPythonServerCall c) eqn:Ecall; [|contradiction].
    destruct (hasCorrectBinding c) eqn:Ec; [contradiction|].
    cbn [andb negb] in Hi. destruct Hi as [<-|[]].
    exists listed, f, c. cbn [issue_file issue_severity].
    split; [exact Hg|]. split; [exact Hf|]. split; [exact Hr|]. split; [reflexivity|].
    split; [apply orb_true_iff; exact Ecall|]. split; [exact Ec|].
    destruct (hasLocalhostBinding c); split; split; intros H;
      try reflexivity; discriminate H.
  - exfalso. destruct (isNextjs fw); [|contradiction].
    apply nextjsHostIssues_id in Hin. subst i. discriminate Hid.
Qed.

Lemma lookup_setProp (k k' : string) (v : Json) (l : list (string * Json)) :
  lookup k (setProp k' v l) = if String.eqb k' k then Some v else lookup k l.
Proof.
  induction l as [|[k0 v0] l IH]; simpl.
  - reflexivity.
  - destruct (String.eqb k0 k') eqn:E0; simpl.
    + apply String.eqb_eq in E0. subst k0. destruct (String.eqb k' k); reflexivity.
    + rewrite IH. destruct (String.eqb k0 k) eqn:E1.
      * apply String.eqb_eq in E1. subst k0.
        rewrite String.eqb_sym, E0. reflexivity.
      * reflexivity.
Qed.

Lemma lookup_fold_setProp (k : string) (entries : list (string * Json)) :
  forall acc,
    lookup k (fold_left (fun acc kv => setProp (fst kv) (snd kv) acc) entries acc)
    = match lookup k (rev entries) with
      | Some v => Some v
      | None => lookup k acc
      end.
Proof.
  induction entries as [|[k0 v0] entries IH]; intros acc; simpl; [reflexivity|].
  rewrite IH, lookup_setProp.
  assert (Hrev : forall l, lookup k (l ++ [(k0, v0)])
                           = match lookup k l with
                             | Some v => Some v
                             | None => if String.eqb k0 k then Some v0 else None
                             end).
  { induction l as [|[k1 v1] l IHl]; simpl; [reflexivity|].
    destruct (String.eqb k1 k); [reflexivity | exact IHl]. }
  rewrite Hrev. destruct (lookup k (rev entries)); [reflexivity|].
  destruct (String.eqb k0 k); reflexivity.
Qed.

Lemma spread2_lookup (deps devDeps : list (string * Json)) (k : string) :
  lookup k (spread2 (Some (JObj deps)) (Some (JObj devDeps)))
  = match lookup k (rev devDeps) with
    | Some v => Some v
    | None => lookup k (rev deps)
    end.
Proof.
  unfold spread2. cbn [ownEntries fold_left]. rewrite !lookup_fold_setProp.
  cbn [lookup].
  destruct (lookup k (rev deps)), (lookup k (rev devDeps)); reflexivity.
Qed.

(** X25.  The version of a Node framework is read from the merge of the two
    dependency tables of the manifest, in which an entry of
    [devDependencies] wins over an entry of [dependencies]. *)
Theorem framework_version_prefers_dev (w : World) (path : string) (fw : Framework)
        (manifest : Json) (deps devDeps : list (string * Json)) :
  detectFramework JSON_parse join w path = Ok fw ->
  isNode fw = true ->
  readJson JSON_parse w (join path "package.json") = Ok manifest ->
  getProp manifest "dependencies" = Ok (Some (JObj deps)) ->
  getProp manifest "devDependencies" = Ok (Some (JObj devDeps)) ->
  let key := match name fw with
             | nextjs => "next"
             | nestjs => "@nestjs/core"
             | _ => "express"
             end in
  version fw = match lookup key (rev devDeps) with
               | Some v => Some v
               | None => lookup key (rev deps)
               end.
Proof.
  unfold detectFramework. intros H Hn Hm Hd Hdd. apply bind_ok in H.
  destruct H as [node [Hnode H]]. destruct node as [nfw|].
  - inversion H; subst nfw; clear H. unfold detectNode in Hnode.
    destruct (existsSync w (join path "package.json")); [|discriminate].
    rewrite Hm in Hnode. cbn [bind] in Hnode. rewrite Hd in Hnode. cbn [bind] in Hnode.
    rewrite Hdd in Hnode. cbn [bind] in Hnode. cbv zeta in Hnode.
    repeat match type of Hnode with
           | (if ?c then _ else _) = _ => destruct c
           end; inversion Hnode; subst fw; cbn [name version]; apply spread2_lookup.
  - exfalso. unfold detectPython in H.
    destruct (existsSync w (join path "requirements.txt")).
    + apply bind_ok in H. destruct H as [text [_ H]]. cbv zeta in H.
      repeat match type of H with
             | (if ?c then _ else _) = _ => destruct c
             end; inversion H; subst fw; discriminate Hn.
    + inversion H; subst fw; discriminate Hn.
Qed.

(* --------------------------------------------------------------------- *)
(** *** Passes and findings *)
(* --------------------------------------------------------------------- *)

Ltac forall_passed :=
  repeat first
    [ apply Forall_nil
    | apply Forall_app; split
    | apply Forall_cons; [cbn; repeat (first [left; reflexivity | right]); fail |]
    | match goal with |- Forall _ (if ?b then _ else _) => destruct b end
    | match goal with |- Forall _ (match ?x with _ => _ end) => destruct x end ].

Lemma both_snd (a b : CheckResult) : snd (both a b) = (snd a ++ snd b)%list.
Proof. reflexivity. Qed.

Lemma checkPortUsage_pass (w : World) (path : string) (fw : Framework) :
  Forall (fun p => In (passed_id p) ["port-check"])
         (snd (checkPortUsage JSON_parse join w path fw))
  /\ (snd (checkPortUsage JSON_parse join w path fw) <> [] ->
      fst (checkPortUsage JSON_parse join w path fw) = []).
Proof.
  unfold checkPortUsage.
  destruct (scannedFiles join w path fw (sourceIgnore ++ testIgnore)%list 50);
    [|split; [apply Forall_nil | intros H; exfalso; apply H; reflexivity]].
  cbv zeta. cbn [fst snd].
  destruct (_ ++ _)%list; split; try forall_passed; try reflexivity.
  intros H; exfalso; apply H; reflexivity.
Qed.

Lemma checkHostBinding_pass (w : World) (path : string) (fw : Framework) :
  Forall (fun p => In (passed_id p) ["host-check"])
         (snd (checkHostBinding JSON_parse join w path fw))
  /\ (snd (checkHostBinding JSON_parse join w path fw) <> [] ->
      fst (checkHostBinding JSON_parse join w path fw) = []).
Proof.
  unfold checkHostBinding.
  destruct (scannedFiles join w path fw (sourceIgnore ++ testIgnore)%list 50);
    [|split; [apply Forall_nil | intros H; exfalso; apply H; reflexivity]].
  cbv zeta. cbn [fst snd].
  destruct (_ ++ _)%list; split; try forall_passed; try reflexivity.
  intros H; exfalso; apply H; reflexivity.
Qed.

Lemma startCommandStep_pass (l : list Issue) :
  Forall (fun p => In (passed_id p) ["start-command-check"]) (snd (startCommandStep l))
  /\ (snd (startCommandStep l) <> [] -> l = []).
Proof.
  unfold startCommandStep. destruct l; cbn; split; try forall_passed; try reflexivity.
  intros H; exfalso; apply H; reflexivity.
Qed.

Lemma checkEnvVars_pass (w : World) (path : string) (fw : Framework) (r : CheckResult) :
  checkEnvVars join w path fw = Ok r ->
  Forall (fun p => In (passed_id p) ["env-file-ignored"; "no-env-file"]) (snd r).
Proof.
  unfold checkEnvVars. intros H. apply bind_ok in H. destruct H as [h [Hh H]].
  inversion H; subst r; clear H. cbn [snd].
  unfold envHygiene in Hh. apply bind_ok in Hh. destruct Hh as [ig [Hi Hh]].
  inversion Hh; subst h; clear Hh. cbn [snd].
  apply Forall_app. split; [|forall_passed].
  destruct (existsSync w (join path ".env") && existsSync w (join path ".gitignore")).
  - apply bind_ok in Hi. destruct Hi as [content [_ Hi]]. inversion Hi; subst ig.
    destruct (negb (Js.includes content ".env")); cbn [snd]; forall_passed.
  - inversion Hi; subst ig. apply Forall_nil.
Qed.

Lemma checkDatabaseConfig_pass (w : World) (path : string) (fw : Framework)
      (r : CheckResult) :
  checkDatabaseConfig JSON_parse join w path fw = Ok r ->
  Forall (fun p => In (passed_id p) ["no-database"; "database-config-ok"]) (snd r)
  /\ (snd r <> [] -> fst r = []).
Proof.
  unfold checkDatabaseConfig. intros H. apply bind_ok in H. destruct H as [libs [_ H]].
  destruct libs as [|l libs]; inversion H; subst r; clear H; cbn [fst snd].
  - split; [forall_passed | reflexivity].
  - destruct (findDatabaseConnectionIssues join w path fw (l :: libs)).
    + split; [forall_passed | reflexivity].
    + split; [apply Forall_nil | intros H; exfalso; apply H; reflexivity].
Qed.

Lemma frameworkStep_pass (w : World) (path : string) (fw : Framework) (r : CheckResult) :
  frameworkStep join w path fw = Ok r ->
  Forall (fun p => In (passed_id p)
                      ["django-allowed-hosts"; "django-debug-false"; "django-whitenoise";
                       "django-database-url"; "flask-has-gunicorn";
                       "flask-procfile-correct"; "fastapi-has-uvicorn";
                       "fastapi-procfile-correct"]) (snd r).
Proof.
  unfold frameworkStep. destruct (name fw); intros H;
    try (inversion H; subst; apply Forall_nil).
  - unfold checkDjango in H.
    destruct (truthyPath (findDjangoSettings join w path)) as [sp|];
      [|inversion H; subst; apply Forall_nil].
    apply bind_ok in H. destruct H as [an [_ H]].
    destruct (djangoSettings an) as [st|]; [|inversion H; subst; apply Forall_nil].
    apply bind_ok in H. destruct H as [g [Hg H]]. inversion H; subst r; clear H.
    rewrite !both_snd.
    assert (Hgl : snd g = []).
    { destruct (existsSync w (join path "requirements.txt")).
      - apply bind_ok in Hg. destruct Hg as [t [_ Hg]]. inversion Hg; subst.
        destruct (negb (Js.includes (Js.toLowerCase t) "gunicorn")); reflexivity.
      - inversion Hg; subst. reflexivity. }
    rewrite Hgl.
    unfold djangoAllowedHosts, djangoDebug, djangoWhitenoise, djangoStaticRoot,
      djangoDatabaseUrl, djangoCsrf.
    repeat (apply Forall_app; split); try apply Forall_nil.
    + match goal with |- Forall _ (snd (if ?b then _ else _)) => destruct b end;
        [cbn [snd]; forall_passed|].
      match goal with |- Forall _ (snd (if ?b then _ else _)) => destruct b end;
        cbn [snd]; forall_passed.
    + destruct (debug st) as [[|]|]; cbn [snd]; forall_passed.
    + destruct (negb (hasWhitenoise st)); cbn [snd]; forall_passed.
    + destruct (negb (hasStaticRoot st)); cbn [snd]; forall_passed.
    + destruct (negb (settingsHasDatabaseUrl st)); cbn [snd]; forall_passed.
    + destruct (Nat.eqb (List.length (csrfTrustedOrigins st)) 0); cbn [snd]; forall_passed.
  - unfold checkFlask in H.
    destruct (truthyPath (findPythonMainFile join w path _)) as [mf|];
      [|inversion H; subst; apply Forall_nil].
    apply bind_ok in H. destruct H as [an [_ H]].
    apply bind_ok in H. destruct H as [content [_ H]]. cbv zeta in H.
    apply bind_ok in H. destruct H as [g [Hg H]].
    apply bind_ok in H. destruct H as [pr [Hpr H]]. inversion H; subst r; clear H.
    rewrite !both_snd. cbn [snd].
    repeat (apply Forall_app; split); try apply Forall_nil.
    + destruct (existsSync w (join path "requirements.txt")).
      * apply bind_ok in Hg. destruct Hg as [t [_ Hg]]. inversion Hg; subst.
        destruct (negb (Js.includes (Js.toLowerCase t) "gunicorn")); cbn [snd]; forall_passed.
      * inversion Hg; subst. apply Forall_nil.
    + destruct (existsSync w (join path "Procfile")).
      * apply bind_ok in Hpr. destruct Hpr as [t [_ Hpr]]. inversion Hpr; subst.
        unfold flaskProcfile. cbn [snd]. forall_passed.
      * inversion Hpr; subst. apply Forall_nil.
  - unfold checkFastAPI in H.
    destruct (truthyPath (findPythonMainFile join w path _)) as [mf|];
      [|inversion H; subst; apply Forall_nil].
    apply bind_ok in H. destruct H as [an [_ H]].
    apply bind_ok in H. destruct H as [content [_ H]]. cbv zeta in H.
    apply bind_ok in H. destruct H as [g [Hg H]].
    apply bind_ok in H. destruct H as [pr [Hpr H]]. inversion H; subst r; clear H.
    rewrite !both_snd. cbn [snd].
    repeat (apply Forall_app; split); try apply Forall_nil.
    + destruct (existsSync w (join path "requirements.txt")).
      * apply bind_ok in Hg. destruct Hg as [t [_ Hg]]. inversion Hg; subst.
        destruct (negb (Js.includes (Js.toLowerCase t) "uvicorn")); cbn [snd]; forall_passed.
      * inversion Hg; subst. apply Forall_nil.
    + destruct (existsSync w (join path "Procfile")).
      * apply bind_ok in Hpr. destruct Hpr as [t [_ Hpr]]. inversion Hpr; subst.
        unfold fastapiProcfile. cbn [snd]. forall_passed.
      * inversion Hpr; subst. apply Forall_nil.
Qed.

Lemma In_passed_other (p : PassedCheck) (ids : list string) (l : list PassedCheck) :
  Forall (fun p => In (passed_id p) ids) l -> ~ In (passed_id p) ids -> ~ In p l.
Proof.
  intros HF Hn Hi. rewrite Forall_forall in HF. exact (Hn (HF p Hi)).
Qed.

Lemma hasIssue_nil (id : string) : hasIssue id [] = false.
Proof. reflexivity. Qed.

Lemma In_app_skip (p : PassedCheck) (ids : list string) (a b : list PassedCheck) :
  Forall (fun p => In (passed_id p) ids) a -> ~ In (passed_id p) ids ->
  In p (a ++ b) -> In p b.
Proof.
  intros HF Hn Hin. apply in_app_or in Hin. destruct Hin as [Hin|Hin]; [|exact Hin].
  exfalso. exact (In_passed_other p ids a HF Hn Hin).
Qed.

Lemma In_app_keep (p : PassedCheck) (ids : list string) (a b : list PassedCheck) :
  Forall (fun p => In (passed_id p) ids) b -> ~ In (passed_id p) ids ->
  In p (a ++ b) -> In p a.
Proof.
  intros HF Hn Hin. apply in_app_or in Hin. destruct Hin as [Hin|Hin]; [exact Hin|].
  exfalso. exact (In_passed_other p ids b HF Hn Hin).
Qed.

Lemma Forall_passed_app (ids1 ids2 : list string) (a b : list PassedCheck) :
  Forall (fun p => In (passed_id p) ids1) a ->
  Forall (fun p => In (passed_id p) ids2) b ->
  Forall (fun p => In (passed_id p) (ids1 ++ ids2)) (a ++ b).
Proof.
  intros Ha Hb. apply Forall_app. split.
  - eapply Forall_impl; [|exact Ha]. intros p Hp. apply in_or_app. left. exact Hp.
  - eapply Forall_impl; [|exact Hb]. intros p Hp. apply in_or_app. right. exact Hp.
Qed.

(** X26.  A pass and the findings it stands for never meet in one result.
    A result with the port-check pass holds neither port-hardcoded nor
    nextjs-port-flag; with the host-check pass neither host-binding nor
    nextjs-host-flag; with the start-command pass none of the issues of the
    start-command check; with a pass of the database check none of its
    three issues. *)
Theorem passes_exclude_findings (w : World) (path : string) (r : ScanResult) :
  scanProject JSON_parse join w path = Ok r ->
  (In portCheckPass (passed r) ->
   hasIssue "port-hardcoded" (issues r) = false
   /\ hasIssue "nextjs-port-flag" (issues r) = false)
  /\ (In hostCheckPass (passed r) ->
      hasIssue "host-binding" (issues r) = false
      /\ hasIssue "nextjs-host-flag" (issues r) = false)
  /\ (In startCommandPass (passed r) ->
      forall id, In id ["no-package-json"; "no-start-script"; "dev-tools-in-production";
                        "nextjs-wrong-start"; "nestjs-no-build"; "no-build-script";
                        "invalid-package-json"; "python-no-procfile";
                        "django-no-gunicorn-requirement"] ->
                 hasIssue id (issues r) = false)
  /\ (In noDatabasePass (passed r) \/ In databaseConfigOkPass (passed r) ->
      hasIssue "database-localhost" (issues r) = false
      /\ hasIssue "database-socket" (issues r) = false
      /\ hasIssue "database-url-recommended" (issues r) = false).
Proof.
  intros H. apply scanProject_shape in H. destruct H as [fw [col [_ [Hr ->]]]].
  cbn [issues passed]. apply runChecks_parts in Hr.
  destruct Hr as [s [e [d [f [Hs [He [Hd [Hf [Hfst Hsnd]]]]]]]]].
  rewrite Hfst, Hsnd.
  pose proof (listed_ids _ _ (checkPortUsage_listed w path fw)) as Lp.
  pose proof (listed_ids _ _ (checkHostBinding_listed w path fw)) as Lh.
  pose proof (listed_ids _ _ (checkStartCommand_listed w path fw s Hs)) as Ls.
  pose proof (listed_ids _ _ (checkEnvVars_listed w path fw e He)) as Le.
  pose proof (listed_ids _ _ (checkDatabaseConfig_listed w path fw d Hd)) as Ld.
  pose proof (listed_ids _ _ (frameworkStep_listed w path fw f Hf)) as Lf.
  destruct (checkPortUsage_pass w path fw) as [Pp Ppn].
  destruct (checkHostBinding_pass w path fw) as [Ph Phn].
  destruct (startCommandStep_pass s) as [Ps Psn].
  pose proof (checkEnvVars_pass w path fw e He) as Pe.
  destruct (checkDatabaseConfig_pass w path fw d Hd) as [Pd Pdn].
  pose proof (frameworkStep_pass w path fw f Hf) as Pf.
  pose proof (Forall_passed_app _ _ _ _ Pd Pf) as Pdf.
  pose proof (Forall_passed_app _ _ _ _ Pe Pdf) as Pedf.
  pose proof (Forall_passed_app _ _ _ _ Ps Pedf) as Psedf.
  pose proof (Forall_passed_app _ _ _ _ Ph Psedf) as Phsedf.
  split; [|split; [|split]].
  - intros Hin. apply (In_app_keep _ _ _ _ Phsedf) in Hin; [|not_in_ids].
    assert (Hport : fst (checkPortUsage JSON_parse join w path fw) = []).
    { apply Ppn. intros Hnil. rewrite Hnil in Hin. exact Hin. }
    rewrite !hasIssue_app, Hport, !hasIssue_nil.
    rewrite !(hasIssue_other "port-hardcoded" _ _ Lh), !(hasIssue_other "port-hardcoded" _ _ Ls),
      !(hasIssue_other "port-hardcoded" _ _ Le), !(hasIssue_other "port-hardcoded" _ _ Ld),
      !(hasIssue_other "port-hardcoded" _ _ Lf) by not_in_ids.
    rewrite !(hasIssue_other "nextjs-port-flag" _ _ Lh),
      !(hasIssue_other "nextjs-port-flag" _ _ Ls),
      !(hasIssue_other "nextjs-port-flag" _ _ Le), !(hasIssue_other "nextjs-port-flag" _ _ Ld),
      !(hasIssue_other "nextjs-port-flag" _ _ Lf) by not_in_ids.
    split; reflexivity.
  - intros Hin. apply (In_app_skip _ _ _ _ Pp) in Hin; [|not_in_ids].
    apply (In_app_keep _ _ _ _ Psedf) in Hin; [|not_in_ids].
    assert (Hhost : fst (checkHostBinding JSON_parse join w path fw) = []).
    { apply Phn. intros Hnil. rewrite Hnil in Hin. exact Hin. }
    rewrite !hasIssue_app, Hhost, !hasIssue_nil.
    rewrite !(hasIssue_other "host-binding" _ _ Lp), !(hasIssue_other "host-binding" _ _ Ls),
      !(hasIssue_other "host-binding" _ _ Le), !(hasIssue_other "host-binding" _ _ Ld),
      !(hasIssue_other "host-binding" _ _ Lf) by not_in_ids.
    rewrite !(hasIssue_other "nextjs-host-flag" _ _ Lp),
      !(hasIssue_other "nextjs-host-flag" _ _ Ls),
      !(hasIssue_other "nextjs-host-flag" _ _ Le), !(hasIssue_other "nextjs-host-flag" _ _ Ld),
      !(hasIssue_other "nextjs-host-flag" _ _ Lf) by not_in_ids.
    split; reflexivity.
  - intros Hin id Hid. apply (In_app_skip _ _ _ _ Pp) in Hin; [|not_in_ids].
    apply (In_app_skip _ _ _ _ Ph) in Hin; [|not_in_ids].
    apply (In_app_keep _ _ _ _ Pedf) in Hin; [|not_in_ids].
    assert (Hstart : s = []).
    { apply Psn. intros Hnil. rewrite Hnil in Hin. exact Hin. }
    subst s. rewrite !hasIssue_app, hasIssue_nil.
    cbn in Hid.
    repeat (destruct Hid as [Hid|Hid];
            [subst id;
             rewrite (hasIssue_other _ _ _ Lp), (hasIssue_other _ _ _ Lh),
               (hasIssue_other _ _ _ Le), (hasIssue_other _ _ _ Ld),
               (hasIssue_other _ _ _ Lf) by not_in_ids; reflexivity|]).
    contradiction.
  - intros Hin.
    assert (Hin' : In noDatabasePass (snd d) \/ In databaseConfigOkPass (snd d)).
    { destruct Hin as [Hin|Hin]; [left|right];
        (apply (In_app_skip _ _ _ _ Pp) in Hin; [|not_in_ids]);
        (apply (In_app_skip _ _ _ _ Ph) in Hin; [|not_in_ids]);
        (apply (In_app_skip _ _ _ _ Ps) in Hin; [|not_in_ids]);
        (apply (In_app_skip _ _ _ _ Pe) in Hin; [|not_in_ids]);
        (apply (In_app_keep _ _ _ _ Pf) in Hin; [|not_in_ids]); exact Hin. }
    assert (Hdb : fst d = []).
    { apply Pdn. intros Hnil. rewrite Hnil in Hin'. destruct Hin' as [[]|[]]. }
    rewrite !hasIssue_app, Hdb, !hasIssue_nil.
    rewrite !(hasIssue_other "database-localhost" _ _ Lp),
      !(hasIssue_other "database-localhost" _ _ Lh),
      !(hasIssue_other "database-localhost" _ _ Ls),
      !(hasIssue_other "database-localhost" _ _ Le),
      !(hasIssue_other "database-localhost" _ _ Lf) by not_in_ids.
    rewrite !(hasIssue_other "database-socket" _ _ Lp),
      !(hasIssue_other "database-socket" _ _ Lh),
      !(hasIssue_other "database-socket" _ _ Ls),
      !(hasIssue_other "database-socket" _ _ Le),
      !(hasIssue_other "database-socket" _ _ Lf) by not_in_ids.
    rewrite !(hasIssue_other "database-url-recommended" _ _ Lp),
      !(hasIssue_other "database-url-recommended" _ _ Lh),
      !(hasIssue_other "database-url-recommended" _ _ Ls),
      !(hasIssue_other "database-url-recommended" _ _ Le),
      !(hasIssue_other "database-url-recommended" _ _ Lf) by not_in_ids.
    repeat split; reflexivity.
Qed.

(* --------------------------------------------------------------------- *)
(** *** The entry file of a Python project *)
(* --------------------------------------------------------------------- *)

Lemma firstExisting_app (w : World) (path : string) (cs more : list string) (c : string) :
  firstExisting join w path cs = Some c ->
  firstExisting join w path (cs ++ more) = Some c.
Proof.
  induction cs as [|a cs IH]; simpl; [discriminate|].
  destruct (existsSync w (join path a)); [auto | exact IH].
Qed.

Lemma firstExistingPath_firstExisting (w : World) (path : string) (cs : list string) :
  firstExistingPath join w path cs = option_map (join path) (firstExisting join w path cs).
Proof.
  induction cs as [|a cs IH]; simpl; [reflexivity|].
  destruct (existsSync w (join path a)); [reflexivity | exact IH].
Qed.

(** X27.  The detector and the framework check look at the same file: when
    one of the candidates of the detector exists for a Flask or FastAPI
    project, the entry file of the framework is the first such candidate
    and the framework check analyses that very file. *)
Theorem python_entry_agrees (w : World) (path : string) (fw : Framework) (entry : string) :
  detectFramework JSON_parse join w path = Ok fw ->
  (name fw = flask ->
   firstExisting join w path ["app.py"; "main.py"; "wsgi.py"] = Some entry ->
   mainFile fw = Some entry
   /\ findPythonMainFile join w path ["app.py"; "main.py"; "wsgi.py"; "application.py"]
      = Some (join path entry))
  /\ (name fw = fastapi ->
      firstExisting join w path ["main.py"; "app.py"] = Some entry ->
      mainFile fw = Some entry
      /\ findPythonMainFile join w path ["main.py"; "app.py"; "application.py"]
         = Some (join path entry)).
Proof.
  unfold detectFramework. intros H. apply bind_ok in H. destruct H as [node [Hn H]].
  assert (Hpy : forall cs more,
             firstExisting join w path cs = Some entry ->
             findEntryPoint JSON_parse join w path cs = Some entry
             /\ findPythonMainFile join w path (cs ++ more) = Some (join path entry)).
  { intros cs more Hc. split.
    - unfold findEntryPoint. rewrite Hc. reflexivity.
    - unfold findPythonMainFile.
      rewrite firstExistingPath_firstExisting, (firstExisting_app w path cs more entry Hc).
      reflexivity. }
  destruct node as [nfw|].
  - inversion H; subst nfw; clear H. unfold detectNode in Hn.
    destruct (existsSync w (join path "package.json")); [|discriminate].
    apply bind_ok in Hn. destruct Hn as [pj [_ Hn]].
    apply bind_ok in Hn. destruct Hn as [deps [_ Hn]].
    apply bind_ok in Hn. destruct Hn as [ddeps [_ Hn]]. cbv zeta in Hn.
    repeat match type of Hn with
           | (if ?c then _ else _) = _ => destruct c
           end; inversion Hn; subst fw; split; intros Hname; discriminate Hname.
  - unfold detectPython in H.
    destruct (existsSync w (join path "requirements.txt")).
    + apply bind_ok in H. destruct H as [text [_ H]]. cbv zeta in H.
      destruct (Js.includes (Js.toLowerCase text) "django");
        [inversion H; subst fw; split; intros Hname; discriminate Hname|].
      destruct (Js.includes (Js.toLowerCase text) "flask").
      * inversion H; subst fw. split; intros Hname; [|discriminate Hname].
        intros Hc. cbn [mainFile].
        exact (Hpy ["app.py"; "main.py"; "wsgi.py"] ["application.py"] Hc).
      * destruct (Js.includes (Js.toLowerCase text) "fastapi");
          inversion H; subst fw; split; intros Hname; try discriminate Hname.
        intros Hc. cbn [mainFile].
        exact (Hpy ["main.py"; "app.py"] ["application.py"] Hc).
    + inversion H; subst fw; split; intros Hname; discriminate Hname.
Qed.

End Further.

(* ===================================================================== *)
(** ** The further properties on the samples *)
(* ===================================================================== *)

Section FurtherSamples.

#[local] Open Scope string_scope.

(** The broken Express project exits with 1. *)
Lemma exit_code_verdict_witness :
  exists r,
    scanProject Sample.JSON_parse Sample.join Sample.expressBroken "/app" = Ok r
    /\ exitCode (Ok r) = 1
    /\ deploymentLikelihood (summary r) = WillFail.
Proof.
  destruct (scanProject Sample.JSON_parse Sample.join Sample.expressBroken "/app")
    as [r|] eqn:E; [|vm_compute in E; discriminate E].
  exists r. split; [reflexivity|].
  assert (Hx : exitCode (Ok r) = 1).
  { vm_compute in E. injection E as <-. reflexivity. }
  split; [exact Hx|].
  apply (proj1 (exit_code_verdict Sample.JSON_parse Sample.join Sample.expressBroken
                  "/app" r E)).
  exact Hx.
Defined.

(** The working Express project: its manifest exists and the version is
    truthy. *)
Lemma detectFramework_invariants_witness :
  exists fw,
    detectFramework Sample.JSON_parse Sample.join Sample.expressWorking "/app" = Ok fw
    /\ existsSync Sample.expressWorking (Sample.join "/app" "package.json") = true
    /\ truthyV (version fw) = true.
Proof.
  destruct (detectFramework Sample.JSON_parse Sample.join Sample.expressWorking "/app")
    as [fw|] eqn:E; [|vm_compute in E; discriminate E].
  exists fw. split; [reflexivity|].
  destruct (detectFramework_invariants Sample.JSON_parse Sample.join Sample.expressWorking
              "/app" fw E) as (Hnode & _ & Hversion & _).
  split.
  - apply Hnode. vm_compute in E. injection E as <-. reflexivity.
  - apply Hversion. right. vm_compute in E. injection E as <-. reflexivity.
Defined.

(** The second candidate is found when the first does not exist. *)
Lemma findEntryPoint_sources_witness :
  findEntryPoint Sample.JSON_parse Sample.join Sample.expressWorking "/app"
                 ["index.js"; "server.js"; "app.js"]
  = Some "server.js".
Proof.
  apply (proj1 (findEntryPoint_sources Sample.JSON_parse Sample.join Sample.expressWorking
                  "/app" ["index.js"; "server.js"; "app.js"])
           ["index.js"] "server.js" ["app.js"]).
  - reflexivity.
  - intros x [<-|[]]. vm_compute. reflexivity.
  - vm_compute. reflexivity.
Defined.

(** A complete Flask Procfile has no finding; a FastAPI Procfile without
    workers has one. *)
Lemma procfile_pass_iff_no_error_witness :
  fst (flaskProcfile "/app/Procfile" "web: gunicorn app:app --bind 0.0.0.0:$PORT") = []
  /\ Js.includes "web: uvicorn main:app" "--workers" = false
  /\ fst (fastapiProcfile "/app/Procfile" "web: uvicorn main:app") <> [].
Proof.
  split; [|split].
  - apply (proj1 (procfile_pass_iff_no_error "/app/Procfile"
                    "web: gunicorn app:app --bind 0.0.0.0:$PORT")).
    vm_compute. discriminate.
  - vm_compute. reflexivity.
  - intros Hnil.
    pose proof (proj2 (proj2 (proj2 (procfile_pass_iff_no_error "/app/Procfile"
                                       "web: uvicorn main:app"))) Hnil) as Hw.
    vm_compute in Hw. discriminate Hw.
Defined.

(** The one source file of the broken Express project. *)
Lemma scan_file_cap_witness :
  exists listed,
    glob Sample.expressBroken
         (mkGlob (sourcePatterns Sample.expressFramework) "/app" sourceIgnore 5)
    = Some listed
    /\ List.length [("server.js", Sample.brokenServer)] <= 50
    /\ (forall f c,
           In (f, c) [("server.js", Sample.brokenServer)] <->
           In f (firstn 50 listed)
           /\ readFileSync Sample.expressBroken (Sample.join "/app" f) = Some c).
Proof.
  apply (scan_file_cap Sample.join Sample.expressBroken "/app" Sample.expressFramework
           sourceIgnore 50 [("server.js", Sample.brokenServer)]).
  vm_compute. reflexivity.
Defined.

(** The port issue of the broken Express project goes back to a literal
    of its server. *)
Lemma port_issue_sound_witness :
  exists listed file code p ds,
    glob Sample.expressBroken
         (mkGlob (sourcePatterns Sample.expressFramework) "/app"
                 (sourceIgnore ++ testIgnore)%list 5) = Some listed
    /\ In file (firstn 50 listed)
    /\ readFileSync Sample.expressBroken (Sample.join "/app" file) = Some code
    /\ hasPortEnvVar code = false
    /\ (digitsAt listenCallRegex 1 code p ds
        \/ digitsAt portVarRegex 2 code p ds
        \/ digitsAt pythonPortRegex 1 code p ds)
    /\ (1000 <= Js.parseDigits 0 ds)%N
    /\ portHardcodedIssue "server.js" (Js.Finite 3000) 5
       = portHardcodedIssue file (Js.parseInt ds) (lineOfIndex code p)
    /\ "Hardcoded port 3000. Railway requires process.env.PORT"
       = "Hardcoded port " ++ Js.numToString (Js.parseInt ds)
           ++ ". Railway requires process.env.PORT"
    /\ ((Js.parseDigits 0 ds < 2 ^ 53)%N ->
        "Hardcoded port 3000. Railway requires process.env.PORT"
        = "Hardcoded port " ++ Js.decimal (Js.parseDigits 0 ds)
            ++ ". Railway requires process.env.PORT").
Proof.
  apply (port_issue_sound Sample.JSON_parse Sample.join Sample.expressBroken "/app"
           Sample.expressFramework (portHardcodedIssue "server.js" (Js.Finite 3000) 5)).
  - vm_compute. left. reflexivity.
  - reflexivity.
Defined.

(** An unreadable ignore file makes the scan throw; a readable one does
    not. *)
Lemma scan_throws_only_on_gitignore_witness :
  detectFramework Sample.JSON_parse Sample.join Sample.unreadableGitignore "/app"
  = Ok Sample.unknownFramework
  /\ scanProject Sample.JSON_parse Sample.join Sample.unreadableGitignore "/app" = Throw
  /\ scanProject Sample.JSON_parse Sample.join Sample.gitignoreOnly "/app" <> Throw.
Proof.
  split; [vm_compute; reflexivity|]. split.
  - apply (proj2 (scan_throws_only_on_gitignore Sample.JSON_parse Sample.join
                    Sample.unreadableGitignore "/app" Sample.unknownFramework
                    ltac:(vm_compute; reflexivity) eq_refl)).
    vm_compute. auto.
  - intros Ht.
    apply (proj1 (scan_throws_only_on_gitignore Sample.JSON_parse Sample.join
                    Sample.gitignoreOnly "/app" Sample.unknownFramework
                    ltac:(vm_compute; reflexivity) eq_refl)) in Ht.
    destruct Ht as [He _]. vm_compute in He. discriminate He.
Defined.

(** The eight issues of a Django project are findings of the check
    modules. *)
Lemma scan_issue_catalogue_witness :
  exists r,
    scanProject Sample.JSON_parse Sample.join Sample.djangoNoGunicorn "/app" = Ok r
    /\ List.length (issues r) = 8
    /\ Forall (listed allFindings) (issues r).
Proof.
  destruct (scanProject Sample.JSON_parse Sample.join Sample.djangoNoGunicorn "/app")
    as [r|] eqn:E; [|vm_compute in E; discriminate E].
  exists r. split; [reflexivity|]. split.
  - vm_compute in E. injection E as <-. reflexivity.
  - apply (proj1 (scan_issue_catalogue Sample.JSON_parse Sample.join
                    Sample.djangoNoGunicorn "/app" r E)).
Defined.

(** The broken Express project has no start script. *)
Lemma missing_start_script_fails_witness :
  exists r,
    scanProject Sample.JSON_parse Sample.join Sample.expressBroken "/app" = Ok r
    /\ In (noStartScriptIssue (Sample.join "/app" "package.json") (framework r)) (issues r)
    /\ deploymentLikelihood (summary r) = WillFail
    /\ exitCode (Ok r) = 1.
Proof.
  destruct (scanProject Sample.JSON_parse Sample.join Sample.expressBroken "/app")
    as [r|] eqn:E; [|vm_compute in E; discriminate E].
  exists r. split; [reflexivity|].
  apply (missing_start_script_fails Sample.JSON_parse Sample.join Sample.expressBroken
           "/app" r
           (JObj [("name", JStr "app"); ("scripts", JObj []);
                  ("dependencies", JObj [("express", JStr "^4.18.0")])])
           (Some (JObj [])) E).
  - vm_compute in E. injection E as <-. reflexivity.
  - vm_compute. reflexivity.
  - reflexivity.
  - reflexivity.
Defined.

(** A start script that runs nodemon. *)
Lemma dev_tool_detection_witness :
  exists found,
    checkStartCommand Sample.JSON_parse Sample.join Sample.expressNodemon "/app"
                      Sample.expressFramework = Ok found
    /\ (forall tool,
           In (devToolsIssue (Sample.join "/app" "package.json") Sample.expressFramework
                             tool (JStr "nodemon server.js")) found
           <-> find (Js.includes "nodemon server.js") devTools = Some tool)
    /\ hasIssue "dev-tools-in-production" found
       = existsb (Js.includes "nodemon server.js") devTools
    /\ hasIssue "nextjs-wrong-start" found
       = isNextjs Sample.expressFramework && negb (Js.includes "nodemon server.js" "next start")
    /\ hasIssue "no-start-script" found = false.
Proof.
  apply (dev_tool_detection Sample.JSON_parse Sample.join Sample.expressNodemon "/app"
           Sample.expressFramework
           (JObj [("name", JStr "app");
                  ("scripts", JObj [("start", JStr "nodemon server.js")]);
                  ("dependencies", JObj [("express", JStr "^4.18.0")])])
           (Some (JObj [("start", JStr "nodemon server.js")]))
           "nodemon server.js").
  - reflexivity.
  - vm_compute. reflexivity.
  - vm_compute. reflexivity.
  - reflexivity.
  - reflexivity.
  - reflexivity.
Defined.

(** A Next.js project started by a custom server. *)
Lemma nextjs_findings_exclusive_witness :
  exists r,
    scanProject Sample.JSON_parse Sample.join Sample.nextjsWrongStart "/app" = Ok r
    /\ hasIssue "nextjs-wrong-start" (issues r) = true
    /\ hasIssue "nextjs-port-flag" (issues r) = false
    /\ hasIssue "nextjs-host-flag" (issues r) = false.
Proof.
  destruct (scanProject Sample.JSON_parse Sample.join Sample.nextjsWrongStart "/app")
    as [r|] eqn:E; [|vm_compute in E; discriminate E].
  exists r. split; [reflexivity|].
  assert (Hw : hasIssue "nextjs-wrong-start" (issues r) = true).
  { vm_compute in E. injection E as <-. reflexivity. }
  split; [exact Hw|].
  exact (nextjs_findings_exclusive Sample.JSON_parse Sample.join Sample.nextjsWrongStart
           "/app" r E Hw).
Defined.

(** Two PostgreSQL drivers give one label. *)
Lemma database_libraries_distinct_witness :
  detectDatabaseLibraries Sample.JSON_parse Sample.join Sample.expressDevOverride "/app"
                          Sample.expressFramework = Ok ["PostgreSQL"]
  /\ NoDup ["PostgreSQL"].
Proof.
  split; [vm_compute; reflexivity|].
  apply (proj1 (database_libraries_distinct Sample.JSON_parse Sample.join
                  Sample.expressDevOverride "/app" Sample.expressFramework ["PostgreSQL"]
                  ltac:(vm_compute; reflexivity))).
Defined.

(** Two names are counted, one of them is listed. *)
Lemma env_inventory_counts_distinct_witness :
  findEnvVarReferences Sample.join Sample.envReferences "/app" Sample.expressFramework
  = ["PORT"; "API_KEY"]
  /\ envInventory
       (findEnvVarReferences Sample.join Sample.envReferences "/app" Sample.expressFramework)
     = [envVarsNeededIssue 2 ["API_KEY"]].
Proof.
  split; [vm_compute; reflexivity|].
  pose proof (env_inventory_counts_distinct Sample.join Sample.envReferences "/app"
                Sample.expressFramework) as H.
  cbv zeta in H. destruct H as (_ & _ & _ & Hothers & _).
  assert (Hv : findEnvVarReferences Sample.join Sample.envReferences "/app"
                 Sample.expressFramework = ["PORT"; "API_KEY"]) by (vm_compute; reflexivity).
  rewrite Hv in Hothers. rewrite Hv. apply Hothers. vm_compute. discriminate.
Defined.

(** The project that uses the database URL gets the pass. *)
Lemma database_pass_requires_url_witness :
  exists found passes,
    checkDatabaseConfig Sample.JSON_parse Sample.join Sample.databaseUrl "/app"
                        Sample.expressFramework = Ok (found, passes)
    /\ passes = [databaseConfigOkPass].
Proof.
  destruct (database_pass_requires_url Sample.JSON_parse Sample.join Sample.databaseUrl
              "/app" Sample.expressFramework ["PostgreSQL"]
              ltac:(vm_compute; reflexivity) ltac:(discriminate))
    as (found & passes & Hc & _ & _ & _ & Hfiles).
  exists found, passes. split; [exact Hc|].
  apply (Hfiles [("db.js", Sample.lines ["const { Client } = require('pg');";
                                         "const db = connect(process.env.DATABASE_URL);"])]).
  - vm_compute. reflexivity.
  - vm_compute. auto.
Defined.

(** A Django project without gunicorn counts two errors at least. *)
Lemma django_gunicorn_reported_twice_witness :
  exists r,
    scanProject Sample.JSON_parse Sample.join Sample.djangoNoGunicorn "/app" = Ok r
    /\ 2 <= errors (summary r).
Proof.
  destruct (scanProject Sample.JSON_parse Sample.join Sample.djangoNoGunicorn "/app")
    as [r|] eqn:E; [|vm_compute in E; discriminate E].
  exists r. split; [reflexivity|].
  destruct (checkDjango Sample.join Sample.djangoNoGunicorn "/app" Sample.djangoFramework)
    as [dr|] eqn:Ed; [|vm_compute in Ed; discriminate Ed].
  destruct (checkStartCommand Sample.JSON_parse Sample.join Sample.djangoNoGunicorn "/app"
              Sample.djangoFramework)
    as [sr|] eqn:Es; [|vm_compute in Es; discriminate Es].
  apply (proj2 (django_gunicorn_reported_twice Sample.JSON_parse Sample.join
                  Sample.djangoNoGunicorn "/app" Sample.djangoFramework dr sr
                  eq_refl Ed Es
                  ltac:(vm_compute in Ed; injection Ed as <-; vm_compute;
                        repeat (first [left; reflexivity | right])))
           r E).
  vm_compute in E. injection E as <-. reflexivity.
Defined.

(** A log message that mentions localhost is reported. *)
Lemma localhost_mention_is_flagged_witness :
  lineHitsLocalhost "console.log('listening on localhost');" = true
  /\ hasIssue "database-localhost"
       (findDatabaseConnectionIssues Sample.join Sample.localhostLog "/app"
          Sample.expressFramework ["PostgreSQL"]) = true.
Proof.
  destruct (localhost_mention_is_flagged Sample.join Sample.localhostLog "/app"
              Sample.expressFramework ["PostgreSQL"]
              [("db.js", Sample.lines ["const { Client } = require('pg');";
                                       "console.log('listening on localhost');"])]
              "db.js"
              (Sample.lines ["const { Client } = require('pg');";
                             "console.log('listening on localhost');"])
              "console.log('listening on localhost');")
    as (Hhit & Hissue & _).
  - vm_compute. reflexivity.
  - left. reflexivity.
  - vm_compute. right. left. reflexivity.
  - vm_compute. reflexivity.
  - split; [exact Hhit|]. apply Hissue. vm_compute. reflexivity.
Defined.

(** The report of the broken Express project on a terminal without
    colours. *)
Lemma report_announces_failure_witness :
  exists r,
    scanProject Sample.JSON_parse Sample.join Sample.expressBroken "/app" = Ok r
    /\ In "[ERROR] Found 3 errors" (formatResults Sample.plain Js.natToString "-----" r false)
    /\ In "Deployment Likelihood: WILL FAIL"
          (formatResults Sample.plain Js.natToString "-----" r false).
Proof.
  destruct (scanProject Sample.JSON_parse Sample.join Sample.expressBroken "/app")
    as [r|] eqn:E; [|vm_compute in E; discriminate E].
  exists r. split; [reflexivity|].
  assert (Hx : exitCode (Ok r) = 1).
  { vm_compute in E. injection E as <-. reflexivity. }
  assert (He : errors (summary r) = 3).
  { vm_compute in E. injection E as <-. reflexivity. }
  destruct (report_announces_failure Sample.JSON_parse Sample.join Sample.plain
              Js.natToString "-----" Sample.expressBroken "/app" r false E Hx)
    as (Hhead & Hverdict & _).
  split; [|exact Hverdict].
  rewrite He in Hhead. exact Hhead.
Defined.

(** The single-file scanner on an empty directory. *)
Lemma legacy_unknown_dead_end_witness :
  Legacy.scanProject Sample.JSON_parse Sample.join Sample.emptyProject "/app"
  = Ok (mkScanResult "/app" Sample.unknownFramework [Legacy.unknownFrameworkIssue]
          [Legacy.unknownFrameworkIssue] [] (mkSummary 1 0 1 0 MightFail))
  /\ exitCode (Legacy.scanProject Sample.JSON_parse Sample.join Sample.emptyProject "/app") = 0.
Proof.
  destruct (legacy_unknown_dead_end Sample.JSON_parse Sample.join Sample.emptyProject "/app"
              Sample.unknownFramework ltac:(vm_compute; reflexivity) eq_refl)
    as (Hscan & Hexit & _).
  split; [exact Hscan | exact Hexit].
Defined.

(** A server that listens on a literal port. *)
Lemma legacy_findings_kept_witness :
  Js.includes "app.listen(3000)" "PORT" = false
  /\ exists v line,
      scanFileForPortIssues "app.listen(3000)" "/app/server.js" Sample.unknownFramework
      = [portHardcodedIssue "/app/server.js" v line].
Proof.
  apply (proj1 (legacy_findings_kept Sample.JSON_parse Sample.listenOnly "/app/server.js"
                  "app.listen(3000)" Sample.unknownFramework
                  (portHardcodedIssue "/app/server.js" (Js.Finite 3000) 1)
                  ltac:(vm_compute; reflexivity))).
  - vm_compute. left. reflexivity.
  - reflexivity.
Defined.

(** The manifest is looked for in the directory of the pages. *)
Lemma manifest_beside_entry_file_witness :
  Legacy.packageJsonBeside "/app/pages/_app.tsx" = "/app/pages/package.json"
  /\ Legacy.packageJsonBeside "_app.tsx" = "package.json"
  /\ Legacy.packageJsonBeside "/app/pages/" = "/app/pages/".
Proof.
  apply (manifest_beside_entry_file "/app/pages" "_app.tsx"); vm_compute; reflexivity.
Defined.

(** A settings text that only sets DEBUG. *)
Lemma django_allowed_hosts_entries_witness :
  allowedHosts (parseDjangoSettings "DEBUG = True") = []
  /\ hasIssue "django-empty-allowed-hosts"
       (fst (djangoAllowedHosts "/app/site/settings.py"
               (allowedHosts (parseDjangoSettings "DEBUG = True")))) = true.
Proof.
  pose proof (django_allowed_hosts_entries "DEBUG = True" "/app/site/settings.py") as H.
  cbv zeta in H. destruct H as (_ & _ & Habsent & _).
  apply Habsent. vm_compute. reflexivity.
Defined.

(** Line 5 of the broken server. *)
Lemma reported_lines_exist_witness :
  1 <= 5 /\ 5 <= List.length (Js.splitLines Sample.brokenServer).
Proof.
  apply (reported_lines_exist Sample.brokenServer "server.js" Sample.expressFramework
           (portHardcodedIssue "server.js" (Js.Finite 3000) 5) 5).
  - left. vm_compute. left. reflexivity.
  - reflexivity.
Defined.

(** The host issue of the broken Express project. *)
Lemma host_issue_sound_witness :
  exists r i,
    checkHostBinding Sample.JSON_parse Sample.join Sample.expressBroken "/app"
                     Sample.expressFramework = (i :: r, [])
    /\ exists listed file code,
        glob Sample.expressBroken
             (mkGlob (sourcePatterns Sample.expressFramework) "/app"
                     (sourceIgnore ++ testIgnore)%list 5) = Some listed
        /\ In file (firstn 50 listed)
        /\ readFileSync Sample.expressBroken (Sample.join "/app" file) = Some code
        /\ issue_file i = Some file
        /\ (hasListenCall code = true \/ hasPythonServerCall code = true)
        /\ hasCorrectBinding code = false
        /\ (issue_severity i = SevError <-> hasLocalhostBinding code = true)
        /\ (issue_severity i = SevWarning <-> hasLocalhostBinding code = false).
Proof.
  destruct (checkHostBinding Sample.JSON_parse Sample.join Sample.expressBroken "/app"
              Sample.expressFramework) as [[|i r] ps] eqn:E;
    [vm_compute in E; discriminate E|].
  assert (Hps : ps = []).
  { vm_compute in E. injection E as _ _ <-. reflexivity. }
  subst ps. exists r, i. split; [reflexivity|].
  apply (host_issue_sound Sample.JSON_parse Sample.join Sample.expressBroken "/app"
           Sample.expressFramework i).
  - rewrite E. left. reflexivity.
  - vm_compute in E. injection E as <- _. reflexivity.
Defined.

(** Express listed in both tables is reported with the version of the
    development table. *)
Lemma framework_version_prefers_dev_witness :
  exists fw,
    detectFramework Sample.JSON_parse Sample.join Sample.expressDevOverride "/app" = Ok fw
    /\ version fw = Some (JStr "^5.0.0").
Proof.
  destruct (detectFramework Sample.JSON_parse Sample.join Sample.expressDevOverride "/app")
    as [fw|] eqn:E; [|vm_compute in E; discriminate E].
  exists fw. split; [reflexivity|].
  pose proof (framework_version_prefers_dev Sample.JSON_parse Sample.join
                Sample.expressDevOverride "/app" fw
                (JObj [("scripts", JObj [("start", JStr "node server.js")]);
                       ("dependencies", JObj [("express", JStr "^4.18.0");
                                              ("pg", JStr "^8.11.0");
                                              ("postgres", JStr "^3.4.0")]);
                       ("devDependencies", JObj [("express", JStr "^5.0.0")])])
                [("express", JStr "^4.18.0"); ("pg", JStr "^8.11.0");
                 ("postgres", JStr "^3.4.0")]
                [("express", JStr "^5.0.0")] E) as H.
  assert (Hname : name fw = express).
  { vm_compute in E. injection E as <-. reflexivity. }
  cbv zeta in H. rewrite Hname in H. apply H.
  - unfold isNode. rewrite Hname. reflexivity.
  - vm_compute. reflexivity.
  - reflexivity.
  - reflexivity.
Defined.

(** The working Express project has the pass of the port check and no
    port issue. *)
Lemma passes_exclude_findings_witness :
  exists r,
    scanProject Sample.JSON_parse Sample.join Sample.expressWorking "/app" = Ok r
    /\ In portCheckPass (passed r)
    /\ hasIssue "port-hardcoded" (issues r) = false
    /\ hasIssue "nextjs-port-flag" (issues r) = false.
Proof.
  destruct (scanProject Sample.JSON_parse Sample.join Sample.expressWorking "/app")
    as [r|] eqn:E; [|vm_compute in E; discriminate E].
  exists r. split; [reflexivity|].
  assert (Hp : In portCheckPass (passed r)).
  { vm_compute in E. injection E as <-. left. reflexivity. }
  split; [exact Hp|].
  exact (proj1 (passes_exclude_findings Sample.JSON_parse Sample.join Sample.expressWorking
                  "/app" r E) Hp).
Defined.

(** A Flask project whose application is in main.py. *)
Lemma python_entry_agrees_witness :
  exists fw,
    detectFramework Sample.JSON_parse Sample.join Sample.flaskMain "/app" = Ok fw
    /\ mainFile fw = Some "main.py"
    /\ findPythonMainFile Sample.join Sample.flaskMain "/app"
         ["app.py"; "main.py"; "wsgi.py"; "application.py"]
       = Some (Sample.join "/app" "main.py").
Proof.
  destruct (detectFramework Sample.JSON_parse Sample.join Sample.flaskMain "/app")
    as [fw|] eqn:E; [|vm_compute in E; discriminate E].
  exists fw. split; [reflexivity|].
  apply (proj1 (python_entry_agrees Sample.JSON_parse Sample.join Sample.flaskMain "/app"
                  fw "main.py" E)).
  - vm_compute in E. injection E as <-. reflexivity.
  - vm_compute. reflexivity.
Defined.

(** Two servers that read a key under two names get the same report, which
    counts the finding on the names among its five checks. *)
Lemma report_counts_info_findings_witness :
  exists r1 r2,
    scanProject Sample.JSON_parse Sample.join Sample.envReferences "/app" = Ok r1
    /\ scanProject Sample.JSON_parse Sample.join Sample.envReferencesRenamed "/app" = Ok r2
    /\ issues r1 <> issues r2
    /\ formatResults Sample.plain Js.natToString "-----" r1 false
       = formatResults Sample.plain Js.natToString "-----" r2 false
    /\ In "  Total checks: 6" (formatResults Sample.plain Js.natToString "-----" r1 false).
Proof.
  destruct (scanProject Sample.JSON_parse Sample.join Sample.envReferences "/app")
    as [r1|] eqn:E1; [|vm_compute in E1; discriminate E1].
  destruct (scanProject Sample.JSON_parse Sample.join Sample.envReferencesRenamed "/app")
    as [r2|] eqn:E2; [|vm_compute in E2; discriminate E2].
  exists r1, r2. split; [reflexivity|]. split; [reflexivity|].
  destruct (report_counts_info_findings Sample.JSON_parse Sample.join Sample.plain
              Js.natToString "-----" Sample.envReferences Sample.envReferencesRenamed
              "/app" "/app" r1 r2 false E1 E2) as (Hsame & Htotal).
  - vm_compute in E1, E2. injection E1 as <-. injection E2 as <-. reflexivity.
  - vm_compute in E1, E2. injection E1 as <-. injection E2 as <-. reflexivity.
  - vm_compute in E1, E2. injection E1 as <-. injection E2 as <-. reflexivity.
  - vm_compute in E1, E2. injection E1 as <-. injection E2 as <-. reflexivity.
  - split; [|split; [exact Hsame|]].
    + vm_compute in E1, E2. injection E1 as <-. injection E2 as <-. discriminate.
    + vm_compute in E1. injection E1 as <-. exact Htotal.
Defined.

End FurtherSamples.

(* ===================================================================== *)
(** ** The port that the port check cites *)
(* ===================================================================== *)

Section CitedPort.

Variable JSON_parse : string -> option Json.
Variable join : string -> string -> string.

#[local] Open Scope string_scope.
#[local] Open Scope list_scope.
#[local] Open Scope nat_scope.

(** A successful run consumes at least [minLen] code units. *)
Lemma run_minLen {R : Type} (ic : bool) (r : Regex.regex) :
  forall (i : nat) (s : string) (c : Regex.caps)
         (k : nat -> string -> Regex.caps -> option R) (x : R),
    Regex.run ic r i s c k = Some x ->
    exists n c', Regex.minLen r <= n /\ k (i + n) (Js.drop n s) c' = Some x.
Proof.
  induction r as [| a | p | r1 IH1 r2 IH2 | r1 IH1 r2 IH2 | r1 IH1 | g r1 IH1 |];
    intros i s c k x H; cbn [Regex.run Regex.minLen] in *.
  - exists 0, c. rewrite Nat.add_0_r. cbn. auto.
  - destruct s as [|b s']; [discriminate|].
    destruct (Regex.chrMatch ic a b); [|discriminate].
    exists 1, c. rewrite Nat.add_1_r. cbn. auto.
  - destruct s as [|b s']; [discriminate|].
    destruct (p b); [|discriminate].
    exists 1, c. rewrite Nat.add_1_r. cbn. auto.
  - apply IH1 in H as (n1 & c1 & Hn1 & H).
    apply IH2 in H as (n2 & c2 & Hn2 & H).
    rewrite drop_drop in H.
    exists (n1 + n2), c2. rewrite Nat.add_assoc. split; [lia|exact H].
  - destruct (Regex.run ic r1 i s c k) as [y|] eqn:E.
    + injection H as <-. apply IH1 in E as (n & c' & Hn & Hk).
      exists n, c'. split; [lia|exact Hk].
    + apply IH2 in H as (n & c' & Hn & Hk).
      exists n, c'. split; [lia|exact Hk].
  - remember (String.length s) as fuel eqn:Hfuel in H. clear Hfuel.
    revert i s c H. induction fuel as [|fuel IHf]; intros i s c H.
    + exists 0, c. rewrite Nat.add_0_r. cbn. auto with arith.
    + match type of H with
      | match ?t with _ => _ end = _ => destruct t as [y|] eqn:E
      end.
      * injection H as <-. apply IH1 in E as (n1 & c1 & Hn1 & E).
        destruct (i <? i + n1); [|discriminate].
        apply IHf in E as (n2 & c2 & Hn2 & E).
        rewrite drop_drop in E.
        exists (n1 + n2), c2. rewrite Nat.add_assoc. split; [lia|exact E].
      * exists 0, c. rewrite Nat.add_0_r. cbn. auto with arith.
  - apply IH1 in H as (n & c' & Hn & Hk).
    exists n. eexists. split; [exact Hn|exact Hk].
  - destruct (i =? 0); [|discriminate].
    exists 0, c. rewrite Nat.add_0_r. cbn. auto.
Qed.

Lemma matchAt_progress (re : Regex.regex) (code : string) (p : nat) (m : Regex.Match) :
  0 < Regex.minLen re ->
  Regex.matchAt false re code p = Some m -> p < Regex.m_end m.
Proof.
  intros Hmin. unfold Regex.matchAt.
  destruct (p <=? String.length code); [|discriminate].
  unfold Regex.matchHere. intros H.
  apply run_minLen in H as (n & c' & Hn & H). injection H as <-. cbn. lia.
Qed.

Lemma find_split {A : Type} (f : A -> bool) (l : list A) (x : A) :
  find f l = Some x ->
  exists pre post, l = pre ++ x :: post /\ (forall y, In y pre -> f y = false) /\ f x = true.
Proof.
  induction l as [|a l IH]; cbn [find]; [discriminate|].
  destruct (f a) eqn:Ea.
  - intros H. injection H as <-. exists [], l. split; [reflexivity|]. split; [intros y []|exact Ea].
  - intros H. apply IH in H as (pre & post & -> & Hpre & Hx).
    exists (a :: pre), post. split; [reflexivity|]. split; [|exact Hx].
    intros y [<-|Hy]; [exact Ea|apply Hpre, Hy].
Qed.

Lemma find_first {A : Type} (f : A -> bool) (pre post : list A) (x : A) :
  (forall y, In y pre -> f y = false) -> f x = true -> find f (pre ++ x :: post) = Some x.
Proof.
  intros Hpre Hx. induction pre as [|a pre IH]; cbn [app find].
  - now rewrite Hx.
  - rewrite (Hpre a (or_introl eq_refl)). apply IH. intros y Hy. apply Hpre. now right.
Qed.

Lemma find_all_false {A : Type} (f : A -> bool) (l : list A) :
  (forall y, In y l -> f y = false) -> find f l = None.
Proof.
  induction l as [|a l IH]; intros H; cbn [find]; [reflexivity|].
  rewrite (H a (or_introl eq_refl)). apply IH. intros y Hy. apply H. now right.
Qed.

(** The loop of the port check breaks at the first of the successive
    matches that holds a number of at least 1000. *)
Lemma literalLoop_find (re : Regex.regex) (g : nat) (code : string) :
  0 < Regex.minLen re ->
  forall fuel L,
    literalLoop fuel re g true code L
    = match find (holdsPort g) (Regex.matchAllFrom fuel false re code L) with
      | Some m =>
        match literalValue g m with
        | Some v => Some (v, lineOfIndex code (Regex.m_index m))
        | None => None
        end
      | None => None
      end.
Proof.
  intros Hmin. induction fuel as [|fuel IH]; intros L; cbn [literalLoop Regex.matchAllFrom find];
    [reflexivity|].
  destruct (Regex.exec false re code L) as [m|] eqn:E; [|reflexivity].
  destruct (exec_some _ _ _ _ _ E) as (_ & Hm & _).
  pose proof (matchAt_progress _ _ _ _ Hmin Hm) as Hp.
  destruct (Nat.eqb_spec (Regex.m_end m) (Regex.m_index m)) as [Heq|_]; [lia|].
  cbn [find]. unfold holdsPort at 1.
  destruct (literalValue g m) as [v|] eqn:Ev; [|apply IH].
  destruct (Js.geN v 1000); cbn [andb]; [|apply IH].
  rewrite Ev. reflexivity.
Qed.

Lemma literalScan_first (re : Regex.regex) (g : nat) (code : string) (p : nat) (v : Js.num) :
  0 < Regex.minLen re ->
  firstHardcoded re g code p v ->
  literalScan re g true code = Some (v, lineOfIndex code p).
Proof.
  intros Hmin (pre & m & post & Hall & Hpre & Hp & Hv & Hge).
  unfold literalScan. rewrite (literalLoop_find re g code Hmin).
  fold (Regex.matchAll false re code). rewrite Hall.
  rewrite (find_first (holdsPort g) pre post m Hpre).
  - rewrite Hv, Hp. reflexivity.
  - unfold holdsPort. now rewrite Hv.
Qed.

Lemma literalScan_noneHardcoded (re : Regex.regex) (g : nat) (code : string) :
  0 < Regex.minLen re ->
  noneHardcoded re g code -> literalScan re g true code = None.
Proof.
  intros Hmin Hnone. unfold literalScan. rewrite (literalLoop_find re g code Hmin).
  fold (Regex.matchAll false re code). now rewrite (find_all_false _ _ Hnone).
Qed.

(** Either some successive match holds such a number, and then there is a
    first one, or none does. *)
Lemma firstHardcoded_or_none (re : Regex.regex) (g : nat) (code : string) :
  (exists p v, firstHardcoded re g code p v) \/ noneHardcoded re g code.
Proof.
  destruct (find (holdsPort g) (Regex.matchAll false re code)) as [m|] eqn:E.
  - left. apply find_split in E as (pre & post & Hall & Hpre & Hm).
    unfold holdsPort in Hm. destruct (literalValue g m) as [v|] eqn:Ev; [|discriminate].
    exists (Regex.m_index m), v, pre, m, post. auto.
  - right. intros m Hm. exact (find_none _ _ E m Hm).
Qed.

Lemma firstHardcoded_at (re : Regex.regex) (g : nat) (code : string) (p : nat) (v : Js.num) :
  firstHardcoded re g code p v -> hardcodedAt re g code p v.
Proof.
  intros (pre & m & post & Hall & _ & Hp & Hv & Hge).
  exists m. split; [|auto]. rewrite <- Hp. apply matchAll_In. rewrite Hall.
  apply in_or_app. right. left. reflexivity.
Qed.

Lemma portVar_minLen : 0 < Regex.minLen portVarRegex.
Proof. vm_compute. lia. Qed.

Lemma pythonPort_minLen : 0 < Regex.minLen pythonPortRegex.
Proof. vm_compute. lia. Qed.

(** C4.  For a file in which a [.listen(] call takes a numeric literal
    of at least 1000: with one of the recognised references to the PORT
    environment variable the file yields no issue; without one it yields
    exactly one port-hardcoded error, and the port-hardcoded issues that
    the check reports on a scanned file are those of the scan of that
    file.  The error cites the number that [parseInt] reads from the digits
    of one literal of at least 1000 of the file, the decimal numeral of
    their value when that is below 2^53, and the line of that literal.
    The literal is the first of the successive matches of the Python run
    call that holds such a number; when no such match exists, the first
    such match of the port variable assignment; when that does not exist
    either, the leftmost [.listen(] literal of at least 1000, which is the
    literal of the hypothesis when none stands before it. *)
Theorem port_hardcoded_listen (w : World) (path : string) (code file : string)
        (fw : Framework) (p : nat) (ds0 : string) :
  digitsAt listenCallRegex 1 code p ds0 ->
  (1000 <= Js.parseDigits 0 ds0)%N ->
  (forall files,
      scannedFiles join w path fw (sourceIgnore ++ testIgnore)%list 50 = Some files ->
      NoDup (map fst files) -> In (file, code) files ->
      filter (reportsOn "port-hardcoded" file)
             (fst (checkPortUsage JSON_parse join w path fw))
      = scanFileForPortIssues code file fw)
  /\ (hasPortEnvVar code = true -> scanFileForPortIssues code file fw = [])
  /\ (hasPortEnvVar code = false ->
      exists q ds,
        let cited := portHardcodedIssue file (Js.parseInt ds) (lineOfIndex code q) in
        scanFileForPortIssues code file fw = [cited]
        /\ issue_severity cited = SevError
        /\ issue_message cited
           = ("Hardcoded port " ++ Js.numToString (Js.parseInt ds)
                ++ ". Railway requires process.env.PORT")%string
        /\ ((Js.parseDigits 0 ds < 2 ^ 53)%N ->
            issue_message cited
            = ("Hardcoded port " ++ Js.decimal (Js.parseDigits 0 ds)
                 ++ ". Railway requires process.env.PORT")%string)
        /\ (1000 <= Js.parseDigits 0 ds)%N
        /\ ((firstHardcoded pythonPortRegex 1 code q (Js.parseInt ds)
             /\ digitsAt pythonPortRegex 1 code q ds)
            \/ (noneHardcoded pythonPortRegex 1 code
                /\ firstHardcoded portVarRegex 2 code q (Js.parseInt ds)
                /\ digitsAt portVarRegex 2 code q ds)
            \/ (noneHardcoded pythonPortRegex 1 code
                /\ noneHardcoded portVarRegex 2 code
                /\ q <= p
                /\ digitsAt listenCallRegex 1 code q ds
                /\ (forall q' ds', q' < q -> digitsAt listenCallRegex 1 code q' ds' ->
                                   (Js.parseDigits 0 ds' < 1000)%N)
                /\ ((forall q' ds', q' < p -> digitsAt listenCallRegex 1 code q' ds' ->
                                    (Js.parseDigits 0 ds' < 1000)%N) ->
                    q = p /\ ds = ds0)))).
Proof.
  intros Hd0 Hge0.
  assert (Hh : hardcodedAt listenCallRegex 1 code p (Js.parseInt ds0)).
  { apply hardcodedAt_value. exists ds0. auto. }
  split; [|split].
  - intros files Hf Hnd Hin.
    rewrite (checkPortUsage_for_file JSON_parse join w path fw files file code Hf Hnd Hin).
    apply filter_all. intros i Hi. unfold reportsOn.
    rewrite (port_issue_file _ _ _ _ Hi), String.eqb_refl, andb_true_r.
    unfold scanFileForPortIssues in Hi.
    destruct (hardcodedPort code) as [[v' line]|]; [|destruct Hi].
    destruct (negb (hasPortEnvVar code)); [|destruct Hi].
    destruct Hi as [<-|[]]. reflexivity.
  - intros He. unfold scanFileForPortIssues. rewrite He.
    destruct (hardcodedPort code) as [[v' line]|]; reflexivity.
  - intros He.
    assert (Hcase : exists q v',
               hardcodedPort code = Some (v', lineOfIndex code q)
               /\ ((firstHardcoded pythonPortRegex 1 code q v'
                    /\ hardcodedAt pythonPortRegex 1 code q v')
                   \/ (noneHardcoded pythonPortRegex 1 code
                       /\ firstHardcoded portVarRegex 2 code q v'
                       /\ hardcodedAt portVarRegex 2 code q v')
                   \/ (noneHardcoded pythonPortRegex 1 code
                       /\ noneHardcoded portVarRegex 2 code
                       /\ q <= p
                       /\ hardcodedAt listenCallRegex 1 code q v'
                       /\ (forall q' u, q' < q -> ~ hardcodedAt listenCallRegex 1 code q' u)))).
    { unfold hardcodedPort. rewrite He. cbn [negb].
      destruct (firstHardcoded_or_none pythonPortRegex 1 code) as [(q & u & Hpy)|Hpy].
      - exists q, u. rewrite (literalScan_first _ _ _ _ _ pythonPort_minLen Hpy).
        cbn [orElse]. split; [reflexivity|].
        pose proof (firstHardcoded_at _ _ _ _ _ Hpy) as Hat. left. auto.
      - rewrite (literalScan_noneHardcoded _ _ _ pythonPort_minLen Hpy). cbn [orElse].
        destruct (firstHardcoded_or_none portVarRegex 2 code) as [(q & u & Hpv)|Hpv].
        + exists q, u. rewrite (literalScan_first _ _ _ _ _ portVar_minLen Hpv).
          cbn [orElse]. split; [reflexivity|].
          pose proof (firstHardcoded_at _ _ _ _ _ Hpv) as Hat. right. left. auto.
        + rewrite (literalScan_noneHardcoded _ _ _ portVar_minLen Hpv). cbn [orElse].
          destruct (literalLoop_leftmost listenCallRegex 1 code (listen_progress code)
                      (listen_no_overlap code) (S (String.length code)) 0 p
                      (Js.parseInt ds0) ltac:(lia) Hh ltac:(lia))
            as (p' & v0 & _ & Hp' & Hh0 & Hleft & Hloop).
          fold (literalScan listenCallRegex 1 true code) in Hloop.
          exists p', v0. split; [exact Hloop|]. right. right.
          repeat split; auto. intros q' u Hq'. apply Hleft; lia. }
    destruct Hcase as (q & v' & Hport & Hcase).
    assert (Hds : exists ds,
               v' = Js.parseInt ds /\ (1000 <= Js.parseDigits 0 ds)%N
               /\ ((firstHardcoded pythonPortRegex 1 code q v'
                    /\ digitsAt pythonPortRegex 1 code q ds)
                   \/ (noneHardcoded pythonPortRegex 1 code
                       /\ firstHardcoded portVarRegex 2 code q v'
                       /\ digitsAt portVarRegex 2 code q ds)
                   \/ (noneHardcoded pythonPortRegex 1 code
                       /\ noneHardcoded portVarRegex 2 code
                       /\ q <= p
                       /\ digitsAt listenCallRegex 1 code q ds
                       /\ (forall q' u, q' < q ->
                                        ~ hardcodedAt listenCallRegex 1 code q' u)))).
    { destruct Hcase as [(Hf & Hat)|[(Hn & Hf & Hat)|(Hn1 & Hn2 & Hq & Hat & Hleft)]];
        apply hardcodedAt_value in Hat as (ds & Hd & -> & Hge);
        exists ds; (split; [reflexivity|]); (split; [exact Hge|]); auto 10. }
    destruct Hds as (ds & -> & Hge & Hcase').
    assert (Hgeb : Js.geN (Js.parseInt ds) 1000 = true).
    { rewrite parseInt_ge_1000. now apply N.leb_le. }
    assert (Hlow : forall q0, (forall q' u, q' < q0 -> ~ hardcodedAt listenCallRegex 1 code q' u)
                              <-> (forall q' ds', q' < q0 ->
                                      digitsAt listenCallRegex 1 code q' ds' ->
                                      (Js.parseDigits 0 ds' < 1000)%N)).
    { intros q0. split.
      - intros H q' ds' Hq' Hd'.
        destruct (N.lt_ge_cases (Js.parseDigits 0 ds') 1000) as [|Hbig]; [assumption|].
        exfalso. apply (H q' (Js.parseInt ds') Hq'). apply hardcodedAt_value.
        exists ds'. auto.
      - intros H q' u Hq' Hat. apply hardcodedAt_value in Hat as (ds' & Hd' & _ & Hbig).
        specialize (H q' ds' Hq' Hd'). lia. }
    exists q, ds. cbn zeta. unfold scanFileForPortIssues. rewrite Hport, He. cbn [negb].
    split; [reflexivity|]. split; [reflexivity|].
    split; [apply port_message, Hgeb|].
    split.
    { intros Hsafe. rewrite (port_message _ _ _ Hgeb), (parseInt_safe ds Hsafe). reflexivity. }
    split; [exact Hge|].
    destruct Hcase' as [H|[H|(Hn1 & Hn2 & Hq & Hd & Hleft)]];
      [left; exact H|right; left; exact H|].
    right. right.
    split; [exact Hn1|]. split; [exact Hn2|]. split; [exact Hq|]. split; [exact Hd|].
    split; [apply (proj1 (Hlow q)); exact Hleft|].
    intros Hfirst. pose proof (proj2 (Hlow p) Hfirst) as Hfirst'.
    clear Hfirst. rename Hfirst' into Hfirst.
    assert (q = p).
    { destruct (Nat.eq_dec q p) as [|Hne]; [assumption|].
      exfalso. apply (Hfirst q (Js.parseInt ds)); [lia|].
      apply hardcodedAt_value. exists ds. auto. }
    subst q. split; [reflexivity|]. exact (digitsAt_unique _ _ _ _ _ _ Hd Hd0).
Qed.

End CitedPort.

(** A literal above 2^53 is cited as the double that [parseInt] reads, a
    literal of 22 digits in exponent form. *)
Example port_rounded_literal :
  map issue_message
      (scanFileForPortIssues "server.listen(9007199254740993)" "server.js"
         Sample.unknownFramework)
  = ["Hardcoded port 9007199254740992. Railway requires process.env.PORT"]
  /\ map issue_message
         (scanFileForPortIssues "server.listen(1000000000000000000000)" "server.js"
            Sample.unknownFramework)
     = ["Hardcoded port 1e+21. Railway requires process.env.PORT"].
Proof. split; vm_compute; reflexivity. Qed.

Lemma listen_digits_3000 : digitsAt listenCallRegex 1 "app.listen(3000)" 3 "3000".
Proof.
  eexists. split; [vm_compute; reflexivity|]. split; vm_compute; reflexivity.
Defined.

Lemma twoLiterals_digits : digitsAt listenCallRegex 1 Sample.twoLiterals 22 "3000".
Proof.
  eexists. split; [vm_compute; reflexivity|]. split; vm_compute; reflexivity.
Defined.

Lemma no_earlier_digits (q0 : nat) (ds : string) :
  q0 < 3 -> digitsAt listenCallRegex 1 "app.listen(3000)" q0 ds ->
  (Js.parseDigits 0 ds < 1000)%N.
Proof.
  intros Hq (m & Hm & _).
  do 3 (destruct q0 as [|q0]; [vm_compute in Hm; discriminate Hm|]).
  lia.
Qed.

(** [app.listen(3000)] alone yields one error that cites 3000 on line 1,
    and that is what the check reports on the file; behind
    [const port = 4000;] the error of the same call cites 4000. *)
Lemma port_hardcoded_listen_witness :
  hasPortEnvVar "app.listen(3000)" = false
  /\ scanFileForPortIssues "app.listen(3000)" "server.js" Sample.unknownFramework
     = [portHardcodedIssue "server.js" (Js.Finite 3000) 1]
  /\ issue_message (portHardcodedIssue "server.js" (Js.Finite 3000) 1)
     = "Hardcoded port 3000. Railway requires process.env.PORT"
  /\ filter (reportsOn "port-hardcoded" "server.js")
            (fst (checkPortUsage Sample.JSON_parse Sample.join Sample.listenOnly "/app"
                    Sample.unknownFramework))
     = scanFileForPortIssues "app.listen(3000)" "server.js" Sample.unknownFramework
  /\ scanFileForPortIssues Sample.twoLiterals "server.js" Sample.unknownFramework
     = [portHardcodedIssue "server.js" (Js.Finite 4000) 1].
Proof.
  split; [vm_compute; reflexivity|].
  destruct (port_hardcoded_listen Sample.JSON_parse Sample.join Sample.listenOnly "/app"
              "app.listen(3000)" "server.js" Sample.unknownFramework
              3 "3000" listen_digits_3000 ltac:(vm_compute; discriminate))
    as (Hcheck & _ & H).
  destruct (H ltac:(vm_compute; reflexivity)) as (q & ds & Hs & _ & _ & _ & _ & Hcase).
  destruct (port_hardcoded_listen Sample.JSON_parse Sample.join Sample.listenOnly "/app"
              Sample.twoLiterals "server.js" Sample.unknownFramework
              22 "3000" twoLiterals_digits ltac:(vm_compute; discriminate))
    as (_ & _ & H2).
  destruct (H2 ltac:(vm_compute; reflexivity))
    as (q2 & ds2 & Hs2 & _ & _ & _ & _ & Hcase2).
  assert (H1 : q = 3 /\ ds = "3000").
  { destruct Hcase as [((pre & m & post & Hall & _) & _)
                      |[(_ & (pre & m & post & Hall & _) & _)
                       |(_ & _ & _ & _ & _ & Hfirst)]].
    - vm_compute in Hall. destruct pre; discriminate Hall.
    - vm_compute in Hall. destruct pre; discriminate Hall.
    - apply Hfirst. exact no_earlier_digits. }
  destruct H1 as (-> & ->).
  change (Js.parseInt "3000") with (Js.Finite 3000) in Hs.
  assert (H4 : q2 = 0 /\ Js.parseInt ds2 = Js.Finite 4000).
  { remember (Js.parseInt ds2) as v2 eqn:Ev2. clear Ev2 Hs2.
    destruct Hcase2 as [((pre & m & post & Hall & _) & _)
                       |[(_ & (pre & m & post & Hall & _ & Hq & Hv2 & _) & _)
                        |(_ & Hnone & _)]].
    - vm_compute in Hall. destruct pre; discriminate Hall.
    - vm_compute in Hall. destruct pre as [|m0 pre].
      + injection Hall as <- _. vm_compute in Hq, Hv2. injection Hv2 as <-. auto.
      + injection Hall as _ Hall. destruct pre; discriminate Hall.
    - specialize (Hnone (Regex.mkMatch 0 17 [(2, "4000"); (1, "port")])).
      assert (Hin : In (Regex.mkMatch 0 17 [(2, "4000"); (1, "port")])
                       (Regex.matchAll false portVarRegex Sample.twoLiterals)).
      { vm_compute. left. reflexivity. }
      apply Hnone in Hin. vm_compute in Hin. discriminate Hin. }
  destruct H4 as (-> & Hv2). rewrite Hv2 in Hs2.
  split; [exact Hs|]. split; [reflexivity|]. split; [|exact Hs2].
  apply (Hcheck [("server.js", "app.listen(3000)")]).
  - vm_compute. reflexivity.
  - repeat constructor. intros [].
  - left. reflexivity.
Defined.

(* ===================================================================== *)
(** ** The scan of connection strings *)
(* ===================================================================== *)

(** With the [i] flag a lower-case letter of [localhost] matches the code
    units that [toLowerCase] sends to it. *)
Lemma chrMatch_letter (a b : ascii) :
  In a (list_ascii_of_string "localhost") ->
  Regex.chrMatch true a b = (Ascii.eqb (Js.lowerChar b) a).
Proof.
  cbn [list_ascii_of_string In].
  intros [<-|[<-|[<-|[<-|[<-|[<-|[<-|[<-|[<-|[]]]]]]]]]];
    destruct b as [[] [] [] [] [] [] [] []]; vm_compute; reflexivity.
Qed.

(** With or without the flag a code unit of [127.0.0.1] matches itself
    only. *)
Lemma chrMatch_digit (ic : bool) (a b : ascii) :
  In a (list_ascii_of_string "127.0.0.1") ->
  Regex.chrMatch ic a b = Ascii.eqb b a.
Proof.
  cbn [list_ascii_of_string In].
  intros [<-|[<-|[<-|[<-|[<-|[<-|[<-|[<-|[<-|[]]]]]]]]]];
    destruct ic; destruct b as [[] [] [] [] [] [] [] []]; vm_compute; reflexivity.
Qed.

Lemma run_seq {R : Type} (ic : bool) (r1 r2 : Regex.regex) (i : nat) (s : string)
      (c : Regex.caps) (k : nat -> string -> Regex.caps -> option R) :
  Regex.run ic (Regex.Seq r1 r2) i s c k
  = Regex.run ic r1 i s c (fun i' s' c' => Regex.run ic r2 i' s' c' k).
Proof. reflexivity. Qed.

(** A literal whose code units match up to [f] matches the strings that
    [f] sends to it. *)
Lemma run_lit_upto {R : Type} (ic : bool) (f : ascii -> ascii) (lit : string) :
  (forall a b, In a (list_ascii_of_string lit) -> Regex.chrMatch ic a b = Ascii.eqb (f b) a) ->
  forall (i : nat) (s : string) (c : Regex.caps)
         (k : nat -> string -> Regex.caps -> option R) (x : R),
    Regex.run ic (Regex.Lit lit) i s c k = Some x <->
    exists mid rest,
      s = (mid ++ rest)%string
      /\ list_ascii_of_string lit = map f (list_ascii_of_string mid)
      /\ k (i + String.length lit) rest c = Some x.
Proof.
  induction lit as [|a lit IH]; intros Hf i s c k x.
  - cbn [Regex.Lit Regex.run String.length list_ascii_of_string]. rewrite Nat.add_0_r. split.
    + intros H. exists EmptyString, s. auto.
    + intros (mid & rest & -> & Hm & H). destruct mid; [exact H|discriminate Hm].
  - cbn [Regex.Lit Regex.run String.length list_ascii_of_string].
    assert (Hf' : forall a0 b, In a0 (list_ascii_of_string lit) ->
                               Regex.chrMatch ic a0 b = Ascii.eqb (f b) a0).
    { intros a0 b Ha. apply Hf. cbn [list_ascii_of_string]. now right. }
    split.
    + destruct s as [|b s']; [discriminate|].
      rewrite (Hf a b) by (cbn [list_ascii_of_string]; now left).
      destruct (Ascii.eqb_spec (f b) a) as [Hb|]; [|discriminate].
      intros H. apply (IH Hf') in H as (mid & rest & -> & Hm & H).
      exists (String b mid), rest. cbn [String.append list_ascii_of_string map].
      rewrite Hb, Hm, <- Nat.add_succ_comm. auto.
    + intros (mid & rest & -> & Hm & H). destruct mid as [|b mid]; [discriminate Hm|].
      cbn [String.append list_ascii_of_string map] in *. injection Hm as Hb Hm.
      rewrite (Hf a b) by (cbn [list_ascii_of_string]; now left).
      rewrite <- Hb, Ascii.eqb_refl. apply (IH Hf'). exists mid, rest.
      rewrite Nat.add_succ_comm. auto.
Qed.

Lemma toLowerCase_list (s : string) :
  list_ascii_of_string (Js.toLowerCase s) = map Js.lowerChar (list_ascii_of_string s).
Proof. induction s as [|a s IH]; cbn; [reflexivity|now rewrite IH]. Qed.

Lemma list_ascii_inj (s t : string) :
  list_ascii_of_string s = list_ascii_of_string t -> s = t.
Proof.
  intros H. rewrite <- (string_of_list_ascii_of_string s), <- (string_of_list_ascii_of_string t).
  now rewrite H.
Qed.

Lemma map_id_list (l : list ascii) : map (fun b => b) l = l.
Proof. induction l as [|a l IH]; cbn; [reflexivity|now rewrite IH]. Qed.

Lemma take_drop (n : nat) (s : string) : s = (Js.take n s ++ Js.drop n s)%string.
Proof.
  revert s; induction n as [|n IH]; intros s; cbn [Js.take Js.drop String.append]; [reflexivity|].
  destruct s as [|a s]; [reflexivity|]. cbn [String.append]. now rewrite <- IH.
Qed.

(** The rest of a sequence runs where its head left off. *)
Lemma run_seq_tail {R : Type} (ic : bool) (r1 r2 : Regex.regex) (i : nat) (s : string)
      (c : Regex.caps) (k : nat -> string -> Regex.caps -> option R) (x : R) :
  Regex.run ic (Regex.Seq r1 r2) i s c k = Some x ->
  exists n c', Regex.run ic r2 (i + n) (Js.drop n s) c' k = Some x.
Proof.
  rewrite run_seq. intros H. apply run_consumes in H as (n & c' & _ & H & _). eauto.
Qed.

Lemma toLowerCase_split (s a b : string) :
  Js.toLowerCase s = (a ++ b)%string ->
  exists s1 s2, s = (s1 ++ s2)%string /\ Js.toLowerCase s1 = a /\ Js.toLowerCase s2 = b.
Proof.
  revert s; induction a as [|x a IH]; intros s H.
  - exists EmptyString, s. auto.
  - destruct s as [|y s]; [discriminate H|]. cbn [Js.toLowerCase String.append] in H.
    injection H as Hx H. apply IH in H as (s1 & s2 & -> & H1 & H2).
    exists (String y s1), s2. cbn [Js.toLowerCase String.append]. rewrite Hx, H1. auto.
Qed.


Lemma test_inv (ic : bool) (r : Regex.regex) (line : string) :
  Regex.test ic r line = true ->
  exists j m, Regex.matchHere ic r j (Js.drop j line) = Some m.
Proof.
  unfold Regex.test, Regex.exec. cbn [Nat.leb Js.drop].
  destruct (Regex.searchFrom ic r 0 line) as [m|] eqn:E; [|discriminate]. intros _.
  apply searchFrom_spec in E as (j & _ & Hm & _). exists j, m. exact Hm.
Qed.

(** Where the literal [localhost] matches under the [i] flag the line
    holds the word in some letter case. *)
Lemma localhost_found {R : Type} (r : Regex.regex) (i n : nat) (line : string)
      (c : Regex.caps) (k : nat -> string -> Regex.caps -> option R) (x : R) :
  Regex.run true (Regex.Seq (Regex.Lit "localhost") r) i (Js.drop n line) c k = Some x ->
  Js.includes (Js.toLowerCase line) "localhost" = true.
Proof.
  rewrite run_seq. intros H.
  apply (run_lit_upto true Js.lowerChar "localhost"
           (fun a b Ha => chrMatch_letter a b Ha)) in H as (mid & rest & Hd & Hm & _).
  rewrite <- toLowerCase_list in Hm. apply list_ascii_inj in Hm.
  apply includes_iff. exists (Js.toLowerCase (Js.take n line)), (Js.toLowerCase rest).
  rewrite (take_drop n line) at 1. rewrite Hd, !toLowerCase_app, <- Hm. reflexivity.
Qed.

(** Where the literal [127.0.0.1] matches the line holds it. *)
Lemma loopback_found {R : Type} (ic : bool) (r : Regex.regex) (i n : nat) (line : string)
      (c : Regex.caps) (k : nat -> string -> Regex.caps -> option R) (x : R) :
  Regex.run ic (Regex.Seq (Regex.Lit "127.0.0.1") r) i (Js.drop n line) c k = Some x ->
  Js.includes line "127.0.0.1" = true.
Proof.
  rewrite run_seq. intros H.
  apply (run_lit_upto ic (fun b => b) "127.0.0.1"
           (fun a b Ha => chrMatch_digit ic a b Ha)) in H as (mid & rest & Hd & Hm & _).
  rewrite map_id_list in Hm. apply list_ascii_inj in Hm.
  apply includes_iff. exists (Js.take n line), rest.
  rewrite (take_drop n line) at 1. rewrite Hd, <- Hm. reflexivity.
Qed.

Lemma optional_total {R : Type} (ic : bool) (r : Regex.regex) (i : nat) (s : string)
      (c : Regex.caps) (k : nat -> string -> Regex.caps -> option R) :
  (exists x, k i s c = Some x) ->
  exists x, Regex.run ic (Regex.Opt r) i s c k = Some x.
Proof.
  intros (x & Hx). unfold Regex.Opt. cbn [Regex.run].
  destruct (Regex.run ic r i s c k) as [y|]; [eauto|]. rewrite Hx. eauto.
Qed.

(** An optional quote, a literal that matches up to [f], an optional
    quote: the expression matches wherever the literal stands. *)
Lemma quoted_literal_test (ic : bool) (f : ascii -> ascii) (lit line pre mid rest : string) :
  (forall a b, In a (list_ascii_of_string lit) -> Regex.chrMatch ic a b = Ascii.eqb (f b) a) ->
  line = (pre ++ mid ++ rest)%string ->
  list_ascii_of_string lit = map f (list_ascii_of_string mid) ->
  Regex.test ic (Regex.Seqs [Regex.Opt quoteChar; Regex.Lit lit; Regex.Opt quoteChar]) line
  = true.
Proof.
  intros Hf -> Hm.
  apply (test_of_matchHere ic _ _ pre (mid ++ rest) eq_refl).
  unfold Regex.matchHere. cbn [Regex.Seqs]. rewrite run_seq.
  assert (Hlit : exists m,
             Regex.run ic (Regex.Seq (Regex.Lit lit) (Regex.Opt quoteChar))
                       (String.length pre) (mid ++ rest) []
                       (fun e _ c => Some (Regex.mkMatch (String.length pre) e c)) = Some m).
  { rewrite run_seq.
    destruct (optional_total ic quoteChar (String.length pre + String.length lit) rest []
                (fun e _ c => Some (Regex.mkMatch (String.length pre) e c))
                ltac:(eauto)) as (m & Hm').
    exists m. apply (run_lit_upto ic f lit Hf). exists mid, rest. auto. }
  destruct Hlit as (m & Hlit).
  unfold Regex.Opt at 1. cbn [Regex.run].
  match goal with |- exists m0, match ?t with _ => _ end = _ => destruct t as [y|] end;
    [eauto|].
  exists m. exact Hlit.
Qed.


(** Some expression of [localhostPatterns] matches a line exactly when
    the line holds [localhost] in some letter case or [127.0.0.1]. *)
Lemma localhostPatterns_iff (line : string) :
  existsb (fun p => Regex.test (fst p) (snd p) line) localhostPatterns = true
  <-> Js.includes (Js.toLowerCase line) "localhost" = true
      \/ Js.includes line "127.0.0.1" = true.
Proof.
  unfold localhostPatterns. cbn [existsb fst snd]. rewrite !orb_true_iff. split.
  - intros [H|[H|[H|[H|H]]]]; [| | | |discriminate H];
      apply test_inv in H as (j & m & H); unfold Regex.matchHere in H; cbn [Regex.Seqs] in H.
    + left. apply run_seq_tail in H as (n & c' & H). rewrite drop_drop in H.
      eapply localhost_found. exact H.
    + right. apply run_seq_tail in H as (n & c' & H). rewrite drop_drop in H.
      eapply loopback_found. exact H.
    + left. do 5 (apply run_seq_tail in H as (? & ? & H); rewrite drop_drop in H).
      eapply localhost_found. exact H.
    + right. do 5 (apply run_seq_tail in H as (? & ? & H); rewrite drop_drop in H).
      eapply loopback_found. exact H.
  - intros [H|H].
    + left. apply includes_iff in H as (pre' & post' & H).
      apply toLowerCase_split in H as (pre & tail & -> & _ & H).
      apply toLowerCase_split in H as (mid & rest & -> & Hm & _).
      apply (quoted_literal_test true Js.lowerChar "localhost" _ pre mid rest
               (fun a b Ha => chrMatch_letter a b Ha) eq_refl).
      rewrite <- toLowerCase_list, Hm. reflexivity.
    + right. left. apply includes_iff in H as (pre & post & ->).
      apply (quoted_literal_test false (fun b => b) "127.0.0.1" _ pre "127.0.0.1" post
               (fun a b Ha => chrMatch_digit false a b Ha) eq_refl).
      now rewrite map_id_list.
Qed.

Lemma existsb_and {A : Type} (t : A -> bool) (kw : bool) (l : list A) :
  existsb (fun p => t p && kw) l = existsb t l && kw.
Proof.
  induction l as [|p l IH]; cbn [existsb]; [reflexivity|].
  rewrite IH. destruct (t p), kw, (existsb t l); reflexivity.
Qed.

(** What the scan takes for a database connection to localhost: a line
    that holds [localhost] in some letter case or [127.0.0.1], and one of
    the four keywords. *)
Lemma lineHitsLocalhost_iff (line : string) :
  lineHitsLocalhost line = true
  <-> (Js.includes (Js.toLowerCase line) "localhost" = true
       \/ Js.includes line "127.0.0.1" = true)
      /\ (Js.includes line "connect" = true \/ Js.includes line "host" = true
          \/ Js.includes line "DATABASES" = true
          \/ Js.includes line "createConnection" = true).
Proof.
  rewrite <- localhostPatterns_iff. unfold lineHitsLocalhost, hasConnectionKeyword.
  rewrite existsb_and, andb_true_iff, !orb_true_iff. tauto.
Qed.


Lemma fileHitsLocalhost_iff (files : list (string * string)) :
  existsb fileHitsLocalhost files = true
  <-> exists file content line,
        In (file, content) files /\ In line (Js.splitLines content)
        /\ (Js.includes (Js.toLowerCase line) "localhost" = true
            \/ Js.includes line "127.0.0.1" = true)
        /\ (Js.includes line "connect" = true \/ Js.includes line "host" = true
            \/ Js.includes line "DATABASES" = true
            \/ Js.includes line "createConnection" = true).
Proof.
  rewrite existsb_exists. split.
  - intros ([file content] & Hin & H). unfold fileHitsLocalhost in H. cbn [snd] in H.
    apply existsb_exists in H as (line & Hl & H). apply lineHitsLocalhost_iff in H as (H1 & H2).
    exists file, content, line. auto.
  - intros (file & content & line & Hin & Hl & H1 & H2). exists (file, content).
    split; [exact Hin|]. unfold fileHitsLocalhost. cbn [snd].
    apply existsb_exists. exists line. split; [exact Hl|].
    apply lineHitsLocalhost_iff. auto.
Qed.

Lemma refsDatabaseUrl_iff (files : list (string * string)) :
  existsb (fun fc => refsDatabaseUrl (snd fc)) files = true
  <-> exists file content,
        In (file, content) files
        /\ (Js.includes content "DATABASE_URL" = true
            \/ Js.includes content "database_url" = true).
Proof.
  rewrite existsb_exists. unfold refsDatabaseUrl. split.
  - intros ([file content] & Hin & H). cbn [snd] in H. apply orb_true_iff in H.
    exists file, content. auto.
  - intros (file & content & Hin & H). exists (file, content). cbn [snd].
    split; [exact Hin|]. apply orb_true_iff. exact H.
Qed.

Lemma refsSocket_iff (files : list (string * string)) :
  existsb (fun fc => refsSocket (snd fc)) files = true
  <-> exists file content,
        In (file, content) files
        /\ (Js.includes content "/var/run/postgresql" = true
            \/ Js.includes content "/tmp/mysql.sock" = true).
Proof.
  rewrite existsb_exists. unfold refsSocket. split.
  - intros ([file content] & Hin & H). cbn [snd] in H. apply orb_true_iff in H.
    exists file, content. auto.
  - intros (file & content & Hin & H). exists (file, content). cbn [snd].
    split; [exact Hin|]. apply orb_true_iff. exact H.
Qed.

Lemma and_not_iff (l u : bool) (P Q : Prop) :
  (l = true <-> P) -> (u = true <-> Q) -> (l && negb u = true <-> P /\ ~ Q).
Proof.
  intros [HP1 HP2] [HQ1 HQ2]. destruct l, u; cbn [andb negb]; split.
  - discriminate.
  - intros [_ H]. exfalso. apply H, HQ1. reflexivity.
  - intros _. split; [apply HP1; reflexivity|]. intros H. apply HQ2 in H. discriminate H.
  - reflexivity.
  - discriminate.
  - intros [H _]. apply HP2 in H. discriminate H.
  - discriminate.
  - intros [H _]. apply HP2 in H. discriminate H.
Qed.

Lemma not_not_iff (l u : bool) (P Q : Prop) :
  (l = true <-> P) -> (u = true <-> Q) -> (negb u && negb l = true <-> ~ P /\ ~ Q).
Proof.
  intros [HP1 HP2] [HQ1 HQ2]. destruct l, u; cbn [andb negb]; split.
  - discriminate.
  - intros [H _]. exfalso. apply H, HP1. reflexivity.
  - discriminate.
  - intros [H _]. exfalso. apply H, HP1. reflexivity.
  - discriminate.
  - intros [_ H]. exfalso. apply H, HQ1. reflexivity.
  - intros _. split; intros H; [apply HP2 in H|apply HQ2 in H]; discriminate H.
  - reflexivity.
Qed.

Section DatabaseScan.

Variable JSON_parse : string -> option Json.
Variable join : string -> string -> string.

(** C6.  The scan of connection strings, run for a non-empty list of
    libraries.  When [glob] lists the sources, the scanned files are the
    first thirty listed that can be read, and: the error database-localhost
    is there exactly when some line of a scanned file holds [localhost] in
    some letter case or [127.0.0.1] together with one of the keywords
    [connect], [host], [DATABASES], [createConnection], and no scanned
    file holds [DATABASE_URL] or [database_url]; the error database-socket
    exactly when some scanned file holds [/var/run/postgresql] or
    [/tmp/mysql.sock]; the informational database-url-recommended exactly
    when there is no such line and no such reference; each issue is there
    once and these are all.  When [glob] throws the scan finds nothing.
    The issues of the scan are those of the database check, which passes
    when there are none. *)
Theorem database_connection_issues (w : World) (path : string) (fw : Framework)
        (libs : list string) :
  libs <> [] ->
  let found := findDatabaseConnectionIssues join w path fw libs in
  (forall files,
      scannedFiles join w path fw sourceIgnore 30 = Some files ->
      let localhostHit :=
        exists file content line,
          In (file, content) files /\ In line (Js.splitLines content)
          /\ (Js.includes (Js.toLowerCase line) "localhost" = true
              \/ Js.includes line "127.0.0.1" = true)
          /\ (Js.includes line "connect" = true \/ Js.includes line "host" = true
              \/ Js.includes line "DATABASES" = true
              \/ Js.includes line "createConnection" = true) in
      let urlReference :=
        exists file content,
          In (file, content) files
          /\ (Js.includes content "DATABASE_URL" = true
              \/ Js.includes content "database_url" = true) in
      let socketReference :=
        exists file content,
          In (file, content) files
          /\ (Js.includes content "/var/run/postgresql" = true
              \/ Js.includes content "/tmp/mysql.sock" = true) in
      (hasIssue "database-localhost" found = true <-> localhostHit /\ ~ urlReference)
      /\ (hasIssue "database-socket" found = true <-> socketReference)
      /\ (hasIssue "database-url-recommended" found = true
          <-> ~ localhostHit /\ ~ urlReference)
      /\ NoDup (map issue_id found)
      /\ Forall (fun i => (exists at_, i = databaseLocalhostIssue join path at_ libs)
                          \/ i = databaseSocketIssue
                          \/ i = databaseUrlRecommendedIssue libs) found)
  /\ (scannedFiles join w path fw sourceIgnore 30 = None -> found = [])
  /\ Forall (fun i => issue_severity i
                      = if String.eqb (issue_id i) "database-url-recommended"
                        then SevInfo else SevError) found
  /\ (detectDatabaseLibraries JSON_parse join w path fw = Ok libs ->
      checkDatabaseConfig JSON_parse join w path fw
      = Ok (found, match found with [] => [databaseConfigOkPass] | _ => [] end)).
Proof.
  intros Hlibs. cbn zeta.
  assert (Hshape : forall files,
             scannedFiles join w path fw sourceIgnore 30 = Some files ->
             exists at_,
               findDatabaseConnectionIssues join w path fw libs
               = ((if existsb fileHitsLocalhost files
                      && negb (existsb (fun fc => refsDatabaseUrl (snd fc)) files)
                   then [databaseLocalhostIssue join path at_ libs] else [])
                  ++ (if existsb (fun fc => refsSocket (snd fc)) files
                      then [databaseSocketIssue] else [])
                  ++ (if negb (existsb (fun fc => refsDatabaseUrl (snd fc)) files)
                         && negb (existsb fileHitsLocalhost files)
                      then [databaseUrlRecommendedIssue libs] else []))%list).
  { intros files Hf. unfold findDatabaseConnectionIssues. rewrite Hf. unfold databaseScan.
    destruct (databaseScan_flags files (mkDbScan false false false None)) as (Hl & Hu & Hs).
    cbn [hasLocalhost hasDatabaseUrl hasSocketConnection orb] in Hl, Hu, Hs.
    rewrite Hl, Hu, Hs.
    exists (localhostAt (fold_left scanFileForDatabase files (mkDbScan false false false None))).
    destruct libs as [|lib libs']; [contradiction|].
    reflexivity. }
  split; [|split; [|split]].
  - intros files Hf. destruct (Hshape files Hf) as (at_ & ->).
    pose proof (fileHitsLocalhost_iff files) as Hhit.
    pose proof (refsDatabaseUrl_iff files) as Hurl.
    pose proof (refsSocket_iff files) as Hsock.
    split; [|split; [|split; [|split]]].
    + rewrite <- (and_not_iff _ _ _ _ Hhit Hurl).
      destruct (existsb fileHitsLocalhost files),
               (existsb (fun fc => refsDatabaseUrl (snd fc)) files),
               (existsb (fun fc => refsSocket (snd fc)) files); reflexivity.
    + rewrite <- Hsock.
      destruct (existsb fileHitsLocalhost files),
               (existsb (fun fc => refsDatabaseUrl (snd fc)) files),
               (existsb (fun fc => refsSocket (snd fc)) files); reflexivity.
    + rewrite <- (not_not_iff _ _ _ _ Hhit Hurl).
      destruct (existsb fileHitsLocalhost files),
               (existsb (fun fc => refsDatabaseUrl (snd fc)) files),
               (existsb (fun fc => refsSocket (snd fc)) files); reflexivity.
    + destruct (existsb fileHitsLocalhost files),
               (existsb (fun fc => refsDatabaseUrl (snd fc)) files),
               (existsb (fun fc => refsSocket (snd fc)) files);
        cbn [andb negb app map issue_id databaseLocalhostIssue databaseSocketIssue
             databaseUrlRecommendedIssue];
        repeat constructor; cbn [In]; intros H;
        repeat (destruct H as [H|H]; [discriminate H|]); exact H.
    + destruct (existsb fileHitsLocalhost files),
               (existsb (fun fc => refsDatabaseUrl (snd fc)) files),
               (existsb (fun fc => refsSocket (snd fc)) files);
        cbn [andb negb app];
        repeat (first [apply Forall_nil | apply Forall_cons]);
        first [left; eexists; reflexivity | right; left; reflexivity
              | right; right; reflexivity].
  - intros Hf. unfold findDatabaseConnectionIssues. now rewrite Hf.
  - unfold findDatabaseConnectionIssues.
    destruct (scannedFiles join w path fw sourceIgnore 30) as [files|]; [|constructor].
    cbv zeta.
    destruct (hasLocalhost (databaseScan files) && negb (hasDatabaseUrl (databaseScan files)));
      destruct (hasSocketConnection (databaseScan files));
      destruct (Nat.ltb 0 (List.length libs) && negb (hasDatabaseUrl (databaseScan files))
                && negb (hasLocalhost (databaseScan files)));
      repeat constructor.
  - intros Hd. unfold checkDatabaseConfig. rewrite Hd. cbn [bind].
    destruct libs as [|lib libs']; [contradiction|]. reflexivity.
Qed.

End DatabaseScan.

Ltac one_file H :=
  match type of H with
  | In _ [_] => destruct H as [H|[]]; injection H as <- <-
  end.

Lemma database_connection_issues_witness :
  hasIssue "database-localhost"
    (findDatabaseConnectionIssues Sample.join Sample.databaseLocalhost "/app"
       Sample.expressFramework ["PostgreSQL"]) = true
  /\ hasIssue "database-localhost"
       (findDatabaseConnectionIssues Sample.join Sample.databaseLocalhostUrl "/app"
          Sample.expressFramework ["PostgreSQL"]) = false
  /\ hasIssue "database-socket"
       (findDatabaseConnectionIssues Sample.join Sample.databaseSocket "/app"
          Sample.expressFramework ["PostgreSQL"]) = true
  /\ hasIssue "database-url-recommended"
       (findDatabaseConnectionIssues Sample.join Sample.databaseBare "/app"
          Sample.expressFramework ["PostgreSQL"]) = true
  /\ findDatabaseConnectionIssues Sample.join Sample.databaseUnlisted "/app"
       Sample.expressFramework ["PostgreSQL"] = [].
Proof.
  split; [|split; [|split; [|split]]].
  - destruct (database_connection_issues Sample.JSON_parse Sample.join
                Sample.databaseLocalhost "/app" Sample.expressFramework ["PostgreSQL"]
                ltac:(discriminate)) as (H & _).
    destruct (H [("db.js", Sample.lines ["const { Client } = require('pg');";
                                         "const db = connect({ host: 'localhost' });"])]
                ltac:(vm_compute; reflexivity)) as (Hl & _).
    apply Hl. split.
    + exists "db.js", (Sample.lines ["const { Client } = require('pg');";
                                     "const db = connect({ host: 'localhost' });"]),
             "const db = connect({ host: 'localhost' });".
      split; [left; reflexivity|]. split; [vm_compute; auto|].
      split; left; vm_compute; reflexivity.
    + intros (file & content & Hin & Hu). one_file Hin.
      destruct Hu as [Hu|Hu]; vm_compute in Hu; discriminate Hu.
  - destruct (database_connection_issues Sample.JSON_parse Sample.join
                Sample.databaseLocalhostUrl "/app" Sample.expressFramework ["PostgreSQL"]
                ltac:(discriminate)) as (H & _).
    destruct (H [("db.js", Sample.lines ["const url = process.env.DATABASE_URL;";
                                         "const db = connect({ host: 'localhost' });"])]
                ltac:(vm_compute; reflexivity)) as (Hl & _).
    destruct Hl as (Hl & _).
    destruct (hasIssue "database-localhost" _); [|reflexivity].
    exfalso. destruct (Hl eq_refl) as (_ & Hno). apply Hno.
    exists "db.js", (Sample.lines ["const url = process.env.DATABASE_URL;";
                                   "const db = connect({ host: 'localhost' });"]).
    split; [left; reflexivity|]. left. vm_compute. reflexivity.
  - destruct (database_connection_issues Sample.JSON_parse Sample.join
                Sample.databaseSocket "/app" Sample.expressFramework ["PostgreSQL"]
                ltac:(discriminate)) as (H & _).
    destruct (H [("db.js", Sample.lines
                             ["const { Client } = require('pg');";
                              "const db = new Client({ path: '/var/run/postgresql' });"])]
                ltac:(vm_compute; reflexivity)) as (_ & Hs & _).
    apply Hs.
    exists "db.js", (Sample.lines
                       ["const { Client } = require('pg');";
                        "const db = new Client({ path: '/var/run/postgresql' });"]).
    split; [left; reflexivity|]. left. vm_compute. reflexivity.
  - destruct (database_connection_issues Sample.JSON_parse Sample.join
                Sample.databaseBare "/app" Sample.expressFramework ["PostgreSQL"]
                ltac:(discriminate)) as (H & _).
    destruct (H [("db.js", Sample.lines ["const { Client } = require('pg');";
                                         "const db = new Client();"])]
                ltac:(vm_compute; reflexivity)) as (_ & _ & Hr & _).
    apply Hr. split.
    + intros (file & content & line & Hin & Hl & Hlit & _). one_file Hin.
      vm_compute in Hl. destruct Hl as [<-|[<-|[]]];
        destruct Hlit as [Hlit|Hlit]; vm_compute in Hlit; discriminate Hlit.
    + intros (file & content & Hin & Hu). one_file Hin.
      destruct Hu as [Hu|Hu]; vm_compute in Hu; discriminate Hu.
  - destruct (database_connection_issues Sample.JSON_parse Sample.join
                Sample.databaseUnlisted "/app" Sample.expressFramework ["PostgreSQL"]
                ltac:(discriminate)) as (_ & H & _).
    apply H. vm_compute. reflexivity.
Defined.

(** C6 as stated fails: in a project with a PostgreSQL driver whose files
    hold neither a localhost literal nor a reference to DATABASE_URL, but
    whose sources [glob] cannot list, the recommendation is not issued. *)
Lemma database_hint_needs_listing :
  ~ (forall (w : World) (path : string) (fw : Framework) (libs : list string),
        detectDatabaseLibraries Sample.JSON_parse Sample.join w path fw = Ok libs ->
        libs <> [] ->
        (forall file content,
            readFileSync w file = Some content ->
            Js.includes (Js.toLowerCase content) "localhost" = false
            /\ Js.includes content "127.0.0.1" = false
            /\ Js.includes content "DATABASE_URL" = false
            /\ Js.includes content "database_url" = false) ->
        hasIssue "database-url-recommended"
                 (findDatabaseConnectionIssues Sample.join w path fw libs) = true).
Proof.
  intros H.
  specialize (H Sample.databaseUnlisted "/app" Sample.expressFramework ["PostgreSQL"]).
  assert (Hfalse : false = true). 
  { apply H.
    - vm_compute. reflexivity.
    - discriminate.
    - intros file content Hr.
      unfold Sample.databaseUnlisted, Sample.world in Hr. cbn [readFileSync find fst] in Hr.
      destruct (String.eqb (Sample.join "/app" "package.json") file); [|discriminate Hr].
      cbn in Hr. injection Hr as <-. vm_compute. auto. }
  discriminate Hfalse.
Qed.

(* ===================================================================== *)
(** ** The order in which the sources are listed *)
(* ===================================================================== *)

Lemma Permutation_existsb {A : Type} (f : A -> bool) (l l' : list A) :
  Permutation l l' -> existsb f l = existsb f l'.
Proof.
  induction 1 as [|x l l' _ IH|x y l|l l' l'' _ IH1 _ IH2]; cbn [existsb].
  - reflexivity.
  - now rewrite IH.
  - destruct (f x), (f y); reflexivity.
  - now rewrite IH1.
Qed.

Lemma Permutation_filter_length {A : Type} (f : A -> bool) (l l' : list A) :
  Permutation l l' -> List.length (filter f l) = List.length (filter f l').
Proof.
  induction 1 as [|x l l' _ IH|x y l|l l' l'' _ IH1 _ IH2]; cbn [filter].
  - reflexivity.
  - destruct (f x); cbn [List.length]; now rewrite IH.
  - destruct (f x), (f y); reflexivity.
  - now rewrite IH1.
Qed.

Lemma filter_finding (sev : Severity) (l : list Issue) :
  List.length (filter (fun i => severity_eqb (issue_severity i) sev) l)
  = List.length (filter (fun k : Finding => severity_eqb (snd (fst k)) sev) (map finding l)).
Proof.
  induction l as [|i l IH]; cbn [filter map]; [reflexivity|].
  unfold finding at 1. cbn [fst snd].
  destruct (severity_eqb (issue_severity i) sev); cbn [List.length]; now rewrite IH.
Qed.

(** The summary counts findings, whatever their order and their text. *)
Lemma generateSummary_findings (a b : list Issue) (p : list PassedCheck) :
  Permutation (map finding a) (map finding b) ->
  generateSummary a p = generateSummary b p.
Proof.
  intros H. unfold generateSummary.
  assert (Hl : List.length a = List.length b).
  { rewrite <- (length_map finding a), <- (length_map finding b).
    now apply Permutation_length. }
  assert (He : List.length (filter isError a) = List.length (filter isError b)).
  { unfold isError. rewrite !filter_finding. now apply Permutation_filter_length. }
  assert (Hw : List.length (filter isWarning a) = List.length (filter isWarning b)).
  { unfold isWarning. rewrite !filter_finding. now apply Permutation_filter_length. }
  now rewrite Hl, He, Hw.
Qed.

(** The names that the three expressions find in a file. *)
Lemma addMatches_In (re : Regex.regex) (content : string) (acc : list string) (v : string) :
  In v (addMatches re content acc)
  <-> In v acc
      \/ exists m, In m (Regex.matchAll false re content)
                   /\ Regex.group 1 (Regex.m_caps m) = Some v /\ Js.nonEmpty v = true.
Proof.
  unfold addMatches. generalize (Regex.matchAll false re content). intros ms.
  revert acc. induction ms as [|m ms IH]; intros acc; cbn [fold_left In].
  - split; [auto|]. intros [H|(m & [] & _)]. exact H.
  - rewrite IH. split.
    + intros [H|(m' & Hm' & H)]; [|right; exists m'; auto].
      destruct (Regex.group 1 (Regex.m_caps m)) as [x|] eqn:Eg; [|auto].
      destruct (Js.nonEmpty x) eqn:En; [|auto].
      apply setAdd_In in H as [->|H]; [|auto]. right. exists m. auto.
    + intros [H|(m' & [<-|Hm'] & Hg & Hn)].
      * left. destruct (Regex.group 1 (Regex.m_caps m)) as [x|]; [|exact H].
        destruct (Js.nonEmpty x); [|exact H]. apply setAdd_In. now right.
      * left. rewrite Hg, Hn. apply setAdd_In. now left.
      * right. exists m'. auto.
Qed.

Lemma addFileEnvVars_In (content : string) (acc : list string) (v : string) :
  In v (addFileEnvVars acc content) <-> In v acc \/ In v (addFileEnvVars [] content).
Proof.
  unfold addFileEnvVars. rewrite !addMatches_In. cbn [In]. tauto.
Qed.

Lemma envVars_fold_In (files : list (string * string)) (acc : list string) (v : string) :
  In v (fold_left (fun acc fc => addFileEnvVars acc (snd fc)) files acc)
  <-> In v acc \/ exists fc, In fc files /\ In v (addFileEnvVars [] (snd fc)).
Proof.
  revert acc. induction files as [|fc files IH]; intros acc; cbn [fold_left In].
  - split; [auto|]. intros [H|(fc & [] & _)]. exact H.
  - rewrite IH, addFileEnvVars_In. split.
    + intros [[H|H]|(fc' & Hfc & H)]; [auto| |]; right; [exists fc|exists fc']; auto.
    + intros [H|(fc' & [<-|Hfc] & H)]; [auto|auto|]. right. exists fc'. auto.
Qed.

Section ListingOrder.

Variable JSON_parse : string -> option Json.
Variable join : string -> string -> string.

(** The checks look at the name of the framework only. *)
Lemma runChecks_name (w : World) (path : string) (fw1 fw2 : Framework) :
  name fw1 = name fw2 ->
  runChecks JSON_parse join w path fw1 = runChecks JSON_parse join w path fw2.
Proof.
  destruct fw1 as [n1 v1 m1], fw2 as [n2 v2 m2]. cbn [name]. intros ->.
  reflexivity.
Qed.

Lemma readAll_perm (w : World) (path : string) (l l' : list string) :
  Permutation l l' -> Permutation (readAll join w path l) (readAll join w path l').
Proof.
  induction 1 as [|x l l' _ IH|x y l|l l' l'' _ IH1 _ IH2]; cbn [readAll].
  - constructor.
  - destruct (readFileSync w (join path x)); [now constructor|exact IH].
  - destruct (readFileSync w (join path x)), (readFileSync w (join path y));
      try apply Permutation_refl. apply perm_swap.
  - now apply (perm_trans IH1).
Qed.

Lemma Permutation_nil_iff {A : Type} (l l' : list A) :
  Permutation l l' -> (l = [] <-> l' = []).
Proof.
  intros H. split; intros ->.
  - now apply Permutation_nil.
  - apply Permutation_nil. now apply Permutation_sym.
Qed.

Lemma pass_of_perm {A : Type} (a b : list A) (p : list PassedCheck) :
  Permutation a b ->
  match a with [] => p | _ => [] end = match b with [] => p | _ => [] end.
Proof.
  intros H. destruct a as [|x a], b as [|y b]; try reflexivity.
  - apply Permutation_nil in H. discriminate H.
  - apply Permutation_sym, Permutation_nil in H. discriminate H.
Qed.

Section TwoListings.

Variables w1 w2 : World.
Hypothesis Hex : forall p, existsSync w1 p = existsSync w2 p.
Hypothesis Hrd : forall p, readFileSync w1 p = readFileSync w2 p.
Hypothesis Hgl : forall q, sameListing (glob w1 q) (glob w2 q).
Hypothesis Hcap : forall q l, glob w1 q = Some l -> List.length l <= 30.

Lemma scannedFiles_perm (path : string) (fw : Framework) (ig : list string) (lim : nat) :
  30 <= lim ->
  match scannedFiles join w1 path fw ig lim, scannedFiles join w2 path fw ig lim with
  | Some f1, Some f2 => Permutation f1 f2
  | None, None => True
  | _, _ => False
  end.
Proof.
  intros Hlim. unfold scannedFiles.
  pose proof (Hgl (mkGlob (sourcePatterns fw) path ig 5)) as H.
  pose proof (Hcap (mkGlob (sourcePatterns fw) path ig 5)) as Hc.
  destruct (glob w1 _) as [l1|], (glob w2 _) as [l2|]; cbn [option_map sameListing] in *;
    try exact H.
  specialize (Hc l1 eq_refl).
  rewrite (firstn_all2 (n := lim) l1) by lia.
  rewrite (firstn_all2 (n := lim) l2) by (rewrite <- (Permutation_length H); lia).
  rewrite (readAll_ext join w1 w2 Hrd). now apply readAll_perm.
Qed.

Lemma checkPortUsage_perm (path : string) (fw : Framework) :
  Permutation (fst (checkPortUsage JSON_parse join w1 path fw))
              (fst (checkPortUsage JSON_parse join w2 path fw))
  /\ snd (checkPortUsage JSON_parse join w1 path fw)
     = snd (checkPortUsage JSON_parse join w2 path fw).
Proof.
  unfold checkPortUsage.
  pose proof (scannedFiles_perm path fw (sourceIgnore ++ testIgnore) 50 ltac:(lia)) as H.
  destruct (scannedFiles join w1 path fw _ 50) as [f1|],
           (scannedFiles join w2 path fw _ 50) as [f2|]; try contradiction;
    [|split; [constructor|reflexivity]].
  cbn [fst snd].
  assert (Hn : nextjsPortIssues JSON_parse join w1 path = nextjsPortIssues JSON_parse join w2 path).
  { unfold nextjsPortIssues. now rewrite (readJson_ext JSON_parse w1 w2 Hrd). }
  rewrite Hn.
  assert (Hp : Permutation
                 (flat_map (fun fc => scanFileForPortIssues (snd fc) (fst fc) fw) f1
                  ++ (if isNextjs fw then tryCatch (nextjsPortIssues JSON_parse join w2 path) []
                      else []))
                 (flat_map (fun fc => scanFileForPortIssues (snd fc) (fst fc) fw) f2
                  ++ (if isNextjs fw then tryCatch (nextjsPortIssues JSON_parse join w2 path) []
                      else []))).
  { apply Permutation_app_tail. now apply Permutation_flat_map. }
  split; [exact Hp|]. now apply pass_of_perm.
Qed.

Lemma checkHostBinding_perm (path : string) (fw : Framework) :
  Permutation (fst (checkHostBinding JSON_parse join w1 path fw))
              (fst (checkHostBinding JSON_parse join w2 path fw))
  /\ snd (checkHostBinding JSON_parse join w1 path fw)
     = snd (checkHostBinding JSON_parse join w2 path fw).
Proof.
  unfold checkHostBinding.
  pose proof (scannedFiles_perm path fw (sourceIgnore ++ testIgnore) 50 ltac:(lia)) as H.
  destruct (scannedFiles join w1 path fw _ 50) as [f1|],
           (scannedFiles join w2 path fw _ 50) as [f2|]; try contradiction;
    [|split; [constructor|reflexivity]].
  cbn [fst snd].
  assert (Hn : nextjsHostIssues JSON_parse join w1 path = nextjsHostIssues JSON_parse join w2 path).
  { unfold nextjsHostIssues. now rewrite (readJson_ext JSON_parse w1 w2 Hrd). }
  rewrite Hn.
  assert (Hp : Permutation
                 (flat_map (fun fc => scanFileForHostIssues (snd fc) (fst fc) fw) f1
                  ++ (if isNextjs fw then tryCatch (nextjsHostIssues JSON_parse join w2 path) []
                      else []))
                 (flat_map (fun fc => scanFileForHostIssues (snd fc) (fst fc) fw) f2
                  ++ (if isNextjs fw then tryCatch (nextjsHostIssues JSON_parse join w2 path) []
                      else []))).
  { apply Permutation_app_tail. now apply Permutation_flat_map. }
  split; [exact Hp|]. now apply pass_of_perm.
Qed.

Lemma envHygiene_ext (path : string) : envHygiene join w1 path = envHygiene join w2 path.
Proof. unfold envHygiene. now rewrite !Hex, !(readFile_ext w1 w2 Hrd). Qed.

Lemma findEnvVarReferences_perm (path : string) (fw : Framework) :
  Permutation (findEnvVarReferences join w1 path fw) (findEnvVarReferences join w2 path fw).
Proof.
  apply NoDup_Permutation;
    try apply (proj1 (findEnvVarReferences_spec join _ path fw)).
  intros v. unfold findEnvVarReferences.
  pose proof (scannedFiles_perm path fw sourceIgnore 50 ltac:(lia)) as H.
  destruct (scannedFiles join w1 path fw sourceIgnore 50) as [f1|],
           (scannedFiles join w2 path fw sourceIgnore 50) as [f2|]; try contradiction;
    [|reflexivity].
  rewrite !envVars_fold_In. split; intros [Hv|(fc & Hfc & Hv)]; try contradiction;
    right; exists fc; (split; [|exact Hv]).
  - now apply (Permutation_in _ H).
  - now apply (Permutation_in _ (Permutation_sym H)).
Qed.

Lemma envInventory_perm (e1 e2 : list string) :
  Permutation e1 e2 -> map finding (envInventory e1) = map finding (envInventory e2).
Proof.
  intros H. unfold envInventory. rewrite (Permutation_length H).
  destruct (Nat.ltb 0 (List.length e2)); [|reflexivity].
  set (g := fun v => negb (existsb (String.eqb v) commonEnvVars) && negb (Js.includes v "npm_")).
  rewrite (Permutation_filter_length g e1 e2 H).
  destruct (Nat.ltb 0 (List.length (filter g e2))); reflexivity.
Qed.

Lemma checkEnvVars_perm (path : string) (fw : Framework) :
  match checkEnvVars join w1 path fw, checkEnvVars join w2 path fw with
  | Ok a, Ok b => map finding (fst a) = map finding (fst b) /\ snd a = snd b
  | Throw, Throw => True
  | _, _ => False
  end.
Proof.
  unfold checkEnvVars. rewrite envHygiene_ext.
  destruct (envHygiene join w2 path) as [h|]; cbn [bind]; [|exact I].
  cbn [fst snd]. split; [|reflexivity].
  rewrite !map_app. f_equal. apply envInventory_perm, findEnvVarReferences_perm.
Qed.

Lemma findDatabaseConnectionIssues_perm (path : string) (fw : Framework) (libs : list string) :
  map finding (findDatabaseConnectionIssues join w1 path fw libs)
  = map finding (findDatabaseConnectionIssues join w2 path fw libs).
Proof.
  unfold findDatabaseConnectionIssues.
  pose proof (scannedFiles_perm path fw sourceIgnore 30 ltac:(lia)) as H.
  destruct (scannedFiles join w1 path fw sourceIgnore 30) as [f1|],
           (scannedFiles join w2 path fw sourceIgnore 30) as [f2|]; try contradiction;
    [|reflexivity].
  cbv zeta. unfold databaseScan.
  destruct (databaseScan_flags f1 (mkDbScan false false false None)) as (Hl1 & Hu1 & Hs1).
  destruct (databaseScan_flags f2 (mkDbScan false false false None)) as (Hl2 & Hu2 & Hs2).
  cbn [hasLocalhost hasDatabaseUrl hasSocketConnection orb] in Hl1, Hu1, Hs1, Hl2, Hu2, Hs2.
  rewrite Hl1, Hu1, Hs1, Hl2, Hu2, Hs2.
  rewrite (Permutation_existsb fileHitsLocalhost f1 f2 H),
          (Permutation_existsb (fun fc => refsDatabaseUrl (snd fc)) f1 f2 H),
          (Permutation_existsb (fun fc => refsSocket (snd fc)) f1 f2 H).
  destruct (existsb fileHitsLocalhost f2),
           (existsb (fun fc => refsDatabaseUrl (snd fc)) f2),
           (existsb (fun fc => refsSocket (snd fc)) f2),
           (Nat.ltb 0 (List.length libs)); reflexivity.
Qed.

Lemma map_finding_nil (a b : list Issue) (p : list PassedCheck) :
  map finding a = map finding b ->
  match a with [] => p | _ => [] end = match b with [] => p | _ => [] end.
Proof. destruct a, b; cbn; intros H; try reflexivity; discriminate H. Qed.

Lemma checkDatabaseConfig_perm (path : string) (fw : Framework) :
  match checkDatabaseConfig JSON_parse join w1 path fw,
        checkDatabaseConfig JSON_parse join w2 path fw with
  | Ok a, Ok b => map finding (fst a) = map finding (fst b) /\ snd a = snd b
  | Throw, Throw => True
  | _, _ => False
  end.
Proof.
  unfold checkDatabaseConfig.
  rewrite (detectDatabaseLibraries_ext JSON_parse join w1 w2 Hex Hrd).
  destruct (detectDatabaseLibraries JSON_parse join w2 path fw) as [[|lib libs]|];
    cbn [bind]; [split; reflexivity| |exact I].
  cbn [fst snd]. pose proof (findDatabaseConnectionIssues_perm path fw (lib :: libs)) as H.
  split; [exact H|]. now apply map_finding_nil.
Qed.

(** The detector asks [glob] for the entry file only. *)
Lemma detectFramework_perm (path : string) :
  match detectFramework JSON_parse join w1 path, detectFramework JSON_parse join w2 path with
  | Ok f1, Ok f2 => name f1 = name f2 /\ version f1 = version f2
  | Throw, Throw => True
  | _, _ => False
  end.
Proof.
  unfold detectFramework, detectNode, detectPython.
  rewrite !Hex, (readJson_ext JSON_parse w1 w2 Hrd), (readFile_ext w1 w2 Hrd).
  destruct (existsSync w2 (join path "package.json")).
  - destruct (readJson JSON_parse w2 (join path "package.json")) as [pj|]; cbn [bind];
      [|exact I].
    destruct (getProp pj "dependencies") as [deps|]; cbn [bind]; [|exact I].
    destruct (getProp pj "devDependencies") as [dev|]; cbn [bind]; [|exact I].
    destruct (truthyV (lookup "next" (spread2 deps dev))
              || existsSync w2 (join path "next.config.js")
              || existsSync w2 (join path "next.config.mjs")); cbn [bind];
      [split; reflexivity|].
    destruct (truthyV (lookup "@nestjs/core" (spread2 deps dev))); cbn [bind];
      [split; reflexivity|].
    destruct (truthyV (lookup "express" (spread2 deps dev))); cbn [bind];
      [split; reflexivity|].
    destruct (existsSync w2 (join path "requirements.txt")); [|split; reflexivity].
    destruct (readFile w2 (join path "requirements.txt")) as [text|]; cbn [bind]; [|exact I].
    destruct (Js.includes (Js.toLowerCase text) "django"); [split; reflexivity|].
    destruct (Js.includes (Js.toLowerCase text) "flask"); [split; reflexivity|].
    destruct (Js.includes (Js.toLowerCase text) "fastapi"); split; reflexivity.
  - cbn [bind].
    destruct (existsSync w2 (join path "requirements.txt")); [|split; reflexivity].
    destruct (readFile w2 (join path "requirements.txt")) as [text|]; cbn [bind]; [|exact I].
    destruct (Js.includes (Js.toLowerCase text) "django"); [split; reflexivity|].
    destruct (Js.includes (Js.toLowerCase text) "flask"); [split; reflexivity|].
    destruct (Js.includes (Js.toLowerCase text) "fastapi"); split; reflexivity.
Qed.

Lemma both_findings (a a' b b' : CheckResult) :
  Permutation (map finding (fst a)) (map finding (fst a')) /\ snd a = snd a' ->
  Permutation (map finding (fst b)) (map finding (fst b')) /\ snd b = snd b' ->
  Permutation (map finding (fst (both a b))) (map finding (fst (both a' b')))
  /\ snd (both a b) = snd (both a' b').
Proof.
  intros (Ha & Hpa) (Hb & Hpb). unfold both. cbn [fst snd]. rewrite !map_app, Hpa, Hpb.
  split; [now apply Permutation_app|reflexivity].
Qed.

Lemma runChecks_perm (path : string) (fw : Framework) :
  isPython fw = false ->
  match runChecks JSON_parse join w1 path fw, runChecks JSON_parse join w2 path fw with
  | Ok a, Ok b => Permutation (map finding (fst a)) (map finding (fst b)) /\ snd a = snd b
  | Throw, Throw => True
  | _, _ => False
  end.
Proof.
  intros Hpy. unfold runChecks.
  rewrite (checkStartCommand_ext JSON_parse join w1 w2 Hex Hrd).
  destruct (checkStartCommand JSON_parse join w2 path fw) as [sc|]; cbn [bind]; [|exact I].
  pose proof (checkEnvVars_perm path fw) as He.
  destruct (checkEnvVars join w1 path fw) as [e1|], (checkEnvVars join w2 path fw) as [e2|];
    cbn [bind]; try contradiction; try exact I.
  pose proof (checkDatabaseConfig_perm path fw) as Hd.
  destruct (checkDatabaseConfig JSON_parse join w1 path fw) as [d1|],
           (checkDatabaseConfig JSON_parse join w2 path fw) as [d2|];
    cbn [bind]; try contradiction; try exact I.
  assert (Hf : frameworkStep join w1 path fw = Ok ([], [])
               /\ frameworkStep join w2 path fw = Ok ([], [])).
  { unfold frameworkStep. unfold isPython in Hpy.
    destruct (name fw); try discriminate Hpy; split; reflexivity. }
  destruct Hf as (-> & ->). cbn [bind].
  destruct (checkPortUsage_perm path fw) as (Hp1 & Hp2).
  destruct (checkHostBinding_perm path fw) as (Hh1 & Hh2).
  destruct He as (He1 & He2). destruct Hd as (Hd1 & Hd2).
  apply both_findings; [split; [now apply Permutation_map|exact Hp2]|].
  apply both_findings; [split; [now apply Permutation_map|exact Hh2]|].
  apply both_findings; [split; [apply Permutation_refl|reflexivity]|].
  apply both_findings; [split; [rewrite He1; apply Permutation_refl|exact He2]|].
  apply both_findings; [split; [rewrite Hd1; apply Permutation_refl|exact Hd2]|].
  split; [apply Permutation_refl|reflexivity].
Qed.

End TwoListings.

(** C9.  On two file systems that answer every existence test and every
    read alike: when they also answer every enumeration alike, order
    included, the scans of a path have the same outcome, the same exit code
    and, when they produce a result, print the same JSON.  When their
    enumerations list the same files in whatever order, at most thirty at
    a time, and the scan of the first produces a result for a framework
    that is not a Python one, the scan of the second produces a result
    with the same framework name and version, the same findings up to
    their order, the same passed checks, the same summary and the same
    exit code. *)
Theorem scan_deterministic (w1 w2 : World) (path : string) :
  (forall p, existsSync w1 p = existsSync w2 p) ->
  (forall p, readFileSync w1 p = readFileSync w2 p) ->
  ((forall q, glob w1 q = glob w2 q) ->
   scanProject JSON_parse join w1 path = scanProject JSON_parse join w2 path
   /\ exitCode (scanProject JSON_parse join w1 path)
      = exitCode (scanProject JSON_parse join w2 path)
   /\ forall (JSON_stringify : ScanResult -> string) r1 r2,
        scanProject JSON_parse join w1 path = Ok r1 ->
        scanProject JSON_parse join w2 path = Ok r2 ->
        formatJSON JSON_stringify r1 = formatJSON JSON_stringify r2)
  /\ ((forall q, sameListing (glob w1 q) (glob w2 q)) ->
      (forall q l, glob w1 q = Some l -> List.length l <= 30) ->
      forall r1,
        scanProject JSON_parse join w1 path = Ok r1 ->
        isPython (framework r1) = false ->
        exists r2,
          scanProject JSON_parse join w2 path = Ok r2
          /\ name (framework r2) = name (framework r1)
          /\ version (framework r2) = version (framework r1)
          /\ Permutation (map finding (issues r1)) (map finding (issues r2))
          /\ passed r2 = passed r1
          /\ summary r2 = summary r1
          /\ exitCode (Ok r2) = exitCode (Ok r1)).
Proof.
  intros Hex Hrd. split.
  - intros Hgl.
    pose proof (scanProject_ext JSON_parse join w1 w2 Hex Hrd Hgl path) as H.
    split; [exact H|]. split; [now rewrite H|].
    intros JSON_stringify r1 r2 H1 H2. rewrite H in H1. congruence.
  - intros Hgl Hcap r1 H1 Hpy.
    apply scanProject_shape in H1 as (fw1 & c1 & Hd1 & Hc1 & ->).
    cbn [framework issues passed summary] in *.
    pose proof (detectFramework_perm w1 w2 Hex Hrd path) as Hd. rewrite Hd1 in Hd.
    destruct (detectFramework JSON_parse join w2 path) as [fw2|] eqn:Hd2; [|contradiction].
    destruct Hd as (Hn & Hv).
    pose proof (runChecks_perm w1 w2 Hex Hrd Hgl Hcap path fw1 Hpy) as Hr. rewrite Hc1 in Hr.
    rewrite (runChecks_name w2 path fw1 fw2 Hn) in Hr.
    destruct (runChecks JSON_parse join w2 path fw2) as [c2|] eqn:Hc2; [|contradiction].
    destruct Hr as (Hp & Hs).
    exists (mkScanResult path fw2 (fst c2) (filter isWarning (fst c2)) (snd c2)
                         (generateSummary (fst c2) (snd c2))).
    unfold scanProject. rewrite Hd2. cbn [bind]. rewrite Hc2. cbn [bind].
    cbn [framework issues passed summary exitCode].
    rewrite <- Hs, (generateSummary_findings (fst c1) (fst c2) (snd c1) Hp).
    repeat split; auto.
Qed.

End ListingOrder.


Lemma twoServers_listing (q : GlobQuery) :
  sameListing (glob Sample.twoServers q) (glob Sample.twoServersReordered q)
  /\ forall l, glob Sample.twoServers q = Some l -> List.length l <= 30.
Proof.
  unfold Sample.twoServers, Sample.twoServersReordered, Sample.world, Sample.globSources.
  cbn [glob]. destruct (String.eqb (g_cwd q) "/app").
  - destruct (g_patterns q) as [|p [|p' ps]].
    + split; [apply Permutation_refl|]. intros l H; injection H as <-; cbn; lia.
    + destruct (String.eqb p Sample.jsPattern).
      * split; [apply perm_swap|]. intros l H; injection H as <-; cbn; lia.
      * split; [apply Permutation_refl|]. intros l H; injection H as <-; cbn; lia.
    + split; [apply Permutation_refl|]. intros l H; injection H as <-; cbn; lia.
  - split; [apply Permutation_refl|]. intros l H; injection H as <-; cbn; lia.
Qed.

(** The broken Express project gives the same scan on two file systems
    that answer alike.  The two listings of the project with two servers
    give the two port errors in two orders, and the same summary and exit
    code. *)
Lemma scan_deterministic_witness :
  scanProject Sample.JSON_parse Sample.join Sample.expressBroken "/app"
  = scanProject Sample.JSON_parse Sample.join Sample.expressBrokenReordered "/app"
  /\ exists r1 r2,
    scanProject Sample.JSON_parse Sample.join Sample.twoServers "/app" = Ok r1
    /\ scanProject Sample.JSON_parse Sample.join Sample.twoServersReordered "/app" = Ok r2
    /\ issues r1 <> issues r2
    /\ Permutation (map finding (issues r1)) (map finding (issues r2))
    /\ summary r2 = summary r1
    /\ errors (summary r1) = 2
    /\ exitCode (Ok r2) = exitCode (Ok r1).
Proof.
  split.
  { apply (proj1 (scan_deterministic Sample.JSON_parse Sample.join Sample.expressBroken
                    Sample.expressBrokenReordered "/app" reordered_exists reordered_read)).
    intros q0. reflexivity. }
  destruct (scanProject Sample.JSON_parse Sample.join Sample.twoServers "/app")
    as [r1|] eqn:E1; [|vm_compute in E1; discriminate E1].
  destruct (scan_deterministic Sample.JSON_parse Sample.join Sample.twoServers
              Sample.twoServersReordered "/app"
              ltac:(intros p; reflexivity) ltac:(intros p; reflexivity)) as (_ & H).
  destruct (H (fun q => proj1 (twoServers_listing q)) (fun q => proj2 (twoServers_listing q))
              r1 E1) as (r2 & E2 & _ & _ & Hp & _ & Hs & Hx).
  { vm_compute in E1. injection E1 as <-. reflexivity. }
  exists r1, r2. split; [reflexivity|]. split; [exact E2|].
  split; [|split; [exact Hp|split; [exact Hs|split; [|exact Hx]]]].
  - vm_compute in E1, E2. injection E1 as <-. injection E2 as <-. discriminate.
  - vm_compute in E1. injection E1 as <-. reflexivity.
Defined.

(** C9 as stated fails: the same files, listed in another order, give
    another result. *)
Lemma scan_depends_on_listing_order :
  ~ (forall (w1 w2 : World) (path : string),
        (forall p, existsSync w1 p = existsSync w2 p) ->
        (forall p, readFileSync w1 p = readFileSync w2 p) ->
        (forall q, sameListing (glob w1 q) (glob w2 q)) ->
        scanProject Sample.JSON_parse Sample.join w1 path
        = scanProject Sample.JSON_parse Sample.join w2 path).
Proof.
  intros H.
  specialize (H Sample.twoServers Sample.twoServersReordered "/app"
                ltac:(intros p; reflexivity) ltac:(intros p; reflexivity)
                (fun q => proj1 (twoServers_listing q))).
  vm_compute in H. discriminate H.
Qed.
